(** * Whistleblowing API: the report aggregate and its password-gated access

    A shallow embedding of the report model (models/Report.js), of the
    reporter, admin and agency controllers and of the seeding of the default
    records, followed by the properties of the case-password scheme, of the
    status state machine and of the redaction rules.

    MongoDB collections are lists in insertion order, a request handler is a
    function from the store to the new store and the response.  What the
    handlers take from outside (clock, random bytes, salt) is an explicit
    environment.  SHA-256, bcrypt and the regular-expression engine are an
    interface ([Libs]); their laws are hypotheses of the theorems that need
    them. *)

From Stdlib Require Import List String Ascii NArith Bool Lia Arith.
From Stdlib.Strings Require Import Byte.
From Stdlib Require Import DecimalString.
From Stdlib Require Import Permutation Sorted.
Import ListNotations.

Local Open Scope string_scope.
Set Warnings "-register-all".

(** ** JavaScript values *)

Module Js.

(** A value of [req.body], [req.params] or of a String path of a schema:
    a missing key, [null], or a string.  Body fields that are JSON
    numbers, booleans, arrays or objects are not represented: the
    properties below are about requests whose fields are strings, [null]
    or missing. *)
Inductive value :=
| Undefined
| Null
| Str (s : string).

(** [!!v] *)
Definition truthy (v : value) : bool :=
  match v with
  | Str s => negb (s =? "")
  | _ => false
  end.

(** JSON trees, as sent by [res.json]; ObjectIds and dates keep their own
    constructors instead of their string renderings. *)
Inductive json :=
| JNull
| JBool (b : bool)
| JNum (n : N)
| JStr (s : string)
| JOid (id : N)
| JDate (t : N)
| JArr (l : list json)
| JObj (kv : list (string * json)).

(** [obj[k]] *)
Fixpoint assoc (k : string) (kv : list (string * json)) : option json :=
  match kv with
  | [] => None
  | (k', v) :: rest => if k' =? k then Some v else assoc k rest
  end.

Definition get (k : string) (j : json) : option json :=
  match j with
  | JObj kv => assoc k kv
  | _ => None
  end.

(** [k in obj] *)
Definition has (k : string) (j : json) : bool :=
  match get k j with Some _ => true | None => false end.

(** [delete obj[k]] *)
Definition del (k : string) (j : json) : json :=
  match j with
  | JObj kv => JObj (filter (fun p => negb (fst p =? k)) kv)
  | _ => j
  end.

(** [obj[k] = v] on an object that has no key [k] yet. *)
Definition put (k : string) (v : json) (j : json) : json :=
  match j with
  | JObj kv => JObj (kv ++ [(k, v)])
  | _ => j
  end.

(** An object literal; keys whose value is [undefined] are not
    serialised. *)
Fixpoint props (l : list (string * option json)) : list (string * json) :=
  match l with
  | [] => []
  | (k, Some v) :: rest => (k, v) :: props rest
  | (_, None) :: rest => props rest
  end.

Definition obj (l : list (string * option json)) : json := JObj (props l).

Definition ofValue (v : value) : option json :=
  match v with
  | Undefined => None
  | Null => Some JNull
  | Str s => Some (JStr s)
  end.

Definition ofOid (o : option N) : json :=
  match o with Some id => JOid id | None => JNull end.

Definition ofOptStr (o : option string) : option json :=
  option_map JStr o.

(** [Array.prototype.includes] on strings *)
Definition includes (l : list string) (s : string) : bool :=
  existsb (String.eqb s) l.

(** [n.toString()] *)
Definition toString (n : N) : string :=
  NilZero.string_of_uint (N.to_uint n).

Fixpoint repeatStr (n : nat) (c : ascii) : string :=
  match n with O => "" | S k => String c (repeatStr k c) end.

(** [s.padStart(w, "0")] *)
Definition padStart0 (w : nat) (s : string) : string :=
  repeatStr (w - String.length s) "0"%char ++ s.

(** [s.split("/")[0]] *)
Fixpoint beforeSlash (s : string) : string :=
  match s with
  | EmptyString => ""
  | String c rest => if (c =? "/")%char then "" else String c (beforeSlash rest)
  end.

Definition hexDigit (n : N) : ascii :=
  match n with
  | 0 => "0" | 1 => "1" | 2 => "2" | 3 => "3" | 4 => "4" | 5 => "5"
  | 6 => "6" | 7 => "7" | 8 => "8" | 9 => "9" | 10 => "a" | 11 => "b"
  | 12 => "c" | 13 => "d" | 14 => "e" | _ => "f"
  end%N%char.

(** [buf.toString("hex")] *)
Fixpoint toHex (bs : list byte) : string :=
  match bs with
  | [] => ""
  | b :: rest =>
      let n := Byte.to_N b in
      String (hexDigit (n / 16)) (String (hexDigit (n mod 16)) (toHex rest))
  end.

Definition upperChar (c : ascii) : ascii :=
  let n := N_of_ascii c in
  if ((97 <=? n) && (n <=? 122))%N then ascii_of_N (n - 32) else c.

(** [s.toUpperCase()] (ASCII) *)
Fixpoint toUpperCase (s : string) : string :=
  match s with
  | EmptyString => ""
  | String c rest => String (upperChar c) (toUpperCase rest)
  end.

End Js.
Import Js.

(** ** Libraries the code calls *)

(** [crypto.createHash("sha256").update(s).digest("hex")], [bcrypt.hash],
    [bcrypt.compare], and the two regular-expression engines: MongoDB's
    [$regex] with option [i] ([regexValid]: the server compiles the pattern,
    [regexTest]: the pattern matches), and [new RegExp(pattern, "i")] of
    JavaScript, which throws a SyntaxError on a pattern it does not compile
    ([jsRegExpValid]). *)
Class Libs := {
  sha256hex : string -> string;
  bcrypt_hash : string -> string -> string;
  bcrypt_compare : string -> string -> bool;
  regexValid : string -> bool;
  regexTest : string -> string -> bool;
  jsRegExpValid : string -> bool
}.

(** What a handler reads from outside the request and the store. *)
Record Env := {
  now : N;                 (* new Date() *)
  fullYear : N;            (* new Date().getFullYear() *)
  randomBytes3 : byte * byte * byte; (* crypto.randomBytes(3) *)
  mathRandom900 : N;       (* Math.floor(Math.random() * 900) *)
  genSalt : string         (* bcrypt.genSalt(10) *)
}.

(** ** Collections *)

Definition ObjectId := N.

(** models/Report.js.  [updatedAt] and [__v] are left out: no handler
    reads them, and every response that could show [__v] deletes it.
    [internalNotes] is a path no handler writes. *)
Module Report.

Record EvidenceFile := {
  filePath : string;
  fileType : string;
  fileName : string;
  uploadedAt : N
}.

Record Comment := {
  c_user : option ObjectId;
  role : string;
  message : string;
  c_createdAt : N
}.

Record HistoryEntry := {
  h_status : string;
  updatedBy : option ObjectId;
  h_updatedAt : N
}.

Record t := {
  _id : ObjectId;
  caseID : option string;
  reporterType : string;
  reporterName : value;
  reporterEmail : value;
  reporterPhone : value;
  title : string;
  description : string;
  status : string;
  agencyAssigned : option ObjectId;
  location : value;
  password : option string;
  passwordKey : option string;
  category : option ObjectId;
  isResolved : bool;
  internalNotes : value;
  evidenceFiles : list EvidenceFile;
  comments : list Comment;
  history : list HistoryEntry;
  createdAt : N
}.

Definition withStatus (s : string) (r : t) : t :=
  {| _id := _id r; caseID := caseID r; reporterType := reporterType r;
     reporterName := reporterName r; reporterEmail := reporterEmail r;
     reporterPhone := reporterPhone r; title := title r;
     description := description r; status := s;
     agencyAssigned := agencyAssigned r; location := location r;
     password := password r; passwordKey := passwordKey r;
     category := category r; isResolved := isResolved r;
     internalNotes := internalNotes r; evidenceFiles := evidenceFiles r;
     comments := comments r; history := history r;
     createdAt := createdAt r |}.

Definition withIsResolved (b : bool) (r : t) : t :=
  {| _id := _id r; caseID := caseID r; reporterType := reporterType r;
     reporterName := reporterName r; reporterEmail := reporterEmail r;
     reporterPhone := reporterPhone r; title := title r;
     description := description r; status := status r;
     agencyAssigned := agencyAssigned r; location := location r;
     password := password r; passwordKey := passwordKey r;
     category := category r; isResolved := b;
     internalNotes := internalNotes r; evidenceFiles := evidenceFiles r;
     comments := comments r; history := history r;
     createdAt := createdAt r |}.

Definition withCategory (c : option ObjectId) (r : t) : t :=
  {| _id := _id r; caseID := caseID r; reporterType := reporterType r;
     reporterName := reporterName r; reporterEmail := reporterEmail r;
     reporterPhone := reporterPhone r; title := title r;
     description := description r; status := status r;
     agencyAssigned := agencyAssigned r; location := location r;
     password := password r; passwordKey := passwordKey r;
     category := c; isResolved := isResolved r;
     internalNotes := internalNotes r; evidenceFiles := evidenceFiles r;
     comments := comments r; history := history r;
     createdAt := createdAt r |}.

Definition withAgencyAssigned (a : option ObjectId) (r : t) : t :=
  {| _id := _id r; caseID := caseID r; reporterType := reporterType r;
     reporterName := reporterName r; reporterEmail := reporterEmail r;
     reporterPhone := reporterPhone r; title := title r;
     description := description r; status := status r;
     agencyAssigned := a; location := location r;
     password := password r; passwordKey := passwordKey r;
     category := category r; isResolved := isResolved r;
     internalNotes := internalNotes r; evidenceFiles := evidenceFiles r;
     comments := comments r; history := history r;
     createdAt := createdAt r |}.

Definition withCaseID (c : string) (r : t) : t :=
  {| _id := _id r; caseID := Some c; reporterType := reporterType r;
     reporterName := reporterName r; reporterEmail := reporterEmail r;
     reporterPhone := reporterPhone r; title := title r;
     description := description r; status := status r;
     agencyAssigned := agencyAssigned r; location := location r;
     password := password r; passwordKey := passwordKey r;
     category := category r; isResolved := isResolved r;
     internalNotes := internalNotes r; evidenceFiles := evidenceFiles r;
     comments := comments r; history := history r;
     createdAt := createdAt r |}.

Definition withSecret (key hash : string) (r : t) : t :=
  {| _id := _id r; caseID := caseID r; reporterType := reporterType r;
     reporterName := reporterName r; reporterEmail := reporterEmail r;
     reporterPhone := reporterPhone r; title := title r;
     description := description r; status := status r;
     agencyAssigned := agencyAssigned r; location := location r;
     password := Some hash; passwordKey := Some key;
     category := category r; isResolved := isResolved r;
     internalNotes := internalNotes r; evidenceFiles := evidenceFiles r;
     comments := comments r; history := history r;
     createdAt := createdAt r |}.

Definition pushEvidence (es : list EvidenceFile) (r : t) : t :=
  {| _id := _id r; caseID := caseID r; reporterType := reporterType r;
     reporterName := reporterName r; reporterEmail := reporterEmail r;
     reporterPhone := reporterPhone r; title := title r;
     description := description r; status := status r;
     agencyAssigned := agencyAssigned r; location := location r;
     password := password r; passwordKey := passwordKey r;
     category := category r; isResolved := isResolved r;
     internalNotes := internalNotes r;
     evidenceFiles := evidenceFiles r ++ es;
     comments := comments r; history := history r;
     createdAt := createdAt r |}.

Definition pushComment (c : Comment) (r : t) : t :=
  {| _id := _id r; caseID := caseID r; reporterType := reporterType r;
     reporterName := reporterName r; reporterEmail := reporterEmail r;
     reporterPhone := reporterPhone r; title := title r;
     description := description r; status := status r;
     agencyAssigned := agencyAssigned r; location := location r;
     password := password r; passwordKey := passwordKey r;
     category := category r; isResolved := isResolved r;
     internalNotes := internalNotes r; evidenceFiles := evidenceFiles r;
     comments := comments r ++ [c]; history := history r;
     createdAt := createdAt r |}.

Definition pushHistory (h : HistoryEntry) (r : t) : t :=
  {| _id := _id r; caseID := caseID r; reporterType := reporterType r;
     reporterName := reporterName r; reporterEmail := reporterEmail r;
     reporterPhone := reporterPhone r; title := title r;
     description := description r; status := status r;
     agencyAssigned := agencyAssigned r; location := location r;
     password := password r; passwordKey := passwordKey r;
     category := category r; isResolved := isResolved r;
     internalNotes := internalNotes r; evidenceFiles := evidenceFiles r;
     comments := comments r; history := history r ++ [h];
     createdAt := createdAt r |}.

Definition reporterTypes := ["anonymous"; "confidential"].
Definition statuses := ["pending"; "under review"; "resolved"; "closed"].

Definition evidenceJson (e : EvidenceFile) : json :=
  obj [("filePath", Some (JStr (filePath e)));
       ("fileType", Some (JStr (fileType e)));
       ("fileName", Some (JStr (fileName e)));
       ("uploadedAt", Some (JDate (uploadedAt e)))].

Definition commentJson (c : Comment) : json :=
  obj [("user", option_map JOid (c_user c));
       ("role", Some (JStr (role c)));
       ("message", Some (JStr (message c)));
       ("createdAt", Some (JDate (c_createdAt c)))].

Definition historyJson (h : HistoryEntry) : json :=
  obj [("status", Some (JStr (h_status h)));
       ("updatedBy", option_map JOid (updatedBy h));
       ("updatedAt", Some (JDate (h_updatedAt h)))].

End Report.

(** Modelled from the spec: Category is the external aggregate a report's
    [category] refers to; models/Category.js is not among the sources, the
    fields are the ones the controllers and the seeding write. *)
Module Category.
Record t := {
  _id : ObjectId;
  name : string;
  description : value
}.

Definition toJson (c : t) : json :=
  obj [("_id", Some (JOid (_id c)));
       ("name", Some (JStr (name c)));
       ("description", ofValue (description c))].
End Category.

(** models/Agency.js *)
Module Agency.
Record t := {
  _id : ObjectId;
  name : string;
  email : value;
  phone : value;
  description : value;
  users : list ObjectId;
  active : bool
}.

Definition toJson (a : t) : json :=
  obj [("_id", Some (JOid (_id a)));
       ("name", Some (JStr (name a)));
       ("email", ofValue (email a));
       ("phone", ofValue (phone a));
       ("description", ofValue (description a));
       ("users", Some (JArr (map JOid (users a))));
       ("active", Some (JBool (active a)))].
End Agency.

(** models/AuditLog.js *)
Module AuditLog.
Record t := {
  action : string;
  description : string;
  user : option ObjectId;
  targetReport : option ObjectId;
  ipAddress : value;
  createdAt : N
}.
End AuditLog.

(** The database, and the counter the driver draws fresh ObjectIds from. *)
Record Store := {
  reports : list Report.t;
  categories : list Category.t;
  agencies : list Agency.t;
  auditLogs : list AuditLog.t;
  nextId : N
}.

Definition emptyStore : Store :=
  {| reports := []; categories := []; agencies := []; auditLogs := [];
     nextId := 0 |}.

Definition setReports (st : Store) (rs : list Report.t) : Store :=
  {| reports := rs; categories := categories st; agencies := agencies st;
     auditLogs := auditLogs st; nextId := nextId st |}.

Definition setCategories (st : Store) (cs : list Category.t) : Store :=
  {| reports := reports st; categories := cs; agencies := agencies st;
     auditLogs := auditLogs st; nextId := nextId st |}.

Definition setAgencies (st : Store) (ags : list Agency.t) : Store :=
  {| reports := reports st; categories := categories st; agencies := ags;
     auditLogs := auditLogs st; nextId := nextId st |}.

(** [new ObjectId()] *)
Definition freshId (st : Store) : ObjectId * Store :=
  (nextId st,
   {| reports := reports st; categories := categories st;
      agencies := agencies st; auditLogs := auditLogs st;
      nextId := N.succ (nextId st) |}).

(** [AuditLog.create] *)
Definition logAudit (l : AuditLog.t) (st : Store) : Store :=
  {| reports := reports st; categories := categories st;
     agencies := agencies st; auditLogs := auditLogs st ++ [l];
     nextId := nextId st |}.

(** An error handed to the Express error middleware, by [next(err)] or by a
    throw inside [asyncHandler]; [resStatus] is what [res.status] was set to
    before the throw, [statusCode] the code an [ErrorResponse] carries. *)
Record Err := {
  errName : string;
  errMessage : string;
  statusCode : option N
}.

Inductive Response :=
| Sent (code : N) (body : json)
| Failed (resStatus : option N) (e : Err).

Definition errorResponse (msg : string) (code : N) : Response :=
  Failed None {| errName := "ErrorResponse"; errMessage := msg;
                 statusCode := Some code |}.

Definition thrown (resStatus : option N) (msg : string) : Response :=
  Failed resStatus {| errName := "Error"; errMessage := msg;
                      statusCode := None |}.

Definition failure (msg : string) : json :=
  obj [("success", Some (JBool false)); ("message", Some (JStr msg))].

(** ** The Report model: documents, hooks, serialisation *)

Module Mongoose.
Import Report.

(** A populated reference path: not populated, or replaced by the
    referenced document ([null] when it no longer exists). *)
Inductive RefState :=
| Unpopulated
| Populated (d : option json).

(** A Report document in memory.  [statusModified] is
    [isModified("status")]: Mongoose counts a path as modified once it has
    been set to a value different from the one it held; a schema default
    filled in by the constructor is tracked as a default, not as a
    modification.  [withPassword] says whether the [select: false] path
    [password] is present. *)
Record Doc := {
  fields : Report.t;
  isNew : bool;
  statusModified : bool;
  withPassword : bool;
  _plainPassword : option string;
  popCategory : RefState;
  popAgency : RefState
}.

Definition withFields (d : Doc) (r : Report.t) : Doc :=
  {| fields := r; isNew := isNew d; statusModified := statusModified d;
     withPassword := withPassword d; _plainPassword := _plainPassword d;
     popCategory := popCategory d; popAgency := popAgency d |}.

(** A document as a query returns it. *)
Definition loaded (selectPassword : bool) (r : Report.t) : Doc :=
  {| fields := r; isNew := false; statusModified := false;
     withPassword := selectPassword; _plainPassword := None;
     popCategory := Unpopulated; popAgency := Unpopulated |}.

Definition findById (id : ObjectId) (st : Store) : option Report.t :=
  find (fun r => (_id r =? id)%N) (reports st).

Definition optEqb (a b : option string) : bool :=
  match a, b with
  | Some x, Some y => x =? y
  | None, None => true
  | _, _ => false
  end.

(** [Report.findOne({ passwordKey })] *)
Definition findOneByPasswordKey (k : string) (st : Store) : option Report.t :=
  find (fun r => optEqb (passwordKey r) (Some k)) (reports st).

Definition refJson (p : RefState) (o : option ObjectId) : json :=
  match p with
  | Unpopulated => ofOid o
  | Populated (Some j) => j
  | Populated None => JNull
  end.

(** [doc.toObject()] *)
Definition toObject (d : Doc) : json :=
  let r := fields d in
  obj [("_id", Some (JOid (_id r)));
       ("caseID", ofOptStr (caseID r));
       ("reporterType", Some (JStr (reporterType r)));
       ("reporterName", ofValue (reporterName r));
       ("reporterEmail", ofValue (reporterEmail r));
       ("reporterPhone", ofValue (reporterPhone r));
       ("title", Some (JStr (title r)));
       ("description", Some (JStr (description r)));
       ("status", Some (JStr (status r)));
       ("agencyAssigned", Some (refJson (popAgency d) (agencyAssigned r)));
       ("location", ofValue (location r));
       ("password", if withPassword d then ofOptStr (password r) else None);
       ("passwordKey", ofOptStr (passwordKey r));
       ("category", Some (refJson (popCategory d) (category r)));
       ("isResolved", Some (JBool (isResolved r)));
       ("internalNotes", ofValue (internalNotes r));
       ("evidenceFiles", Some (JArr (map evidenceJson (evidenceFiles r))));
       ("comments", Some (JArr (map commentJson (comments r))));
       ("history", Some (JArr (map historyJson (history r))));
       ("createdAt", Some (JDate (createdAt r)))].

(** [reportSchema.methods.getPublicData] *)
Definition getPublicData (d : Doc) : json :=
  let o := toObject d in
  let o := del "password" o in
  let o := del "passwordKey" o in
  let o := del "__v" o in
  match _plainPassword d with
  | Some p => if p =? "" then o else put "generatedPassword" (JStr p) o
  | None => o
  end.

(** The [toJSON] transform of the schema, applied when a document is
    handed to [res.json]. *)
Definition toJSON (d : Doc) : json :=
  let ret := toObject d in
  let ret := del "password" ret in
  let ret := del "passwordKey" ret in
  let ret := del "__v" ret in
  match get "reporterType" ret with
  | Some (JStr "anonymous") =>
      del "reporterPhone" (del "reporterEmail" (del "reporterName" ret))
  | _ => ret
  end.

(** The selection of [populate(path, select)]: [_id] and the listed
    fields; no selection keeps the whole document. *)
Definition project (sel : option (list string)) (j : json) : json :=
  match sel, j with
  | Some ks, JObj kv =>
      JObj (filter (fun p => (fst p =? "_id") || includes ks (fst p)) kv)
  | _, _ => j
  end.

Definition lookupCategory (st : Store) (o : option ObjectId) : option Category.t :=
  match o with
  | Some id => find (fun c => (Category._id c =? id)%N) (categories st)
  | None => None
  end.

Definition lookupAgency (st : Store) (o : option ObjectId) : option Agency.t :=
  match o with
  | Some id => find (fun a => (Agency._id a =? id)%N) (agencies st)
  | None => None
  end.

Definition populateCategory (sel : option (list string)) (st : Store)
    (d : Doc) : Doc :=
  {| fields := fields d; isNew := isNew d;
     statusModified := statusModified d; withPassword := withPassword d;
     _plainPassword := _plainPassword d;
     popCategory :=
       Populated (option_map (fun c => project sel (Category.toJson c))
                             (lookupCategory st (category (fields d))));
     popAgency := popAgency d |}.

Definition populateAgency (sel : option (list string)) (st : Store)
    (d : Doc) : Doc :=
  {| fields := fields d; isNew := isNew d;
     statusModified := statusModified d; withPassword := withPassword d;
     _plainPassword := _plainPassword d;
     popCategory := popCategory d;
     popAgency :=
       Populated (option_map (fun a => project sel (Agency.toJson a))
                             (lookupAgency st (agencyAssigned (fields d)))) |}.

(** [doc.status = s]: setting a path to the value it already holds does
    not mark it modified. *)
Definition setStatus (s : string) (d : Doc) : Doc :=
  {| fields := withStatus s (fields d);
     isNew := isNew d;
     statusModified := statusModified d || negb (status (fields d) =? s);
     withPassword := withPassword d; _plainPassword := _plainPassword d;
     popCategory := popCategory d; popAgency := popAgency d |}.

Section Hooks.
Context {L : Libs}.

(** The schema validation [save] runs before the hooks of the schema:
    required paths, enums, and the required paths of the subdocuments. *)
Definition validate (r : Report.t) : bool :=
  includes reporterTypes (reporterType r)
  && negb (title r =? "")
  && negb (description r =? "")
  && includes statuses (status r)
  && forallb (fun e => negb (filePath e =? "")) (evidenceFiles r)
  && forallb (fun c => negb (message c =? "")) (comments r).

Definition validationError : Err :=
  {| errName := "ValidationError"; errMessage := "Report validation failed";
     statusCode := None |}.

Definition duplicateKeyError : Err :=
  {| errName := "MongoServerError";
     errMessage := "E11000 duplicate key error"; statusCode := None |}.

Definition documentNotFoundError : Err :=
  {| errName := "DocumentNotFoundError";
     errMessage := "No document found for query"; statusCode := None |}.

Definition strTruthy (o : option string) : bool :=
  match o with Some s => negb (s =? "") | None => false end.

(** [countDocuments({ caseID: { $regex: `^LAG-${currentYear}` } })]; the
    pattern is a literal anchored at the start. *)
Definition countCaseIDs (year : N) (st : Store) : N :=
  N.of_nat (List.length (filter
    (fun r => match caseID r with
              | Some c => prefix ("LAG-" ++ toString year) c
              | None => false
              end) (reports st))).

(** First [pre("save")] hook: the case identifier. *)
Definition hookCaseID (env : Env) (st : Store) (d : Doc) : Doc :=
  if strTruthy (caseID (fields d)) then d
  else
    let currentYear := fullYear env in
    let count := countCaseIDs currentYear st in
    let nextNumber := padStart0 5 (toString (count + 1)) in
    let randomSuffix := (100 + mathRandom900 env mod 900)%N in
    withFields d
      (withCaseID ("LAG-" ++ toString currentYear ++ "-" ++ nextNumber
                   ++ "-" ++ toString randomSuffix) (fields d)).

Definition generatePlainPassword (env : Env) : string :=
  let '(b1, b2, b3) := randomBytes3 env in
  toUpperCase (toHex [b1; b2; b3]).

(** Second [pre("save")] hook: the case password, its lookup key and its
    bcrypt hash, on a new document only. *)
Definition hookPassword (env : Env) (d : Doc) : Doc :=
  if negb (isNew d) then d
  else
    let plainPassword := generatePlainPassword env in
    {| fields := withSecret (sha256hex plainPassword)
                            (bcrypt_hash plainPassword (genSalt env))
                            (fields d);
       isNew := isNew d; statusModified := statusModified d;
       withPassword := true; _plainPassword := Some plainPassword;
       popCategory := popCategory d; popAgency := popAgency d |}.

(** Third [pre("save")] hook: the status history. *)
Definition hookHistory (env : Env) (d : Doc) : Doc :=
  if statusModified d then
    withFields d
      (pushHistory {| h_status := status (fields d); updatedBy := None;
                      h_updatedAt := now env |} (fields d))
  else d.

(** The unique indexes: [_id], [caseID], [password], [passwordKey]. *)
Definition duplicateKey (r : Report.t) (rs : list Report.t) : bool :=
  existsb (fun r' => (_id r' =? _id r)%N
                     || optEqb (caseID r') (caseID r)
                     || optEqb (password r') (password r)
                     || optEqb (passwordKey r') (passwordKey r)) rs.

Definition replaceById (r : Report.t) (rs : list Report.t) : list Report.t :=
  map (fun r' => if (_id r' =? _id r)%N then r else r') rs.

Definition persisted (d : Doc) : Doc :=
  {| fields := fields d; isNew := false; statusModified := false;
     withPassword := withPassword d; _plainPassword := _plainPassword d;
     popCategory := popCategory d; popAgency := popAgency d |}.

(** [doc.save()] *)
Definition save (env : Env) (d : Doc) (st : Store) : Store * (Err + Doc) :=
  if negb (validate (fields d)) then (st, inl validationError)
  else
    let d := hookCaseID env st d in
    let d := hookPassword env d in
    let d := hookHistory env d in
    if isNew d then
      if duplicateKey (fields d) (reports st)
      then (st, inl duplicateKeyError)
      else (setReports st (reports st ++ [fields d])%list, inr (persisted d))
    else
      if existsb (fun r' => (_id r' =? _id (fields d))%N) (reports st)
      then (setReports st (replaceById (fields d) (reports st)),
            inr (persisted d))
      else (st, inl documentNotFoundError).

(** The object [createReport] passes to [Report.create]. *)
Record NewReport := {
  n_title : string;
  n_description : string;
  n_location : value;
  n_reporterType : string;
  n_reporterName : value;
  n_reporterEmail : value;
  n_reporterPhone : value;
  n_category : option ObjectId;
  n_agencyAssigned : option ObjectId;
  n_evidenceFiles : list EvidenceFile
}.

(** [new Report(o)]: the given paths are set, [status], [isResolved] and
    the arrays take the defaults of the schema. *)
Definition construct (env : Env) (id : ObjectId) (o : NewReport) : Doc :=
  {| fields :=
       {| _id := id; caseID := None;
          reporterType := n_reporterType o;
          reporterName := n_reporterName o;
          reporterEmail := n_reporterEmail o;
          reporterPhone := n_reporterPhone o;
          title := n_title o; description := n_description o;
          status := "pending";
          agencyAssigned := n_agencyAssigned o;
          location := n_location o;
          password := None; passwordKey := None;
          category := n_category o;
          isResolved := false; internalNotes := Undefined;
          evidenceFiles := n_evidenceFiles o;
          comments := []; history := [];
          createdAt := now env |};
     isNew := true; statusModified := false; withPassword := true;
     _plainPassword := None;
     popCategory := Unpopulated; popAgency := Unpopulated |}.

(** [Report.create(o)] *)
Definition create (env : Env) (o : NewReport) (st : Store)
  : Store * (Err + Doc) :=
  let (id, st) := freshId st in
  save env (construct env id o) st.

End Hooks.

End Mongoose.

(** ** Requests *)

(** A path or body parameter that names a document: missing, a string that
    is not an ObjectId, or an ObjectId. *)
Inductive param :=
| PUndefined
| PMalformed (s : string)
| POid (id : ObjectId).

Record Body := {
  b_title : value;
  b_description : value;
  b_location : value;
  b_reporterType : value;
  b_reporterName : value;
  b_reporterEmail : value;
  b_reporterPhone : value;
  b_password : value;
  b_message : value;
  b_status : value;
  b_categoryId : param;
  b_agencyId : param;
  b_name : value;
  b_contactEmail : value;
  b_contactPhone : value
}.

(** An uploaded file as multer-s3 leaves it in [req.files]. *)
Record File := {
  f_location : string;
  mimetype : string;
  originalname : string
}.

(** [req.user], set by the [protect] middleware. *)
Record User := {
  u_id : ObjectId;
  u_role : string
}.

Record Query := {
  q_page : option N;
  q_limit : option N;
  q_keyword : option string;
  q_status : value
}.

Record Request := {
  params_id : param;
  params_reportId : param;
  body : Body;
  query : Query;
  files : list File;
  user : option User;
  ip : value
}.

(** ** What a password check costs *)

(** The database queries and hash computations of the password-gated
    handlers, in the order they are made. *)
Inductive Op :=
| OpDigest (s : string)
| OpFindOneByKey (k : string)
| OpFindAll
| OpCompare (id : ObjectId).

Definition Logged (A : Type) : Type := (A * list Op)%type.

Definition ret {A} (a : A) : Logged A := (a, []).

Definition bind {A B} (m : Logged A) (f : A -> Logged B) : Logged B :=
  let (a, l1) := m in
  let (b, l2) := f a in
  (b, (l1 ++ l2)%list).

Definition tell (o : Op) : Logged unit := (tt, [o]).

Notation "x <- m ;; k" := (bind m (fun x => k))
  (at level 61, m at next level, right associativity).
Notation "m ;;; k" := (bind m (fun _ => k))
  (at level 61, right associativity).

Definition isCompare (o : Op) : bool :=
  match o with OpCompare _ => true | _ => false end.

Definition isFindAll (o : Op) : bool :=
  match o with OpFindAll => true | _ => false end.

(** The number of bcrypt comparisons in a log. *)
Definition comparisons (l : list Op) : nat := List.length (filter isCompare l).

(** ** controllers/reporterController.js *)

Module ReporterController.
Import Report Mongoose.

Section Handlers.
Context {L : Libs}.

Definition strOf (v : value) : string :=
  match v with Str s => s | _ => "" end.

(** [v === s] *)
Definition isStr (v : value) (s : string) : bool :=
  match v with Str x => x =? s | _ => false end.

Definition caseIDText (r : Report.t) : string :=
  match caseID r with Some c => c | None => "undefined" end.

Definition createReport (env : Env) (req : Request) (st : Store)
  : Store * Response :=
  let b := body req in
  let title := b_title b in
  let description := b_description b in
  let reporterType := b_reporterType b in
  let reporterName := b_reporterName b in
  let reporterEmail := b_reporterEmail b in
  let reporterPhone := b_reporterPhone b in
  if negb (truthy title) || negb (truthy description) then
    (st, Sent 400 (failure "Title and description are required fields."))
  else if negb (includes ["anonymous"; "confidential"] (strOf reporterType))
  then
    (st, Sent 400 (failure
       "Invalid reporter type. Must be 'anonymous' or 'confidential'."))
  else if isStr reporterType "anonymous"
          && (truthy reporterName || truthy reporterEmail
              || truthy reporterPhone)
  then
    (st, Sent 400 (failure
       "Anonymous reports cannot include name, email, or phone information."))
  else if isStr reporterType "confidential"
          && (negb (truthy reporterName) || negb (truthy reporterEmail))
  then
    (st, Sent 400 (failure
       "Confidential reports must include reporter name and email address."))
  else
    let defaultCategory :=
      find (fun c => Category.name c =? "uncategorised") (categories st) in
    let defaultAgency :=
      find (fun a => Agency.name a =? "unassigned") (agencies st) in
    let evidenceFiles :=
      map (fun file => {| filePath := f_location file;
                          fileType := mimetype file;
                          fileName := originalname file;
                          uploadedAt := now env |}) (files req) in
    match create env
            {| n_title := strOf title;
               n_description := strOf description;
               n_location := b_location b;
               n_reporterType := strOf reporterType;
               n_reporterName := reporterName;
               n_reporterEmail := reporterEmail;
               n_reporterPhone := reporterPhone;
               n_category := option_map Category._id defaultCategory;
               n_agencyAssigned := option_map Agency._id defaultAgency;
               n_evidenceFiles := evidenceFiles |} st with
    | (st, inl e) => (st, Failed None e)
    | (st, inr report) =>
        let st :=
          logAudit {| AuditLog.action := "REPORT_CREATED";
                      AuditLog.description :=
                        "Report created with caseID: "
                        ++ caseIDText (fields report);
                      AuditLog.user := None;
                      AuditLog.targetReport := Some (_id (fields report));
                      AuditLog.ipAddress := ip req;
                      AuditLog.createdAt := now env |} st in
        (st, Sent 201
               (obj [("success", Some (JBool true));
                     ("message", Some (JStr "Report submitted successfully"));
                     ("data", Some (getPublicData report));
                     ("casePassword", ofOptStr (_plainPassword report))]))
    end.

Definition illegalArguments : Err :=
  {| errName := "Error"; errMessage := "Illegal arguments";
     statusCode := None |}.

(** [reportSchema.methods.matchPassword]; bcrypt throws when the document
    carries no hash. *)
Definition matchPassword (d : Doc) (enteredPassword : string)
  : Logged (Err + bool) :=
  tell (OpCompare (_id (fields d))) ;;;
  ret (match (if withPassword d then password (fields d) else None) with
       | Some h => inr (bcrypt_compare enteredPassword h)
       | None => inl illegalArguments
       end).

Definition getReportByPassword (env : Env) (req : Request) (st : Store)
  : Logged (Store * Response) :=
  let password := b_password (body req) in
  if negb (truthy password) then
    ret (st, Sent 400 (failure "Password is required."))
  else
    let password := strOf password in
    tell (OpDigest password) ;;;
    let passwordKey := sha256hex password in
    tell (OpFindOneByKey passwordKey) ;;;
    match findOneByPasswordKey passwordKey st with
    | None =>
        ret (st, Sent 404 (failure "No report found for this password."))
    | Some r =>
        let report :=
          populateAgency (Some ["name"; "description"]) st
            (populateCategory (Some ["name"; "description"]) st
               (loaded true r)) in
        isMatch <- matchPassword report password ;;
        match isMatch with
        | inl e => ret (st, Failed None e)
        | inr false => ret (st, Sent 401 (failure "Invalid password."))
        | inr true =>
            ret (st, Sent 200
                   (obj [("success", Some (JBool true));
                         ("message",
                          Some (JStr "Report retrieved successfully."));
                         ("data", Some (getPublicData report))]))
        end
    end.

(** The loop of [addWhistleblowerMessage] over [Report.find()]. *)
Fixpoint firstMatch (password : string) (rs : list Report.t)
  : Logged (Err + option Report.t) :=
  match rs with
  | [] => ret (inr None)
  | report :: rest =>
      isMatch <- matchPassword (loaded true report) password ;;
      match isMatch with
      | inl e => ret (inl e)
      | inr true => ret (inr (Some report))
      | inr false => firstMatch password rest
      end
  end.

Definition addWhistleblowerMessage (env : Env) (req : Request) (st : Store)
  : Logged (Store * Response) :=
  let password := b_password (body req) in
  let message := b_message (body req) in
  if negb (truthy password) || negb (truthy message) then
    ret (st, Sent 400 (failure "Password and message are required."))
  else
    tell OpFindAll ;;;
    found <- firstMatch (strOf password) (reports st) ;;
    match found with
    | inl e => ret (st, Failed None e)
    | inr None =>
        ret (st, Sent 401 (failure "Invalid password. Report not found."))
    | inr (Some r) =>
        let matchedReport := loaded true r in
        let evidenceFiles :=
          map (fun file => {| filePath := f_location file;
                              fileType := beforeSlash (mimetype file);
                              fileName := originalname file;
                              uploadedAt := now env |}) (files req) in
        let matchedReport :=
          match files req with
          | [] => matchedReport
          | _ => withFields matchedReport
                   (pushEvidence evidenceFiles (fields matchedReport))
          end in
        let matchedReport :=
          withFields matchedReport
            (pushComment {| c_user := None; role := "reporter";
                            message := strOf message;
                            c_createdAt := now env |}
               (fields matchedReport)) in
        match save env matchedReport st with
        | (st, inl e) => ret (st, Failed None e)
        | (st, inr matchedReport) =>
            let st :=
              logAudit {| AuditLog.action := "REPORT_UPDATED_BY_REPORTER";
                          AuditLog.description :=
                            "Whistle-blower added message to case "
                            ++ caseIDText (fields matchedReport);
                          AuditLog.user := None;
                          AuditLog.targetReport :=
                            Some (_id (fields matchedReport));
                          AuditLog.ipAddress := ip req;
                          AuditLog.createdAt := now env |} st in
            ret (st, Sent 201
                   (obj [("success", Some (JBool true));
                         ("message", Some (JStr "Message added successfully."));
                         ("data", Some (obj
                            [("comments",
                              Some (JArr (map commentJson
                                 (comments (fields matchedReport)))));
                             ("evidenceFiles",
                              Some (JArr (map evidenceJson
                                 (Report.evidenceFiles
                                    (fields matchedReport)))))]))]))
        end
    end.

End Handlers.
End ReporterController.

(** ** Queries shared by the admin and agency controllers *)

Module Query.
Import Report Mongoose.

Definition castError : Err :=
  {| errName := "CastError"; errMessage := "Cast to ObjectId failed";
     statusCode := None |}.

Definition typeError : Err :=
  {| errName := "TypeError"; errMessage := "Cannot read properties of undefined";
     statusCode := None |}.

(** [Model.findById(p)]: [undefined] finds nothing, a string that is not
    an ObjectId makes the cast throw. *)
Definition byId {A} (look : ObjectId -> option A) (p : param)
  : Err + option A :=
  match p with
  | PUndefined => inr None
  | PMalformed _ => inl castError
  | POid id => inr (look id)
  end.

Definition reportById (p : param) (st : Store) : Err + option Report.t :=
  byId (fun id => findById id st) p.

Definition categoryById (p : param) (st : Store) : Err + option Category.t :=
  byId (fun id => lookupCategory st (Some id)) p.

Definition agencyById (p : param) (st : Store) : Err + option Agency.t :=
  byId (fun id => lookupAgency st (Some id)) p.

(** [/^[0-9a-fA-F]{24}$/] and [ObjectId.isValid] on a parameter that is
    present. *)
Definition wellFormed (p : param) : bool :=
  match p with POid _ => true | _ => false end.

Fixpoint insertDesc (r : Report.t) (l : list Report.t) : list Report.t :=
  match l with
  | [] => [r]
  | x :: rest =>
      if (createdAt x <? createdAt r)%N then r :: l
      else x :: insertDesc r rest
  end.

(** [.sort({ createdAt: -1 })]; the order among equal dates is not
    specified by MongoDB. *)
Definition sortByCreatedAtDesc (l : list Report.t) : list Report.t :=
  fold_right insertDesc [] l.

(** What the server answers to a [$regex] it cannot compile, whatever the
    collection holds. *)
Definition regexError : Err :=
  {| errName := "MongoServerError";
     errMessage := "Regular expression is invalid"; statusCode := None |}.

(** What [new RegExp] throws on a pattern it cannot compile. *)
Definition syntaxError : Err :=
  {| errName := "SyntaxError"; errMessage := "Invalid regular expression";
     statusCode := None |}.

Section Search.
Context {L : Libs}.

(** The [$or] of case-insensitive matches on [caseID], [title] and
    [description], and the optional equality on [status], for a keyword
    the server compiles. *)
Definition matches (keyword : string) (status : value) (r : Report.t)
  : bool :=
  ((match caseID r with Some c => regexTest keyword c | None => false end)
   || regexTest keyword (title r)
   || regexTest keyword (description r))
  && (if truthy status
      then match status with Str s => Report.status r =? s | _ => false end
      else true).

Definition skipNegative : Err :=
  {| errName := "MongoServerError";
     errMessage := "Skip value must be non-negative"; statusCode := None |}.

(** [find(filter).sort(...).skip((page - 1) * limit).limit(limit)];
    a limit of 0 means no limit. *)
Definition page (p l : N) (rs : list Report.t) : Err + list Report.t :=
  if ((p =? 0) && negb (l =? 0))%N then inl skipNegative
  else
    let rest := skipn (N.to_nat ((p - 1) * l)) (sortByCreatedAtDesc rs) in
    inr (if (l =? 0)%N then rest else firstn (N.to_nat l) rest).

(** [Math.ceil(total / limit)] *)
Definition totalPages (total l : N) : json :=
  if (l =? 0)%N then JNull
  else JNum ((total + l - 1) / l).

End Search.
End Query.

(** ** controllers/adminController.js *)

Module AdminController.
Import Report Mongoose Query.

Section Handlers.
Context {L : Libs}.

Definition getUnassignedReports (env : Env) (req : Request) (st : Store)
  : Store * Response :=
  match find (fun a => Agency.name a =? "unassigned") (agencies st) with
  | None =>
      (st, Sent 404 (failure "Default 'unassigned' agency not found"))
  | Some defaultAgency =>
      let unassignedReports :=
        sortByCreatedAtDesc
          (filter (fun r => match agencyAssigned r with
                            | Some a => (a =? Agency._id defaultAgency)%N
                            | None => false
                            end) (reports st)) in
      let docs :=
        map (fun r => populateAgency (Some ["name"]) st
                        (populateCategory (Some ["name"]) st
                           (loaded false r))) unassignedReports in
      (st, Sent 200
             (obj [("success", Some (JBool true));
                   ("count", Some (JNum (N.of_nat (List.length docs))));
                   ("data", Some (JArr (map toJSON docs)))]))
  end.

Definition getAllReports (env : Env) (req : Request) (st : Store)
  : Store * Response :=
  let q := query req in
  let p := match q_page q with Some n => n | None => 1%N end in
  let limit := match q_limit q with Some n => n | None => 10%N end in
  let keyword := match q_keyword q with Some k => k | None => "" end in
  if negb (regexValid keyword) then (st, Failed None regexError)
  else
  let selected := filter (matches keyword (q_status q)) (reports st) in
  let total := N.of_nat (List.length selected) in
  match page p limit selected with
  | inl e => (st, Failed None e)
  | inr rs =>
      let docs :=
        map (fun r => populateAgency (Some ["name"]) st
                        (populateCategory (Some ["name"]) st
                           (loaded false r))) rs in
      (st, Sent 200
             (obj [("success", Some (JBool true));
                   ("currentPage", Some (JNum p));
                   ("totalPages", Some (totalPages total limit));
                   ("totalReports", Some (JNum total));
                   ("count", Some (JNum (N.of_nat (List.length docs))));
                   ("data", Some (JArr (map toJSON docs)))]))
  end.

Definition getReportById (env : Env) (req : Request) (st : Store)
  : Store * Response :=
  let id := params_id req in
  match id with
  | PUndefined => (st, Failed None typeError)
  | _ =>
    if negb (wellFormed id) then
      (st, Sent 400 (failure "Invalid report ID format."))
    else
      match reportById id st with
      | inl e => (st, Failed None e)
      | inr None => (st, Sent 404 (failure "Report not found."))
      | inr (Some r) =>
          let report :=
            populateAgency (Some ["name"; "description"; "email"; "phone"]) st
              (populateCategory (Some ["name"; "description"]) st
                 (loaded false r)) in
          (st, Sent 200
                 (obj [("success", Some (JBool true));
                       ("message",
                        Some (JStr "Report retrieved successfully."));
                       ("data", Some (toJSON report))]))
      end
  end.

Definition updateReportCategory (env : Env) (req : Request) (st : Store)
  : Store * Response :=
  match reportById (params_id req) st with
  | inl e => (st, Failed None e)
  | inr None => (st, Sent 404 (failure "Report not found"))
  | inr (Some r) =>
      match categoryById (b_categoryId (body req)) st with
      | inl e => (st, Failed None e)
      | inr None => (st, Sent 404 (failure "Category not found"))
      | inr (Some category) =>
          let report := loaded false r in
          let report :=
            withFields report
              (withCategory (Some (Category._id category)) (fields report)) in
          match save env report st with
          | (st, inl e) => (st, Failed None e)
          | (st, inr report) =>
              let st :=
                logAudit {| AuditLog.action := "CATEGORY_ASSIGNED";
                            AuditLog.description :=
                              "Category '" ++ Category.name category
                              ++ "' assigned to report "
                              ++ ReporterController.caseIDText (fields report);
                            AuditLog.user := None;
                            AuditLog.targetReport := Some (_id (fields report));
                            AuditLog.ipAddress := ip req;
                            AuditLog.createdAt := now env |} st in
              (st, Sent 200
                     (obj [("success", Some (JBool true));
                           ("message",
                            Some (JStr "Category assigned successfully"));
                           ("data",
                            Some (toJSON (populateAgency None st
                                    (populateCategory None st report))))]))
          end
      end
  end.

Definition assignReportToAgency (env : Env) (req : Request) (st : Store)
  : Store * Response :=
  match reportById (params_id req) st with
  | inl e => (st, Failed None e)
  | inr None => (st, Sent 404 (failure "Report not found"))
  | inr (Some r) =>
      match agencyById (b_agencyId (body req)) st with
      | inl e => (st, Failed None e)
      | inr None => (st, Sent 404 (failure "Agency not found"))
      | inr (Some agency) =>
          let report := loaded false r in
          let report :=
            withFields report
              (withAgencyAssigned (Some (Agency._id agency))
                 (fields report)) in
          match save env report st with
          | (st, inl e) => (st, Failed None e)
          | (st, inr report) =>
              let st :=
                logAudit {| AuditLog.action := "AGENCY_ASSIGNED";
                            AuditLog.description :=
                              "Report "
                              ++ ReporterController.caseIDText (fields report)
                              ++ " assigned to agency '"
                              ++ Agency.name agency ++ "'";
                            AuditLog.user := None;
                            AuditLog.targetReport := Some (_id (fields report));
                            AuditLog.ipAddress := ip req;
                            AuditLog.createdAt := now env |} st in
              (st, Sent 200
                     (obj [("success", Some (JBool true));
                           ("message",
                            Some (JStr "Agency assigned successfully"));
                           ("data",
                            Some (toJSON (populateAgency None st
                                    (populateCategory None st report))))]))
          end
      end
  end.

Definition updateReportStatus (env : Env) (req : Request) (st : Store)
  : Store * Response :=
  let id := params_id req in
  let status := b_status (body req) in
  if negb (wellFormed id) then
    (st, Sent 400 (failure "Invalid report ID."))
  else
    let allowedStatuses :=
      ["pending"; "under review"; "resolved"; "closed"] in
    if negb (match status with
             | Str s => includes allowedStatuses s
             | _ => false
             end)
    then
      (st, Sent 400 (failure
         "Invalid status. Allowed values: pending, under review, resolved, closed"))
    else
      match reportById id st with
      | inl e => (st, Failed None e)
      | inr None => (st, Sent 404 (failure "Report not found."))
      | inr (Some r) =>
          let report := loaded false r in
          let report :=
            if ReporterController.isStr status "resolved" then
              withFields report (withIsResolved true (fields report))
            else if ReporterController.isStr status "closed" then
              report
            else
              withFields report (withIsResolved false (fields report)) in
          let report := setStatus (ReporterController.strOf status) report in
          match save env report st with
          | (st, inl e) => (st, Failed None e)
          | (st, inr report) =>
              let report := populateCategory None st report in
              let report := populateAgency None st report in
              let st :=
                logAudit {| AuditLog.action := "STATUS_UPDATED";
                            AuditLog.description :=
                              "Status of report "
                              ++ ReporterController.caseIDText (fields report)
                              ++ " changed to '"
                              ++ ReporterController.strOf status ++ "'";
                            AuditLog.user := None;
                            AuditLog.targetReport := Some (_id (fields report));
                            AuditLog.ipAddress := ip req;
                            AuditLog.createdAt := now env |} st in
              (st, Sent 200
                     (obj [("success", Some (JBool true));
                           ("message",
                            Some (JStr "Report status updated successfully."));
                           ("data", Some (toJSON report))]))
          end
      end.

(** The [author] key of the pushed comment is not a path of the schema
    and is dropped. *)
Definition addAdminMessage (env : Env) (req : Request) (st : Store)
  : Store * Response :=
  let message := b_message (body req) in
  match reportById (params_reportId req) st with
  | inl e => (st, Failed None e)
  | inr None => (st, errorResponse "Report not found." 404)
  | inr (Some r) =>
      if negb (truthy message) then
        (st, errorResponse "Message content is required." 400)
      else
        let report := loaded false r in
        let report :=
          withFields report
            (pushComment {| c_user := None; role := "admin";
                            Report.message := ReporterController.strOf message;
                            c_createdAt := now env |} (fields report)) in
        match save env report st with
        | (st, inl e) => (st, Failed None e)
        | (st, inr report) =>
            let st :=
              logAudit {| AuditLog.action := "REPORT_UPDATED_BY_ADMIN";
                          AuditLog.description :=
                            "Admin added message to case "
                            ++ ReporterController.caseIDText (fields report);
                          AuditLog.user := option_map u_id (user req);
                          AuditLog.targetReport := Some (_id (fields report));
                          AuditLog.ipAddress := ip req;
                          AuditLog.createdAt := now env |} st in
            (st, Sent 201
                   (obj [("success", Some (JBool true));
                         ("message",
                          Some (JStr "Admin message added successfully."));
                         ("data",
                          Some (JArr (map commentJson
                                        (comments (fields report)))))]))
        end
  end.

End Handlers.
End AdminController.

(** ** Categories and agencies: adminController.js, config/seedDefaults.js *)

Module Catalogue.
Import Mongoose Query.

Definition isSpace (c : ascii) : bool :=
  let n := N_of_ascii c in
  ((n =? 32) || ((9 <=? n) && (n <=? 13)))%N.

(** [s.trim() === ""] *)
Fixpoint blank (s : string) : bool :=
  match s with
  | EmptyString => true
  | String c rest => isSpace c && blank rest
  end.

(** [Category.create] *)
Definition createCategoryDoc (name : string) (description : value)
    (st : Store) : Store * Category.t :=
  let (id, st) := freshId st in
  let c := {| Category._id := id; Category.name := name;
              Category.description := description |} in
  (setCategories st (categories st ++ [c])%list, c).

(** [Agency.create]; [name] carries a unique index. *)
Definition createAgencyDoc (name : string) (description : value)
    (st : Store) : Store * (Err + Agency.t) :=
  let (id, st) := freshId st in
  if existsb (fun a => Agency.name a =? name) (agencies st) then
    (st, inl duplicateKeyError)
  else
    let a := {| Agency._id := id; Agency.name := name;
                Agency.email := Undefined; Agency.phone := Undefined;
                Agency.description := description;
                Agency.users := []; Agency.active := true |} in
    (setAgencies st (agencies st ++ [a])%list, inr a).

(** config/seedDefaults.js; an error while seeding is caught and logged. *)
Definition seedDefaults (st : Store) : Store :=
  let st :=
    match find (fun c => Category.name c =? "uncategorised") (categories st) with
    | Some _ => st
    | None =>
        fst (createCategoryDoc "uncategorised" (Str "Uncategorized reports") st)
    end in
  match find (fun a => Agency.name a =? "unassigned") (agencies st) with
  | Some _ => st
  | None => fst (createAgencyDoc "unassigned" (Str "Unassigned reports") st)
  end.

Section Handlers.
Context {L : Libs}.

Definition orEmpty (v : value) : value :=
  if truthy v then v else Str "".

Definition createCategory (env : Env) (req : Request) (st : Store)
  : Store * Response :=
  let name := b_name (body req) in
  let description := b_description (body req) in
  if negb (truthy name) || blank (ReporterController.strOf name) then
    (st, Sent 400 (failure "Category name is required."))
  else
    let name := ReporterController.strOf name in
    let pattern := "^" ++ name ++ "$" in
    if negb (jsRegExpValid pattern) then (st, Failed None syntaxError)
    else if negb (regexValid pattern) then (st, Failed None regexError)
    else if existsb (fun c => regexTest pattern (Category.name c))
                    (categories st)
    then (st, Sent 400 (failure "Category with this name already exists."))
    else
      let (st, category) := createCategoryDoc name (orEmpty description) st in
      let st :=
        logAudit {| AuditLog.action := "CATEGORY_CREATED";
                    AuditLog.description := "Category '" ++ name ++ "' created.";
                    AuditLog.user := None;
                    AuditLog.targetReport := None;
                    AuditLog.ipAddress := ip req;
                    AuditLog.createdAt := now env |} st in
      (st, Sent 201
             (obj [("success", Some (JBool true));
                   ("message", Some (JStr "Category created successfully."));
                   ("data", Some (Category.toJson category))])).

(** [contactEmail] and [contactPhone] are not paths of the Agency schema
    and are dropped. *)
Definition createAgency (env : Env) (req : Request) (st : Store)
  : Store * Response :=
  let name := b_name (body req) in
  let description := b_description (body req) in
  if negb (truthy name) || blank (ReporterController.strOf name) then
    (st, Sent 400 (failure "Agency name is required."))
  else
    let name := ReporterController.strOf name in
    let pattern := "^" ++ name ++ "$" in
    if negb (jsRegExpValid pattern) then (st, Failed None syntaxError)
    else if negb (regexValid pattern) then (st, Failed None regexError)
    else if existsb (fun a => regexTest pattern (Agency.name a))
                    (agencies st)
    then (st, Sent 400 (failure "Agency with this name already exists."))
    else
      match createAgencyDoc name (orEmpty description) st with
      | (st, inl e) => (st, Failed None e)
      | (st, inr agency) =>
          let st :=
            logAudit {| AuditLog.action := "AGENCY_CREATED";
                        AuditLog.description := "Agency '" ++ name ++ "' created.";
                        AuditLog.user := None;
                        AuditLog.targetReport := None;
                        AuditLog.ipAddress := ip req;
                        AuditLog.createdAt := now env |} st in
          (st, Sent 201
                 (obj [("success", Some (JBool true));
                       ("message", Some (JStr "Agency created successfully."));
                       ("data", Some (Agency.toJson agency))]))
      end.

Definition deleteCategory (env : Env) (req : Request) (st : Store)
  : Store * Response :=
  let id := params_id req in
  match id with
  | PUndefined => (st, Failed None typeError)
  | _ =>
    if negb (wellFormed id) then
      (st, Sent 400 (failure "Invalid category ID format."))
    else
      match categoryById id st with
      | inl e => (st, Failed None e)
      | inr None => (st, Sent 404 (failure "Category not found."))
      | inr (Some category) =>
          (setCategories st
             (filter (fun c => negb (Category._id c =? Category._id category)%N)
                     (categories st)),
           Sent 200
             (obj [("success", Some (JBool true));
                   ("message", Some (JStr "Category deleted successfully."))]))
      end
  end.

Definition deleteAgency (env : Env) (req : Request) (st : Store)
  : Store * Response :=
  let id := params_id req in
  match id with
  | PUndefined => (st, Failed None typeError)
  | _ =>
    if negb (wellFormed id) then
      (st, Sent 400 (failure "Invalid agency ID format."))
    else
      match agencyById id st with
      | inl e => (st, Failed None e)
      | inr None => (st, Sent 404 (failure "Agency not found."))
      | inr (Some agency) =>
          (setAgencies st
             (filter (fun a => negb (Agency._id a =? Agency._id agency)%N)
                     (agencies st)),
           Sent 200
             (obj [("success", Some (JBool true));
                   ("message", Some (JStr "Agency deleted successfully."))]))
      end
  end.

End Handlers.
End Catalogue.

(** ** controllers/agencyController.js *)

Module AgencyController.
Import Report Mongoose Query.

Section Handlers.
Context {L : Libs}.

(** [Agency.findOne({ users: id })] *)
Definition agencyOfUser (id : ObjectId) (st : Store) : option Agency.t :=
  find (fun a => existsb (N.eqb id) (Agency.users a)) (agencies st).

Definition getAgencyReports (env : Env) (req : Request) (st : Store)
  : Store * Response :=
  let q := query req in
  let p := match q_page q with Some n => n | None => 1%N end in
  let limit := match q_limit q with Some n => n | None => 10%N end in
  let keyword := match q_keyword q with Some k => k | None => "" end in
  match user req with
  | None => (st, Failed None typeError)
  | Some u =>
    if negb (u_role u =? "agency") then
      (st, errorResponse "Access denied: Not an agency user" 403)
    else
      match agencyOfUser (u_id u) st with
      | None => (st, errorResponse "No agency linked to this user." 404)
      | Some agency =>
          if negb (regexValid keyword) then (st, Failed None regexError)
          else
          let selected :=
            filter (fun r =>
                      match agencyAssigned r with
                      | Some a => (a =? Agency._id agency)%N
                      | None => false
                      end && matches keyword (q_status q) r) (reports st) in
          let total := N.of_nat (List.length selected) in
          match page p limit selected with
          | inl e => (st, Failed None e)
          | inr rs =>
              let docs :=
                map (fun r => populateAgency (Some ["name"]) st
                                (populateCategory (Some ["name"]) st
                                   (loaded false r))) rs in
              (st, Sent 200
                     (obj [("success", Some (JBool true));
                           ("agency", Some (JStr (Agency.name agency)));
                           ("currentPage", Some (JNum p));
                           ("totalPages", Some (totalPages total limit));
                           ("totalReports", Some (JNum total));
                           ("count",
                            Some (JNum (N.of_nat (List.length docs))));
                           ("data", Some (JArr (map toJSON docs)))]))
          end
      end
  end.

(** [Report.findOne({ _id: reportId, agencyAssigned: agency._id })]; a
    condition whose value is [undefined] is dropped from the filter. *)
Definition getAgencyReportById (env : Env) (req : Request) (st : Store)
  : Store * Response :=
  let reportId := params_id req in
  match user req with
  | None => (st, Failed None typeError)
  | Some u =>
      match agencyOfUser (u_id u) st with
      | None =>
          (st, errorResponse "You are not associated with any agency" 403)
      | Some agency =>
          match reportId with
          | PMalformed _ => (st, Failed None castError)
          | _ =>
              match find (fun r =>
                            match reportId with
                            | POid id => (_id r =? id)%N
                            | _ => true
                            end
                            && match agencyAssigned r with
                               | Some a => (a =? Agency._id agency)%N
                               | None => false
                               end) (reports st) with
              | Some r =>
                  let report :=
                    populateAgency (Some ["name"; "email"; "phone"]) st
                      (populateCategory (Some ["name"]) st
                         (loaded false r)) in
                  (st, Sent 200
                         (obj [("success", Some (JBool true));
                               ("data", Some (toJSON report))]))
              | None =>
                  (st, errorResponse
                         "Report not found or not assigned to your agency"
                         404)
              end
          end
      end
  end.

(** The [author] key of the pushed comment is not a path of the schema
    and is dropped. *)
Definition addAgencyMessage (env : Env) (req : Request) (st : Store)
  : Store * Response :=
  let message := b_message (body req) in
  match reportById (params_reportId req) st with
  | inl e => (st, Failed None e)
  | inr None => (st, errorResponse "Report not found." 404)
  | inr (Some r) =>
      let report := populateAgency (Some ["name"]) st (loaded false r) in
      if negb (truthy message) then
        (st, errorResponse "Message content is required." 400)
      else
        match user req with
        | None => (st, Failed None typeError)
        | Some u =>
            match agencyOfUser (u_id u) st with
            | None => (st, errorResponse "Agency not found for this user." 404)
            | Some agency =>
                if match lookupAgency st (agencyAssigned r) with
                   | Some a => negb (Agency._id a =? Agency._id agency)%N
                   | None => true
                   end
                then
                  (st, errorResponse
                         "Unauthorized: This report is not assigned to your agency."
                         403)
                else
                  let report :=
                    withFields report
                      (pushComment
                         {| c_user := None; role := "agency";
                            Report.message := ReporterController.strOf message;
                            c_createdAt := now env |} (fields report)) in
                  match save env report st with
                  | (st, inl e) => (st, Failed None e)
                  | (st, inr report) =>
                      let st :=
                        logAudit
                          {| AuditLog.action := "REPORT_UPDATED_BY_AGENCY";
                             AuditLog.description :=
                               "Agency (" ++ Agency.name agency
                               ++ ") added message to case "
                               ++ ReporterController.caseIDText (fields report);
                             AuditLog.user := Some (u_id u);
                             AuditLog.targetReport :=
                               Some (_id (fields report));
                             AuditLog.ipAddress := ip req;
                             AuditLog.createdAt := now env |} st in
                      (st, Sent 201
                             (obj [("success", Some (JBool true));
                                   ("message",
                                    Some (JStr "Agency message added successfully."));
                                   ("data",
                                    Some (JArr (map commentJson
                                            (comments (fields report)))))]))
                  end
            end
        end
  end.

(** [req.user?.id] is the hex string of the user's own [_id]; it is
    compared with the hex string of [report.agencyAssigned]. *)
Definition updateAgencyReportStatus (env : Env) (req : Request) (st : Store)
  : Store * Response :=
  let reportId := params_id req in
  let status := b_status (body req) in
  let agencyId := option_map u_id (user req) in
  if negb (truthy status) then
    (st, thrown (Some 400%N) "Status is required")
  else
    match reportById reportId st with
    | inl e => (st, Failed None e)
    | inr None => (st, thrown (Some 404%N) "Report not found")
    | inr (Some r) =>
        if match agencyAssigned r, agencyId with
           | Some a, Some u => negb (a =? u)%N
           | _, _ => true
           end
        then
          (st, thrown (Some 403%N)
                 "You are not authorized to update this report")
        else
          let report :=
            setStatus (ReporterController.strOf status) (loaded false r) in
          match save env report st with
          | (st, inl e) => (st, Failed None e)
          | (st, inr report) =>
              (st, Sent 200
                     (obj [("success", Some (JBool true));
                           ("message", Some (JStr "Status updated successfully"));
                           ("data", Some (toJSON report))]))
          end
    end.

End Handlers.
End AgencyController.

(** ** The API as a transition system *)

Module Api.

Inductive Handler :=
| CreateReport
| GetReportByPassword
| AddWhistleblowerMessage
| GetUnassignedReports
| GetAllReports
| GetReportById
| UpdateReportCategory
| AssignReportToAgency
| UpdateReportStatus
| AddAdminMessage
| CreateCategory
| CreateAgency
| DeleteCategory
| DeleteAgency
| GetAgencyReports
| GetAgencyReportById
| AddAgencyMessage
| UpdateAgencyReportStatus.

(** What happens to the store: a handler runs on a request, the server
    starts and seeds the defaults, or user management links a user account
    to an agency ([agency.users.push(newUser._id)] in [createUser]; the
    user collection itself is not modelled). *)
Inductive Event :=
| Call (h : Handler) (env : Env) (req : Request)
| Seed
| LinkUser (agency user : ObjectId).

Section Run.
Context {L : Libs}.

Definition invoke (h : Handler) (env : Env) (req : Request) (st : Store)
  : Store * Response :=
  match h with
  | CreateReport => ReporterController.createReport env req st
  | GetReportByPassword =>
      fst (ReporterController.getReportByPassword env req st)
  | AddWhistleblowerMessage =>
      fst (ReporterController.addWhistleblowerMessage env req st)
  | GetUnassignedReports => AdminController.getUnassignedReports env req st
  | GetAllReports => AdminController.getAllReports env req st
  | GetReportById => AdminController.getReportById env req st
  | UpdateReportCategory => AdminController.updateReportCategory env req st
  | AssignReportToAgency => AdminController.assignReportToAgency env req st
  | UpdateReportStatus => AdminController.updateReportStatus env req st
  | AddAdminMessage => AdminController.addAdminMessage env req st
  | CreateCategory => Catalogue.createCategory env req st
  | CreateAgency => Catalogue.createAgency env req st
  | DeleteCategory => Catalogue.deleteCategory env req st
  | DeleteAgency => Catalogue.deleteAgency env req st
  | GetAgencyReports => AgencyController.getAgencyReports env req st
  | GetAgencyReportById => AgencyController.getAgencyReportById env req st
  | AddAgencyMessage => AgencyController.addAgencyMessage env req st
  | UpdateAgencyReportStatus =>
      AgencyController.updateAgencyReportStatus env req st
  end.

Definition linkUser (agency user : ObjectId) (st : Store) : Store :=
  setAgencies st
    (map (fun a =>
            if (Agency._id a =? agency)%N then
              {| Agency._id := Agency._id a; Agency.name := Agency.name a;
                 Agency.email := Agency.email a;
                 Agency.phone := Agency.phone a;
                 Agency.description := Agency.description a;
                 Agency.users := (Agency.users a ++ [user])%list;
                 Agency.active := Agency.active a |}
            else a) (agencies st)).

Definition step (e : Event) (st : Store) : Store :=
  match e with
  | Call h env req => fst (invoke h env req st)
  | Seed => Catalogue.seedDefaults st
  | LinkUser a u => linkUser a u st
  end.

Definition run (es : list Event) (st : Store) : Store :=
  fold_left (fun s e => step e s) es st.

(** The stores the running system can be in. *)
Definition reachable (st : Store) : Prop :=
  exists es, st = run es emptyStore.

End Run.
End Api.

(** ** Routes: routes/*.js, middleware/auth.js, middleware/multer.js *)

Module Routes.
Import Api.

Inductive Route :=
| PostReports                (* POST   /api/reports *)
| PostFollowUp               (* POST   /api/reports/follow-up *)
| PostMessage                (* POST   /api/reports/message *)
| GetAdminReports            (* GET    /api/admin/reports *)
| GetAdminUnassigned         (* GET    /api/admin/reports/unassigned *)
| PostAdminCategories        (* POST   /api/admin/categories *)
| PostAdminAgencies          (* POST   /api/admin/agencies *)
| GetAdminReport             (* GET    /api/admin/reports/:id *)
| PatchAdminCategory         (* PATCH  /api/admin/reports/:id/category *)
| PatchAdminAssign           (* PATCH  /api/admin/reports/:id/assign *)
| PatchAdminStatus           (* PATCH  /api/admin/reports/:id/status *)
| PostAdminMessages          (* POST   /api/admin/reports/:reportId/messages *)
| DeleteAdminCategory        (* DELETE /api/admin/categories/:id *)
| DeleteAdminAgency          (* DELETE /api/admin/agencies/:id *)
| GetAgencyRoot              (* GET    /api/agency/ *)
| GetAgencyId                (* GET    /api/agency/:id *)
| PostAgencyMessages         (* POST   /api/agency/:reportId/messages *)
| PatchAgencyStatus.         (* PATCH  /api/agency/:reportId/status *)

(** An incoming request.  [protectResult] is what the [protect] middleware
    arrives at from the Authorization header: the error it passes on, or the
    active user it attaches as [req.user]. *)
Record HttpRequest := {
  pathParam : param;
  h_body : Body;
  h_query : Query;
  uploads : list File;
  protectResult : Err + User;
  h_ip : value
}.

(** The name a route pattern gives to its path parameter. *)
Inductive Binding := NoParam | AsId | AsReportId.

Definition request (b : Binding) (u : option User) (hr : HttpRequest)
  : Request :=
  {| params_id := match b with AsId => pathParam hr | _ => PUndefined end;
     params_reportId :=
       match b with AsReportId => pathParam hr | _ => PUndefined end;
     body := h_body hr; query := h_query hr; files := uploads hr;
     user := u; ip := h_ip hr |}.

Definition allowedTypes : list string :=
  ["image/png"; "image/jpg"; "image/jpeg"; "image/gif"; "image/webp";
   "application/pdf"; "application/msword";
   "application/vnd.openxmlformats-officedocument.wordprocessingml.document";
   "video/mp4"; "video/mpeg"; "video/ogg"; "video/webm"; "video/quicktime";
   "video/x-msvideo"; "video/x-matroska"].

(** [new MulterError("LIMIT_UNEXPECTED_FILE", field)] *)
Definition unexpectedFile : Err :=
  {| errName := "MulterError"; errMessage := "Unexpected field";
     statusCode := None |}.

(** The file filter hands the bare string to its callback: what reaches
    the error middleware is that string, which has neither a name nor a
    status code. *)
Definition notAllowed : Err :=
  {| errName := ""; errMessage := "Error: File type not allowed!";
     statusCode := None |}.

(** [upload.array("evidenceFiles", 5)] with the file filter, file by file
    in the order of the request, [left] files of the field still being
    accepted: multer counts the file first and runs the filter on it
    afterwards; the first error ends the upload. *)
Fixpoint uploadFiles (left : nat) (fs : list File) {struct fs}
  : option Err :=
  match fs with
  | [] => None
  | f :: rest =>
      match left with
      | O => Some unexpectedFile
      | S left' =>
          if includes allowedTypes (mimetype f) then uploadFiles left' rest
          else Some notAllowed
      end
  end.

Definition upload (fs : list File) : option Err := uploadFiles 5 fs.

Section Serve.
Context {L : Libs}.

(** [protect] followed by [authorize(role)], then the handler. *)
Definition guarded (role : string) (b : Binding) (h : Handler) (env : Env)
    (hr : HttpRequest) (st : Store) : Store * Response :=
  match protectResult hr with
  | inl e => (st, Failed None e)
  | inr u =>
      if negb (includes [role] (u_role u)) then
        (st, errorResponse
               ("Access denied: '" ++ u_role u ++ "' role not authorized") 403)
      else invoke h env (request b (Some u) hr) st
  end.

Definition uploading (h : Handler) (env : Env) (hr : HttpRequest)
    (st : Store) : Store * Response :=
  match upload (uploads hr) with
  | Some e => (st, Failed None e)
  | None => invoke h env (request NoParam None hr) st
  end.

Definition serve (rt : Route) (env : Env) (hr : HttpRequest) (st : Store)
  : Store * Response :=
  match rt with
  | PostReports => uploading CreateReport env hr st
  | PostFollowUp =>
      invoke GetReportByPassword env (request NoParam None hr) st
  | PostMessage => uploading AddWhistleblowerMessage env hr st
  | GetAdminReports => guarded "admin" NoParam GetAllReports env hr st
  | GetAdminUnassigned =>
      guarded "admin" NoParam GetUnassignedReports env hr st
  | PostAdminCategories => guarded "admin" NoParam CreateCategory env hr st
  | PostAdminAgencies => guarded "admin" NoParam CreateAgency env hr st
  | GetAdminReport => guarded "admin" AsId GetReportById env hr st
  | PatchAdminCategory => guarded "admin" AsId UpdateReportCategory env hr st
  | PatchAdminAssign => guarded "admin" AsId AssignReportToAgency env hr st
  | PatchAdminStatus => guarded "admin" AsId UpdateReportStatus env hr st
  | PostAdminMessages => guarded "admin" AsReportId AddAdminMessage env hr st
  | DeleteAdminCategory => guarded "admin" AsId DeleteCategory env hr st
  | DeleteAdminAgency => guarded "admin" AsId DeleteAgency env hr st
  | GetAgencyRoot => guarded "agency" NoParam GetAgencyReports env hr st
  | GetAgencyId => guarded "agency" AsId GetAgencyReportById env hr st
  | PostAgencyMessages =>
      guarded "agency" AsReportId AddAgencyMessage env hr st
  | PatchAgencyStatus =>
      guarded "agency" AsReportId UpdateAgencyReportStatus env hr st
  end.

End Serve.
End Routes.

(** ** Sample data *)

(** Stand-ins for the hash functions, to evaluate the handlers on concrete
    stores. *)
Module Samples.

(** A digest without collisions and a hash that is compared exactly. *)
Definition plainLibs : Libs :=
  {| sha256hex := fun s => "sha256:" ++ s;
     bcrypt_hash := fun p salt => "$2a$10$" ++ p;
     bcrypt_compare := fun q h => h =? "$2a$10$" ++ q;
     regexValid := fun _ => true;
     regexTest := fun _ _ => true;
     jsRegExpValid := fun _ => true |}.

(** bcrypt through its key.  The key schedule of bcrypt reads the bytes
    of the password followed by a zero byte, again and again from the
    start, until it has the 72 bytes of its key; the hash is a function of
    the salt and of that key, and [bcrypt.compare] hashes the candidate
    with the salt of the hash it is given.  The stand-in keeps the key in
    the place of what the cipher makes of it. *)
Fixpoint keyStream (n : nat) (whole rest : string) : string :=
  match n with
  | O => ""
  | S k =>
      match rest with
      | String c tl => String c (keyStream k whole tl)
      | EmptyString =>
          match whole with
          | String c tl => String c (keyStream k whole tl)
          | EmptyString => ""
          end
      end
  end.

Definition key72 (password : string) : string :=
  let key := password ++ String Ascii.zero "" in
  keyStream 72 key key.

Definition keyedLibs : Libs :=
  {| sha256hex := fun s => "sha256:" ++ s;
     bcrypt_hash := fun p salt => salt ++ key72 p;
     bcrypt_compare := fun q h => h =? substring 0 29 h ++ key72 q;
     regexValid := fun _ => true;
     regexTest := fun _ _ => true;
     jsRegExpValid := fun _ => true |}.

Definition env (t : N) (b1 b2 b3 : byte) : Env :=
  {| now := t; fullYear := 2025; randomBytes3 := (b1, b2, b3);
     mathRandom900 := 23; genSalt := "$2a$10$abcdefghijklmnopqrstuv" |}.

Definition emptyBody : Body :=
  {| b_title := Undefined; b_description := Undefined;
     b_location := Undefined; b_reporterType := Undefined;
     b_reporterName := Undefined; b_reporterEmail := Undefined;
     b_reporterPhone := Undefined; b_password := Undefined;
     b_message := Undefined; b_status := Undefined;
     b_categoryId := PUndefined; b_agencyId := PUndefined;
     b_name := Undefined; b_contactEmail := Undefined;
     b_contactPhone := Undefined |}.

Definition noQuery : Query :=
  {| q_page := None; q_limit := None; q_keyword := None;
     q_status := Undefined |}.

(** What [protect] passes on for a request without a bearer token. *)
Definition tokenMissing : Err :=
  {| errName := "ErrorResponse";
     errMessage := "Not authorized, token missing!";
     statusCode := Some 401%N |}.

Definition requestOf (id : param) (b : Body) (u : option User) : Request :=
  {| params_id := id; params_reportId := id; body := b; query := noQuery;
     files := []; user := u; ip := Str "::1" |}.

(** The scenario of the specification: an anonymous report. *)
Definition streetlight (name : value) : Body :=
  {| b_title := Str "Broken streetlight"; b_description := Str "vandalized";
     b_location := Undefined; b_reporterType := Str "anonymous";
     b_reporterName := name; b_reporterEmail := Undefined;
     b_reporterPhone := Undefined; b_password := Undefined;
     b_message := Undefined; b_status := Undefined;
     b_categoryId := PUndefined; b_agencyId := PUndefined;
     b_name := Undefined; b_contactEmail := Undefined;
     b_contactPhone := Undefined |}.

Definition withPasswordAndMessage (p m : value) : Body :=
  {| b_title := Undefined; b_description := Undefined;
     b_location := Undefined; b_reporterType := Undefined;
     b_reporterName := Undefined; b_reporterEmail := Undefined;
     b_reporterPhone := Undefined; b_password := p;
     b_message := m; b_status := Undefined;
     b_categoryId := PUndefined; b_agencyId := PUndefined;
     b_name := Undefined; b_contactEmail := Undefined;
     b_contactPhone := Undefined |}.

Definition withStatusBody (s : value) : Body :=
  {| b_title := Undefined; b_description := Undefined;
     b_location := Undefined; b_reporterType := Undefined;
     b_reporterName := Undefined; b_reporterEmail := Undefined;
     b_reporterPhone := Undefined; b_password := Undefined;
     b_message := Undefined; b_status := s;
     b_categoryId := PUndefined; b_agencyId := PUndefined;
     b_name := Undefined; b_contactEmail := Undefined;
     b_contactPhone := Undefined |}.

Definition withAgencyBody (a : param) : Body :=
  {| b_title := Undefined; b_description := Undefined;
     b_location := Undefined; b_reporterType := Undefined;
     b_reporterName := Undefined; b_reporterEmail := Undefined;
     b_reporterPhone := Undefined; b_password := Undefined;
     b_message := Undefined; b_status := Undefined;
     b_categoryId := PUndefined; b_agencyId := a;
     b_name := Undefined; b_contactEmail := Undefined;
     b_contactPhone := Undefined |}.

(** The server has started and seeded the defaults (ids 0 and 1); one
    anonymous report has been filed (id 2, secret A9F4C2). *)
Definition seeded : Store := Catalogue.seedDefaults emptyStore.

Definition createStreetlight : Api.Event :=
  Api.Call Api.CreateReport (env 1000 xa9 xf4 xc2)
    (requestOf PUndefined (streetlight Undefined) None).

(** A second anonymous report (id 3, secret 1B2C3D). *)
Definition createSecond : Api.Event :=
  Api.Call Api.CreateReport (env 1500 x1b x2c x3d)
    (requestOf PUndefined (streetlight Undefined) None).

(** The administrator deletes the category with id 0, the seeded
    "uncategorised" record. *)
Definition deleteSentinelCategory : Api.Event :=
  Api.Call Api.DeleteCategory (env 500 x00 x00 x00)
    (requestOf (POid 0%N) emptyBody
       (Some {| u_id := 9%N; u_role := "admin" |})).

(** A status update of report [id] by the user with id [u]. *)
Definition statusUpdate (id : ObjectId) (s : string) (u : ObjectId)
    (role : string) : Request :=
  requestOf (POid id) (withStatusBody (Str s))
    (Some {| u_id := u; u_role := role |}).

(** The administrator (user 9) moves report 2 to status [s] at time [t]. *)
Definition adminSetsStatus (t : N) (s : string) : Api.Event :=
  Api.Call Api.UpdateReportStatus (env t x00 x00 x00)
    (statusUpdate 2%N s 9%N "admin").

(** The administrator adds a message to report 2 at time [t]. *)
Definition adminWrites (t : N) : Api.Event :=
  Api.Call Api.AddAdminMessage (env t x00 x00 x00)
    (requestOf (POid 2%N) (withPasswordAndMessage Undefined (Str "noted"))
       (Some {| u_id := 9%N; u_role := "admin" |})).

(** A follow-up or a message with the candidate secret [p]. *)
Definition withSecretOf (p : string) (m : value) : Request :=
  requestOf PUndefined (withPasswordAndMessage (Str p) m) None.

(** A request without a token, as the public routes receive it. *)
Definition publicRequest (b : Body) : Routes.HttpRequest :=
  {| Routes.pathParam := PUndefined; Routes.h_body := b;
     Routes.h_query := noQuery; Routes.uploads := [];
     Routes.protectResult := inl tokenMissing; Routes.h_ip := Str "::1" |}.

(** A request of the administrator (user 9) on the document [p]. *)
Definition adminRequest (p : param) (b : Body) : Routes.HttpRequest :=
  {| Routes.pathParam := p; Routes.h_body := b;
     Routes.h_query := noQuery; Routes.uploads := [];
     Routes.protectResult := inr {| u_id := 9%N; u_role := "admin" |};
     Routes.h_ip := Str "::1" |}.

End Samples.

(** ** Vocabulary of the properties *)

Module Spec.
Import Report Mongoose Api.

(** Lookup in an object literal, before the [undefined] entries are
    dropped. *)
Fixpoint lit (k : string) (l : list (string * option json)) : option json :=
  match l with
  | [] => None
  | (k', Some v) :: rest => if k' =? k then Some v else lit k rest
  | (_, None) :: rest => lit k rest
  end.

(** The representations a response carries: its [data], element by element
    when [data] is an array. *)
Definition views (resp : Response) : list json :=
  match resp with
  | Sent _ body =>
      match get "data" body with
      | Some (JArr l) => l
      | Some j => [j]
      | None => []
      end
  | Failed _ _ => []
  end.

(** The secret a response hands out, with the report it belongs to. *)
Definition issuedBy (resp : Response) : option (ObjectId * string) :=
  match resp with
  | Sent _ body =>
      match get "casePassword" body, get "data" body with
      | Some (JStr p), Some d =>
          match get "_id" d with
          | Some (JOid id) => Some (id, p)
          | _ => None
          end
      | _, _ => None
      end
  | Failed _ _ => None
  end.

Definition optList {A} (o : option A) : list A :=
  match o with Some a => [a] | None => [] end.

(** A response is a rejection: a 4xx status and the failure body, without
    any data. *)
Definition rejection (resp : Response) : Prop :=
  exists code msg,
    resp = Sent code (failure msg) /\ (400 <= code < 500)%N.

Definition identityKeys : list string :=
  ["reporterName"; "reporterEmail"; "reporterPhone"].

Definition anonymousView (v : json) : Prop :=
  get "reporterType" v = Some (JStr "anonymous").

(** A representation contains one of the identity fields. *)
Definition hasIdentity (v : json) : bool :=
  existsb (fun k => has k v) identityKeys.

(** The claim of anonymity as it is worded: no representation of an
    anonymous report contains an identity field. *)
Definition anonymityPreserved (resp : Response) : Prop :=
  Forall (fun v => anonymousView v -> hasIdentity v = false) (views resp).

(** The response shows the secret [p]. *)
Definition reveals (p : string) (resp : Response) : Prop :=
  match resp with
  | Sent _ body =>
      get "casePassword" body = Some (JStr p)
      \/ exists v, In v (views resp)
                   /\ get "generatedPassword" v = Some (JStr p)
  | Failed _ _ => False
  end.

(** The response carries a secret, a hash or a lookup key at all. *)
Definition carriesCredential (resp : Response) : bool :=
  match resp with
  | Sent _ body =>
      has "casePassword" body
      || existsb (fun v => has "generatedPassword" v || has "password" v
                           || has "passwordKey" v) (views resp)
  | Failed _ _ => false
  end.

(** The response of a successful follow-up on report [r]. *)
Definition retrieved (st : Store) (r : Report.t) : Response :=
  Sent 200
    (obj [("success", Some (JBool true));
          ("message", Some (JStr "Report retrieved successfully."));
          ("data",
           Some (getPublicData
                   (populateAgency (Some ["name"; "description"]) st
                      (populateCategory (Some ["name"; "description"]) st
                         (loaded true r)))))]).

(** The caller's own user id is the id stored in [agencyAssigned]. *)
Definition callerIsAssignee (r : Report.t) (req : Request) : Prop :=
  match agencyAssigned r, user req with
  | Some a, Some u => a = u_id u
  | _, _ => False
  end.

Definition identityFalsy (r : Report.t) : Prop :=
  truthy (reporterName r) = false
  /\ truthy (reporterEmail r) = false
  /\ truthy (reporterPhone r) = false.

Definition statusOf (id : ObjectId) (st : Store) : option string :=
  option_map status (findById id st).

Definition historyOf (id : ObjectId) (st : Store) : list HistoryEntry :=
  match findById id st with Some r => history r | None => [] end.

Definition eventNow (e : Event) : N :=
  match e with Call _ env _ => now env | _ => 0%N end.

Section Traces.
Context {L : Libs}.

(** The secret a step hands out. *)
Definition stepIssue (e : Event) (st : Store) : option (ObjectId * string) :=
  match e with
  | Call h env req => issuedBy (snd (invoke h env req st))
  | _ => None
  end.

(** The secrets handed out along a run, oldest first. *)
Fixpoint issued (es : list Event) (st : Store) : list (ObjectId * string) :=
  match es with
  | [] => []
  | e :: rest => (optList (stepIssue e st) ++ issued rest (step e st))%list
  end.

(** The status changes of report [id] along a run, each as the history
    entry that records it: the new status and the time of the request. *)
Fixpoint statusChanges (id : ObjectId) (es : list Event) (st : Store)
  : list HistoryEntry :=
  match es with
  | [] => []
  | e :: rest =>
      let st' := step e st in
      (match statusOf id st, statusOf id st' with
       | Some s, Some s' =>
           if s =? s' then []
           else [{| h_status := s'; updatedBy := None;
                    h_updatedAt := eventNow e |}]
       | _, _ => []
       end ++ statusChanges id rest st')%list
  end.

(** The claim of the status history as it is worded: the history of a
    created report counts one entry for the first save and one for every
    status change since. *)
Definition historyCountsFromOne (es1 : list Event) (env : Env)
    (req : Request) (es2 : list Event) : Prop :=
  forall st1 out id p,
    ReporterController.createReport env req (run es1 emptyStore)
    = (st1, Sent 201 out) ->
    issuedBy (Sent 201 out) = Some (id, p) ->
    List.length (historyOf id (run es2 st1))
    = 1 + List.length (statusChanges id es2 st1).

(** The claim of the sentinel defaults as it is worded: a created report
    refers to a category and to an agency. *)
Definition sentinelDefaults (st : Store) : Prop :=
  forall env req st' body,
    ReporterController.createReport env req st = (st', Sent 201 body) ->
    exists r, reports st' = (reports st ++ [r])%list
              /\ category r <> None /\ agencyAssigned r <> None.

(** How a stored report may differ after a request by a handler. *)
Record evolves (env : Env) (r r' : Report.t) : Prop := {
  ev_id : _id r' = _id r;
  ev_key : passwordKey r' = passwordKey r;
  ev_hash : password r' = password r;
  ev_type : reporterType r' = reporterType r;
  ev_name : reporterName r' = reporterName r;
  ev_email : reporterEmail r' = reporterEmail r;
  ev_phone : reporterPhone r' = reporterPhone r;
  ev_history :
    history r' =
    (history r ++
       if status r =? status r' then []
       else [{| h_status := status r'; updatedBy := None;
                h_updatedAt := now env |}])%list;
  ev_comments : exists cs, comments r' = (comments r ++ cs)%list;
  ev_evidence : exists es, evidenceFiles r' = (evidenceFiles r ++ es)%list;
  ev_valid : validate r' = true
}.

(** A document loaded from report [r] and changed in memory, ready to be
    saved. *)
Record staged (r : Report.t) (d : Doc) : Prop := {
  sg_old : isNew d = false;
  sg_id : _id (fields d) = _id r;
  sg_key : passwordKey (fields d) = passwordKey r;
  sg_hash : password (fields d) = password r;
  sg_type : reporterType (fields d) = reporterType r;
  sg_name : reporterName (fields d) = reporterName r;
  sg_email : reporterEmail (fields d) = reporterEmail r;
  sg_phone : reporterPhone (fields d) = reporterPhone r;
  sg_history : history (fields d) = history r;
  sg_modified : statusModified d = negb (status r =? status (fields d));
  sg_comments : exists cs, comments (fields d) = (comments r ++ cs)%list;
  sg_evidence :
    exists es, evidenceFiles (fields d) = (evidenceFiles r ++ es)%list
}.

(** A report as [Report.create] stores it. *)
Record minted (env : Env) (st : Store) (r : Report.t) : Prop := {
  mi_id : _id r = nextId st;
  mi_key : passwordKey r = Some (sha256hex (generatePlainPassword env));
  mi_hash :
    password r
    = Some (bcrypt_hash (generatePlainPassword env) (genSalt env));
  mi_unique : duplicateKey r (reports st) = false;
  mi_history : history r = [];
  mi_status : status r = "pending";
  mi_valid : validate r = true;
  mi_anonymous : reporterType r = "anonymous" -> identityFalsy r
}.

(** What a step does to the report collection and to the secrets handed
    out. *)
Inductive effect (env : Env) (st st' : Store)
  : option (ObjectId * string) -> Prop :=
| eff_none :
    reports st' = reports st -> (nextId st <= nextId st')%N ->
    effect env st st' None
| eff_update r r' :
    In r (reports st) -> evolves env r r' ->
    reports st' = replaceById r' (reports st) ->
    nextId st' = nextId st ->
    effect env st st' None
| eff_create r :
    minted env st r ->
    reports st' = (reports st ++ [r])%list ->
    nextId st' = N.succ (nextId st) ->
    effect env st st' (Some (_id r, generatePlainPassword env)).

(** The invariant of the report collection, with the secrets handed out so
    far as ghost state: one secret per report, in order. *)
Record consistent (st : Store) (iss : list (ObjectId * string)) : Prop := {
  co_ids : NoDup (map _id (reports st));
  co_fresh : Forall (fun r => (_id r < nextId st)%N) (reports st);
  co_keys : NoDup (map passwordKey (reports st));
  co_secrets :
    Forall2 (fun r ip =>
               _id r = fst ip
               /\ passwordKey r = Some (sha256hex (snd ip))
               /\ exists s, password r = Some (bcrypt_hash (snd ip) s))
            (reports st) iss;
  co_valid : Forall (fun r => validate r = true) (reports st);
  co_anonymous :
    Forall (fun r => reporterType r = "anonymous" -> identityFalsy r)
           (reports st);
  co_nonempty : Forall (fun ip => snd ip <> "") iss
}.

(** Where a representation in a response comes from.  [public] says
    whether the handler serialises with [getPublicData]; [secret] is the
    plaintext the serialised document holds in memory, if any. *)
Inductive provenance (st : Store) (public : bool) (secret : option string)
    (v : json) : Prop :=
| from_toJSON d :
    In (fields d) (reports st) -> v = toJSON d ->
    provenance st public secret v
| from_getPublicData d :
    public = true ->
    In (fields d) (reports st) -> _plainPassword d = secret ->
    v = getPublicData d -> provenance st public secret v
| from_elsewhere :
    get "reporterType" v = None -> get "generatedPassword" v = None ->
    get "password" v = None -> get "passwordKey" v = None ->
    provenance st public secret v.

End Traces.
End Spec.

(** ** The public scorecard: controllers/reporterController.js *)

Module Scorecard.
Import Report Mongoose.

(** An entry of [agencyMap]. *)
Record Row := {
  agencyId : ObjectId;
  agencyName : string;
  total : N;
  pending : N;
  underReview : N;
  resolved : N;
  closed : N
}.

Definition newRow (a : Agency.t) : Row :=
  {| agencyId := Agency._id a; agencyName := Agency.name a;
     total := 0; pending := 0; underReview := 0; resolved := 0;
     closed := 0 |}.

Definition oneIf (b : bool) : N := if b then 1%N else 0%N.

(** The increments one report with status [s] makes to its agency's
    entry. *)
Definition count (s : string) (row : Row) : Row :=
  {| agencyId := agencyId row; agencyName := agencyName row;
     total := total row + 1;
     pending := pending row + oneIf (s =? "pending");
     underReview := underReview row + oneIf (s =? "under review");
     resolved := resolved row + oneIf (s =? "resolved");
     closed := closed row + oneIf (s =? "closed") |}.

(** The body of the [forEach] for a report whose populated agency is [a]:
    the entry is created if [agencyMap] has none under the agency's id, then
    counted.  An object keeps its string keys in the order of insertion. *)
Fixpoint tally (a : Agency.t) (s : string) (m : list Row) : list Row :=
  match m with
  | [] => [count s (newRow a)]
  | row :: rest =>
      if (agencyId row =? Agency._id a)%N then count s row :: rest
      else row :: tally a s rest
  end.

(** [agencyMap] after the [forEach]; a report whose [agencyAssigned]
    populates to [null] is skipped. *)
Definition agencyMap (st : Store) (rs : list Report.t) : list Row :=
  fold_left (fun m r => match lookupAgency st (agencyAssigned r) with
                        | Some a => tally a (status r) m
                        | None => m
                        end) rs [].

(** [reports.filter(r => r.status === s).length] *)
Definition countStatus (s : string) (rs : list Report.t) : N :=
  N.of_nat (List.length (filter (fun r => status r =? s) rs)).

Definition rowJson (row : Row) : json :=
  obj [("agencyId", Some (JOid (agencyId row)));
       ("agencyName", Some (JStr (agencyName row)));
       ("total", Some (JNum (total row)));
       ("pending", Some (JNum (pending row)));
       ("underReview", Some (JNum (underReview row)));
       ("resolved", Some (JNum (resolved row)));
       ("closed", Some (JNum (closed row)))].

Definition summaryJson (rs : list Report.t) : json :=
  obj [("totalReports", Some (JNum (N.of_nat (List.length rs))));
       ("pending", Some (JNum (countStatus "pending" rs)));
       ("underReview", Some (JNum (countStatus "under review" rs)));
       ("resolved", Some (JNum (countStatus "resolved" rs)));
       ("closed", Some (JNum (countStatus "closed" rs)))].

(** [getPublicScorecard]; the queries of the model do not fail, so the
    [catch] is not reached. *)
Definition getPublicScorecard (env : Env) (req : Request) (st : Store)
  : Store * Response :=
  let reports := reports st in
  match reports with
  | [] =>
      (st, Sent 200
             (obj [("success", Some (JBool true));
                   ("message", Some (JStr "No reports found"));
                   ("summary", Some (JObj []));
                   ("agencies", Some (JArr []))]))
  | _ =>
      let summary := summaryJson reports in
      let agencies := agencyMap st reports in
      (st, Sent 200
             (obj [("success", Some (JBool true));
                   ("summary", Some summary);
                   ("agencies", Some (JArr (map rowJson agencies)))]))
  end.

End Scorecard.

(** ** Vocabulary of the further properties *)

Module Behaviour.
Import Report Mongoose Api Routes Spec.

(** An upper-case hexadecimal digit. *)
Definition upperHexDigit (c : ascii) : bool :=
  let n := N_of_ascii c in
  (((48 <=? n) && (n <=? 57)) || ((65 <=? n) && (n <=? 70)))%N.

Fixpoint allChars (f : ascii -> bool) (s : string) : bool :=
  match s with
  | EmptyString => true
  | String c rest => f c && allChars f rest
  end.

(** The paths of a report that are written when it is created and by no
    handler afterwards. *)
Definition core (r : Report.t) :=
  (_id r, caseID r, reporterType r,
   (reporterName r, reporterEmail r, reporterPhone r),
   (title r, description r, location r),
   (password r, passwordKey r), internalNotes r, createdAt r).

(** The case identifier starts with the prefix of the region. *)
Definition regional (r : Report.t) : Prop :=
  exists rest, caseID r = Some ("LAG-" ++ rest).

(** What [createReport] guarantees of the report it stores. *)
Record created (r : Report.t) : Prop := {
  cr_regional : regional r;
  cr_type : reporterType r = "anonymous" \/ reporterType r = "confidential";
  cr_anonymous : reporterType r = "anonymous" -> identityFalsy r;
  cr_confidential :
    reporterType r = "confidential" ->
    truthy (reporterName r) = true /\ truthy (reporterEmail r) = true;
  cr_status : status r = "pending";
  cr_isResolved : isResolved r = false;
  cr_comments : comments r = [];
  cr_history : history r = []
}.

(** What a request does to the report collection: nothing, one report
    replaced by a report with the same [core], or one [created] report
    appended. *)
Inductive reportsStep (st st' : Store) : Prop :=
| rs_same : reports st' = reports st -> reportsStep st st'
| rs_update r r' :
    In r (reports st) -> core r' = core r ->
    reports st' = replaceById r' (reports st) -> reportsStep st st'
| rs_create r :
    created r ->
    reports st' = (reports st ++ [r])%list -> reportsStep st st'.

(** The schema of a report, path by path. *)
Definition wellFormedReport (r : Report.t) : Prop :=
  In (status r) statuses /\ In (reporterType r) reporterTypes
  /\ title r <> "" /\ description r <> ""
  /\ Forall (fun c => message c <> "") (comments r)
  /\ Forall (fun e => filePath e <> "") (evidenceFiles r).

(** [isResolved] after a status update of the admin controller to [s]. *)
Definition flagAfter (s : string) (b : bool) : bool :=
  if s =? "resolved" then true else if s =? "closed" then b else false.

(** Status updates of the admin controller, one after the other. *)
Definition statusCalls (l : list (Env * Request)) : list Event :=
  map (fun p => Call UpdateReportStatus (fst p) (snd p)) l.

Definition requestedStatus (p : Env * Request) : string :=
  ReporterController.strOf (b_status (body (snd p))).

(** Newest first. *)
Definition newestFirst (rs : list Report.t) : Prop :=
  StronglySorted (fun a b => (createdAt b <= createdAt a)%N) rs.


(** The page, the limit and the keyword of a listing, with the defaults of
    the handlers. *)
Definition pageOf (req : Request) : N :=
  match q_page (query req) with Some n => n | None => 1%N end.

Definition limitOf (req : Request) : N :=
  match q_limit (query req) with Some n => n | None => 10%N end.

Definition keywordOf (req : Request) : string :=
  match q_keyword (query req) with Some k => k | None => "" end.

(** A report as the listings show it. *)
Definition listed (st : Store) (r : Report.t) : json :=
  toJSON (populateAgency (Some ["name"]) st
            (populateCategory (Some ["name"]) st (loaded false r))).

(** A representation of report [id]. *)
Definition showsReport (id : ObjectId) (v : json) : Prop :=
  get "_id" v = Some (JOid id) /\ get "reporterType" v <> None.

(** The routes of routes/adminRoutes.js. *)
Definition adminRoute (rt : Route) : bool :=
  match rt with
  | GetAdminReports | GetAdminUnassigned | PostAdminCategories
  | PostAdminAgencies | GetAdminReport | PatchAdminCategory
  | PatchAdminAssign | PatchAdminStatus | PostAdminMessages
  | DeleteAdminCategory | DeleteAdminAgency => true
  | _ => false
  end.

(** Who a route shows report [id] to: the reporter who has just filed it,
    the holder of a password that selects the report and that bcrypt
    accepts, an administrator, or a user of the agency the report is
    assigned to. *)
Definition mayRead {L : Libs} (rt : Route) (hr : HttpRequest) (st : Store)
    (id : ObjectId) : Prop :=
  match rt with
  | PostReports => id = nextId st
  | PostFollowUp =>
      let candidate := ReporterController.strOf (b_password (h_body hr)) in
      exists r h,
        In r (reports st) /\ _id r = id
        /\ passwordKey r = Some (sha256hex candidate)
        /\ password r = Some h /\ bcrypt_compare candidate h = true
  | PostMessage => False
  | _ =>
      exists u,
        protectResult hr = inr u
        /\ if adminRoute rt then u_role u = "admin"
           else u_role u = "agency"
                /\ exists a r,
                     AgencyController.agencyOfUser (u_id u) st = Some a
                     /\ In r (reports st) /\ _id r = id
                     /\ agencyAssigned r = Some (Agency._id a)
  end.

(** The number of reports that satisfy [f]. *)
Definition countWhere (f : Report.t -> bool) (rs : list Report.t) : N :=
  N.of_nat (List.length (filter f rs)).

(** The [agencyAssigned] of the report populates to the agency [x]. *)
Definition populatedAs (st : Store) (x : ObjectId) (r : Report.t) : bool :=
  match lookupAgency st (agencyAssigned r) with
  | Some a => (Agency._id a =? x)%N
  | None => false
  end.

(** The entry of the scorecard for agency [x]. *)
Definition rowOf (x : ObjectId) (m : list Scorecard.Row)
  : option Scorecard.Row :=
  find (fun row => (Scorecard.agencyId row =? x)%N) m.

(** An entry of the scorecard counts the reports [rs] of agency [x], in
    all and status by status, under the name of the agency. *)
Definition tallies (st : Store) (x : ObjectId) (rs : list Report.t)
    (row : Scorecard.Row) : Prop :=
  Scorecard.agencyId row = x
  /\ (exists a, lookupAgency st (Some x) = Some a
                /\ Scorecard.agencyName row = Agency.name a)
  /\ Scorecard.total row = countWhere (populatedAs st x) rs
  /\ Scorecard.pending row
     = countWhere (fun r => populatedAs st x r && (status r =? "pending")) rs
  /\ Scorecard.underReview row
     = countWhere (fun r => populatedAs st x r
                           && (status r =? "under review")) rs
  /\ Scorecard.resolved row
     = countWhere (fun r => populatedAs st x r && (status r =? "resolved")) rs
  /\ Scorecard.closed row
     = countWhere (fun r => populatedAs st x r && (status r =? "closed")) rs.

(** The response is a 2xx sent by the handler. *)
Definition succeeded (resp : Response) : bool :=
  match resp with
  | Sent code _ => ((200 <=? code) && (code <? 300))%N
  | Failed _ _ => false
  end.

(** The action under which a handler writes to the audit log, if it
    does. *)
Definition auditedAs (h : Handler) : option string :=
  match h with
  | CreateReport => Some "REPORT_CREATED"
  | AddWhistleblowerMessage => Some "REPORT_UPDATED_BY_REPORTER"
  | UpdateReportCategory => Some "CATEGORY_ASSIGNED"
  | AssignReportToAgency => Some "AGENCY_ASSIGNED"
  | UpdateReportStatus => Some "STATUS_UPDATED"
  | AddAdminMessage => Some "REPORT_UPDATED_BY_ADMIN"
  | AddAgencyMessage => Some "REPORT_UPDATED_BY_AGENCY"
  | CreateCategory => Some "CATEGORY_CREATED"
  | CreateAgency => Some "AGENCY_CREATED"
  | _ => None
  end.

(** The agency that stands for "not assigned yet". *)
Definition defaultAgency (st : Store) : option Agency.t :=
  find (fun a => Agency.name a =? "unassigned") (agencies st).

(** Report [id] is in the listing of the unassigned reports. *)
Definition queued (env : Env) (req : Request) (st : Store) (id : ObjectId)
  : Prop :=
  exists v,
    In v (views (snd (AdminController.getUnassignedReports env req st)))
    /\ get "_id" v = Some (JOid id).

(** The case identifier the first [pre("save")] hook composes for a new
    report in [st]: the year, the running number and the random suffix. *)
Definition nextCaseID (env : Env) (st : Store) : string :=
  let currentYear := fullYear env in
  let count := countCaseIDs currentYear st in
  let nextNumber := padStart0 5 (toString (count + 1)) in
  let randomSuffix := (100 + mathRandom900 env mod 900)%N in
  "LAG-" ++ toString currentYear ++ "-" ++ nextNumber ++ "-"
  ++ toString randomSuffix.

(** A submission that passes the checks of [createReport] and the
    validation of the schema: a title and a description, one of the two
    reporter types with the identity fields its check asks for, and
    uploads that carry a location. *)
Definition acceptable (req : Request) : Prop :=
  truthy (b_title (body req)) = true
  /\ truthy (b_description (body req)) = true
  /\ ((b_reporterType (body req) = Str "anonymous"
       /\ truthy (b_reporterName (body req)) = false
       /\ truthy (b_reporterEmail (body req)) = false
       /\ truthy (b_reporterPhone (body req)) = false)
      \/ (b_reporterType (body req) = Str "confidential"
          /\ truthy (b_reporterName (body req)) = true
          /\ truthy (b_reporterEmail (body req)) = true))
  /\ Forall (fun f => f_location f <> "") (files req).

(** The case identifier, the lookup key and the hash generated for a new
    report belong to no stored report: the unique indexes of the schema
    accept the report. *)
Definition unused {L : Libs} (env : Env) (st : Store) : Prop :=
  ~ In (Some (nextCaseID env st)) (map caseID (reports st))
  /\ ~ In (Some (sha256hex (generatePlainPassword env)))
          (map passwordKey (reports st))
  /\ ~ In (Some (bcrypt_hash (generatePlainPassword env) (genSalt env)))
          (map password (reports st)).

(** The environment in which [crypto.randomBytes(3)] returns [b]. *)
Definition drawing (b : byte * byte * byte) (env : Env) : Env :=
  {| now := now env; fullYear := fullYear env; randomBytes3 := b;
     mathRandom900 := mathRandom900 env; genSalt := genSalt env |}.

End Behaviour.

(** * Properties *)

(** ** Objects *)

Module JsFacts.
Import Spec.

Lemma get_obj k l : get k (obj l) = lit k l.
Proof.
  unfold obj; simpl.
  induction l as [|[k' [v|]] l IH]; simpl; auto.
  destruct (k' =? k); auto.
Qed.

Lemma lit_skip k k' v l : (k' =? k) = false -> lit k ((k', v) :: l) = lit k l.
Proof. intros H; simpl; destruct v; auto; rewrite H; auto. Qed.

Lemma lit_hit k v l : lit k ((k, Some v) :: l) = Some v.
Proof. simpl; rewrite String.eqb_refl; auto. Qed.

Lemma lit_absent k l :
  forallb (fun p => negb (fst p =? k)) l = true -> lit k l = None.
Proof.
  induction l as [|[k' [v|]] l IH]; simpl; auto; intros H;
    apply andb_prop in H as [H1 H2]; auto.
  apply negb_true_iff in H1; rewrite H1; auto.
Qed.

Lemma assoc_filter k k' kv :
  assoc k (filter (fun p => negb (fst p =? k')) kv)
  = if k =? k' then None else assoc k kv.
Proof.
  induction kv as [|[k0 v] kv IH]; simpl.
  - destruct (k =? k'); auto.
  - destruct (k0 =? k') eqn:E0; simpl.
    + rewrite IH. destruct (k =? k') eqn:E; auto.
      apply String.eqb_eq in E0; subst k0.
      rewrite String.eqb_sym, E; auto.
    + rewrite IH. destruct (k0 =? k) eqn:E1; auto.
      apply String.eqb_eq in E1; subst k0. rewrite E0; auto.
Qed.

Lemma get_del k k' j :
  get k (del k' j) = if k =? k' then None else get k j.
Proof.
  destruct j; simpl; try (destruct (k =? k'); reflexivity).
  apply assoc_filter.
Qed.

Lemma get_del_obj k k' l :
  get k (del k' (obj l)) = if k =? k' then None else lit k l.
Proof. rewrite get_del, get_obj; auto. Qed.

Lemma assoc_app k kv kv' :
  assoc k (kv ++ kv') =
  match assoc k kv with Some v => Some v | None => assoc k kv' end.
Proof.
  induction kv as [|[k0 v] kv IH]; simpl; auto.
  destruct (k0 =? k); auto.
Qed.

Lemma del_obj k l : exists l', del k (obj l) = obj l'
  /\ forall k0, lit k0 l' = if k0 =? k then None else lit k0 l.
Proof.
  exists (filter (fun p => negb (fst p =? k)) l). split.
  - unfold obj, del. f_equal.
    induction l as [|[k' [v|]] l IH]; simpl; auto.
    + destruct (k' =? k); simpl; rewrite IH; auto.
    + destruct (k' =? k); simpl; auto.
  - intros k0. induction l as [|[k' [v|]] l IH]; simpl.
    + destruct (k0 =? k); auto.
    + destruct (k' =? k) eqn:E; simpl.
      * rewrite IH. destruct (k0 =? k) eqn:E0; auto.
        apply String.eqb_eq in E; subst k'.
        rewrite String.eqb_sym, E0; auto.
      * rewrite IH. destruct (k' =? k0) eqn:E1; auto.
        apply String.eqb_eq in E1; subst k'. rewrite E; auto.
    + destruct (k' =? k) eqn:E; simpl; auto.
Qed.

Lemma has_get k j : has k j = false <-> get k j = None.
Proof. unfold has; destruct (get k j); split; congruence. Qed.

End JsFacts.

(** ** Serialisation of a report *)

Module ViewFacts.
Import Report Mongoose Spec JsFacts.

Ltac lit_walk :=
  repeat (rewrite lit_skip by reflexivity);
  try (rewrite lit_hit);
  try (apply lit_absent; reflexivity).

Lemma toObject_id d : get "_id" (toObject d) = Some (JOid (_id (fields d))).
Proof. unfold toObject; rewrite get_obj; lit_walk; auto. Qed.

Lemma toObject_reporterType d :
  get "reporterType" (toObject d) = Some (JStr (reporterType (fields d))).
Proof. unfold toObject; rewrite get_obj; lit_walk; auto. Qed.

Lemma lit_optional k (o : option json) l :
  lit k l = None -> lit k ((k, o) :: l) = o.
Proof. intros H; destruct o; simpl; auto; rewrite String.eqb_refl; auto. Qed.

Lemma toObject_reporterName d :
  get "reporterName" (toObject d) = ofValue (reporterName (fields d)).
Proof.
  unfold toObject; rewrite get_obj; lit_walk.
  apply lit_optional; lit_walk.
Qed.

Lemma toObject_reporterEmail d :
  get "reporterEmail" (toObject d) = ofValue (reporterEmail (fields d)).
Proof.
  unfold toObject; rewrite get_obj; lit_walk.
  apply lit_optional; lit_walk.
Qed.

Lemma toObject_reporterPhone d :
  get "reporterPhone" (toObject d) = ofValue (reporterPhone (fields d)).
Proof.
  unfold toObject; rewrite get_obj; lit_walk.
  apply lit_optional; lit_walk.
Qed.

Lemma toObject_generatedPassword d :
  get "generatedPassword" (toObject d) = None.
Proof. unfold toObject; rewrite get_obj; lit_walk. Qed.

Lemma toObject_is_object d : exists kv, toObject d = JObj kv.
Proof. unfold toObject, obj; eauto. Qed.

(** What [getPublicData] keeps and what it removes. *)
Lemma getPublicData_get d k :
  get k (getPublicData d) =
  if (k =? "password") || (k =? "passwordKey") || (k =? "__v") then None
  else match get k (toObject d) with
       | Some v => Some v
       | None =>
           match _plainPassword d with
           | Some p =>
               if (p =? "") then None
               else if "generatedPassword" =? k then Some (JStr p) else None
           | None => None
           end
       end.
Proof.
  unfold getPublicData.
  assert (E : forall o, get k (del "__v" (del "passwordKey" (del "password" o)))
                        = if (k =? "password") || (k =? "passwordKey")
                             || (k =? "__v") then None else get k o).
  { intros o. rewrite !get_del.
    destruct (k =? "__v"), (k =? "passwordKey"), (k =? "password"); auto. }
  destruct (_plainPassword d) as [p|].
  - destruct (p =? "").
    + rewrite E. destruct (_ || _); auto. destruct (get k (toObject d)); auto.
    + destruct (toObject_is_object d) as [kv Ekv]. rewrite Ekv in *.
      unfold del at 1 2 3. unfold put, get. rewrite assoc_app.
      specialize (E (JObj kv)). unfold del, get in E. rewrite E.
      destruct ((k =? "password") || (k =? "passwordKey") || (k =? "__v")) eqn:Ek.
      * cbn [assoc]. destruct ("generatedPassword" =? k) eqn:Eg; auto.
        apply String.eqb_eq in Eg; subst k. discriminate.
      * destruct (assoc k kv); auto.
  - rewrite E. destruct (_ || _); auto. destruct (get k (toObject d)); auto.
Qed.

Lemma match_anonymous {A} (s : string) (a b : A) :
  match s with "anonymous" => a | _ => b end
  = if s =? "anonymous" then a else b.
Proof.
  repeat (destruct s as [|[[] [] [] [] [] [] [] []] s]; try reflexivity).
Qed.

(** What the [toJSON] transform keeps and what it removes. *)
Lemma toJSON_get d k :
  get k (toJSON d) =
  if (k =? "password") || (k =? "passwordKey") || (k =? "__v") then None
  else if (reporterType (fields d) =? "anonymous")
          && ((k =? "reporterName") || (k =? "reporterEmail")
              || (k =? "reporterPhone"))
  then None
  else get k (toObject d).
Proof.
  assert (E : forall k o, get k (del "__v" (del "passwordKey" (del "password" o)))
                        = if (k =? "password") || (k =? "passwordKey")
                             || (k =? "__v") then None else get k o).
  { intros k0 o. rewrite !get_del.
    destruct (k0 =? "__v"), (k0 =? "passwordKey"), (k0 =? "password"); auto. }
  unfold toJSON. cbv zeta.
  set (ret := del "__v" (del "passwordKey" (del "password" (toObject d)))).
  assert (Hrt : get "reporterType" ret
                = Some (JStr (reporterType (fields d)))).
  { unfold ret. rewrite E. apply toObject_reporterType. }
  rewrite Hrt, match_anonymous.
  destruct (reporterType (fields d) =? "anonymous"); cbn [andb].
  - rewrite !get_del. unfold ret. rewrite E.
    destruct (k =? "reporterPhone"), (k =? "reporterEmail"),
      (k =? "reporterName"); cbn [orb];
      destruct ((k =? "password") || (k =? "passwordKey") || (k =? "__v")); auto.
  - unfold ret. apply E.
Qed.

End ViewFacts.

(** ** Saving *)

Module StoreFacts.
Import Report Mongoose Spec.

Section Save.
Context {L : Libs}.

Lemma staged_loaded b r : staged r (loaded b r).
Proof.
  constructor; simpl; auto.
  - rewrite String.eqb_refl; auto.
  - exists []; rewrite app_nil_r; auto.
  - exists []; rewrite app_nil_r; auto.
Qed.

Lemma staged_populateCategory sel st r d :
  staged r d -> staged r (populateCategory sel st d).
Proof. intros []; constructor; simpl; auto. Qed.

Lemma staged_populateAgency sel st r d :
  staged r d -> staged r (populateAgency sel st d).
Proof. intros []; constructor; simpl; auto. Qed.

Lemma staged_withCategory c r d :
  staged r d -> staged r (withFields d (withCategory c (fields d))).
Proof. intros []; constructor; simpl; auto. Qed.

Lemma staged_withAgencyAssigned a r d :
  staged r d -> staged r (withFields d (withAgencyAssigned a (fields d))).
Proof. intros []; constructor; simpl; auto. Qed.

Lemma staged_withIsResolved b r d :
  staged r d -> staged r (withFields d (withIsResolved b (fields d))).
Proof. intros []; constructor; simpl; auto. Qed.

Lemma staged_pushComment c r d :
  staged r d -> staged r (withFields d (pushComment c (fields d))).
Proof.
  intros []; constructor; simpl; auto.
  destruct sg_comments0 as [cs E]. exists (cs ++ [c])%list.
  rewrite E, app_assoc; auto.
Qed.

Lemma staged_pushEvidence es r d :
  staged r d -> staged r (withFields d (pushEvidence es (fields d))).
Proof.
  intros []; constructor; simpl; auto.
  destruct sg_evidence0 as [es0 E]. exists (es0 ++ es)%list.
  rewrite E, app_assoc; auto.
Qed.

Lemma staged_setStatus s r d :
  staged r d -> status (fields d) = status r ->
  staged r (setStatus s d).
Proof.
  intros [] Hs; constructor; simpl; auto.
  rewrite sg_modified0, Hs, String.eqb_refl; auto.
Qed.

Lemma validate_hooks env st d :
  validate (fields (hookHistory env (hookCaseID env st d)))
  = validate (fields d).
Proof.
  unfold hookHistory, hookCaseID.
  destruct (strTruthy (caseID (fields d))); simpl;
    destruct (statusModified d); simpl; auto.
Qed.

(** Saving a staged document replaces the stored report by one that
    [evolves] from it. *)
Lemma save_staged env r d st st' d' :
  staged r d -> save env d st = (st', inr d') ->
  st' = setReports st (replaceById (fields d') (reports st))
  /\ evolves env r (fields d')
  /\ _plainPassword d' = _plainPassword d
  /\ In (fields d') (replaceById (fields d') (reports st)).
Proof.
  intros Hst Hs. unfold save in Hs.
  destruct (validate (fields d)) eqn:Hv; cbn [negb] in Hs; [|discriminate].
  assert (Hp : forall x, isNew x = false -> hookPassword env x = x).
  { intros x Hx. unfold hookPassword. rewrite Hx. reflexivity. }
  assert (Hn : isNew (hookCaseID env st d) = false).
  { unfold hookCaseID. destruct (strTruthy _); simpl; apply Hst. }
  rewrite (Hp _ Hn) in Hs.
  assert (Hn' : isNew (hookHistory env (hookCaseID env st d)) = false).
  { unfold hookHistory. destruct (statusModified _); simpl; auto. }
  rewrite Hn' in Hs.
  destruct (existsb _ _) eqn:Hex; [|discriminate].
  inversion Hs; subst st' d'; clear Hs. cbn [fields persisted _plainPassword].
  split; [reflexivity|]. split; [|split].
  - pose proof (validate_hooks env st d) as Hv'. rewrite Hv in Hv'.
    destruct Hst. unfold hookHistory, hookCaseID in *.
    destruct (strTruthy (caseID (fields d))); simpl in *;
      rewrite sg_modified0 in *;
      destruct (status r =? status (fields d)) eqn:Es; simpl in *;
      constructor; simpl; auto;
      try (rewrite Es; rewrite ?app_nil_r; congruence);
      try (rewrite sg_history0; reflexivity).
  - unfold hookHistory, hookCaseID.
    destruct (strTruthy _); simpl; destruct (statusModified d); auto.
  - apply existsb_exists in Hex as [x [Hin Hx]].
    unfold replaceById. apply in_map_iff. exists x. rewrite Hx. auto.
Qed.

Lemma save_failed_loaded env d st st' e :
  isNew d = false -> save env d st = (st', inl e) -> st' = st.
Proof.
  intros Hn Hs. unfold save in Hs.
  destruct (negb (validate (fields d))); [inversion Hs; auto|].
  assert (Hn1 : isNew (hookHistory env (hookPassword env (hookCaseID env st d)))
                = false).
  { unfold hookHistory, hookPassword, hookCaseID.
    destruct (strTruthy _); simpl; rewrite Hn; simpl;
      destruct (statusModified d); simpl; auto. }
  rewrite Hn1 in Hs. destruct (existsb _ _); inversion Hs; auto.
Qed.

End Save.
End StoreFacts.

(** ** What each handler does to the reports *)

Module HandlerFacts.
Import Report Mongoose Query Spec JsFacts ViewFacts StoreFacts Api.

Section Effects.
Context {L : Libs}.

Lemma generatePlainPassword_nonempty env : generatePlainPassword env <> "".
Proof.
  unfold generatePlainPassword. destruct (randomBytes3 env) as [[b1 b2] b3].
  simpl. discriminate.
Qed.

Lemma generatePlainPassword_length env :
  String.length (generatePlainPassword env) = 6.
Proof.
  unfold generatePlainPassword. destruct (randomBytes3 env) as [[b1 b2] b3].
  reflexivity.
Qed.

Lemma hookCaseID_cases env st d :
  hookCaseID env st d = d
  \/ exists c, hookCaseID env st d = withFields d (withCaseID c (fields d)).
Proof. unfold hookCaseID. destruct (strTruthy _); eauto. Qed.

(** [Report.create] either appends a freshly minted report or leaves the
    reports as they are. *)
Lemma create_result env o st st' res :
  create env o st = (st', res) ->
  (n_reporterType o = "anonymous" ->
   truthy (n_reporterName o) = false /\ truthy (n_reporterEmail o) = false
   /\ truthy (n_reporterPhone o) = false) ->
  nextId st' = N.succ (nextId st)
  /\ categories st' = categories st /\ agencies st' = agencies st
  /\ auditLogs st' = auditLogs st
  /\ match res with
     | inl _ => reports st' = reports st
     | inr d =>
         reports st' = (reports st ++ [fields d])%list
         /\ minted env st (fields d)
         /\ _plainPassword d = Some (generatePlainPassword env)
         /\ withPassword d = true
         /\ category (fields d) = n_category o
         /\ agencyAssigned (fields d) = n_agencyAssigned o
         /\ reporterType (fields d) = n_reporterType o
         /\ reporterName (fields d) = n_reporterName o
         /\ comments (fields d) = []
     end.
Proof.
  unfold create, freshId, save. cbn [fst snd].
  set (st1 := {| reports := reports st; categories := categories st;
                 agencies := agencies st; auditLogs := auditLogs st;
                 nextId := N.succ (nextId st) |}).
  intros H Hanon.
  destruct (validate (fields (construct env (nextId st) o))) eqn:Hv;
    cbn [negb] in H.
  2:{ inversion H; subst; simpl; auto. }
  destruct (hookCaseID_cases env st1 (construct env (nextId st) o))
    as [E|[c E]]; rewrite E in H; clear E;
    unfold hookPassword, hookHistory in H;
    cbn [isNew withFields construct negb statusModified fields] in H;
    (destruct (duplicateKey _ _) eqn:Hdup; inversion H; subst; clear H;
     [ simpl; auto | ]);
    cbn [nextId categories agencies auditLogs reports setReports st1
         persisted fields _plainPassword withPassword] in *;
    (repeat (split; [reflexivity|]));
    (split; [|repeat split; reflexivity]);
    (constructor;
     [ reflexivity | reflexivity | reflexivity | exact Hdup | reflexivity
     | reflexivity | exact Hv | ]);
    cbn [reporterType reporterName reporterEmail reporterPhone withSecret
         withCaseID]; unfold identityFalsy;
    cbn [reporterType reporterName reporterEmail reporterPhone withSecret
         withCaseID]; exact Hanon.
Qed.

Lemma issuedBy_failure code msg : issuedBy (Sent code (failure msg)) = None.
Proof. reflexivity. Qed.

Lemma anonymous_guard req :
  ReporterController.isStr (b_reporterType (body req)) "anonymous"
  && (truthy (b_reporterName (body req))
      || truthy (b_reporterEmail (body req))
      || truthy (b_reporterPhone (body req))) = false ->
  ReporterController.strOf (b_reporterType (body req)) = "anonymous" ->
  truthy (b_reporterName (body req)) = false
  /\ truthy (b_reporterEmail (body req)) = false
  /\ truthy (b_reporterPhone (body req)) = false.
Proof.
  unfold ReporterController.isStr, ReporterController.strOf.
  destruct (b_reporterType (body req)); try discriminate.
  intros Hg Ha. rewrite Ha in Hg. cbn [String.eqb] in Hg.
  change ("anonymous" =? "anonymous") with true in Hg.
  destruct (truthy (b_reporterName (body req))),
    (truthy (b_reporterEmail (body req))),
    (truthy (b_reporterPhone (body req))); try discriminate; auto.
Qed.

Lemma issuedBy_created d p :
  _plainPassword d = Some p ->
  issuedBy
    (Sent 201
       (obj [("success", Some (JBool true));
             ("message", Some (JStr "Report submitted successfully"));
             ("data", Some (getPublicData d));
             ("casePassword", ofOptStr (_plainPassword d))]))
  = Some (_id (fields d), p).
Proof.
  intros Hp. unfold issuedBy. rewrite !get_obj, Hp.
  change (lit "casePassword" _) with (Some (JStr p)).
  change (lit "data" _) with (Some (getPublicData d)).
  cbv beta iota. rewrite getPublicData_get, toObject_id. reflexivity.
Qed.

Lemma createReport_effect env req st :
  effect env st (fst (ReporterController.createReport env req st))
         (issuedBy (snd (ReporterController.createReport env req st))).
Proof.
  unfold ReporterController.createReport.
  repeat match goal with
         | |- context [if ?c then (st, Sent 400 _) else _] =>
             destruct c eqn:?; [cbn [fst snd]; rewrite issuedBy_failure;
                                apply eff_none; [reflexivity | lia] |]
         end.
  match goal with
  | H : ReporterController.isStr _ "anonymous" && _ = false |- _ =>
      pose proof (anonymous_guard req H) as Hg
  end.
  match goal with
  | |- context [create env ?o st] =>
      destruct (create env o st) as [st' [e|d]] eqn:Hc;
      apply create_result in Hc; [ | exact Hg | | exact Hg ]
  end.
  - destruct Hc as (Hn & _ & _ & _ & Hr). cbn [fst snd issuedBy].
    apply eff_none; [auto | lia].
  - destruct Hc as (Hn & _ & _ & _ & Hr & Hm & Hp & _). cbn [fst snd].
    rewrite (issuedBy_created d _ Hp). apply eff_create; auto.
Qed.

Lemma issuedBy_none code l :
  forallb (fun p => negb (fst p =? "casePassword")) l = true ->
  issuedBy (Sent code (obj l)) = None.
Proof.
  intros H. unfold issuedBy. rewrite get_obj, (lit_absent _ _ H). reflexivity.
Qed.

Lemma eff_none' env st st' resp :
  reports st' = reports st -> (nextId st <= nextId st')%N ->
  issuedBy resp = None -> effect env st st' (issuedBy resp).
Proof. intros H1 H2 H3. rewrite H3. apply eff_none; auto. Qed.

Lemma eff_update' env st st' resp r r' :
  In r (reports st) -> evolves env r r' ->
  reports st' = replaceById r' (reports st) -> nextId st' = nextId st ->
  issuedBy resp = None -> effect env st st' (issuedBy resp).
Proof. intros H1 H2 H3 H4 H5. rewrite H5. eapply eff_update; eauto. Qed.

Lemma reportById_In p st r :
  reportById p st = inr (Some r) -> In r (reports st).
Proof.
  unfold reportById, byId, findById. destruct p; try discriminate.
  intros H; inversion H as [H']. apply find_some in H'. tauto.
Qed.

Lemma reportById_id p st r :
  reportById p st = inr (Some r) -> p = POid (_id r).
Proof.
  unfold reportById, byId, findById. destruct p; try discriminate.
  intros H; inversion H as [H']. apply find_some in H' as [_ H'].
  apply N.eqb_eq in H'. subst; auto.
Qed.

Ltac no_issue :=
  first [ reflexivity | apply issuedBy_none; reflexivity ].

Ltac unchanged :=
  cbn [fst snd]; apply eff_none'; [ reflexivity | lia | no_issue ].

Ltac stage :=
  repeat first
    [ apply staged_loaded
    | apply staged_populateCategory
    | apply staged_populateAgency
    | apply staged_withCategory
    | apply staged_withAgencyAssigned
    | apply staged_withIsResolved
    | apply staged_pushComment
    | apply staged_pushEvidence
    | apply staged_setStatus; [ | reflexivity ] ].

(** The end of every updating handler: the staged document is saved, the
    audit log written and the response sent. *)
Ltac saving r Hin :=
  match goal with
  | |- context [save ?env ?d ?st] =>
      let Hs := fresh "Hs" in
      let st' := fresh "st'" in
      let e := fresh "e" in
      let d' := fresh "d'" in
      destruct (save env d st) as [st' [e|d']] eqn:Hs;
      [ apply save_failed_loaded in Hs; [ subst st'; unchanged | reflexivity ]
      | apply (save_staged env r) in Hs; [ | stage ];
        destruct Hs as (Hs & Hev & _ & _); subst st'; cbn [fst snd];
        eapply eff_update';
        [ exact Hin | exact Hev | reflexivity | reflexivity | no_issue ] ]
  end.

Ltac branch :=
  match goal with
  | |- context [fst (if ?c then _ else _)] => destruct c eqn:?
  | |- context [fst (match ?x with _ => _ end)] => destruct x eqn:?
  end.

Lemma updateReportStatus_effect env req st :
  effect env st (fst (AdminController.updateReportStatus env req st))
         (issuedBy (snd (AdminController.updateReportStatus env req st))).
Proof.
  unfold AdminController.updateReportStatus.
  branch; [unchanged|]. branch; [unchanged|].
  destruct (reportById (params_id req) st) as [e|[r|]] eqn:Hr;
    [unchanged| |unchanged].
  apply reportById_In in Hr.
  destruct (ReporterController.isStr (b_status (body req)) "resolved");
    [|destruct (ReporterController.isStr (b_status (body req)) "closed")];
    saving r Hr.
Qed.

Lemma updateReportCategory_effect env req st :
  effect env st (fst (AdminController.updateReportCategory env req st))
         (issuedBy (snd (AdminController.updateReportCategory env req st))).
Proof.
  unfold AdminController.updateReportCategory.
  destruct (reportById (params_id req) st) as [e|[r|]] eqn:Hr;
    [unchanged| |unchanged].
  apply reportById_In in Hr.
  branch; [unchanged|]. branch; [|unchanged].
  saving r Hr.
Qed.

Lemma assignReportToAgency_effect env req st :
  effect env st (fst (AdminController.assignReportToAgency env req st))
         (issuedBy (snd (AdminController.assignReportToAgency env req st))).
Proof.
  unfold AdminController.assignReportToAgency.
  destruct (reportById (params_id req) st) as [e|[r|]] eqn:Hr;
    [unchanged| |unchanged].
  apply reportById_In in Hr.
  branch; [unchanged|]. branch; [|unchanged].
  saving r Hr.
Qed.

Lemma addAdminMessage_effect env req st :
  effect env st (fst (AdminController.addAdminMessage env req st))
         (issuedBy (snd (AdminController.addAdminMessage env req st))).
Proof.
  unfold AdminController.addAdminMessage.
  destruct (reportById (params_reportId req) st) as [e|[r|]] eqn:Hr;
    [unchanged| |unchanged].
  apply reportById_In in Hr.
  branch; [unchanged|].
  saving r Hr.
Qed.

Lemma addAgencyMessage_effect env req st :
  effect env st (fst (AgencyController.addAgencyMessage env req st))
         (issuedBy (snd (AgencyController.addAgencyMessage env req st))).
Proof.
  unfold AgencyController.addAgencyMessage.
  destruct (reportById (params_reportId req) st) as [e|[r|]] eqn:Hr;
    [unchanged| |unchanged].
  apply reportById_In in Hr.
  branch; [unchanged|]. branch; [|unchanged]. branch; [|unchanged].
  branch; [unchanged|].
  saving r Hr.
Qed.

Lemma updateAgencyReportStatus_effect env req st :
  effect env st (fst (AgencyController.updateAgencyReportStatus env req st))
         (issuedBy (snd (AgencyController.updateAgencyReportStatus env req st))).
Proof.
  unfold AgencyController.updateAgencyReportStatus.
  branch; [unchanged|].
  destruct (reportById (params_id req) st) as [e|[r|]] eqn:Hr;
    [unchanged| |unchanged].
  apply reportById_In in Hr.
  branch; [unchanged|].
  saving r Hr.
Qed.

Lemma firstMatch_In pw rs r log :
  ReporterController.firstMatch pw rs = (inr (Some r), log) ->
  In r rs.
Proof.
  revert log. induction rs as [|x rs IH]; intros log H.
  - discriminate.
  - cbn [ReporterController.firstMatch] in H.
    unfold ReporterController.matchPassword, bind, tell, ret in H.
    cbn [loaded withPassword fields] in H.
    destruct (password x) as [h|]; [|discriminate].
    destruct (bcrypt_compare pw h).
    + inversion H; subst; left; auto.
    + destruct (ReporterController.firstMatch pw rs) as [f l] eqn:E.
      inversion H; subst. right. eapply IH; eauto.
Qed.

Lemma getReportByPassword_store env req st :
  fst (fst (ReporterController.getReportByPassword env req st)) = st.
Proof.
  unfold ReporterController.getReportByPassword,
    ReporterController.matchPassword, bind, tell, ret.
  destruct (negb (truthy (b_password (body req)))); [reflexivity|].
  destruct (findOneByPasswordKey _ st) as [r|]; [|reflexivity].
  cbn [populateAgency populateCategory loaded withPassword fields].
  destruct (password r) as [h|]; [|reflexivity].
  destruct (bcrypt_compare _ h); reflexivity.
Qed.

Lemma getReportByPassword_no_issue env req st :
  issuedBy (snd (fst (ReporterController.getReportByPassword env req st)))
  = None.
Proof.
  unfold ReporterController.getReportByPassword,
    ReporterController.matchPassword, bind, tell, ret.
  destruct (negb (truthy (b_password (body req)))); [reflexivity|].
  destruct (findOneByPasswordKey _ st) as [r|]; [|reflexivity].
  cbn [populateAgency populateCategory loaded withPassword fields].
  destruct (password r) as [h|]; [|reflexivity].
  destruct (bcrypt_compare _ h); cbn [fst snd]; no_issue.
Qed.

Lemma addWhistleblowerMessage_effect env req st :
  effect env st
    (fst (fst (ReporterController.addWhistleblowerMessage env req st)))
    (issuedBy
       (snd (fst (ReporterController.addWhistleblowerMessage env req st)))).
Proof.
  unfold ReporterController.addWhistleblowerMessage, bind, tell, ret.
  destruct (negb (truthy (b_password (body req)))
            || negb (truthy (b_message (body req)))); [unchanged|].
  destruct (ReporterController.firstMatch _ (reports st))
    as [[e|[r|]] log] eqn:Hf; try unchanged.
  apply firstMatch_In in Hf.
  destruct (files req) as [|f fs]; saving r Hf.
Qed.

Ltac read_only :=
  repeat branch; unchanged.

Lemma reads_effect env req st :
  effect env st (fst (AdminController.getUnassignedReports env req st))
         (issuedBy (snd (AdminController.getUnassignedReports env req st)))
  /\ effect env st (fst (AdminController.getAllReports env req st))
         (issuedBy (snd (AdminController.getAllReports env req st)))
  /\ effect env st (fst (AdminController.getReportById env req st))
         (issuedBy (snd (AdminController.getReportById env req st)))
  /\ effect env st (fst (AgencyController.getAgencyReports env req st))
         (issuedBy (snd (AgencyController.getAgencyReports env req st)))
  /\ effect env st (fst (AgencyController.getAgencyReportById env req st))
         (issuedBy (snd (AgencyController.getAgencyReportById env req st))).
Proof.
  unfold AdminController.getUnassignedReports, AdminController.getAllReports,
    AdminController.getReportById, AgencyController.getAgencyReports,
    AgencyController.getAgencyReportById.
  repeat split; read_only.
Qed.

Lemma createAgencyDoc_reports name d st :
  reports (fst (Catalogue.createAgencyDoc name d st)) = reports st
  /\ nextId (fst (Catalogue.createAgencyDoc name d st)) = N.succ (nextId st).
Proof.
  unfold Catalogue.createAgencyDoc, freshId.
  match goal with |- context [existsb ?f ?l] => destruct (existsb f l) end;
    split; reflexivity.
Qed.

Lemma createAgency_effect env req st :
  effect env st (fst (Catalogue.createAgency env req st))
         (issuedBy (snd (Catalogue.createAgency env req st))).
Proof.
  unfold Catalogue.createAgency.
  do 4 (branch; [unchanged|]).
  match goal with
  | |- context [Catalogue.createAgencyDoc ?n ?d st] =>
      pose proof (createAgencyDoc_reports n d st) as [Hr Hn];
      destruct (Catalogue.createAgencyDoc n d st) as [s [e|a]]
  end; cbn [fst snd] in *; apply eff_none'; cbn [reports nextId logAudit];
    first [ assumption | lia | no_issue ].
Qed.

Lemma catalogue_effect env req st :
  effect env st (fst (Catalogue.createCategory env req st))
         (issuedBy (snd (Catalogue.createCategory env req st)))
  /\ effect env st (fst (Catalogue.deleteCategory env req st))
         (issuedBy (snd (Catalogue.deleteCategory env req st)))
  /\ effect env st (fst (Catalogue.deleteAgency env req st))
         (issuedBy (snd (Catalogue.deleteAgency env req st))).
Proof.
  unfold Catalogue.createCategory, Catalogue.deleteCategory,
    Catalogue.deleteAgency, Catalogue.createCategoryDoc, freshId.
  repeat split; repeat branch;
    cbn [fst snd]; apply eff_none';
    first [ reflexivity | cbn [nextId logAudit setCategories setAgencies]; lia
          | no_issue ].
Qed.

(** Every handler leaves the reports alone, replaces one report by a
    report that evolves from it, or appends a freshly minted report and
    hands out its secret. *)
Lemma invoke_effect h env req st :
  effect env st (fst (invoke h env req st))
         (issuedBy (snd (invoke h env req st))).
Proof.
  destruct h; cbn [invoke];
    first
      [ apply createReport_effect
      | apply addWhistleblowerMessage_effect
      | apply updateReportStatus_effect
      | apply updateReportCategory_effect
      | apply assignReportToAgency_effect
      | apply addAdminMessage_effect
      | apply addAgencyMessage_effect
      | apply updateAgencyReportStatus_effect
      | apply reads_effect
      | apply catalogue_effect
      | apply createAgency_effect
      | idtac ].
  rewrite getReportByPassword_no_issue.
  pose proof (getReportByPassword_store env req st) as E.
  apply eff_none; [rewrite E; reflexivity | rewrite E; lia].
Qed.

Lemma seedDefaults_reports st :
  reports (Catalogue.seedDefaults st) = reports st
  /\ (nextId st <= nextId (Catalogue.seedDefaults st))%N.
Proof.
  unfold Catalogue.seedDefaults, Catalogue.createCategoryDoc,
    Catalogue.createAgencyDoc, freshId.
  destruct (find _ (categories st)); cbn [fst snd];
    match goal with
    | |- context [find ?f (agencies ?s)] => destruct (find f (agencies s))
    end; cbn [fst snd categories agencies reports nextId setCategories];
    try (split; [reflexivity | lia]);
    match goal with
    | |- context [existsb ?f ?l] => destruct (existsb f l)
    end; cbn [fst snd reports nextId setAgencies]; split;
    try reflexivity; lia.
Qed.

End Effects.
End HandlerFacts.

(** ** Invariants of the report collection *)

Module TraceFacts.
Import Report Mongoose Query Spec JsFacts ViewFacts StoreFacts HandlerFacts Api.

Section Invariant.
Context {L : Libs}.

Lemma replaceById_ids r' rs : map _id (replaceById r' rs) = map _id rs.
Proof.
  unfold replaceById. rewrite map_map. apply map_ext_in. intros x _.
  destruct (_id x =? _id r')%N eqn:E; auto.
  apply N.eqb_eq in E; auto.
Qed.

(** With unique identifiers only the report that was loaded is replaced. *)
Lemma replaceById_same rs r r' x :
  NoDup (map _id rs) -> In r rs -> _id r' = _id r -> In x rs ->
  (_id x =? _id r')%N = true -> x = r.
Proof.
  intros Hnd Hr Hid Hx E. apply N.eqb_eq in E.
  rewrite Hid in E. clear Hid r'.
  induction rs as [|y rs IH]; [contradiction|].
  simpl in Hnd. inversion Hnd as [|? ? Hni Hnd']; subst.
  destruct Hr as [Hr|Hr], Hx as [Hx|Hx]; subst; auto;
    exfalso; apply Hni;
    first [ rewrite <- E; apply in_map; assumption
          | rewrite E; apply in_map; assumption ].
Qed.

Lemma replaceById_map {A} (f : Report.t -> A) rs r r' :
  NoDup (map _id rs) -> In r rs -> _id r' = _id r -> f r' = f r ->
  map f (replaceById r' rs) = map f rs.
Proof.
  intros Hnd Hr Hid Hf. unfold replaceById. rewrite map_map.
  apply map_ext_in. intros x Hx.
  destruct (_id x =? _id r')%N eqn:E; auto.
  rewrite (replaceById_same rs r r' x Hnd Hr Hid Hx E). auto.
Qed.

Lemma replaceById_Forall (P : Report.t -> Prop) rs r r' :
  NoDup (map _id rs) -> In r rs -> _id r' = _id r -> (P r -> P r') ->
  Forall P rs -> Forall P (replaceById r' rs).
Proof.
  intros Hnd Hr Hid Hp Hall. apply Forall_forall. intros y Hy.
  unfold replaceById in Hy. apply in_map_iff in Hy as [x [Hy Hx]].
  rewrite Forall_forall in Hall.
  destruct (_id x =? _id r')%N eqn:E; subst y; auto.
Qed.

Lemma replaceById_Forall2 {B} (Q : Report.t -> B -> Prop) rs bs r r' :
  NoDup (map _id rs) -> In r rs -> _id r' = _id r ->
  (forall b, Q r b -> Q r' b) ->
  Forall2 Q rs bs -> Forall2 Q (replaceById r' rs) bs.
Proof.
  intros Hnd Hr Hid Hq Hall.
  assert (Hgen : forall l, (forall x, In x l -> In x rs) ->
                 forall bs, Forall2 Q l bs -> Forall2 Q (replaceById r' l) bs).
  { induction l as [|x l IH]; intros Hsub bs0 H2; inversion H2; subst;
      simpl; constructor.
    - destruct (_id x =? _id r')%N eqn:E; auto.
      apply Hq.
      rewrite <- (replaceById_same rs r r' x Hnd Hr Hid
                    (Hsub x (or_introl eq_refl)) E). auto.
    - apply IH; auto. intros z Hz. apply Hsub. right; auto. }
  apply Hgen; auto.
Qed.

Lemma duplicateKey_fresh r rs :
  duplicateKey r rs = false ->
  ~ In (_id r) (map _id rs) /\ ~ In (passwordKey r) (map passwordKey rs).
Proof.
  unfold duplicateKey. intros H.
  assert (Hall : forall x, In x rs ->
            (_id x =? _id r)%N = false
            /\ optEqb (passwordKey x) (passwordKey r) = false).
  { intros x Hx. destruct ((_id x =? _id r)%N) eqn:E1;
      destruct (optEqb (passwordKey x) (passwordKey r)) eqn:E2; auto;
      exfalso; assert (Ht : existsb
         (fun r' => (_id r' =? _id r)%N || optEqb (caseID r') (caseID r)
                    || optEqb (password r') (password r)
                    || optEqb (passwordKey r') (passwordKey r)) rs = true)
        by (apply existsb_exists; exists x; split; auto;
            rewrite E1, E2; repeat rewrite orb_true_r; auto);
      congruence. }
  split; intros Hin; apply in_map_iff in Hin as [x [Hx Hin]];
    destruct (Hall x Hin) as [H1 H2].
  - apply N.eqb_neq in H1. congruence.
  - rewrite Hx in H2. unfold optEqb in H2.
    destruct (passwordKey r); [rewrite String.eqb_refl in H2|]; discriminate.
Qed.

Lemma NoDup_snoc {A} (l : list A) a :
  NoDup l -> ~ In a l -> NoDup (l ++ [a]).
Proof.
  induction l as [|x l IH]; intros Hnd Hni; simpl.
  - constructor; [auto|constructor].
  - inversion Hnd; subst. constructor.
    + rewrite in_app_iff. simpl. intros [H|[H|[]]]; auto.
      subst. apply Hni. left; auto.
    + apply IH; auto. intros H. apply Hni. right; auto.
Qed.

Lemma empty_consistent : consistent emptyStore [].
Proof. constructor; simpl; constructor. Qed.

(** An effect keeps the collection consistent, with the secret it hands out
    appended to the ghost state. *)
Lemma effect_consistent env st st' i iss :
  effect env st st' i -> consistent st iss ->
  consistent st' (iss ++ optList i).
Proof.
  intros He [Hids Hfresh Hkeys Hsec Hval Hanon Hne].
  destruct He as [Hr Hn | r r' Hin Hev Hr Hn | r Hm Hr Hn]; cbn [optList].
  - rewrite app_nil_r. constructor; rewrite ?Hr; auto.
    eapply Forall_impl; [|exact Hfresh]. cbv beta. intros; lia.
  - rewrite app_nil_r. destruct Hev.
    constructor; rewrite ?Hr.
    + rewrite replaceById_ids; auto.
    + rewrite Hn. apply replaceById_Forall with (r := r); auto. lia.
    + rewrite (replaceById_map passwordKey _ r r'); auto.
    + apply replaceById_Forall2 with (r := r); auto.
      intros b (H1 & H2 & H3). rewrite ev_id0, ev_key0, ev_hash0. auto.
    + apply replaceById_Forall with (r := r); auto.
    + apply replaceById_Forall with (r := r); auto.
      unfold identityFalsy. rewrite ev_type0, ev_name0, ev_email0, ev_phone0.
      auto.
    + auto.
  - destruct Hm. destruct (duplicateKey_fresh _ _ mi_unique0) as [Hi Hk].
    constructor; rewrite ?Hr.
    + rewrite map_app. apply NoDup_snoc; auto.
    + rewrite Hn. apply Forall_app. split.
      * eapply Forall_impl; [|exact Hfresh]. cbv beta. intros; lia.
      * constructor; [lia|constructor].
    + rewrite map_app. apply NoDup_snoc; auto.
    + apply Forall2_app; auto. constructor; [|constructor].
      cbn [fst snd]. repeat split; eauto.
    + apply Forall_app. split; auto.
    + apply Forall_app. split; auto.
    + apply Forall_app. split; auto. constructor; [|constructor].
      apply generatePlainPassword_nonempty.
Qed.

(** A step of the system has an effect, at the time of its request. *)
Lemma step_effect e st :
  exists env, now env = eventNow e
              /\ effect env st (step e st) (stepIssue e st).
Proof.
  destruct e as [h env req| |a u]; cbn [step stepIssue eventNow].
  - exists env. split; auto. apply invoke_effect.
  - exists {| now := 0; fullYear := 0; randomBytes3 := (x00, x00, x00);
              mathRandom900 := 0; genSalt := "" |}.
    split; auto. destruct (seedDefaults_reports st). apply eff_none; auto.
  - exists {| now := 0; fullYear := 0; randomBytes3 := (x00, x00, x00);
              mathRandom900 := 0; genSalt := "" |}.
    split; auto. apply eff_none; [reflexivity | cbn; lia].
Qed.

Lemma run_cons e es st : run (e :: es) st = run es (step e st).
Proof. reflexivity. Qed.

Lemma run_app es es' st : run (es ++ es') st = run es' (run es st).
Proof. unfold run. apply fold_left_app. Qed.

Lemma issued_app es es' st :
  issued (es ++ es') st = (issued es st ++ issued es' (run es st))%list.
Proof.
  revert st. induction es as [|e es IH]; intros st; simpl; auto.
  rewrite IH, app_assoc. reflexivity.
Qed.

(** The invariant holds along every run. *)
Lemma run_consistent es st iss :
  consistent st iss -> consistent (run es st) (iss ++ issued es st).
Proof.
  revert st iss. induction es as [|e es IH]; intros st iss Hc.
  - simpl. rewrite app_nil_r. auto.
  - rewrite run_cons. cbn [issued]. rewrite app_assoc. apply IH.
    destruct (step_effect e st) as [env [_ He]].
    eapply effect_consistent; eauto.
Qed.

Lemma reachable_consistent es :
  consistent (run es emptyStore) (issued es emptyStore).
Proof. apply (run_consistent es emptyStore []). apply empty_consistent. Qed.

Lemma Forall2_In_r {A B} (Q : A -> B -> Prop) l l' b :
  Forall2 Q l l' -> In b l' -> exists a, In a l /\ Q a b.
Proof.
  induction 1 as [|x y l l' Hq H IH]; intros Hin; [contradiction|].
  destruct Hin as [->|Hin]; [exists x; split; [left|]; auto|].
  destruct (IH Hin) as [a [Ha Hqa]]. exists a; split; [right|]; auto.
Qed.

Lemma Forall2_In_l {A B} (Q : A -> B -> Prop) l l' a :
  Forall2 Q l l' -> In a l -> exists b, In b l' /\ Q a b.
Proof.
  induction 1 as [|x y l l' Hq H IH]; intros Hin; [contradiction|].
  destruct Hin as [->|Hin]; [exists y; split; [left|]; auto|].
  destruct (IH Hin) as [b [Hb Hqb]]. exists b; split; [right|]; auto.
Qed.

Lemma find_unique {A} (f : Report.t -> A) (pred : Report.t -> bool) rs r :
  NoDup (map f rs) -> In r rs -> pred r = true ->
  (forall x, pred x = true -> f x = f r) ->
  find pred rs = Some r.
Proof.
  induction rs as [|y rs IH]; intros Hnd Hin Hp Hall; [contradiction|].
  simpl in *. inversion Hnd as [|? ? Hni Hnd']; subst.
  destruct Hin as [->|Hin].
  - rewrite Hp. auto.
  - destruct (pred y) eqn:Ey.
    + exfalso. apply Hni. rewrite (Hall y Ey). apply in_map; auto.
    + apply IH; auto.
Qed.

Lemma findById_unique st r :
  NoDup (map _id (reports st)) -> In r (reports st) ->
  findById (_id r) st = Some r.
Proof.
  intros Hnd Hin. unfold findById.
  apply (find_unique _id); auto.
  - apply N.eqb_refl.
  - intros x Hx. apply N.eqb_eq in Hx; auto.
Qed.

Lemma findOneByPasswordKey_unique st r k :
  NoDup (map passwordKey (reports st)) -> In r (reports st) ->
  passwordKey r = Some k ->
  findOneByPasswordKey k st = Some r.
Proof.
  intros Hnd Hin Hk. unfold findOneByPasswordKey.
  apply (find_unique passwordKey); auto.
  - rewrite Hk. simpl. apply String.eqb_refl.
  - intros x Hx. rewrite Hk. unfold optEqb in Hx.
    destruct (passwordKey x); [|discriminate].
    apply String.eqb_eq in Hx. congruence.
Qed.

Lemma findOneByPasswordKey_found st r k :
  findOneByPasswordKey k st = Some r ->
  In r (reports st) /\ passwordKey r = Some k.
Proof.
  unfold findOneByPasswordKey. intros H. apply find_some in H as [Hin H].
  split; auto. unfold optEqb in H. destruct (passwordKey r); [|discriminate].
  apply String.eqb_eq in H. congruence.
Qed.

End Invariant.
End TraceFacts.

(** ** The case password: issue, lookup, verification *)

Module PasswordFacts.
Import Report Mongoose Query Spec JsFacts ViewFacts StoreFacts HandlerFacts
  TraceFacts Api.

Section Verification.
Context {L : Libs}.


Lemma strOf_truthy v : truthy v = true -> v = Str (ReporterController.strOf v).
Proof. destruct v; simpl; try discriminate; auto. Qed.

Lemma strOf_falsy v : truthy v = false -> ReporterController.strOf v = "".
Proof.
  destruct v; simpl; auto. intros H. apply negb_false_iff in H.
  apply String.eqb_eq in H. auto.
Qed.

(** On a consistent store the secret of a report opens that report. *)
Lemma follow_up_accepts st iss id p env req :
  (forall p s, bcrypt_compare p (bcrypt_hash p s) = true) ->
  consistent st iss -> In (id, p) iss ->
  ReporterController.strOf (b_password (body req)) = p ->
  exists r h,
    findById id st = Some r
    /\ passwordKey r = Some (sha256hex p)
    /\ password r = Some h /\ bcrypt_compare p h = true
    /\ fst (ReporterController.getReportByPassword env req st)
       = (st, retrieved st r).
Proof.
  intros Hc Hcons Hin Hp. destruct Hcons.
  destruct (Forall2_In_r _ _ _ _ co_secrets0 Hin) as [r [Hr (Hid & Hk & s & Hh)]].
  cbn [fst snd] in *. exists r, (bcrypt_hash p s).
  rewrite Forall_forall in co_nonempty0. specialize (co_nonempty0 _ Hin).
  cbn [snd] in co_nonempty0.
  split; [rewrite <- Hid; apply findById_unique; auto|].
  repeat (split; auto).
  unfold ReporterController.getReportByPassword.
  assert (Ht : truthy (b_password (body req)) = true).
  { destruct (truthy (b_password (body req))) eqn:E; auto.
    apply strOf_falsy in E. congruence. }
  rewrite Ht, Hp. cbn [negb].
  unfold bind, tell, ret, ReporterController.matchPassword.
  rewrite (findOneByPasswordKey_unique st r (sha256hex p)); auto.
  cbn [populateAgency populateCategory loaded withPassword fields].
  rewrite Hh, Hc. reflexivity.
Qed.

(** On a consistent store a candidate that is nobody's secret is
    rejected. *)
Lemma follow_up_rejects st iss env req :
  (forall p q s, sha256hex q = sha256hex p ->
                 bcrypt_compare q (bcrypt_hash p s) = true -> q = p) ->
  consistent st iss ->
  ~ In (ReporterController.strOf (b_password (body req))) (map snd iss) ->
  fst (fst (ReporterController.getReportByPassword env req st)) = st
  /\ rejection (snd (fst (ReporterController.getReportByPassword env req st))).
Proof.
  intros Hu Hcons Hq. split; [apply getReportByPassword_store|].
  unfold ReporterController.getReportByPassword.
  destruct (truthy (b_password (body req))) eqn:Ht; cbn [negb].
  2:{ exists 400%N, "Password is required.". split; [reflexivity|lia]. }
  unfold bind, tell, ret, ReporterController.matchPassword.
  set (q := ReporterController.strOf (b_password (body req))) in *.
  destruct (findOneByPasswordKey (sha256hex q) st) as [r|] eqn:Hf.
  2:{ exists 404%N, "No report found for this password.".
      split; [reflexivity|lia]. }
  apply findOneByPasswordKey_found in Hf as [Hin Hk].
  destruct Hcons.
  destruct (Forall2_In_l _ _ _ _ co_secrets0 Hin) as [[id p] [Hi (Hid & Hk' & s & Hh)]].
  cbn [fst snd] in *.
  cbn [populateAgency populateCategory loaded withPassword fields].
  rewrite Hh. destruct (bcrypt_compare q (bcrypt_hash p s)) eqn:Hcmp.
  - exfalso. apply Hq. assert (q = p) by (apply (Hu p q s); congruence).
    subst p. apply in_map_iff. exists (id, q). auto.
  - exists 401%N, "Invalid password.". split; [reflexivity|lia].
Qed.

End Verification.
End PasswordFacts.

(** * The claims *)

Import Report Mongoose Query Spec Api.
Import JsFacts ViewFacts StoreFacts HandlerFacts TraceFacts PasswordFacts.

Lemma createReport_created {L : Libs} env req st st' body :
  ReporterController.createReport env req st = (st', Sent 201 body) ->
  exists r,
    reports st' = (reports st ++ [r])%list
    /\ minted env st r
    /\ issuedBy (Sent 201 body) = Some (_id r, generatePlainPassword env)
    /\ get "casePassword" body = Some (JStr (generatePlainPassword env))
    /\ (exists d, fields d = r
                  /\ _plainPassword d = Some (generatePlainPassword env)
                  /\ get "data" body = Some (getPublicData d))
    /\ category r
       = option_map Category._id
           (find (fun c => Category.name c =? "uncategorised") (categories st))
    /\ agencyAssigned r
       = option_map Agency._id
           (find (fun a => Agency.name a =? "unassigned") (agencies st)).
Proof.
  unfold ReporterController.createReport.
  repeat match goal with
         | |- context [if ?c then (st, Sent 400 _) else _] =>
             destruct c eqn:?; [intros H; inversion H|]
         end.
  match goal with
  | H : ReporterController.isStr _ "anonymous" && _ = false |- _ =>
      pose proof (anonymous_guard req H) as Hg
  end.
  match goal with
  | |- context [create env ?o st] =>
      destruct (create env o st) as [st1 [e|d]] eqn:Hc;
      apply create_result in Hc; [ | exact Hg | | exact Hg ]
  end; intros H; inversion H; subst; clear H.
  destruct Hc as (Hn & _ & _ & _ & Hr & Hm & Hp & _ & Hcat & Hag & _).
  exists (fields d). cbn [reports logAudit].
  refine (conj Hr (conj Hm (conj _ (conj _ (conj _ (conj Hcat Hag)))))).
  - apply issuedBy_created; auto.
  - rewrite get_obj, Hp. reflexivity.
  - exists d. split; [reflexivity|]. split; [exact Hp|].
    rewrite get_obj. reflexivity.
Qed.

(** C1. Round trip of the case password.  A successful [createReport]
    hands out a secret; whatever the system does afterwards,
    [getReportByPassword] called with that secret finds the very report the
    secret was issued for (its lookup key is the SHA-256 digest of the
    secret and bcrypt accepts the secret against its stored hash) and
    answers 200 with that report's public data.  A candidate that was issued
    to no report is rejected with a 4xx failure and the store is left as it
    was.  bcrypt is assumed to accept the password a hash was made from, and
    no other string with the same digest. *)
Theorem secret_round_trip (L : Libs)
    (complete : forall p s, bcrypt_compare p (bcrypt_hash p s) = true)
    (unforgeable : forall p q s,
        sha256hex q = sha256hex p ->
        bcrypt_compare q (bcrypt_hash p s) = true -> q = p)
    (es1 es2 : list Event) (env0 env : Env) (req0 req : Request) :
  forall created es st candidate,
    created = ReporterController.createReport env0 req0 (run es1 emptyStore) ->
    es = (es1 ++ Call CreateReport env0 req0 :: es2)%list ->
    st = run es emptyStore ->
    candidate = ReporterController.strOf (b_password (body req)) ->
    (forall body, snd created = Sent 201 body ->
       exists id, issuedBy (snd created) = Some (id, generatePlainPassword env0))
    /\ (forall id, issuedBy (snd created) = Some (id, candidate) ->
        exists r h,
          findById id st = Some r
          /\ passwordKey r = Some (sha256hex candidate)
          /\ password r = Some h /\ bcrypt_compare candidate h = true
          /\ fst (ReporterController.getReportByPassword env req st)
             = (st, retrieved st r))
    /\ (~ In candidate (map snd (issued es emptyStore)) ->
        fst (fst (ReporterController.getReportByPassword env req st)) = st
        /\ rejection
             (snd (fst (ReporterController.getReportByPassword env req st)))).
Proof.
  intros created es st candidate Hcr Hes Hst Hcand.
  pose proof (reachable_consistent es) as Hcons. rewrite <- Hst in Hcons.
  split; [|split].
  - intros body Hb.
    destruct created as [st' resp]. cbn [snd] in *. subst resp.
    symmetry in Hcr. apply createReport_created in Hcr as (r & _ & _ & Hi & _).
    eauto.
  - intros id Hi. apply (follow_up_accepts st (issued es emptyStore) id);
      auto.
    subst es. rewrite issued_app. apply in_or_app. right.
    cbn [issued stepIssue invoke]. rewrite <- Hcr, Hi. left; auto.
  - intros Hni. subst candidate.
    apply (follow_up_rejects st (issued es emptyStore)); auto.
Qed.

Lemma secret_round_trip_witness :
  (exists r h,
      findById 2%N (run (L := Samples.plainLibs)
                      [Seed; Samples.createStreetlight] emptyStore) = Some r
      /\ passwordKey r = Some "sha256:A9F4C2"
      /\ password r = Some h
      /\ h = "$2a$10$A9F4C2"
      /\ fst (ReporterController.getReportByPassword (L := Samples.plainLibs)
                (Samples.env 2000 x00 x00 x00)
                (Samples.requestOf PUndefined
                   (Samples.withPasswordAndMessage (Str "A9F4C2") Undefined)
                   None)
                (run (L := Samples.plainLibs)
                     [Seed; Samples.createStreetlight] emptyStore))
         = (run (L := Samples.plainLibs)
                [Seed; Samples.createStreetlight] emptyStore,
            retrieved
              (run (L := Samples.plainLibs)
                   [Seed; Samples.createStreetlight] emptyStore) r))
  /\ rejection
       (snd (fst (ReporterController.getReportByPassword
                    (L := Samples.plainLibs)
                    (Samples.env 2000 x00 x00 x00)
                    (Samples.requestOf PUndefined
                       (Samples.withPasswordAndMessage (Str "B00000") Undefined)
                       None)
                    (run (L := Samples.plainLibs)
                         [Seed; Samples.createStreetlight] emptyStore)))).
Proof.
  assert (complete : forall p s : string,
             bcrypt_compare (Libs := Samples.plainLibs) p
               (bcrypt_hash (Libs := Samples.plainLibs) p s) = true).
  { intros p s. simpl. apply String.eqb_refl. }
  assert (unforgeable : forall p q s : string,
             sha256hex (Libs := Samples.plainLibs) q
             = sha256hex (Libs := Samples.plainLibs) p ->
             bcrypt_compare (Libs := Samples.plainLibs) q
               (bcrypt_hash (Libs := Samples.plainLibs) p s) = true -> q = p).
  { intros p q s H _. simpl in H. inversion H. reflexivity. }
  split.
  - destruct (proj1 (proj2
        (secret_round_trip Samples.plainLibs complete unforgeable
           [Seed] [] (Samples.env 1000 xa9 xf4 xc2)
           (Samples.env 2000 x00 x00 x00)
           (Samples.requestOf PUndefined (Samples.streetlight Undefined) None)
           (Samples.requestOf PUndefined
              (Samples.withPasswordAndMessage (Str "A9F4C2") Undefined) None)
           _ _ _ _ eq_refl eq_refl eq_refl eq_refl)) 2%N)
      as (r & h & H1 & H2 & H3 & H4 & H5).
    + vm_compute. reflexivity.
    + exists r, h. repeat split; auto.
      vm_compute in H1. inversion H1; subst r. vm_compute in H3.
      inversion H3. reflexivity.
  - apply (proj2 (proj2
        (secret_round_trip Samples.plainLibs complete unforgeable
           [Seed] [] (Samples.env 1000 xa9 xf4 xc2)
           (Samples.env 2000 x00 x00 x00)
           (Samples.requestOf PUndefined (Samples.streetlight Undefined) None)
           (Samples.requestOf PUndefined
              (Samples.withPasswordAndMessage (Str "B00000") Undefined) None)
           _ _ _ _ eq_refl eq_refl eq_refl eq_refl))).
    vm_compute. intros [H|[]]. discriminate.
Defined.




(** The follow-up read makes one digest lookup and at most one bcrypt
    comparison, and never loads the whole collection. *)
Lemma getReportByPassword_two_steps (L : Libs) env req st :
  comparisons (snd (ReporterController.getReportByPassword env req st)) <= 1
  /\ existsb isFindAll (snd (ReporterController.getReportByPassword env req st))
     = false.
Proof.
  unfold ReporterController.getReportByPassword, bind, tell, ret,
    ReporterController.matchPassword.
  destruct (negb (truthy (b_password (body req)))); [split; auto|].
  destruct (findOneByPasswordKey _ st) as [r|]; [|split; auto].
  cbn [populateAgency populateCategory loaded withPassword fields].
  destruct (password r) as [h|]; [|split; auto].
  destruct (bcrypt_compare _ h); split; auto.
Qed.

(** The loop of the message handler compares the candidate with every
    report whose hash it does not match. *)
Lemma firstMatch_scans (L : Libs) pw rs :
  Forall (fun r => exists h, password r = Some h
                             /\ bcrypt_compare pw h = false) rs ->
  ReporterController.firstMatch pw rs
  = (inr None, map (fun r => OpCompare (_id r)) rs).
Proof.
  induction 1 as [|r rs (h & Hh & Hc) _ IH]; [reflexivity|].
  cbn [ReporterController.firstMatch].
  unfold ReporterController.matchPassword, bind, tell, ret.
  cbn [loaded withPassword fields]. rewrite Hh, Hc, IH. reflexivity.
Qed.

(** The message handler verifies a candidate by loading all reports and
    comparing until one matches: a candidate that matches none costs one
    bcrypt comparison per stored report, and no digest is computed. *)
Lemma addWhistleblowerMessage_scans (L : Libs) env req st :
  truthy (b_password (body req)) = true ->
  truthy (b_message (body req)) = true ->
  Forall (fun r => exists h,
              password r = Some h
              /\ bcrypt_compare
                   (ReporterController.strOf (b_password (body req))) h
                 = false) (reports st) ->
  ReporterController.addWhistleblowerMessage env req st
  = ((st, Sent 401 (failure "Invalid password. Report not found.")),
     OpFindAll :: map (fun r => OpCompare (_id r)) (reports st)).
Proof.
  intros Hp Hm Hall.
  unfold ReporterController.addWhistleblowerMessage, bind, tell, ret.
  rewrite Hp, Hm. cbn [negb orb].
  rewrite (firstMatch_scans L _ _ Hall). cbn [app].
  rewrite app_nil_r. reflexivity.
Qed.

(** C3 (the code departs from it). With two reports stored, a message sent
    with a candidate that is nobody's secret makes [addWhistleblowerMessage]
    load the whole collection and run bcrypt against both reports, without
    any digest lookup; the same candidate costs [getReportByPassword] one
    digest, one indexed lookup and no comparison. *)
Theorem message_check_scans_all_reports :
  snd (ReporterController.addWhistleblowerMessage (L := Samples.plainLibs)
         (Samples.env 2000 x00 x00 x00)
         (Samples.withSecretOf "B00000" (Str "any news?"))
         (run (L := Samples.plainLibs)
              [Seed; Samples.createStreetlight; Samples.createSecond]
              emptyStore))
  = [OpFindAll; OpCompare 2%N; OpCompare 3%N]
  /\ snd (ReporterController.getReportByPassword (L := Samples.plainLibs)
            (Samples.env 2000 x00 x00 x00)
            (Samples.withSecretOf "B00000" Undefined)
            (run (L := Samples.plainLibs)
                 [Seed; Samples.createStreetlight; Samples.createSecond]
                 emptyStore))
     = [OpDigest "B00000"; OpFindOneByKey "sha256:B00000"].
Proof. split; vm_compute; reflexivity. Qed.

(** Saving a loaded document stores its fields as they are, apart from the
    case identifier and the history the hooks may add. *)
Lemma save_loaded_fields (L : Libs) env d st st' d' :
  isNew d = false -> save env d st = (st', inr d') ->
  st' = setReports st (replaceById (fields d') (reports st))
  /\ In (fields d') (reports st')
  /\ validate (fields d) = true
  /\ _id (fields d') = _id (fields d)
  /\ status (fields d') = status (fields d)
  /\ isResolved (fields d') = isResolved (fields d)
  /\ comments (fields d') = comments (fields d)
  /\ evidenceFiles (fields d') = evidenceFiles (fields d)
  /\ agencyAssigned (fields d') = agencyAssigned (fields d)
  /\ category (fields d') = category (fields d)
  /\ history (fields d')
     = (history (fields d)
        ++ if statusModified d
           then [{| h_status := status (fields d); updatedBy := None;
                    h_updatedAt := now env |}]
           else [])%list.
Proof.
  intros Hn Hs. unfold save in Hs.
  destruct (validate (fields d)) eqn:Hv; cbn [negb] in Hs; [|discriminate].
  assert (Hp : forall x, isNew x = false -> hookPassword env x = x).
  { intros x Hx. unfold hookPassword. rewrite Hx. reflexivity. }
  assert (Hn1 : isNew (hookCaseID env st d) = false).
  { unfold hookCaseID. destruct (strTruthy _); simpl; auto. }
  rewrite (Hp _ Hn1) in Hs.
  assert (Hn2 : isNew (hookHistory env (hookCaseID env st d)) = false).
  { unfold hookHistory. destruct (statusModified _); simpl; auto. }
  rewrite Hn2 in Hs.
  destruct (existsb _ _) eqn:Hex; [|discriminate].
  inversion Hs; subst st' d'; clear Hs. cbn [fields persisted reports setReports].
  split; [reflexivity|]. split.
  { apply existsb_exists in Hex as [x [Hin Hx]].
    unfold replaceById. apply in_map_iff. exists x. rewrite Hx. auto. }
  split; [reflexivity|].
  unfold hookHistory, hookCaseID.
  destruct (strTruthy (caseID (fields d))); cbn [statusModified withFields];
    destruct (statusModified d);
    cbn [fields withFields withCaseID pushHistory _id status isResolved
         comments evidenceFiles agencyAssigned category history];
    rewrite ?app_nil_r; repeat split; reflexivity.
Qed.

(** The flag law of the admin path: a status update that succeeds stores
    the new status, sets [isResolved] for "resolved", leaves it for "closed"
    and clears it for "pending" and "under review". *)
Lemma updateReportStatus_flag_law (L : Libs) env req st st' out r s :
  reportById (params_id req) st = inr (Some r) ->
  b_status (body req) = Str s ->
  AdminController.updateReportStatus env req st = (st', Sent 200 out) ->
  includes statuses s = true
  /\ exists r',
       reports st' = replaceById r' (reports st)
       /\ In r' (reports st') /\ _id r' = _id r
       /\ status r' = s
       /\ isResolved r'
          = if s =? "resolved" then true
            else if s =? "closed" then isResolved r else false.
Proof.
  intros Hr Hs H. unfold AdminController.updateReportStatus in H.
  rewrite Hr, Hs in H.
  cbn [ReporterController.isStr ReporterController.strOf] in H.
  destruct (negb (wellFormed (params_id req))); [inversion H|].
  destruct (includes _ s) eqn:Hi; cbn [negb] in H; [|inversion H].
  split; [reflexivity|].
  destruct (s =? "resolved") eqn:E1; [|destruct (s =? "closed") eqn:E2];
    match type of H with
    | context [save env ?d st] =>
        destruct (save env d st) as [st1 [e|d']] eqn:Hsv
    end; inversion H; subst; clear H;
    apply save_loaded_fields in Hsv; try reflexivity;
    destruct Hsv as (Hst & Hin & _ & Hid & Hstat & Hres & _);
    exists (fields d'); subst st1;
    cbn [reports logAudit setReports] in *;
    cbn [setStatus fields withFields loaded withStatus withIsResolved
         status isResolved _id] in *;
    repeat split; auto.
Qed.

Lemma findById_replaced r' rs :
  existsb (fun x => (_id x =? _id r')%N) rs = true ->
  find (fun x => (_id x =? _id r')%N) (replaceById r' rs) = Some r'.
Proof.
  induction rs as [|x rs IH]; simpl; [discriminate|].
  destruct (_id x =? _id r')%N eqn:E; simpl.
  - rewrite N.eqb_refl. auto.
  - rewrite E. auto.
Qed.

(** After a successful [assignReportToAgency] the report refers to the
    agency named in the request. *)
Lemma assignReportToAgency_assigns (L : Libs) env req st st' out a :
  b_agencyId (body req) = POid a ->
  AdminController.assignReportToAgency env req st = (st', Sent 200 out) ->
  exists id r', params_id req = POid id /\ findById id st' = Some r'
                /\ agencyAssigned r' = Some a
                /\ lookupAgency st (Some a) <> None.
Proof.
  intros Ha H. unfold AdminController.assignReportToAgency in H.
  destruct (reportById (params_id req) st) as [e|[r|]] eqn:Hr;
    try (inversion H; fail).
  rewrite Ha in H. unfold agencyById, byId in H.
  destruct (lookupAgency st (Some a)) as [agency|] eqn:Hl;
    [|inversion H].
  match type of H with
  | context [save env ?d st] =>
      destruct (save env d st) as [st1 [e|d']] eqn:Hsv
  end; inversion H; subst; clear H.
  apply save_loaded_fields in Hsv; [|reflexivity].
  destruct Hsv as (Hst & Hin & _ & Hid & _ & _ & _ & _ & Hag & _).
  cbn [fields withFields loaded withAgencyAssigned agencyAssigned _id] in *.
  pose proof (reportById_id _ _ _ Hr) as Hp.
  exists (_id r), (fields d'). split; auto. split; [|split].
  - unfold findById. cbn [reports logAudit]. subst st1. cbn [reports setReports].
    rewrite <- Hid. apply findById_replaced. rewrite Hid.
    apply existsb_exists. exists r. split.
    + apply reportById_In in Hr; auto.
    + apply N.eqb_refl.
  - rewrite Hag. f_equal. cbn [lookupAgency] in Hl.
    apply find_some in Hl as [_ Hl]. apply N.eqb_eq in Hl. auto.
  - discriminate.
Qed.

(** C10. The agency status update authorises by comparing the report's
    [agencyAssigned] with the calling user's own id.  On a request that
    names a status and an existing report: if the two ids differ (or one of
    them is missing) the handler sets status 403, throws "You are not
    authorized to update this report" and leaves the store as it was; this
    is so in particular for a report that [assignReportToAgency] has just
    assigned to an agency whose id is not the caller's user id.  When the ids
    agree, no list of allowed statuses is consulted (a status outside the
    enum only fails in the schema validation of [save], there is no 400)
    and a successful update stores the status and leaves [isResolved]
    untouched. *)
Theorem agency_status_update_compares_user_id (L : Libs)
    (env : Env) (req : Request) (st : Store) (r : Report.t) :
  truthy (b_status (body req)) = true ->
  reportById (params_id req) st = inr (Some r) ->
  (~ callerIsAssignee r req ->
   AgencyController.updateAgencyReportStatus env req st
   = (st, thrown (Some 403%N) "You are not authorized to update this report"))
  /\ (forall env0 req0 st0 out a u,
        AdminController.assignReportToAgency env0 req0 st0 = (st, Sent 200 out) ->
        b_agencyId (body req0) = POid a ->
        params_id req0 = params_id req ->
        user req = Some u -> u_id u <> a ->
        AgencyController.updateAgencyReportStatus env req st
        = (st, thrown (Some 403%N)
                 "You are not authorized to update this report"))
  /\ (callerIsAssignee r req ->
      validate r = true ->
      includes statuses (ReporterController.strOf (b_status (body req))) = false ->
      AgencyController.updateAgencyReportStatus env req st
      = (st, Failed None validationError))
  /\ (forall st' out,
        AgencyController.updateAgencyReportStatus env req st
        = (st', Sent 200 out) ->
        callerIsAssignee r req
        /\ exists r',
             reports st' = replaceById r' (reports st)
             /\ In r' (reports st') /\ _id r' = _id r
             /\ status r' = ReporterController.strOf (b_status (body req))
             /\ isResolved r' = isResolved r).
Proof.
  intros Ht Hr.
  assert (Hno : ~ callerIsAssignee r req ->
                AgencyController.updateAgencyReportStatus env req st
                = (st, thrown (Some 403%N)
                         "You are not authorized to update this report")).
  { intros Hn. unfold AgencyController.updateAgencyReportStatus.
    rewrite Ht, Hr. cbn [negb]. unfold callerIsAssignee in Hn.
    destruct (agencyAssigned r) as [a|]; [|reflexivity].
    destruct (user req) as [u|]; [|reflexivity]. cbn [option_map].
    destruct (a =? u_id u)%N eqn:E; [|reflexivity].
    apply N.eqb_eq in E. contradiction. }
  split; [exact Hno|]. split; [|split].
  - intros env0 req0 st0 out a u Ha Hb Hp Hu Hne.
    apply Hno. unfold callerIsAssignee. rewrite Hu.
    destruct (assignReportToAgency_assigns L env0 req0 st0 st out a Hb Ha)
      as (id & r' & Hid & Hf & Hag & _).
    rewrite Hp in Hid. rewrite Hid in Hr. unfold reportById, byId in Hr.
    inversion Hr as [Hr']. rewrite Hf in Hr'. inversion Hr'; subst r'.
    rewrite Hag. congruence.
  - intros Hc Hv Hi. unfold AgencyController.updateAgencyReportStatus.
    rewrite Ht, Hr. cbn [negb]. unfold callerIsAssignee in Hc.
    destruct (agencyAssigned r) as [a|]; [|contradiction].
    destruct (user req) as [u|]; [|contradiction]. cbn [option_map].
    subst a. rewrite N.eqb_refl. cbn [negb].
    unfold save. cbn [setStatus fields loaded].
    assert (Hv' : validate (withStatus
                    (ReporterController.strOf (b_status (body req))) r) = false).
    { unfold validate in *. cbn [withStatus reporterType title description
        status evidenceFiles comments]. rewrite Hi.
      destruct (includes reporterTypes (reporterType r)),
        (negb (title r =? "")), (negb (description r =? "")); reflexivity. }
    rewrite Hv'. reflexivity.
  - intros st' out H. unfold AgencyController.updateAgencyReportStatus in H.
    rewrite Ht, Hr in H. cbn [negb] in H. unfold callerIsAssignee.
    destruct (agencyAssigned r) as [a|]; [|inversion H].
    destruct (user req) as [u|]; [|inversion H]. cbn [option_map] in H.
    destruct (a =? u_id u)%N eqn:E; cbn [negb] in H; [|inversion H].
    apply N.eqb_eq in E. split; [exact E|].
    match type of H with
    | context [save env ?d st] =>
        destruct (save env d st) as [st1 [e|d']] eqn:Hsv
    end; inversion H; subst; clear H.
    apply save_loaded_fields in Hsv; [|reflexivity].
    destruct Hsv as (Hst & Hin & _ & Hid & Hstat & Hres & _).
    exists (fields d'). rewrite Hst in *.
    cbn [reports setReports setStatus fields loaded withStatus status
         isResolved _id] in *.
    repeat split; auto.
Qed.

Lemma agency_status_update_compares_user_id_witness :
  AgencyController.updateAgencyReportStatus (L := Samples.plainLibs)
    (Samples.env 2000 x00 x00 x00)
    (Samples.statusUpdate 2%N "resolved" 7%N "agency")
    (run (L := Samples.plainLibs) [Seed; Samples.createStreetlight] emptyStore)
  = (run (L := Samples.plainLibs) [Seed; Samples.createStreetlight] emptyStore,
     thrown (Some 403%N) "You are not authorized to update this report").
Proof.
  destruct (findById 2%N
              (run (L := Samples.plainLibs)
                   [Seed; Samples.createStreetlight] emptyStore))
    as [r|] eqn:Hr; [|vm_compute in Hr; discriminate].
  apply (proj1 (agency_status_update_compares_user_id Samples.plainLibs
                  (Samples.env 2000 x00 x00 x00)
                  (Samples.statusUpdate 2%N "resolved" 7%N "agency")
                  (run (L := Samples.plainLibs)
                       [Seed; Samples.createStreetlight] emptyStore)
                  r eq_refl
                  (f_equal (fun o => inr o) Hr))).
  vm_compute in Hr. inversion Hr; subst r. vm_compute. discriminate.
Defined.

Lemma find_app {A} (f : A -> bool) l l' :
  find f (l ++ l')
  = match find f l with Some y => Some y | None => find f l' end.
Proof.
  induction l as [|x l IH]; simpl; auto. destruct (f x); auto.
Qed.

Lemma seed_category_present st :
  find (fun c => Category.name c =? "uncategorised")
    (categories
       match find (fun c => Category.name c =? "uncategorised")
                  (categories st) with
       | Some _ => st
       | None =>
           fst (Catalogue.createCategoryDoc "uncategorised"
                  (Str "Uncategorized reports") st)
       end) <> None.
Proof.
  destruct (find _ (categories st)) eqn:Hc.
  - rewrite Hc. discriminate.
  - unfold Catalogue.createCategoryDoc, freshId.
    cbn [fst categories setCategories].
    rewrite find_app, Hc. simpl. discriminate.
Qed.

Lemma seed_agency_present st :
  categories
    match find (fun a => Agency.name a =? "unassigned") (agencies st) with
    | Some _ => st
    | None =>
        fst (Catalogue.createAgencyDoc "unassigned"
               (Str "Unassigned reports") st)
    end = categories st
  /\ find (fun a => Agency.name a =? "unassigned")
       (agencies
          match find (fun a => Agency.name a =? "unassigned") (agencies st) with
          | Some _ => st
          | None =>
              fst (Catalogue.createAgencyDoc "unassigned"
                     (Str "Unassigned reports") st)
          end) <> None.
Proof.
  destruct (find _ (agencies st)) eqn:Ha.
  - rewrite Ha. split; [reflexivity|discriminate].
  - unfold Catalogue.createAgencyDoc, freshId. cbn [agencies].
    destruct (existsb _ (agencies st)) eqn:Hex.
    + apply existsb_exists in Hex as [x [Hx Hn]].
      pose proof (find_none _ _ Ha x Hx) as Hf. cbv beta in Hf. congruence.
    + cbn [fst categories agencies setAgencies]. split; [reflexivity|].
      rewrite find_app, Ha. simpl. discriminate.
Qed.

Lemma seedDefaults_present st :
  find (fun c => Category.name c =? "uncategorised")
       (categories (Catalogue.seedDefaults st)) <> None
  /\ find (fun a => Agency.name a =? "unassigned")
          (agencies (Catalogue.seedDefaults st)) <> None.
Proof.
  unfold Catalogue.seedDefaults. cbv zeta.
  match goal with
  | |- context [agencies ?s] =>
      destruct (seed_agency_present s) as [Hc Ha]
  end.
  split; [|exact Ha]. rewrite Hc. apply seed_category_present.
Qed.

(** C9 (as amended). A report created by [createReport] refers to the
    records named "uncategorised" and "unassigned" when they exist at the
    time of creation, as they do right after the seeding; a sentinel record
    that is missing leaves the field [null]. *)
Theorem created_report_defaults (L : Libs)
    (env : Env) (req : Request) (st st' : Store) (out : json) :
  ReporterController.createReport env req st = (st', Sent 201 out) ->
  exists r,
    reports st' = (reports st ++ [r])%list
    /\ category r
       = option_map Category._id
           (find (fun c => Category.name c =? "uncategorised") (categories st))
    /\ agencyAssigned r
       = option_map Agency._id
           (find (fun a => Agency.name a =? "unassigned") (agencies st))
    /\ (forall st0, st = Catalogue.seedDefaults st0 ->
        category r <> None /\ agencyAssigned r <> None)
    /\ (find (fun c => Category.name c =? "uncategorised") (categories st)
        = None -> category r = None)
    /\ (find (fun a => Agency.name a =? "unassigned") (agencies st) = None ->
        agencyAssigned r = None).
Proof.
  intros H. apply createReport_created in H
    as (r & Hr & _ & _ & _ & _ & Hc & Ha).
  exists r. split; [exact Hr|]. split; [exact Hc|]. split; [exact Ha|].
  split; [|split].
  - intros st0 ->. destruct (seedDefaults_present st0) as [H1 H2].
    rewrite Hc, Ha.
    destruct (find _ (categories _)); [|contradiction].
    destruct (find _ (agencies _)); [|contradiction].
    split; discriminate.
  - intros E. rewrite Hc, E. reflexivity.
  - intros E. rewrite Ha, E. reflexivity.
Qed.

Lemma created_report_defaults_witness :
  exists r,
    reports (fst (ReporterController.createReport (L := Samples.plainLibs)
                    (Samples.env 1000 xa9 xf4 xc2)
                    (Samples.requestOf PUndefined
                       (Samples.streetlight Undefined) None)
                    Samples.seeded))
    = [r]
    /\ category r = Some 0%N /\ agencyAssigned r = Some 1%N.
Proof.
  destruct (created_report_defaults Samples.plainLibs
              (Samples.env 1000 xa9 xf4 xc2)
              (Samples.requestOf PUndefined (Samples.streetlight Undefined) None)
              Samples.seeded
              (fst (ReporterController.createReport (L := Samples.plainLibs)
                      (Samples.env 1000 xa9 xf4 xc2)
                      (Samples.requestOf PUndefined
                         (Samples.streetlight Undefined) None)
                      Samples.seeded))
              match snd (ReporterController.createReport
                           (L := Samples.plainLibs)
                           (Samples.env 1000 xa9 xf4 xc2)
                           (Samples.requestOf PUndefined
                              (Samples.streetlight Undefined) None)
                           Samples.seeded) with
              | Sent _ out => out
              | Failed _ _ => JNull
              end)
    as (r & Hr & Hc & Ha & _).
  - vm_compute. reflexivity.
  - exists r. split; [exact Hr|]. split; [exact Hc | exact Ha].
Defined.

(** C9 (as worded) fails: once the administrator has deleted the
    "uncategorised" record, a report is created with [category = null]. *)
Lemma created_without_sentinel_category :
  ~ sentinelDefaults (L := Samples.plainLibs)
      (run (L := Samples.plainLibs)
           [Seed; Samples.deleteSentinelCategory] emptyStore).
Proof.
  intros H.
  destruct (H (Samples.env 1000 xa9 xf4 xc2)
              (Samples.requestOf PUndefined (Samples.streetlight Undefined) None)
              _ _ eq_refl) as (r & Hr & Hc & _).
  vm_compute in Hr. inversion Hr; subst r. apply Hc. reflexivity.
Qed.

(** ** The status history *)

Lemma findById_other r' rs id :
  id <> _id r' ->
  find (fun x => (_id x =? id)%N) (replaceById r' rs)
  = find (fun x => (_id x =? id)%N) rs.
Proof.
  intros Hne. induction rs as [|x rs IH]; simpl; auto.
  destruct (_id x =? _id r')%N eqn:E.
  - apply N.eqb_eq in E. destruct (_id r' =? id)%N eqn:E1.
    + apply N.eqb_eq in E1. congruence.
    + rewrite E, E1. exact IH.
  - destruct (_id x =? id)%N; auto.
Qed.

(** One step appends to the history of a report the entry of its status
    change, if its status changed, and nothing else. *)
Lemma step_history (L : Libs) e st iss id :
  consistent st iss ->
  historyOf id (step e st)
  = (historyOf id st
     ++ match statusOf id st, statusOf id (step e st) with
        | Some s, Some s' =>
            if s =? s' then []
            else [{| h_status := s'; updatedBy := None;
                     h_updatedAt := eventNow e |}]
        | _, _ => []
        end)%list.
Proof.
  intros Hc. destruct (step_effect e st) as [env [Hnow He]].
  unfold historyOf, statusOf, findById.
  inversion He as [Hr Hn | r r' Hin Hev Hr Hn | r Hm Hr Hn]; subst.
  - rewrite Hr. destruct (find _ (reports st)) as [x|]; cbn [option_map].
    + rewrite String.eqb_refl, app_nil_r. reflexivity.
    + reflexivity.
  - rewrite Hr. destruct Hev. destruct (N.eq_dec id (_id r')) as [->|Hne].
    + rewrite findById_replaced.
      2:{ apply existsb_exists. exists r. split; auto.
          apply N.eqb_eq. auto. }
      rewrite ev_id0.
      pose proof (findById_unique st r (co_ids _ _ Hc) Hin) as Hf.
      unfold findById in Hf. rewrite Hf. cbn [option_map].
      rewrite ev_history0, <- Hnow. reflexivity.
    + rewrite findById_other by auto.
      destruct (find _ (reports st)) as [x|]; cbn [option_map].
      * rewrite String.eqb_refl, app_nil_r. reflexivity.
      * reflexivity.
  - rewrite Hr, find_app.
    destruct (find _ (reports st)) as [x|]; cbn [option_map].
    + rewrite String.eqb_refl, app_nil_r. reflexivity.
    + cbn [find]. destruct (_id r =? id)%N; auto.
      destruct Hm. rewrite mi_history0. reflexivity.
Qed.

(** Along a run the history grows by exactly the status changes. *)
Lemma run_history (L : Libs) es st iss id :
  consistent st iss ->
  historyOf id (run es st)
  = (historyOf id st ++ statusChanges id es st)%list.
Proof.
  revert st iss. induction es as [|e es IH]; intros st iss Hc.
  - simpl. rewrite app_nil_r. reflexivity.
  - rewrite run_cons. cbn [statusChanges].
    destruct (step_effect e st) as [env [_ He]].
    rewrite (IH (step e st) (iss ++ optList (stepIssue e st))%list).
    + rewrite (step_history L e st iss id Hc), app_assoc. reflexivity.
    + eapply effect_consistent; eauto.
Qed.

(** C7 (as amended). The history of a report is empty after the save that
    creates it (the status is the schema default "pending", which is not a
    modification, so the history hook pushes nothing).  From then on the
    history is exactly the list of the report's status changes: a step that
    changes the status appends one entry with the new status and the time of
    the request, a step that does not change it appends nothing, and
    entries already there are never altered.  Its length is the number of
    status changes since creation. *)
Theorem status_history_records_changes (L : Libs)
    (es1 es2 es3 : list Event) (env0 : Env) (req0 : Request)
    (st1 : Store) (out : json) :
  ReporterController.createReport env0 req0 (run es1 emptyStore)
  = (st1, Sent 201 out) ->
  exists id p,
    issuedBy (Sent 201 out) = Some (id, p)
    /\ statusOf id st1 = Some "pending"
    /\ historyOf id st1 = []
    /\ historyOf id (run es2 st1) = statusChanges id es2 st1
    /\ List.length (historyOf id (run es2 st1))
       = List.length (statusChanges id es2 st1)
    /\ historyOf id (run (es2 ++ es3) st1)
       = (historyOf id (run es2 st1)
          ++ statusChanges id es3 (run es2 st1))%list.
Proof.
  intros Hcr.
  pose proof (reachable_consistent (es1 ++ [Call CreateReport env0 req0]))
    as Hc1.
  rewrite run_app in Hc1. cbn [run fold_left step invoke] in Hc1.
  fold (run es1 emptyStore) in Hc1. rewrite Hcr in Hc1. cbn [fst] in Hc1.
  pose proof (reachable_consistent es1) as Hc0.
  apply createReport_created in Hcr as (r & Hr & Hm & Hi & _).
  exists (_id r), (generatePlainPassword env0).
  assert (Hf : findById (_id r) st1 = Some r).
  { apply findById_unique; [apply (co_ids _ _ Hc1)|].
    rewrite Hr. apply in_or_app. right. left. reflexivity. }
  assert (Hh : historyOf (_id r) st1 = []).
  { unfold historyOf. rewrite Hf. apply Hm. }
  split; [exact Hi|]. split.
  { unfold statusOf. rewrite Hf. cbn [option_map]. f_equal. apply Hm. }
  split; [exact Hh|].
  assert (H2 : historyOf (_id r) (run es2 st1)
               = statusChanges (_id r) es2 st1).
  { rewrite (run_history L es2 st1 _ (_id r) Hc1), Hh. reflexivity. }
  split; [exact H2|]. split; [rewrite H2; reflexivity|].
  rewrite run_app.
  apply (run_history L es3 (run es2 st1)
           ((issued (es1 ++ [Call CreateReport env0 req0]) emptyStore)
            ++ issued es2 st1)%list).
  apply run_consistent. exact Hc1.
Qed.

Lemma status_history_records_changes_witness :
  historyOf 2%N
    (run (L := Samples.plainLibs)
         [Samples.adminSetsStatus 3000%N "resolved"; Samples.adminWrites 3500%N;
          Samples.adminSetsStatus 4000%N "resolved";
          Samples.adminSetsStatus 5000%N "closed"]
         (run (L := Samples.plainLibs)
              [Seed; Samples.createStreetlight] emptyStore))
  = [{| h_status := "resolved"; updatedBy := None; h_updatedAt := 3000%N |};
     {| h_status := "closed"; updatedBy := None; h_updatedAt := 5000%N |}].
Proof.
  destruct (status_history_records_changes Samples.plainLibs
              [Seed]
              [Samples.adminSetsStatus 3000%N "resolved"; Samples.adminWrites 3500%N;
               Samples.adminSetsStatus 4000%N "resolved";
               Samples.adminSetsStatus 5000%N "closed"]
              []
              (Samples.env 1000 xa9 xf4 xc2)
              (Samples.requestOf PUndefined (Samples.streetlight Undefined) None)
              (run (L := Samples.plainLibs)
                   [Seed; Samples.createStreetlight] emptyStore)
              match snd (ReporterController.createReport
                           (L := Samples.plainLibs)
                           (Samples.env 1000 xa9 xf4 xc2)
                           (Samples.requestOf PUndefined
                              (Samples.streetlight Undefined) None)
                           Samples.seeded) with
              | Sent _ out => out
              | Failed _ _ => JNull
              end)
    as (id & p & Hi & _ & _ & H & _).
  - vm_compute. reflexivity.
  - vm_compute in Hi. inversion Hi; subst id p. rewrite H.
    vm_compute. reflexivity.
Defined.

(** C7 (as worded) fails: right after the save that creates it, the
    report of the streetlight scenario has an empty history, not a history
    of length 1. *)
Lemma history_is_empty_after_creation :
  ~ historyCountsFromOne (L := Samples.plainLibs) [Seed]
      (Samples.env 1000 xa9 xf4 xc2)
      (Samples.requestOf PUndefined (Samples.streetlight Undefined) None)
      [].
Proof.
  intros H.
  specialize (H _ _ 2%N "A9F4C2" eq_refl eq_refl).
  vm_compute in H. discriminate H.
Qed.

(** ** The reporter's message *)

Lemma save_loaded_ok (L : Libs) env d st :
  isNew d = false -> validate (fields d) = true ->
  existsb (fun r' => (_id r' =? _id (fields d))%N) (reports st) = true ->
  exists d', save env d st
             = (setReports st (replaceById (fields d') (reports st)), inr d').
Proof.
  intros Hn Hv Hex. unfold save. rewrite Hv. cbn [negb].
  assert (Hp : forall x, isNew x = false -> hookPassword env x = x).
  { intros x Hx. unfold hookPassword. rewrite Hx. reflexivity. }
  assert (Hn1 : isNew (hookCaseID env st d) = false).
  { unfold hookCaseID. destruct (strTruthy _); simpl; auto. }
  rewrite (Hp _ Hn1).
  assert (Hn2 : isNew (hookHistory env (hookCaseID env st d)) = false).
  { unfold hookHistory. destruct (statusModified _); simpl; auto. }
  rewrite Hn2.
  assert (Hid : _id (fields (hookHistory env (hookCaseID env st d)))
                = _id (fields d)).
  { unfold hookHistory, hookCaseID.
    destruct (strTruthy _); simpl; destruct (statusModified d); auto. }
  rewrite Hid, Hex.
  exists (persisted (hookHistory env (hookCaseID env st d))). reflexivity.
Qed.

Lemma validate_pushComment c r :
  validate r = true -> message c <> "" ->
  validate (pushComment c r) = true.
Proof.
  unfold validate. cbn [pushComment reporterType title description status
                        evidenceFiles comments].
  intros H Hm. rewrite forallb_app. cbn [forallb].
  apply andb_prop in H as [H1 H2]. rewrite H1, H2.
  apply String.eqb_neq in Hm. rewrite Hm. reflexivity.
Qed.

(** C8 (the code departs from it).  The message handler asks bcrypt alone:
    it computes no digest and looks no report up, so a candidate that was
    issued to nobody is let through when bcrypt does not tell it from a
    secret.  One report is stored, with the secret A9F4C2.  The candidate
    made of the secret, a zero byte and the secret again was never issued,
    and the follow-up route, which looks the digest up first, answers it
    404; the message route, [addWhistleblowerMessage], answers it 201 and
    appends the message to the comments of the report. *)
Theorem unissued_candidate_appends_a_message :
  let candidate := "A9F4C2" ++ String Ascii.zero "A9F4C2" in
  let st := run (L := Samples.keyedLibs) [Seed; Samples.createStreetlight]
              emptyStore in
  issued (L := Samples.keyedLibs) [Seed; Samples.createStreetlight] emptyStore
  = [(2%N, "A9F4C2")]
  /\ candidate <> "A9F4C2"
  /\ Routes.serve (L := Samples.keyedLibs) Routes.PostFollowUp
       (Samples.env 2000 x00 x00 x00)
       (Samples.publicRequest
          (Samples.withPasswordAndMessage (Str candidate) Undefined)) st
     = (st, Sent 404 (failure "No report found for this password."))
  /\ option_map comments (findById 2%N st) = Some []
  /\ exists st' out,
       Routes.serve (L := Samples.keyedLibs) Routes.PostMessage
         (Samples.env 2000 x00 x00 x00)
         (Samples.publicRequest
            (Samples.withPasswordAndMessage (Str candidate)
               (Str "any news?"))) st
       = (st', Sent 201 out)
       /\ option_map comments (findById 2%N st')
          = Some [{| c_user := None; role := "reporter";
                     message := "any news?"; c_createdAt := 2000%N |}].
Proof.
  cbv zeta. split; [vm_compute; reflexivity|].
  split; [discriminate|]. split; [vm_compute; reflexivity|].
  split; [vm_compute; reflexivity|].
  do 2 eexists. split; vm_compute; reflexivity.
Qed.

(** ** What the responses show *)

Lemma views_failure code msg : views (Sent code (failure msg)) = [].
Proof. reflexivity. Qed.

Lemma views_no_data code l :
  lit "data" l = None -> views (Sent code (obj l)) = [].
Proof. intros H. unfold views. rewrite get_obj, H. reflexivity. Qed.

Lemma views_object code l kv :
  lit "data" l = Some (JObj kv) -> views (Sent code (obj l)) = [JObj kv].
Proof. intros H. unfold views. rewrite get_obj, H. reflexivity. Qed.

Lemma views_array code l xs :
  lit "data" l = Some (JArr xs) -> views (Sent code (obj l)) = xs.
Proof. intros H. unfold views. rewrite get_obj, H. reflexivity. Qed.

Lemma toJSON_is_object d : exists kv, toJSON d = JObj kv.
Proof.
  unfold toJSON. cbv zeta.
  destruct (toObject_is_object d) as [kv ->]. cbn [del].
  match goal with
  | |- context [match ?x with _ => _ end] => destruct x as [[]|]
  end; try (eexists; reflexivity).
  rewrite match_anonymous. destruct (_ =? _); eexists; reflexivity.
Qed.

Lemma getPublicData_is_object d : exists kv, getPublicData d = JObj kv.
Proof.
  unfold getPublicData. destruct (toObject_is_object d) as [kv ->].
  cbn [del]. destruct (_plainPassword d) as [p|]; [|eexists; reflexivity].
  destruct (p =? ""); eexists; reflexivity.
Qed.

Lemma provenance_comments st pub sec cs :
  Forall (provenance st pub sec) (map commentJson cs).
Proof.
  apply Forall_forall. intros v Hv. apply in_map_iff in Hv as [c [<- _]].
  apply from_elsewhere; unfold commentJson; rewrite get_obj;
    apply lit_absent; reflexivity.
Qed.

Lemma sortByCreatedAtDesc_In x l : In x (sortByCreatedAtDesc l) -> In x l.
Proof.
  unfold sortByCreatedAtDesc.
  assert (Hins : forall r l0 y, In y (insertDesc r l0) -> y = r \/ In y l0).
  { intros r l0. induction l0 as [|z l0 IH]; simpl; intros y Hy.
    - destruct Hy as [<-|[]]; auto.
    - destruct (createdAt z <? createdAt r)%N; simpl in Hy.
      + destruct Hy as [<-|[<-|Hy]]; auto.
      + destruct Hy as [<-|Hy]; auto. destruct (IH y Hy); auto. }
  induction l as [|z l IH]; simpl; auto. intros Hx.
  destruct (Hins _ _ _ Hx); auto.
Qed.

Lemma skipn_In {A} n (l : list A) x : In x (skipn n l) -> In x l.
Proof.
  intros H. rewrite <- (firstn_skipn n l). apply in_or_app. right. exact H.
Qed.

Lemma firstn_In {A} n (l : list A) x : In x (firstn n l) -> In x l.
Proof.
  intros H. rewrite <- (firstn_skipn n l). apply in_or_app. left. exact H.
Qed.

Lemma page_In (L : Libs) p l rs out x :
  page p l rs = inr out -> In x out -> In x rs.
Proof.
  unfold page. destruct ((p =? 0)%N && negb (l =? 0)%N); [discriminate|].
  intros H Hx. inversion H; subst; clear H.
  apply sortByCreatedAtDesc_In.
  destruct (l =? 0)%N.
  - eapply skipn_In; eauto.
  - apply firstn_In in Hx. eapply skipn_In; eauto.
Qed.

Lemma provenance_listing st pub sec (f : Report.t -> Doc) rs :
  (forall r, fields (f r) = r) ->
  (forall r, In r rs -> In r (reports st)) ->
  Forall (provenance st pub sec) (map toJSON (map f rs)).
Proof.
  intros Hf Hin. rewrite map_map. apply Forall_forall. intros v Hv.
  apply in_map_iff in Hv as [r [<- Hr]].
  apply (from_toJSON st pub sec _ (f r)); auto. rewrite Hf. auto.
Qed.

Lemma views_single code l v :
  lit "data" l = Some v -> (exists kv, v = JObj kv) ->
  views (Sent code (obj l)) = [v].
Proof.
  intros H [kv ->]. unfold views. rewrite get_obj, H. reflexivity.
Qed.

Ltac no_views :=
  cbn [fst snd];
  match goal with
  | |- Forall _ (views (Sent _ (failure _))) =>
      rewrite views_failure; constructor
  | |- Forall _ (views (Failed _ _)) => constructor
  | |- Forall _ (views (errorResponse _ _)) => constructor
  | |- Forall _ (views (thrown _ _)) => constructor
  | |- _ => rewrite views_no_data by reflexivity; constructor
  end.

(** A response that carries one report through [toJSON]. *)
Ltac one_toJSON d :=
  cbn [fst snd];
  rewrite (views_single _ _ (toJSON d)) by
    (first [ reflexivity | apply toJSON_is_object ]);
  constructor; [ apply (from_toJSON _ _ _ _ d); [ | reflexivity ] | constructor ].

Lemma provenance_reads (L : Libs) env req st :
  Forall (provenance st false None)
    (views (snd (AdminController.getUnassignedReports env req st)))
  /\ Forall (provenance st false None)
       (views (snd (AdminController.getAllReports env req st)))
  /\ Forall (provenance st false None)
       (views (snd (AdminController.getReportById env req st)))
  /\ Forall (provenance st false None)
       (views (snd (AgencyController.getAgencyReports env req st)))
  /\ Forall (provenance st false None)
       (views (snd (AgencyController.getAgencyReportById env req st))).
Proof.
  split; [|split; [|split; [|split]]].
  - unfold AdminController.getUnassignedReports.
    destruct (find _ (agencies st)) as [a|]; [|no_views].
    cbn [snd]. erewrite views_array by reflexivity.
    apply provenance_listing; [reflexivity|].
    intros r Hr. apply sortByCreatedAtDesc_In in Hr.
    apply filter_In in Hr. tauto.
  - unfold AdminController.getAllReports.
    destruct (negb (regexValid _)); [no_views|].
    destruct (page _ _ _) as [e|rs] eqn:Hp; [no_views|].
    cbn [snd]. erewrite views_array by reflexivity.
    apply provenance_listing; [reflexivity|].
    intros r Hr. apply (page_In L _ _ _ _ _ Hp) in Hr.
    apply filter_In in Hr. tauto.
  - unfold AdminController.getReportById.
    destruct (params_id req) as [|s|id] eqn:Hid; cbn [wellFormed negb];
      try no_views.
    destruct (reportById (POid id) st) as [e|[r|]] eqn:Hr; try no_views.
    match goal with
    | |- context [toJSON ?d] => one_toJSON d
    end.
    apply reportById_In in Hr. exact Hr.
  - unfold AgencyController.getAgencyReports.
    destruct (user req) as [u|]; [|no_views].
    destruct (negb (u_role u =? "agency")); [no_views|].
    destruct (AgencyController.agencyOfUser _ st) as [a|]; [|no_views].
    destruct (negb (regexValid _)); [no_views|].
    destruct (page _ _ _) as [e|rs] eqn:Hp; [no_views|].
    cbn [snd]. erewrite views_array by reflexivity.
    apply provenance_listing; [reflexivity|].
    intros r Hr. apply (page_In L _ _ _ _ _ Hp) in Hr.
    apply filter_In in Hr. tauto.
  - unfold AgencyController.getAgencyReportById.
    destruct (user req) as [u|]; [|no_views].
    destruct (AgencyController.agencyOfUser _ st) as [a|]; [|no_views].
    destruct (params_id req) as [|s|id] eqn:Hid; try no_views.
    + destruct (find _ (reports st)) as [r|] eqn:Hr; [|no_views].
      match goal with
      | |- context [toJSON ?d] => one_toJSON d
      end.
      apply find_some in Hr. tauto.
    + destruct (find _ (reports st)) as [r|] eqn:Hr; [|no_views].
      match goal with
      | |- context [toJSON ?d] => one_toJSON d
      end.
      apply find_some in Hr. tauto.
Qed.

Ltac branch :=
  match goal with
  | |- context [fst (if ?c then _ else _)] => destruct c eqn:?
  | |- context [fst (match ?x with _ => _ end)] => destruct x eqn:?
  end.

(** The end of an updating handler that answers with the saved report. *)
Ltac saved_toJSON :=
  match goal with
  | |- context [save ?env ?d ?st] =>
      let Hs := fresh "Hs" in
      let st' := fresh "st'" in
      let e := fresh "e" in
      let d' := fresh "d'" in
      destruct (save env d st) as [st' [e|d']] eqn:Hs;
      [ no_views
      | apply save_loaded_fields in Hs; [ | reflexivity ];
        destruct Hs as (_ & Hs & _);
        match goal with
        | |- context [toJSON ?x] => one_toJSON x
        end; exact Hs ]
  end.

Ltac saved_comments :=
  match goal with
  | |- context [save ?env ?d ?st] =>
      let st' := fresh "st'" in
      let e := fresh "e" in
      let d' := fresh "d'" in
      destruct (save env d st) as [st' [e|d']];
      [ no_views
      | cbn [fst snd]; erewrite views_array by reflexivity;
        apply provenance_comments ]
  end.

Lemma provenance_updates (L : Libs) env req st :
  Forall (provenance (fst (AdminController.updateReportCategory env req st)) false None)
    (views (snd (AdminController.updateReportCategory env req st)))
  /\ Forall (provenance (fst (AdminController.assignReportToAgency env req st))
               false None)
       (views (snd (AdminController.assignReportToAgency env req st)))
  /\ Forall (provenance (fst (AdminController.updateReportStatus env req st))
               false None)
       (views (snd (AdminController.updateReportStatus env req st)))
  /\ Forall (provenance
               (fst (AgencyController.updateAgencyReportStatus env req st)) false None)
       (views (snd (AgencyController.updateAgencyReportStatus env req st)))
  /\ Forall (provenance (fst (AdminController.addAdminMessage env req st)) false None)
       (views (snd (AdminController.addAdminMessage env req st)))
  /\ Forall (provenance (fst (AgencyController.addAgencyMessage env req st))
               false None)
       (views (snd (AgencyController.addAgencyMessage env req st))).
Proof.
  split; [|split; [|split; [|split; [|split]]]].
  - unfold AdminController.updateReportCategory.
    destruct (reportById (params_id req) st) as [e|[r|]]; try no_views.
    branch; [no_views|]. branch; [|no_views]. saved_toJSON.
  - unfold AdminController.assignReportToAgency.
    destruct (reportById (params_id req) st) as [e|[r|]]; try no_views.
    branch; [no_views|]. branch; [|no_views]. saved_toJSON.
  - unfold AdminController.updateReportStatus.
    branch; [no_views|]. branch; [no_views|].
    destruct (reportById (params_id req) st) as [e|[r|]]; try no_views.
    destruct (ReporterController.isStr (b_status (body req)) "resolved");
      [|destruct (ReporterController.isStr (b_status (body req)) "closed")];
      saved_toJSON.
  - unfold AgencyController.updateAgencyReportStatus.
    branch; [no_views|].
    destruct (reportById (params_id req) st) as [e|[r|]]; try no_views.
    branch; [no_views|]. saved_toJSON.
  - unfold AdminController.addAdminMessage.
    destruct (reportById (params_reportId req) st) as [e|[r|]]; try no_views.
    branch; [no_views|]. saved_comments.
  - unfold AgencyController.addAgencyMessage.
    destruct (reportById (params_reportId req) st) as [e|[r|]]; try no_views.
    branch; [no_views|]. branch; [|no_views]. branch; [|no_views].
    branch; [no_views|]. saved_comments.
Qed.

Lemma provenance_plain st pub sec l :
  forallb (fun p => negb (fst p =? "reporterType")) l = true ->
  forallb (fun p => negb (fst p =? "generatedPassword")) l = true ->
  forallb (fun p => negb (fst p =? "password")) l = true ->
  forallb (fun p => negb (fst p =? "passwordKey")) l = true ->
  provenance st pub sec (obj l).
Proof.
  intros H1 H2 H3 H4.
  apply from_elsewhere; rewrite get_obj; apply lit_absent; assumption.
Qed.

Lemma provenance_message (L : Libs) env req st :
  Forall (provenance
            (fst (fst (ReporterController.addWhistleblowerMessage env req st)))
            false None)
    (views (snd (fst (ReporterController.addWhistleblowerMessage
                        env req st)))).
Proof.
  unfold ReporterController.addWhistleblowerMessage, bind, tell, ret.
  destruct (negb (truthy (b_password (body req)))
            || negb (truthy (b_message (body req)))); [no_views|].
  destruct (ReporterController.firstMatch _ (reports st))
    as [[e|[r|]] log]; try no_views.
  destruct (files req) as [|f fs];
    match goal with
    | |- context [save ?env ?d ?st] =>
        destruct (save env d st) as [st' [e|d']]
    end; try no_views;
    cbn [fst snd]; erewrite views_object by reflexivity;
    (constructor; [apply provenance_plain; reflexivity | constructor]).
Qed.

Lemma provenance_catalogue (L : Libs) env req st :
  Forall (provenance (fst (Catalogue.createCategory env req st)) false None)
    (views (snd (Catalogue.createCategory env req st)))
  /\ Forall (provenance (fst (Catalogue.createAgency env req st)) false None)
       (views (snd (Catalogue.createAgency env req st)))
  /\ Forall (provenance (fst (Catalogue.deleteCategory env req st)) false None)
       (views (snd (Catalogue.deleteCategory env req st)))
  /\ Forall (provenance (fst (Catalogue.deleteAgency env req st)) false None)
       (views (snd (Catalogue.deleteAgency env req st))).
Proof.
  split; [|split; [|split]].
  - unfold Catalogue.createCategory.
    do 4 (branch; [no_views|]).
    destruct (Catalogue.createCategoryDoc _ _ st) as [st1 c].
    cbn [fst snd]. unfold Category.toJson.
    erewrite views_object by reflexivity.
    constructor; [apply provenance_plain; reflexivity | constructor].
  - unfold Catalogue.createAgency.
    do 4 (branch; [no_views|]).
    destruct (Catalogue.createAgencyDoc _ _ st) as [st1 [e|a]]; [no_views|].
    cbn [fst snd]. unfold Agency.toJson.
    erewrite views_object by reflexivity.
    constructor; [apply provenance_plain; reflexivity | constructor].
  - unfold Catalogue.deleteCategory. repeat branch; no_views.
  - unfold Catalogue.deleteAgency. repeat branch; no_views.
Qed.

Lemma provenance_follow_up (L : Libs) env req st :
  Forall (provenance st true None)
    (views (snd (fst (ReporterController.getReportByPassword env req st)))).
Proof.
  unfold ReporterController.getReportByPassword,
    ReporterController.matchPassword, bind, tell, ret.
  destruct (negb (truthy (b_password (body req)))); [no_views|].
  destruct (findOneByPasswordKey _ st) as [r|] eqn:Hf; [|no_views].
  cbn [populateAgency populateCategory loaded withPassword fields].
  destruct (password r) as [h|]; [|no_views].
  destruct (bcrypt_compare _ h); [|no_views].
  cbn [fst snd].
  match goal with
  | |- context [getPublicData ?d] =>
      rewrite (views_single _ _ (getPublicData d)) by
        (first [ reflexivity | apply getPublicData_is_object ]);
      constructor; [ apply (from_getPublicData _ _ _ _ d);
                     [ reflexivity | | reflexivity | reflexivity ]
                   | constructor ]
  end.
  apply findOneByPasswordKey_found in Hf. tauto.
Qed.

Lemma provenance_created (L : Libs) env req st :
  Forall (provenance (fst (ReporterController.createReport env req st))
            true (Some (generatePlainPassword env)))
    (views (snd (ReporterController.createReport env req st))).
Proof.
  unfold ReporterController.createReport.
  repeat match goal with
         | |- context [if ?c then (st, Sent 400 _) else _] =>
             destruct c eqn:?; [no_views|]
         end.
  match goal with
  | H : ReporterController.isStr _ "anonymous" && _ = false |- _ =>
      pose proof (anonymous_guard req H) as Hg
  end.
  match goal with
  | |- context [create env ?o st] =>
      destruct (create env o st) as [st' [e|d]] eqn:Hc;
      apply create_result in Hc; [ | exact Hg | | exact Hg ]
  end; [no_views|].
  destruct Hc as (_ & _ & _ & _ & Hr & _ & Hp & _).
  cbn [fst snd].
  rewrite (views_single _ _ (getPublicData d)) by
    (first [ reflexivity | apply getPublicData_is_object ]).
  constructor; [|constructor].
  apply (from_getPublicData _ _ _ _ d); auto.
  cbn [reports logAudit]. rewrite Hr. apply in_or_app. right. left. reflexivity.
Qed.

Lemma reads_keep_store (L : Libs) env req st :
  fst (AdminController.getUnassignedReports env req st) = st
  /\ fst (AdminController.getAllReports env req st) = st
  /\ fst (AdminController.getReportById env req st) = st
  /\ fst (AgencyController.getAgencyReports env req st) = st
  /\ fst (AgencyController.getAgencyReportById env req st) = st.
Proof.
  unfold AdminController.getUnassignedReports, AdminController.getAllReports,
    AdminController.getReportById, AgencyController.getAgencyReports,
    AgencyController.getAgencyReportById.
  repeat split; repeat branch; reflexivity.
Qed.

(** Every representation in a response is a report of the store serialised
    by [toJSON] or by [getPublicData], or carries no report at all; only
    [createReport] serialises a document that holds a plaintext secret. *)
Lemma invoke_provenance (L : Libs) h env req st :
  Forall (provenance (fst (invoke h env req st))
            match h with
            | CreateReport | GetReportByPassword => true
            | _ => false
            end
            (if match h with CreateReport => true | _ => false end
             then Some (generatePlainPassword env) else None))
    (views (snd (invoke h env req st))).
Proof.
  destruct h; cbn [invoke];
    first
      [ apply provenance_created
      | apply provenance_message
      | apply (provenance_updates L)
      | apply (provenance_catalogue L)
      | idtac ].
  - rewrite getReportByPassword_store. apply provenance_follow_up.
  - rewrite (proj1 (reads_keep_store L env req st)). apply (provenance_reads L).
  - rewrite (proj1 (proj2 (reads_keep_store L env req st))).
    apply (provenance_reads L).
  - rewrite (proj1 (proj2 (proj2 (reads_keep_store L env req st)))).
    apply (provenance_reads L).
  - rewrite (proj1 (proj2 (proj2 (proj2 (reads_keep_store L env req st))))).
    apply (provenance_reads L).
  - rewrite (proj2 (proj2 (proj2 (proj2 (reads_keep_store L env req st))))).
    apply (provenance_reads L).
Qed.

(** ** Anonymity *)

Lemma toJSON_reporterType d :
  get "reporterType" (toJSON d) = Some (JStr (reporterType (fields d))).
Proof.
  rewrite toJSON_get.
  destruct (reporterType (fields d) =? "anonymous");
    cbv [String.eqb Ascii.eqb Bool.eqb orb andb];
    apply toObject_reporterType.
Qed.

Lemma getPublicData_reporterType d :
  get "reporterType" (getPublicData d)
  = Some (JStr (reporterType (fields d))).
Proof.
  rewrite getPublicData_get, toObject_reporterType.
  cbv [String.eqb Ascii.eqb Bool.eqb orb andb]. reflexivity.
Qed.

(** The [toJSON] transform removes the identity fields of an anonymous
    report. *)
Lemma toJSON_anonymous d :
  reporterType (fields d) = "anonymous" -> hasIdentity (toJSON d) = false.
Proof.
  intros Ha. unfold hasIdentity, identityKeys, has. cbn [existsb].
  rewrite !toJSON_get, Ha. reflexivity.
Qed.

(** [getPublicData] shows the identity fields as they are stored. *)
Lemma getPublicData_identity d :
  get "reporterName" (getPublicData d) = ofValue (reporterName (fields d))
  /\ get "reporterEmail" (getPublicData d)
     = ofValue (reporterEmail (fields d))
  /\ get "reporterPhone" (getPublicData d)
     = ofValue (reporterPhone (fields d)).
Proof.
  rewrite !getPublicData_get, toObject_reporterName, toObject_reporterEmail,
    toObject_reporterPhone.
  repeat split;
    match goal with
    | |- context [ofValue ?x] => destruct (ofValue x)
    end; destruct (_plainPassword d) as [p|];
    try destruct (p =? ""); reflexivity.
Qed.

(** C4 (the code departs from it).  An anonymous submission is posted to
    /api/reports with the name field of the form left empty.  The check of
    [createReport] tests the truthiness of the three identity fields, so
    it lets the submission through: the request answers 201, the report is
    stored with [reporterName] set, and the creation response and the
    follow-up, which serialise with [getPublicData], both return the key
    [reporterName] on an anonymous report.  The admin read of the same
    report, which serialises with the [toJSON] transform, returns no such
    key.  So the creation response is a representation of an anonymous
    report that contains an identity field. *)
Theorem anonymous_report_is_returned_with_reporterName :
  let submit :=
    Routes.serve (L := Samples.plainLibs) Routes.PostReports
      (Samples.env 1000 xa9 xf4 xc2)
      (Samples.publicRequest (Samples.streetlight (Str "")))
      Samples.seeded in
  (exists body data,
      snd submit = Sent 201 body
      /\ get "data" body = Some data
      /\ get "reporterType" data = Some (JStr "anonymous")
      /\ get "reporterName" data = Some (JStr ""))
  /\ (exists r,
         findById 2%N (fst submit) = Some r
         /\ reporterType r = "anonymous" /\ reporterName r = Str "")
  /\ (exists v,
         views (snd (Routes.serve (L := Samples.plainLibs) Routes.PostFollowUp
                       (Samples.env 2000 x00 x00 x00)
                       (Samples.publicRequest
                          (Samples.withPasswordAndMessage (Str "A9F4C2")
                             Undefined))
                       (fst submit)))
         = [v]
         /\ get "reporterType" v = Some (JStr "anonymous")
         /\ get "reporterName" v = Some (JStr ""))
  /\ (exists v,
         views (snd (Routes.serve (L := Samples.plainLibs) Routes.GetAdminReport
                       (Samples.env 2000 x00 x00 x00)
                       (Samples.adminRequest (POid 2%N) Samples.emptyBody)
                       (fst submit)))
         = [v]
         /\ get "reporterType" v = Some (JStr "anonymous")
         /\ get "reporterName" v = None)
  /\ ~ anonymityPreserved (snd submit).
Proof.
  cbv zeta. split; [|split; [|split; [|split]]].
  - vm_compute. do 2 eexists. repeat split; reflexivity.
  - vm_compute. eexists. repeat split; reflexivity.
  - vm_compute. eexists. repeat split; reflexivity.
  - vm_compute. eexists. repeat split; reflexivity.
  - intros H.
    match type of H with
    | anonymityPreserved ?resp =>
        destruct (views resp) as [|v vs] eqn:Hv;
        [ vm_compute in Hv; discriminate | ];
        unfold anonymityPreserved in H; rewrite Hv in H
    end.
    inversion H as [|? ? Hhead _]; subst.
    vm_compute in Hv. injection Hv as Hv _. subst v.
    assert (E : true = false) by (apply Hhead; vm_compute; reflexivity).
    discriminate E.
Qed.

(** ** The secret in the responses *)

Lemma has_obj_absent k l :
  forallb (fun p => negb (fst p =? k)) l = true -> has k (obj l) = false.
Proof. intros H. apply has_get. rewrite get_obj. apply lit_absent, H. Qed.

(** Where a handler's response is decided: every test and every result it
    branches on. *)
Ltac walk :=
  repeat match goal with
         | |- context [snd (if ?c then _ else _)] => destruct c
         | |- context [snd (match ?x with _ => _ end)] => destruct x
         | |- context [fst (if ?c then _ else _)] => destruct c
         | |- context [fst (match ?x with _ => _ end)] => destruct x
         end;
  cbn [fst snd].

Ltac no_key :=
  first [ reflexivity | apply has_obj_absent; reflexivity ].

(** Only [createReport] answers with a [casePassword]. *)
Lemma invoke_casePassword (L : Libs) h env req st :
  h <> CreateReport ->
  match snd (invoke h env req st) with
  | Sent _ body => has "casePassword" body
  | Failed _ _ => false
  end = false.
Proof.
  intros Hh. destruct h; try congruence; cbn [invoke].
  1:{ unfold ReporterController.getReportByPassword,
        ReporterController.matchPassword, bind, tell, ret.
      destruct (negb (truthy (b_password (body req)))); [reflexivity|].
      destruct (findOneByPasswordKey _ st) as [r|]; [|reflexivity].
      cbn [populateAgency populateCategory loaded withPassword fields].
      destruct (password r) as [pw|]; [|reflexivity].
      destruct (bcrypt_compare _ pw); cbn [fst snd]; no_key. }
  1:{ unfold ReporterController.addWhistleblowerMessage, bind, tell, ret.
      destruct (negb (truthy (b_password (body req)))
                || negb (truthy (b_message (body req)))); [no_key|].
      destruct (ReporterController.firstMatch _ (reports st))
        as [[e|[r|]] log]; try no_key.
      destruct (files req) as [|f fs];
        match goal with
        | |- context [save ?env ?d ?st] =>
            destruct (save env d st) as [st' [e|d']]
        end; cbn [fst snd]; no_key. }
  all: unfold AdminController.getUnassignedReports,
      AdminController.getAllReports,
      AdminController.getReportById, AdminController.updateReportCategory,
      AdminController.assignReportToAgency, AdminController.updateReportStatus,
      AdminController.addAdminMessage, Catalogue.createCategory,
      Catalogue.createAgency, Catalogue.deleteCategory,
      Catalogue.deleteAgency, AgencyController.getAgencyReports,
      AgencyController.getAgencyReportById, AgencyController.addAgencyMessage,
      AgencyController.updateAgencyReportStatus;
    walk; no_key.
Qed.

Lemma provenance_generatedPassword st pub sec v q :
  provenance st pub sec v ->
  get "generatedPassword" v = Some (JStr q) -> sec = Some q.
Proof.
  intros [d _ -> | d _ _ Hp -> | _ Hg _ _] H.
  - rewrite toJSON_get, toObject_generatedPassword in H.
    destruct (reporterType (fields d) =? "anonymous");
      cbv [String.eqb Ascii.eqb Bool.eqb orb andb] in H; discriminate.
  - rewrite getPublicData_get, toObject_generatedPassword in H.
    destruct (_plainPassword d) as [p|]; [destruct (p =? "")|];
      cbv [String.eqb Ascii.eqb Bool.eqb orb andb] in H;
      try discriminate.
    inversion H; subst. reflexivity.
  - congruence.
Qed.

Lemma provenance_no_credential st pub v :
  provenance st pub None v ->
  has "generatedPassword" v || has "password" v || has "passwordKey" v
  = false.
Proof.
  intros [d _ -> | d _ _ Hp -> | _ Hg Hw Hk].
  - unfold has. rewrite !toJSON_get, toObject_generatedPassword.
    destruct (reporterType (fields d) =? "anonymous"); reflexivity.
  - unfold has. rewrite !getPublicData_get, toObject_generatedPassword, Hp.
    reflexivity.
  - unfold has. rewrite Hg, Hw, Hk. reflexivity.
Qed.

Lemma createReport_cases (L : Libs) env req st :
  (exists body,
      snd (ReporterController.createReport env req st) = Sent 201 body)
  \/ (exists msg,
         ReporterController.createReport env req st
         = (st, Sent 400 (failure msg)))
  \/ (exists e,
         snd (ReporterController.createReport env req st) = Failed None e).
Proof.
  unfold ReporterController.createReport. cbv zeta.
  repeat match goal with
         | |- context [if ?c then (st, Sent 400 _) else _] =>
             destruct c; [right; left; eexists; reflexivity|]
         end.
  match goal with
  | |- context [create env ?o st] => destruct (create env o st) as [s [e|d]]
  end; cbn [snd]; eauto.
Qed.

(** A response that shows a secret is the 201 of [createReport], and the
    secret is the one generated for that very request. *)
Lemma reveals_creation (L : Libs) h env req st q :
  reveals q (snd (invoke h env req st)) ->
  h = CreateReport /\ q = generatePlainPassword env
  /\ exists body, snd (invoke h env req st) = Sent 201 body.
Proof.
  intros Hrev.
  pose proof (invoke_provenance L h env req st) as Hp.
  assert (Hdec : h = CreateReport \/ h <> CreateReport)
    by (destruct h; first [left; reflexivity | right; discriminate]).
  destruct Hdec as [-> | Hne].
  - cbn [invoke] in *. split; [reflexivity|].
    destruct (createReport_cases L env req st) as [[b Hb]|[[m Hm]|[e He]]].
    + rewrite Hb in Hrev. cbn [reveals] in Hrev. split; [|eauto].
      destruct Hrev as [Hc | [v [Hin Hg]]].
      * destruct (ReporterController.createReport env req st)
          as [st' resp] eqn:Hcr.
        cbn [snd] in Hb. subst resp.
        apply createReport_created in Hcr.
        destruct Hcr as (r & _ & _ & _ & Hcp & _). congruence.
      * rewrite Hb in Hp. rewrite Forall_forall in Hp.
        apply (provenance_generatedPassword _ _ _ _ _ (Hp v Hin)) in Hg.
        congruence.
    + rewrite Hm in Hrev. cbn [snd reveals] in Hrev.
      destruct Hrev as [Hc | [v [[] _]]]. discriminate Hc.
    + rewrite He in Hrev. contradiction.
  - exfalso.
    pose proof (invoke_casePassword L h env req st Hne) as Hk.
    destruct (snd (invoke h env req st)) as [code b|s e] eqn:Hr;
      [|contradiction].
    cbn [reveals] in Hrev. destruct Hrev as [Hc | [v [Hin Hg]]].
    + apply has_get in Hk. congruence.
    + rewrite Forall_forall in Hp.
      apply (provenance_generatedPassword _ _ _ _ _ (Hp v Hin)) in Hg.
      destruct h; try discriminate Hg. congruence.
Qed.

Import Behaviour Routes.

(** ** The case secret is shown once *)

(** [Report.create], hook by hook: the report is validated, receives the
    case identifier and the credentials, and is inserted unless a unique
    index refuses it. *)
Lemma create_explicit (L : Libs) env o st :
  create env o st
  = let r :=
      withSecret (sha256hex (generatePlainPassword env))
        (bcrypt_hash (generatePlainPassword env) (genSalt env))
        (withCaseID (nextCaseID env st)
           (fields (construct env (nextId st) o))) in
    if negb (validate (fields (construct env (nextId st) o)))
    then (snd (freshId st), inl validationError)
    else if duplicateKey r (reports st)
         then (snd (freshId st), inl duplicateKeyError)
         else (setReports (snd (freshId st)) (reports st ++ [r])%list,
               inr {| fields := r; isNew := false; statusModified := false;
                      withPassword := true;
                      _plainPassword := Some (generatePlainPassword env);
                      popCategory := Unpopulated;
                      popAgency := Unpopulated |}).
Proof.
  unfold create, freshId, save. cbv zeta. cbn [fst snd].
  destruct (negb (validate _)); reflexivity.
Qed.

Lemma optEqb_true a b : optEqb a b = true -> a = b.
Proof.
  destruct a as [x|], b as [y|]; cbn; try discriminate; auto.
  intros H. apply String.eqb_eq in H. congruence.
Qed.

(** The unique indexes accept a report whose identifier is new and whose
    case identifier, hash and lookup key are those of no stored report. *)
Lemma duplicateKey_unused r rs :
  ~ In (_id r) (map _id rs) -> ~ In (caseID r) (map caseID rs) ->
  ~ In (password r) (map password rs) ->
  ~ In (passwordKey r) (map passwordKey rs) ->
  duplicateKey r rs = false.
Proof.
  intros H1 H2 H3 H4. apply not_true_is_false. intros Hd.
  unfold duplicateKey in Hd. apply existsb_exists in Hd as (x & Hx & Hor).
  rewrite !orb_true_iff in Hor.
  destruct Hor as [[[H|H]|H]|H].
  - apply N.eqb_eq in H. apply H1. rewrite <- H. apply in_map. exact Hx.
  - apply optEqb_true in H. apply H2. rewrite <- H. apply in_map. exact Hx.
  - apply optEqb_true in H. apply H3. rewrite <- H. apply in_map. exact Hx.
  - apply optEqb_true in H. apply H4. rewrite <- H. apply in_map. exact Hx.
Qed.

(** An acceptable submission whose generated identifiers are not taken is
    stored and answered with 201. *)
Lemma createReport_succeeds (L : Libs) env req st :
  Forall (fun r => (_id r < nextId st)%N) (reports st) ->
  acceptable req -> unused env st ->
  exists st' body,
    ReporterController.createReport env req st = (st', Sent 201 body).
Proof.
  intros Hfresh (Ht & Hd & Hty & Hfiles) (Hc & Hk & Hh).
  assert (Hguards :
            includes ["anonymous"; "confidential"]
              (ReporterController.strOf (b_reporterType (body req))) = true
            /\ ReporterController.isStr (b_reporterType (body req)) "anonymous"
               && (truthy (b_reporterName (body req))
                   || truthy (b_reporterEmail (body req))
                   || truthy (b_reporterPhone (body req))) = false
            /\ ReporterController.isStr (b_reporterType (body req))
                 "confidential"
               && (negb (truthy (b_reporterName (body req)))
                   || negb (truthy (b_reporterEmail (body req)))) = false).
  { destruct Hty as [(Hty & Hn & He & Hp) | (Hty & Hn & He)];
      rewrite Hty, Hn, He, ?Hp; repeat split; reflexivity. }
  destruct Hguards as (Hg1 & Hg2 & Hg3).
  unfold ReporterController.createReport. cbv zeta.
  rewrite Ht, Hd, Hg1, Hg2, Hg3. cbn [negb orb].
  rewrite create_explicit. cbv zeta.
  match goal with
  | |- context [validate ?r] => assert (Hv : validate r = true)
  end.
  { unfold validate.
    cbn [construct fields reporterType title description status evidenceFiles
         comments n_reporterType n_title n_description n_evidenceFiles
         forallb].
    unfold reporterTypes. rewrite Hg1.
    assert (Hs : forall v, truthy v = true ->
                           negb (ReporterController.strOf v =? "") = true).
    { intros v Hv. destruct v as [| |s]; cbn in *; try discriminate.
      exact Hv. }
    rewrite (Hs _ Ht), (Hs _ Hd). cbn [andb].
    rewrite andb_true_r.
    rewrite andb_true_iff. split; [reflexivity|].
    apply forallb_forall. intros e He. apply in_map_iff in He as (f & <- & Hf).
    cbn [filePath]. rewrite Forall_forall in Hfiles.
    apply negb_true_iff. apply String.eqb_neq. apply Hfiles. exact Hf. }
  rewrite Hv. cbn [negb].
  match goal with
  | |- context [duplicateKey ?r ?rs] => assert (Hdk : duplicateKey r rs = false)
  end.
  { apply duplicateKey_unused;
      cbn [withSecret withCaseID construct fields _id caseID password
           passwordKey]; auto.
    intros Hin. apply in_map_iff in Hin as (x & Hx & Hin).
    rewrite Forall_forall in Hfresh. specialize (Hfresh x Hin). lia. }
  rewrite Hdk. do 2 eexists. reflexivity.
Qed.

(** C5.  One-time exposure of the secret.  A submission that passes the
    checks of [createReport] and whose generated identifiers are not taken
    is answered with 201.  The 201 shows the generated secret, as
    [casePassword] and as [generatedPassword] of its data, and the report
    it stores holds the SHA-256 digest of the secret as [passwordKey] and
    its bcrypt hash as [password]; whatever the random bytes the secret is
    drawn from, the stored report is one and the same report apart from
    these two values, so the plaintext itself is not stored.  Whatever the
    system does afterwards, no response of any operation shows a secret
    that was handed out before, and the responses of all operations other
    than [createReport] carry no secret, no hash and no lookup key at
    all. *)
Theorem secret_is_shown_once (L : Libs) (es1 es2 : list Event)
    (env0 : Env) (req0 : Request) (h : Handler) (env : Env) (req : Request) :
  forall st0 created p es st resp,
    st0 = run es1 emptyStore ->
    created = ReporterController.createReport env0 req0 st0 ->
    p = generatePlainPassword env0 ->
    es = (es1 ++ Call CreateReport env0 req0 :: es2)%list ->
    st = run es emptyStore ->
    resp = snd (invoke h env req st) ->
    (acceptable req0 -> unused env0 st0 ->
     exists body, snd created = Sent 201 body)
    /\ (forall body, snd created = Sent 201 body ->
          get "casePassword" body = Some (JStr p)
          /\ (exists v, views (snd created) = [v]
                        /\ get "generatedPassword" v = Some (JStr p))
          /\ (exists r, reports (fst created) = (reports st0 ++ [r])%list
                        /\ passwordKey r = Some (sha256hex p)
                        /\ password r = Some (bcrypt_hash p (genSalt env0)))
          /\ ~ reveals p resp)
    /\ (exists r0,
          forall b body,
            snd (ReporterController.createReport (drawing b env0) req0 st0)
            = Sent 201 body ->
            reports
              (fst (ReporterController.createReport (drawing b env0) req0
                      st0))
            = (reports st0
               ++ [withSecret
                     (sha256hex (generatePlainPassword (drawing b env0)))
                     (bcrypt_hash (generatePlainPassword (drawing b env0))
                        (genSalt env0))
                     r0])%list)
    /\ (forall q, In q (map snd (issued es emptyStore)) -> ~ reveals q resp)
    /\ (h <> CreateReport -> carriesCredential resp = false).
Proof.
  intros st0 created p es st resp -> -> -> -> -> ->.
  set (es := (es1 ++ Call CreateReport env0 req0 :: es2)%list).
  assert (Hnever : forall q, In q (map snd (issued es emptyStore)) ->
                             ~ reveals q (snd (invoke h env req
                                                 (run es emptyStore)))).
  { intros q Hq Hrev.
    apply reveals_creation in Hrev as (-> & -> & body & Hb).
    cbn [invoke] in Hb.
    destruct (ReporterController.createReport env req (run es emptyStore))
      as [st' resp] eqn:Hcr.
    cbn [snd] in Hb. subst resp.
    apply createReport_created in Hcr as (r & _ & Hm & _).
    destruct (duplicateKey_fresh _ _ (mi_unique _ _ _ Hm)) as [_ Hfresh].
    apply Hfresh. rewrite (mi_key _ _ _ Hm).
    pose proof (reachable_consistent es) as Hc.
    apply in_map_iff in Hq as [[id q'] [Heq Hin]]. cbn [snd] in Heq.
    destruct (Forall2_In_r _ _ _ _ (co_secrets _ _ Hc) Hin)
      as [r0 [Hr0 (_ & Hk0 & _)]].
    cbn [snd] in Hk0. rewrite Heq in Hk0.
    apply in_map_iff. exists r0. split; auto. }
  split; [|split; [|split; [|split]]].
  - intros Hacc Hun.
    destruct (createReport_succeeds L env0 req0 (run es1 emptyStore)
                (co_fresh _ _ (reachable_consistent es1)) Hacc Hun)
      as (st' & body & Hcr).
    exists body. rewrite Hcr. reflexivity.
  - intros body Hb.
    destruct (ReporterController.createReport env0 req0 (run es1 emptyStore))
      as [st' resp] eqn:Hcr.
    cbn [fst snd] in *. subst resp.
    pose proof Hcr as Hcr'.
    apply createReport_created in Hcr'
      as (r & Hr & Hm & Hi & Hcp & (d & Hd & Hpl & Hdata) & _).
    split; [exact Hcp|]. split; [|split].
    + exists (getPublicData d). split.
      * unfold views. rewrite Hdata.
        destruct (getPublicData_is_object d) as [kv ->]. reflexivity.
      * rewrite getPublicData_get, toObject_generatedPassword, Hpl.
        destruct (generatePlainPassword env0 =? "") eqn:Hne.
        -- apply String.eqb_eq in Hne.
           destruct (generatePlainPassword_nonempty env0 Hne).
        -- reflexivity.
    + exists r. split; [exact Hr|]. split; [apply Hm | apply Hm].
    + apply Hnever. unfold es. rewrite issued_app, map_app.
      apply in_or_app. right. cbn [issued stepIssue invoke].
      rewrite Hcr. cbn [snd]. rewrite Hi. left. reflexivity.
  - eexists. intros b body.
    unfold ReporterController.createReport. cbv zeta.
    repeat match goal with
           | |- context [if ?c then (_, Sent 400 _) else _] =>
               destruct c; [intros Hb; discriminate Hb|]
           end.
    rewrite create_explicit. cbv zeta.
    destruct (negb (validate _)); [intros Hb; discriminate Hb|].
    destruct (duplicateKey _ _); [intros Hb; discriminate Hb|].
    intros _. cbn [fst reports logAudit setReports].
    unfold drawing. cbn [now fullYear mathRandom900 genSalt].
    unfold nextCaseID, construct. cbn [now fullYear mathRandom900 genSalt].
    reflexivity.
  - exact Hnever.
  - intros Hne.
    pose proof (invoke_casePassword L h env req (run es emptyStore) Hne)
      as Hk.
    pose proof (invoke_provenance L h env req (run es emptyStore)) as Hp.
    destruct (snd (invoke h env req (run es emptyStore)))
      as [code body|s e] eqn:Hr; [|reflexivity].
    unfold carriesCredential. rewrite Hk. cbn [orb].
    match goal with
    | |- existsb ?f ?l = false => destruct (existsb f l) eqn:Hex
    end; [|reflexivity].
    apply existsb_exists in Hex as [v [Hin Hv]].
    rewrite Forall_forall in Hp. specialize (Hp v Hin).
    assert (Hnone : (if match h with CreateReport => true | _ => false end
                     then Some (generatePlainPassword env) else None)
                    = None) by (destruct h; congruence).
    rewrite Hnone in Hp.
    rewrite (provenance_no_credential _ _ _ Hp) in Hv. discriminate.
Qed.

Lemma secret_is_shown_once_witness :
  (exists body,
      snd (ReporterController.createReport (L := Samples.plainLibs)
             (Samples.env 1000 xa9 xf4 xc2)
             (Samples.requestOf PUndefined (Samples.streetlight Undefined)
                None)
             (run (L := Samples.plainLibs) [Seed] emptyStore))
      = Sent 201 body
      /\ get "casePassword" body = Some (JStr "A9F4C2"))
  /\ ~ reveals "A9F4C2"
         (snd (invoke (L := Samples.plainLibs) GetReportByPassword
                 (Samples.env 2000 x00 x00 x00)
                 (Samples.withSecretOf "A9F4C2" Undefined)
                 (run (L := Samples.plainLibs)
                    [Seed; Samples.createStreetlight;
                     Samples.adminWrites 1200]
                    emptyStore)))
  /\ carriesCredential
       (snd (invoke (L := Samples.plainLibs) GetReportByPassword
               (Samples.env 2000 x00 x00 x00)
               (Samples.withSecretOf "A9F4C2" Undefined)
               (run (L := Samples.plainLibs)
                  [Seed; Samples.createStreetlight; Samples.adminWrites 1200]
                  emptyStore))) = false.
Proof.
  destruct (secret_is_shown_once Samples.plainLibs
              [Seed] [Samples.adminWrites 1200]
              (Samples.env 1000 xa9 xf4 xc2)
              (Samples.requestOf PUndefined (Samples.streetlight Undefined)
                 None)
              GetReportByPassword
              (Samples.env 2000 x00 x00 x00)
              (Samples.withSecretOf "A9F4C2" Undefined)
              _ _ _ _ _ _ eq_refl eq_refl eq_refl eq_refl eq_refl eq_refl)
    as (H1 & H2 & _ & _ & H5).
  destruct H1 as [body Hb].
  - split; [reflexivity|]. split; [reflexivity|].
    split; [left; repeat split; reflexivity | constructor].
  - repeat split; vm_compute; intros [].
  - destruct (H2 body Hb) as (Hcp & _ & _ & Hnr).
    split; [exists body; split; [exact Hb | exact Hcp]|].
    split; [exact Hnr | apply H5; discriminate].
Defined.

(** * Further properties of the code *)

(** ** The generated secret *)

Lemma upper_hex_byte (b : byte) :
  exists c1 c2,
    toUpperCase (toHex [b]) = String c1 (String c2 "")
    /\ upperHexDigit c1 = true /\ upperHexDigit c2 = true.
Proof. destruct b; do 2 eexists; repeat split; reflexivity. Qed.

Lemma upper_hex_byte_inj (b b' : byte) :
  toUpperCase (toHex [b]) = toUpperCase (toHex [b']) -> b = b'.
Proof.
  pose (val := fun c : ascii =>
                 let n := N_of_ascii c in
                 if (n <? 58)%N then (n - 48)%N else (n - 55)%N).
  pose (f := fun s : string =>
               match s with
               | String c1 (String c2 _) => Byte.of_N (16 * val c1 + val c2)
               | _ => None
               end).
  assert (Hf : forall x, f (toUpperCase (toHex [x])) = Some x)
    by (intros []; reflexivity).
  intros H. apply (f_equal f) in H. rewrite !Hf in H. congruence.
Qed.

(** X1.  The case password is six upper-case hexadecimal digits, and it
    determines the three random bytes it was rendered from: distinct bytes
    give distinct passwords. *)
Theorem case_password_format (env1 env2 : Env) :
  String.length (generatePlainPassword env1) = 6
  /\ allChars upperHexDigit (generatePlainPassword env1) = true
  /\ (generatePlainPassword env1 = generatePlainPassword env2 ->
      randomBytes3 env1 = randomBytes3 env2).
Proof.
  unfold generatePlainPassword.
  destruct (randomBytes3 env1) as [[a1 a2] a3].
  destruct (randomBytes3 env2) as [[b1 b2] b3].
  split; [reflexivity|]. split.
  - destruct (upper_hex_byte a1) as (c1 & c2 & E1 & H1 & H2).
    destruct (upper_hex_byte a2) as (c3 & c4 & E2 & H3 & H4).
    destruct (upper_hex_byte a3) as (c5 & c6 & E3 & H5 & H6).
    cbn [toHex toUpperCase] in *.
    injection E1 as -> ->. injection E2 as -> ->. injection E3 as -> ->.
    cbn [allChars]. rewrite H1, H2, H3, H4, H5, H6. reflexivity.
  - cbn [toHex toUpperCase]. intros H.
    inversion H as [[Ha Hb Hc Hd He Hf]].
    rewrite (upper_hex_byte_inj a1 b1), (upper_hex_byte_inj a2 b2),
      (upper_hex_byte_inj a3 b3); [reflexivity | | | ];
      cbn [toHex toUpperCase]; congruence.
Qed.

Lemma case_password_format_witness :
  String.length (generatePlainPassword (Samples.env 1000 xa9 xf4 xc2)) = 6
  /\ generatePlainPassword (Samples.env 1000 xa9 xf4 xc2) = "A9F4C2"
  /\ randomBytes3 (Samples.env 1000 xa9 xf4 xc2)
     = randomBytes3 (Samples.env 2000 xa9 xf4 xc2).
Proof.
  split; [|split].
  - apply (case_password_format (Samples.env 1000 xa9 xf4 xc2)
             (Samples.env 2000 xa9 xf4 xc2)).
  - reflexivity.
  - apply (case_password_format (Samples.env 1000 xa9 xf4 xc2)
             (Samples.env 2000 xa9 xf4 xc2)).
    reflexivity.
Defined.

(** ** What a request does to the store *)

Lemma save_frame (L : Libs) env d st st' res :
  save env d st = (st', res) ->
  categories st' = categories st /\ agencies st' = agencies st
  /\ auditLogs st' = auditLogs st /\ nextId st' = nextId st.
Proof.
  unfold save.
  repeat match goal with
         | |- context [if ?c then _ else _] => destruct c
         end;
    intros H; inversion H; subst; repeat split.
Qed.

(** Saving a loaded document leaves the paths of [core] as the document
    has them. *)
Lemma save_old (L : Libs) env d st st' d' :
  isNew d = false -> strTruthy (caseID (fields d)) = true ->
  save env d st = (st', inr d') ->
  core (fields d') = core (fields d)
  /\ fields d' = fields (hookHistory env d)
  /\ reports st' = replaceById (fields d') (reports st).
Proof.
  intros Hn Hc. unfold save.
  destruct (negb (validate (fields d))); [discriminate|]. cbv zeta.
  assert (E1 : hookCaseID env st d = d).
  { unfold hookCaseID. rewrite Hc. reflexivity. }
  rewrite E1.
  assert (E2 : hookPassword env d = d).
  { unfold hookPassword. rewrite Hn. reflexivity. }
  rewrite E2.
  assert (E3 : isNew (hookHistory env d) = false).
  { unfold hookHistory. destruct (statusModified d); exact Hn. }
  rewrite E3.
  destruct (existsb _ _); [|discriminate].
  intros H. inversion H; subst; clear H. cbn [fields persisted reports setReports].
  split; [|split; reflexivity].
  unfold hookHistory. destruct (statusModified d); reflexivity.
Qed.

Ltac explore H :=
  repeat match type of H with
         | (if ?c then _ else _) = _ => destruct c eqn:?
         | (match ?x with _ => _ end) = _ => destruct x eqn:?
         end;
  inversion H; subst; clear H.

Ltac unfold_handlers H :=
  unfold invoke, AdminController.getUnassignedReports,
    AdminController.getAllReports, AdminController.getReportById,
    AdminController.updateReportCategory,
    AdminController.assignReportToAgency, AdminController.updateReportStatus,
    AdminController.addAdminMessage, Catalogue.createCategory,
    Catalogue.createAgency, Catalogue.deleteCategory, Catalogue.deleteAgency,
    AgencyController.getAgencyReports, AgencyController.getAgencyReportById,
    AgencyController.addAgencyMessage,
    AgencyController.updateAgencyReportStatus in H.

Lemma create_reports (L : Libs) env o st st' res :
  create env o st = (st', res) ->
  match res with
  | inl _ => reports st' = reports st
  | inr d =>
      reports st' = (reports st ++ [fields d])%list
      /\ exists rest,
           fields d
           = withSecret (sha256hex (generatePlainPassword env))
               (bcrypt_hash (generatePlainPassword env) (genSalt env))
               (withCaseID ("LAG-" ++ rest)
                  (fields (construct env (nextId st) o)))
  end.
Proof.
  unfold create, freshId, save.
  destruct (negb (validate _)); [intros H; inversion H; reflexivity|].
  cbv zeta. unfold hookCaseID at 1 2 3 4.
  cbn [construct fields caseID strTruthy].
  unfold hookPassword, hookHistory.
  cbn [isNew withFields negb statusModified fields].
  destruct (duplicateKey _ _); intros H; inversion H; subst; clear H;
    [reflexivity|].
  cbn [reports setReports persisted fields].
  split; [reflexivity|]. eexists. reflexivity.
Qed.

Lemma includes_reporterTypes s :
  includes ["anonymous"; "confidential"] s = true ->
  s = "anonymous" \/ s = "confidential".
Proof.
  unfold includes. cbn [existsb]. intros H.
  destruct (s =? "anonymous") eqn:E1; [left; apply String.eqb_eq, E1|].
  destruct (s =? "confidential") eqn:E2; [right; apply String.eqb_eq, E2|].
  discriminate.
Qed.

(** [createReport] leaves the reports alone or appends a [created]
    report. *)
Lemma createReport_reports (L : Libs) env req st :
  reports (fst (ReporterController.createReport env req st)) = reports st
  \/ exists r,
       created r
       /\ reports (fst (ReporterController.createReport env req st))
          = (reports st ++ [r])%list.
Proof.
  unfold ReporterController.createReport. cbv zeta.
  destruct (negb (truthy (b_title (body req))) || _); [left; reflexivity|].
  destruct (negb (includes _ _)) eqn:Hty; [left; reflexivity|].
  destruct (ReporterController.isStr _ "anonymous" && _) eqn:Han;
    [left; reflexivity|].
  destruct (ReporterController.isStr _ "confidential" && _) eqn:Hco;
    [left; reflexivity|].
  match goal with
  | |- context [create env ?o st] =>
      destruct (create env o st) as [s [e|d]] eqn:Hc;
      apply create_reports in Hc
  end; cbn [fst reports logAudit]; [left; exact Hc|].
  destruct Hc as [Hr [rest Hf]]. right. exists (fields d). split; [|exact Hr].
  apply negb_false_iff, includes_reporterTypes in Hty.
  constructor; rewrite Hf;
    cbn [withSecret withCaseID construct fields caseID reporterType
         reporterName reporterEmail reporterPhone status isResolved
         comments history n_reporterType n_reporterName n_reporterEmail
         n_reporterPhone];
    try reflexivity.
  - exists rest. reflexivity.
  - exact Hty.
  - intros Ha. exact (anonymous_guard req Han Ha).
  - intros Hc. clear Han.
    unfold ReporterController.isStr, ReporterController.strOf in *.
    destruct (b_reporterType (body req)) as [| |rt]; try discriminate.
    rewrite Hc in Hco. change ("confidential" =? "confidential") with true in Hco.
    cbn [andb] in Hco.
    destruct (truthy (b_reporterName (body req))),
      (truthy (b_reporterEmail (body req))); try discriminate; auto.
Qed.

Lemma createCategoryDoc_frame name d st s c :
  Catalogue.createCategoryDoc name d st = (s, c) ->
  reports s = reports st /\ agencies s = agencies st
  /\ auditLogs s = auditLogs st
  /\ categories s = (categories st ++ [c])%list
  /\ nextId s = N.succ (nextId st)
  /\ Category._id c = nextId st /\ Category.name c = name.
Proof.
  unfold Catalogue.createCategoryDoc, freshId.
  intros H. inversion H; subst; clear H. repeat split.
Qed.

Lemma createAgencyDoc_frame name d st s res :
  Catalogue.createAgencyDoc name d st = (s, res) ->
  reports s = reports st /\ categories s = categories st
  /\ auditLogs s = auditLogs st
  /\ nextId s = N.succ (nextId st)
  /\ match res with
     | inl _ => agencies s = agencies st
     | inr a =>
         agencies s = (agencies st ++ [a])%list
         /\ Agency._id a = nextId st /\ Agency.name a = name
         /\ Agency.users a = []
         /\ ~ In name (map Agency.name (agencies st))
     end.
Proof.
  unfold Catalogue.createAgencyDoc, freshId. cbn [agencies].
  destruct (existsb _ _) eqn:E; intros H; inversion H; subst; clear H;
    repeat split.
  intros Hin. apply in_map_iff in Hin as [a [Ha Hin]].
  assert (Ht : existsb (fun a => Agency.name a =? name) (agencies st) = true).
  { apply existsb_exists. exists a. split; auto. rewrite Ha.
    apply String.eqb_refl. }
  congruence.
Qed.

Ltac in_reports :=
  first [ eapply reportById_In; eassumption
        | eapply firstMatch_In; eassumption ].

Ltac step_leaf Hall :=
  repeat match goal with
         | Hs : context [save _ (setStatus _ (if ?c then _ else _)) _] |- _ =>
             destruct c
         end;
  first
    [ apply rs_same; reflexivity
    | match goal with
      | Hc : Catalogue.createCategoryDoc _ _ _ = _ |- _ =>
          apply createCategoryDoc_frame in Hc; apply rs_same; apply Hc
      | Hc : Catalogue.createAgencyDoc _ _ _ = _ |- _ =>
          apply createAgencyDoc_frame in Hc; apply rs_same; apply Hc
      end
    | match goal with
      | Hs : save _ _ ?st = (?s, inl _) |- _ =>
          apply save_failed_loaded in Hs;
          [ subst s; apply rs_same; reflexivity | reflexivity ]
      end
    | match goal with
      | Hs : save ?env ?d ?st = (?s, inr ?d') |- _ =>
          match d with
          | context [loaded _ ?r] =>
              let Hin := fresh "Hin" in
              let Hc := fresh "Hc" in
              let Hrep := fresh "Hrep" in
              assert (Hin : In r (reports st)) by in_reports;
              apply save_old in Hs;
              [ destruct Hs as (Hc & _ & Hrep);
                apply (rs_update _ _ r (fields d'));
                [ exact Hin | rewrite Hc; reflexivity | exact Hrep ]
              | reflexivity
              | rewrite Forall_forall in Hall; exact (Hall r Hin) ]
          end
      end ].

(** Every handler leaves the reports alone, replaces one report by a
    report with the same [core], or appends a report. *)
Lemma invoke_reportsStep (L : Libs) h env req st :
  Forall (fun r => strTruthy (caseID r) = true) (reports st) ->
  reportsStep st (fst (invoke h env req st)).
Proof.
  intros Hall.
  destruct h.
  - cbn [invoke].
    destruct (createReport_reports L env req st) as [E | [r [Hcr E]]].
    + apply rs_same. exact E.
    + apply (rs_create _ _ r Hcr). exact E.
  - cbn [invoke]. rewrite getReportByPassword_store. apply rs_same; reflexivity.
  - cbn [invoke].
    unfold ReporterController.addWhistleblowerMessage, bind, tell, ret.
    destruct (negb (truthy (b_password (body req)))
              || negb (truthy (b_message (body req))));
      [apply rs_same; reflexivity|].
    destruct (ReporterController.firstMatch _ (reports st))
      as [[e|[r|]] log] eqn:Hf; try (apply rs_same; reflexivity).
    destruct (files req) as [|f fs];
      match goal with
      | |- context [save ?env ?d ?st] =>
          destruct (save env d st) as [st' [e|d']] eqn:Hs
      end; cbn [fst snd]; step_leaf Hall.
  - destruct (invoke GetUnassignedReports env req st) as [st' resp] eqn:H; cbn [fst]; unfold_handlers H; explore H; step_leaf Hall.
  - destruct (invoke GetAllReports env req st) as [st' resp] eqn:H; cbn [fst]; unfold_handlers H; explore H; step_leaf Hall.
  - destruct (invoke GetReportById env req st) as [st' resp] eqn:H; cbn [fst]; unfold_handlers H; explore H; step_leaf Hall.
  - destruct (invoke UpdateReportCategory env req st) as [st' resp] eqn:H; cbn [fst]; unfold_handlers H; explore H; step_leaf Hall.
  - destruct (invoke AssignReportToAgency env req st) as [st' resp] eqn:H; cbn [fst]; unfold_handlers H; explore H; step_leaf Hall.
  - destruct (invoke UpdateReportStatus env req st) as [st' resp] eqn:H; cbn [fst]; unfold_handlers H; explore H; step_leaf Hall.
  - destruct (invoke AddAdminMessage env req st) as [st' resp] eqn:H; cbn [fst]; unfold_handlers H; explore H; step_leaf Hall.
  - destruct (invoke CreateCategory env req st) as [st' resp] eqn:H; cbn [fst]; unfold_handlers H; explore H; step_leaf Hall.
  - destruct (invoke CreateAgency env req st) as [st' resp] eqn:H; cbn [fst]; unfold_handlers H; explore H; step_leaf Hall.
  - destruct (invoke DeleteCategory env req st) as [st' resp] eqn:H; cbn [fst]; unfold_handlers H; explore H; step_leaf Hall.
  - destruct (invoke DeleteAgency env req st) as [st' resp] eqn:H; cbn [fst]; unfold_handlers H; explore H; step_leaf Hall.
  - destruct (invoke GetAgencyReports env req st) as [st' resp] eqn:H; cbn [fst]; unfold_handlers H; explore H; step_leaf Hall.
  - destruct (invoke GetAgencyReportById env req st) as [st' resp] eqn:H; cbn [fst]; unfold_handlers H; explore H; step_leaf Hall.
  - destruct (invoke AddAgencyMessage env req st) as [st' resp] eqn:H; cbn [fst]; unfold_handlers H; explore H; step_leaf Hall.
  - destruct (invoke UpdateAgencyReportStatus env req st) as [st' resp] eqn:H; cbn [fst]; unfold_handlers H; explore H; step_leaf Hall.
Qed.

Lemma regional_truthy r : regional r -> strTruthy (caseID r) = true.
Proof. intros [rest ->]. reflexivity. Qed.

Lemma step_reportsStep (L : Libs) e st :
  Forall regional (reports st) -> reportsStep st (step e st).
Proof.
  intros Hall. destruct e as [h env req| |a u]; cbn [step].
  - apply invoke_reportsStep.
    eapply Forall_impl; [|exact Hall]. apply regional_truthy.
  - apply rs_same. apply seedDefaults_reports.
  - apply rs_same. reflexivity.
Qed.

Lemma reportsStep_regional st st' :
  NoDup (map _id (reports st)) -> reportsStep st st' ->
  Forall regional (reports st) -> Forall regional (reports st').
Proof.
  intros Hnd [E | r r' Hin Hc E | r [Hreg] E] Hall; rewrite E; auto.
  - apply (replaceById_Forall _ _ r r' Hnd Hin); auto.
    + unfold core in Hc. congruence.
    + intros [rest Hr]. exists rest. unfold core in Hc. congruence.
  - apply Forall_app. split; auto.
Qed.

Lemma run_regional (L : Libs) es st iss :
  consistent st iss -> Forall regional (reports st) ->
  Forall regional (reports (run es st)).
Proof.
  revert st iss. induction es as [|e es IH]; intros st iss Hc Hall; auto.
  rewrite run_cons.
  destruct (step_effect e st) as [env [_ He]].
  apply (IH _ _ (effect_consistent _ _ _ _ _ He Hc)).
  apply (reportsStep_regional st); auto.
  - apply (co_ids _ _ Hc).
  - apply step_reportsStep; auto.
Qed.

Lemma reachable_regional (L : Libs) es :
  Forall regional (reports (run es emptyStore)).
Proof.
  apply (run_regional L es emptyStore [] empty_consistent). constructor.
Qed.

(** X2.  Reports are never deleted, and the paths written at creation
    never change.  Along every run of the system, a step keeps the reports
    in their order with the same [_id], [caseID], reporter type and
    identity, title, description, location, stored hash and lookup key and
    creation date, and appends at most one report; every stored report has
    a case identifier that starts with LAG-. *)
Theorem reports_keep_their_core (L : Libs) (es : list Event) (e : Event) :
  Forall regional (reports (run es emptyStore))
  /\ exists added,
       List.length added <= 1
       /\ map core (reports (step e (run es emptyStore)))
          = (map core (reports (run es emptyStore)) ++ map core added)%list.
Proof.
  pose proof (reachable_regional L es) as Hreg.
  pose proof (reachable_consistent es) as Hc.
  split; [exact Hreg|].
  destruct (step_reportsStep L e _ Hreg) as [E | r r' Hin Hcore E | r _ E];
    rewrite E.
  - exists []. rewrite app_nil_r. split; [cbn; lia | reflexivity].
  - exists []. rewrite app_nil_r. split; [cbn; lia|].
    apply (replaceById_map core _ r r' (co_ids _ _ Hc) Hin); auto.
    unfold core in Hcore. congruence.
  - exists [r]. rewrite map_app. split; [cbn; lia | reflexivity].
Qed.

(** ** The audit log *)

Lemma create_frame (L : Libs) env o st st' res :
  create env o st = (st', res) ->
  categories st' = categories st /\ agencies st' = agencies st
  /\ auditLogs st' = auditLogs st /\ nextId st' = N.succ (nextId st).
Proof.
  unfold create, freshId. intros H. apply save_frame in H.
  cbn [categories agencies auditLogs nextId] in H. exact H.
Qed.

Lemma save_old_in (L : Libs) env d st st' d' :
  isNew d = false -> save env d st = (st', inr d') ->
  In (_id (fields d')) (map _id (reports st')).
Proof.
  intros Hn. unfold save.
  destruct (negb (validate (fields d))); [discriminate|]. cbv zeta.
  assert (E : isNew (hookHistory env (hookPassword env (hookCaseID env st d)))
              = false).
  { unfold hookHistory, hookPassword, hookCaseID.
    destruct (strTruthy _); cbn [isNew withFields]; rewrite Hn; cbn [negb];
      destruct (statusModified _); exact Hn. }
  rewrite E.
  destruct (existsb _ (reports st)) eqn:Hex; [|discriminate].
  intros H. inversion H; subst; clear H.
  cbn [fields persisted reports setReports].
  rewrite replaceById_ids.
  apply existsb_exists in Hex as [x [Hin Hx]]. apply N.eqb_eq in Hx.
  rewrite <- Hx. apply in_map. exact Hin.
Qed.

Lemma create_in (L : Libs) env o st st' d :
  create env o st = (st', inr d) ->
  In (_id (fields d)) (map _id (reports st')).
Proof.
  intros H. apply create_reports in H. destruct H as [-> _].
  rewrite map_app. apply in_or_app. right. left. reflexivity.
Qed.

Ltac split_doc :=
  repeat match goal with
         | Hs : context [save _ (setStatus _ (if ?c then _ else _)) _] |- _ =>
             destruct c
         end.

(** The facts about the stores that [save] and the [create]s return. *)
Ltac frames :=
  split_doc;
  repeat match goal with
         | Hs : save _ _ _ = (_, inr _) |- _ =>
             let Hf := fresh "Hf" in
             pose proof (save_frame _ _ _ _ _ _ Hs) as (_ & _ & Hf & _);
             apply save_old_in in Hs; [ | reflexivity ]
         | Hs : save _ _ _ = (_, inl _) |- _ =>
             apply save_frame in Hs; destruct Hs as (_ & _ & Hs & _)
         | Hs : create _ _ _ = (_, inr _) |- _ =>
             let Hf := fresh "Hf" in
             pose proof (create_frame _ _ _ _ _ _ Hs) as (_ & _ & Hf & _);
             apply create_in in Hs
         | Hs : create _ _ _ = (_, inl _) |- _ =>
             apply create_frame in Hs; destruct Hs as (_ & _ & Hs & _)
         | Hs : Catalogue.createCategoryDoc _ _ _ = _ |- _ =>
             apply createCategoryDoc_frame in Hs;
             destruct Hs as (_ & _ & Hs & _)
         | Hs : Catalogue.createAgencyDoc _ _ _ = _ |- _ =>
             apply createAgencyDoc_frame in Hs;
             destruct Hs as (_ & _ & Hs & _)
         end.

Ltac audit_leaf :=
  frames;
  (eexists; split;
  [ cbn [auditLogs logAudit setCategories setAgencies fst snd];
    repeat match goal with
           | Hf : auditLogs _ = auditLogs _ |- _ => rewrite Hf; clear Hf
           end;
    first [ reflexivity | symmetry; apply app_nil_r ]
  | split;
    [ reflexivity
    | repeat constructor;
      cbn [AuditLog.targetReport reports logAudit];
      intros id Hid; first [ discriminate Hid
                           | injection Hid as <-; assumption ] ] ]).

(** X3.  The audit log is append-only, and it records exactly the
    successful changes made through the handlers that write to it.  A
    request appends one entry, under the action of its handler, with the
    time and the address of the request and naming a stored report if it
    names one, when the handler is one of the nine that log and answers
    2xx; otherwise it leaves the log as it was.  The reads, the follow-up,
    the deletion of a category or an agency and the status update of the
    agency controller write no entry. *)
Theorem audit_trail (L : Libs) h env req st :
  exists logs,
    auditLogs (fst (invoke h env req st)) = (auditLogs st ++ logs)%list
    /\ map AuditLog.action logs
       = (if succeeded (snd (invoke h env req st))
          then optList (auditedAs h) else [])
    /\ Forall (fun l =>
                 AuditLog.createdAt l = now env
                 /\ AuditLog.ipAddress l = ip req
                 /\ forall id,
                      AuditLog.targetReport l = Some id ->
                      In id (map _id (reports (fst (invoke h env req st)))))
              logs.
Proof.
  destruct h.
  - cbn [invoke].
    destruct (ReporterController.createReport env req st) as [st' resp] eqn:H.
    unfold ReporterController.createReport in H. cbv zeta in H.
    explore H; audit_leaf.
  - cbn [invoke].
    unfold ReporterController.getReportByPassword,
      ReporterController.matchPassword, bind, tell, ret.
    destruct (negb (truthy (b_password (body req)))); [audit_leaf|].
    destruct (findOneByPasswordKey _ st) as [r|]; [|audit_leaf].
    cbn [populateAgency populateCategory loaded withPassword fields].
    destruct (password r) as [pw|]; [|audit_leaf].
    destruct (bcrypt_compare _ pw); audit_leaf.
  - cbn [invoke].
    unfold ReporterController.addWhistleblowerMessage, bind, tell, ret.
    destruct (negb (truthy (b_password (body req)))
              || negb (truthy (b_message (body req)))); [audit_leaf|].
    destruct (ReporterController.firstMatch _ (reports st))
      as [[e|[r|]] log] eqn:Hf; try audit_leaf.
    destruct (files req) as [|f fs];
      match goal with
      | |- context [save ?env ?d ?st] =>
          destruct (save env d st) as [st' [e|d']] eqn:Hs
      end; cbn [fst snd]; audit_leaf.
  - destruct (invoke GetUnassignedReports env req st) as [st' resp] eqn:H; unfold_handlers H; explore H; audit_leaf.
  - destruct (invoke GetAllReports env req st) as [st' resp] eqn:H; unfold_handlers H; explore H; audit_leaf.
  - destruct (invoke GetReportById env req st) as [st' resp] eqn:H; unfold_handlers H; explore H; audit_leaf.
  - destruct (invoke UpdateReportCategory env req st) as [st' resp] eqn:H; unfold_handlers H; explore H; audit_leaf.
  - destruct (invoke AssignReportToAgency env req st) as [st' resp] eqn:H; unfold_handlers H; explore H; audit_leaf.
  - destruct (invoke UpdateReportStatus env req st) as [st' resp] eqn:H; unfold_handlers H; explore H; audit_leaf.
  - destruct (invoke AddAdminMessage env req st) as [st' resp] eqn:H; unfold_handlers H; explore H; audit_leaf.
  - destruct (invoke CreateCategory env req st) as [st' resp] eqn:H; unfold_handlers H; explore H; audit_leaf.
  - destruct (invoke CreateAgency env req st) as [st' resp] eqn:H; unfold_handlers H; explore H; audit_leaf.
  - destruct (invoke DeleteCategory env req st) as [st' resp] eqn:H; unfold_handlers H; explore H; audit_leaf.
  - destruct (invoke DeleteAgency env req st) as [st' resp] eqn:H; unfold_handlers H; explore H; audit_leaf.
  - destruct (invoke GetAgencyReports env req st) as [st' resp] eqn:H; unfold_handlers H; explore H; audit_leaf.
  - destruct (invoke GetAgencyReportById env req st) as [st' resp] eqn:H; unfold_handlers H; explore H; audit_leaf.
  - destruct (invoke AddAgencyMessage env req st) as [st' resp] eqn:H; unfold_handlers H; explore H; audit_leaf.
  - destruct (invoke UpdateAgencyReportStatus env req st) as [st' resp] eqn:H; unfold_handlers H; explore H; audit_leaf.
Qed.

(** ** Invariants of the stored reports *)

Lemma includes_In l s : includes l s = true <-> In s l.
Proof.
  unfold includes. rewrite existsb_exists. split.
  - intros [x [Hin Hx]]. apply String.eqb_eq in Hx. subst. exact Hin.
  - intros Hin. exists s. split; auto. apply String.eqb_refl.
Qed.

Lemma validate_wellFormed r : validate r = true <-> wellFormedReport r.
Proof.
  assert (E : forall a, negb (a =? "") = true <-> a <> "")
    by (intros a; rewrite negb_true_iff; apply String.eqb_neq).
  unfold validate, wellFormedReport.
  rewrite !andb_true_iff, !E, !includes_In, !forallb_forall, !Forall_forall.
  split.
  - intros (((((H1 & H2) & H3) & H4) & H5) & H6).
    repeat split; auto; intros x Hx; apply E; auto.
  - intros (H1 & H2 & H3 & H4 & H5 & H6).
    repeat split; auto; intros x Hx; apply E; auto.
Qed.

(** X4.  Every stored report satisfies the schema: along every run of the
    system the status is one of the four of the enum, the reporter type is
    anonymous or confidential, title and description are not empty, and
    every comment has a message and every evidence file a path.  The status
    update of the agency controller does not check the status it is given;
    a status outside the enum is refused by the validation of [save], the
    error goes to the error middleware and the store is unchanged. *)
Theorem stored_reports_are_valid (L : Libs) (es : list Event) (env : Env)
    (req : Request) :
  Forall wellFormedReport (reports (run es emptyStore))
  /\ forall s,
       b_status (body req) = Str s -> ~ In s statuses ->
       fst (AgencyController.updateAgencyReportStatus env req
              (run es emptyStore)) = run es emptyStore
       /\ exists code e,
            snd (AgencyController.updateAgencyReportStatus env req
                   (run es emptyStore)) = Failed code e.
Proof.
  pose proof (reachable_consistent es) as Hc.
  split.
  - eapply Forall_impl; [|exact (co_valid _ _ Hc)].
    intros r. apply validate_wellFormed.
  - intros s Hs Hni. set (st := run es emptyStore) in *.
    unfold AgencyController.updateAgencyReportStatus. rewrite Hs.
    assert (Hfail : forall c e,
               fst (st, Failed c e) = st
               /\ exists code e', snd (st, Failed c e) = Failed code e')
      by (intros c e; split; [reflexivity | do 2 eexists; reflexivity]).
    destruct (negb (truthy (Str s))); [apply Hfail|].
    destruct (reportById (params_id req) st) as [e|[r|]];
      [apply Hfail | | apply Hfail].
    match goal with
    | |- context [if ?c then _ else _] => destruct c
    end; [apply Hfail|].
    assert (Hv : save env (setStatus (ReporterController.strOf (Str s))
                                     (loaded false r)) st
                 = (st, inl validationError)).
    { unfold save. cbn [setStatus fields loaded ReporterController.strOf].
      assert (E : validate (withStatus s r) = false).
      { unfold validate. cbn [withStatus status reporterType title
                                description evidenceFiles comments].
        destruct (includes statuses s) eqn:Ei.
        - apply includes_In in Ei. contradiction.
        - rewrite !andb_false_r. reflexivity. }
      rewrite E. reflexivity. }
    rewrite Hv. apply Hfail.
Qed.

Lemma stored_reports_are_valid_witness :
  fst (AgencyController.updateAgencyReportStatus (L := Samples.plainLibs)
         (Samples.env 2000 x00 x00 x00)
         (Samples.statusUpdate 2%N "done" 1%N "agency")
         (run (L := Samples.plainLibs) [Seed; Samples.createStreetlight]
            emptyStore))
  = run (L := Samples.plainLibs) [Seed; Samples.createStreetlight] emptyStore
  /\ snd (AgencyController.updateAgencyReportStatus (L := Samples.plainLibs)
            (Samples.env 2000 x00 x00 x00)
            (Samples.statusUpdate 2%N "done" 1%N "agency")
            (run (L := Samples.plainLibs) [Seed; Samples.createStreetlight]
               emptyStore))
     = Failed None validationError.
Proof.
  split.
  - apply (proj2 (stored_reports_are_valid Samples.plainLibs
                    [Seed; Samples.createStreetlight]
                    (Samples.env 2000 x00 x00 x00)
                    (Samples.statusUpdate 2%N "done" 1%N "agency")) "done").
    + reflexivity.
    + cbn. intros [H|[H|[H|[H|[]]]]]; discriminate H.
  - reflexivity.
Defined.

(** ** The status updates of the administrator *)

Lemma invoke_consistent (L : Libs) h env req st iss :
  consistent st iss ->
  exists iss', consistent (fst (invoke h env req st)) iss'.
Proof.
  intros Hc. eexists. eapply effect_consistent; [|exact Hc].
  apply invoke_effect.
Qed.

Lemma findById_id id st r : findById id st = Some r -> _id r = id.
Proof.
  unfold findById. intros H. apply find_some in H as [_ H].
  apply N.eqb_eq in H. exact H.
Qed.

Lemma findById_exists id st r :
  findById id st = Some r ->
  existsb (fun x => (_id x =? id)%N) (reports st) = true.
Proof.
  unfold findById. intros H. apply find_some in H as [Hin H].
  apply existsb_exists. eauto.
Qed.

(** A status update of the admin controller succeeds on every stored
    report, for every status of the enum. *)
Lemma updateReportStatus_ok (L : Libs) env req st iss id r s :
  consistent st iss -> findById id st = Some r ->
  params_id req = POid id -> b_status (body req) = Str s ->
  In s statuses ->
  exists st' out r',
    AdminController.updateReportStatus env req st = (st', Sent 200 out)
    /\ findById id st' = Some r'
    /\ status r' = s
    /\ isResolved r' = flagAfter s (isResolved r).
Proof.
  intros Hc Hf Hid Hs Hin.
  pose proof (findById_id _ _ _ Hf) as Hrid.
  pose proof (findById_exists _ _ _ Hf) as Hex.
  assert (Hv : validate r = true).
  { pose proof (co_valid _ _ Hc) as Hall. rewrite Forall_forall in Hall.
    apply Hall. unfold findById in Hf. apply find_some in Hf. tauto. }
  assert (Hr : reportById (params_id req) st = inr (Some r)).
  { rewrite Hid. unfold reportById, byId. rewrite Hf. reflexivity. }
  assert (Hok : exists st' out,
             AdminController.updateReportStatus env req st
             = (st', Sent 200 out)).
  { unfold AdminController.updateReportStatus. rewrite Hr, Hs, Hid.
    cbn [wellFormed negb ReporterController.isStr ReporterController.strOf].
    apply includes_In in Hin. unfold statuses in Hin. rewrite Hin.
    cbn [negb].
    assert (Hsave : forall d,
               isNew d = false -> _id (fields d) = id ->
               validate (fields d) = true ->
               exists d',
                 save env d st
                 = (setReports st (replaceById (fields d') (reports st)),
                    inr d')).
    { intros d Hn Hd Hvd. apply save_loaded_ok; auto. rewrite Hd. exact Hex. }
    assert (Hvs : forall b,
               validate (withStatus s (withIsResolved b r)) = true
               /\ validate (withStatus s r) = true).
    { intros b. unfold validate in *.
      cbn [withStatus withIsResolved status reporterType title description
           evidenceFiles comments].
      rewrite !andb_true_iff in *. unfold statuses. rewrite Hin. tauto. }
    destruct (s =? "resolved"); [|destruct (s =? "closed")];
      match goal with
      | |- context [save env ?d st] =>
          destruct (Hsave d) as [d' ->];
          [ reflexivity | exact Hrid
          | first [ apply (proj1 (Hvs true)) | apply (proj1 (Hvs false))
                  | apply (proj2 (Hvs true)) ]
          | ]
      end; do 2 eexists; reflexivity. }
  destruct Hok as (st' & out & Hok).
  destruct (updateReportStatus_flag_law L env req st st' out r s Hr Hs Hok)
    as (_ & r' & Hrep & Hin' & Hid' & Hst & Hres).
  exists st', out, r'. split; [exact Hok|]. split; [|split; auto].
  unfold findById. rewrite Hrep. rewrite <- Hrid, <- Hid'.
  apply findById_replaced. rewrite Hid', Hrid. exact Hex.
Qed.

Lemma last_cons {A} (a d : A) l : last (a :: l) d = last l a.
Proof.
  revert a d. induction l as [|b l IH]; intros a d; [reflexivity|].
  change (last (a :: b :: l) d) with (last (b :: l) d).
  rewrite !IH. reflexivity.
Qed.

Lemma status_sequence (L : Libs) l : forall st iss id r,
  consistent st iss -> findById id st = Some r ->
  Forall (fun p => params_id (snd p) = POid id
                   /\ exists s, b_status (body (snd p)) = Str s
                                /\ In s statuses) l ->
  exists r',
    findById id (run (statusCalls l) st) = Some r'
    /\ status r' = last (map requestedStatus l) (status r)
    /\ isResolved r'
       = fold_left (fun b p => flagAfter (requestedStatus p) b) l
           (isResolved r).
Proof.
  induction l as [|[env req] l IH]; intros st iss id r Hc Hf Hall.
  - exists r. auto.
  - inversion Hall as [|? ? (Hid & s & Hs & Hin) Hall']; subst.
    cbn [fst snd] in *.
    destruct (updateReportStatus_ok L env req st iss id r s Hc Hf Hid Hs Hin)
      as (st' & out & r1 & Hok & Hf1 & Hst & Hres).
    destruct (invoke_consistent L UpdateReportStatus env req st iss Hc)
      as [iss' Hc'].
    cbn [invoke] in Hc'. rewrite Hok in Hc'. cbn [fst] in Hc'.
    destruct (IH st' iss' id r1 Hc' Hf1 Hall') as (r' & Hf' & Hst' & Hres').
    exists r'. cbn [statusCalls map]. rewrite run_cons.
    cbn [step invoke fst snd]. rewrite Hok. cbn [fst].
    fold (statusCalls l).
    assert (Hreq : requestedStatus (env, req) = s)
      by (unfold requestedStatus; cbn [snd]; rewrite Hs; reflexivity).
    split; [exact Hf'|]. split.
    + rewrite Hst', Hst, last_cons, Hreq. reflexivity.
    + rewrite Hres', Hres. cbn [fold_left]. rewrite Hreq. reflexivity.
Qed.

(** X5.  The flag law of the admin controller, over any sequence of
    status updates.  On a store the system can reach, status updates of a
    stored report through [updateReportStatus], each with a status of the
    enum, all succeed; afterwards the report has the status of the last
    update and [isResolved] is the flag of the report run through the
    updates in order: "resolved" sets it, "closed" leaves it, "pending"
    and "under review" clear it. *)
Theorem admin_status_sequence (L : Libs) (es : list Event)
    (l : list (Env * Request)) (id : ObjectId) (r : Report.t) :
  findById id (run es emptyStore) = Some r ->
  Forall (fun p => params_id (snd p) = POid id
                   /\ exists s, b_status (body (snd p)) = Str s
                                /\ In s statuses) l ->
  exists r',
    findById id (run (statusCalls l) (run es emptyStore)) = Some r'
    /\ status r' = last (map requestedStatus l) (status r)
    /\ isResolved r'
       = fold_left (fun b p => flagAfter (requestedStatus p) b) l
           (isResolved r).
Proof.
  intros Hf Hall.
  apply (status_sequence L l _ _ id r (reachable_consistent es) Hf Hall).
Qed.

Lemma admin_status_sequence_witness :
  (exists r',
      findById 2%N
        (run (L := Samples.plainLibs)
           (statusCalls
              [(Samples.env 3000 x00 x00 x00,
                Samples.statusUpdate 2%N "resolved" 9%N "admin");
               (Samples.env 4000 x00 x00 x00,
                Samples.statusUpdate 2%N "closed" 9%N "admin")])
           (run (L := Samples.plainLibs) [Seed; Samples.createStreetlight]
              emptyStore)) = Some r'
      /\ status r' = "closed" /\ isResolved r' = true)
  /\ (exists r',
         findById 2%N
           (run (L := Samples.plainLibs)
              (statusCalls
                 [(Samples.env 3000 x00 x00 x00,
                   Samples.statusUpdate 2%N "resolved" 9%N "admin");
                  (Samples.env 4000 x00 x00 x00,
                   Samples.statusUpdate 2%N "pending" 9%N "admin")])
              (run (L := Samples.plainLibs) [Seed; Samples.createStreetlight]
                 emptyStore)) = Some r'
         /\ status r' = "pending" /\ isResolved r' = false).
Proof.
  split.
  - eapply (admin_status_sequence Samples.plainLibs
              [Seed; Samples.createStreetlight]
              [(Samples.env 3000 x00 x00 x00,
                Samples.statusUpdate 2%N "resolved" 9%N "admin");
               (Samples.env 4000 x00 x00 x00,
                Samples.statusUpdate 2%N "closed" 9%N "admin")] 2%N).
    + vm_compute. reflexivity.
    + repeat constructor; cbn; eexists; (split; [reflexivity|]); cbn; auto.
  - eapply (admin_status_sequence Samples.plainLibs
              [Seed; Samples.createStreetlight]
              [(Samples.env 3000 x00 x00 x00,
                Samples.statusUpdate 2%N "resolved" 9%N "admin");
               (Samples.env 4000 x00 x00 x00,
                Samples.statusUpdate 2%N "pending" 9%N "admin")] 2%N).
    + vm_compute. reflexivity.
    + repeat constructor; cbn; eexists; (split; [reflexivity|]); cbn; auto.
Defined.

(** ** Listings *)

Lemma insertDesc_perm r l : Permutation (insertDesc r l) (r :: l).
Proof.
  induction l as [|x l IH]; cbn [insertDesc]; [reflexivity|].
  destruct (createdAt x <? createdAt r)%N; [reflexivity|].
  rewrite IH. apply perm_swap.
Qed.

Lemma sortByCreatedAtDesc_perm l : Permutation (sortByCreatedAtDesc l) l.
Proof.
  unfold sortByCreatedAtDesc.
  induction l as [|x l IH]; cbn [fold_right]; [reflexivity|].
  rewrite insertDesc_perm, IH. reflexivity.
Qed.

Lemma insertDesc_sorted r l : newestFirst l -> newestFirst (insertDesc r l).
Proof.
  unfold newestFirst.
  induction 1 as [|x l Hs IH Hx]; cbn [insertDesc].
  - repeat constructor.
  - destruct (createdAt x <? createdAt r)%N eqn:E.
    + apply N.ltb_lt in E. constructor; [constructor; auto|].
      constructor; [lia|].
      eapply Forall_impl; [|exact Hx]. cbn. intros; lia.
    + apply N.ltb_ge in E. constructor; [exact IH|].
      apply (Permutation_Forall (Permutation_sym (insertDesc_perm r l))).
      constructor; auto.
Qed.

Lemma sortByCreatedAtDesc_sorted l : newestFirst (sortByCreatedAtDesc l).
Proof.
  unfold sortByCreatedAtDesc.
  induction l as [|x l IH]; cbn [fold_right]; [constructor|].
  apply insertDesc_sorted, IH.
Qed.


Lemma page_positive p l rs :
  (0 < p)%N -> (0 < l)%N ->
  page p l rs
  = inr (firstn (N.to_nat l)
           (skipn ((N.to_nat p - 1) * N.to_nat l) (sortByCreatedAtDesc rs))).
Proof.
  intros Hp Hl. unfold page.
  destruct (p =? 0)%N eqn:E1; [apply N.eqb_eq in E1; lia|].
  destruct (l =? 0)%N eqn:E2; [apply N.eqb_eq in E2; lia|].
  cbn [andb]. rewrite N2Nat.inj_mul, N2Nat.inj_sub. reflexivity.
Qed.




Lemma newestFirst_skipn n rs : newestFirst rs -> newestFirst (skipn n rs).
Proof.
  unfold newestFirst. revert rs. induction n as [|n IH]; intros rs H; auto.
  destruct rs as [|x rs]; [constructor|].
  cbn [skipn]. apply IH. inversion H; auto.
Qed.

Lemma newestFirst_firstn n rs : newestFirst rs -> newestFirst (firstn n rs).
Proof.
  unfold newestFirst. revert rs. induction n as [|n IH]; intros rs H.
  - constructor.
  - destruct rs as [|x rs]; [constructor|].
    cbn [firstn]. inversion H as [|? ? Hs Hx]; subst.
    constructor; [apply IH, Hs|].
    rewrite Forall_forall in *. intros y Hy. apply Hx.
    apply firstn_In in Hy. exact Hy.
Qed.

Lemma page_newestFirst p l rs chunk :
  page p l rs = inr chunk -> newestFirst chunk.
Proof.
  unfold page. destruct ((p =? 0)%N && negb (l =? 0)%N); [discriminate|].
  intros H. inversion H; subst; clear H.
  destruct (l =? 0)%N; [|apply newestFirst_firstn];
    apply newestFirst_skipn, sortByCreatedAtDesc_sorted.
Qed.

Lemma page_length p l rs chunk :
  (0 < l)%N -> page p l rs = inr chunk -> List.length chunk <= N.to_nat l.
Proof.
  intros Hl. unfold page.
  destruct ((p =? 0)%N && negb (l =? 0)%N); [discriminate|].
  intros H. inversion H; subst; clear H.
  destruct (l =? 0)%N eqn:E; [apply N.eqb_eq in E; lia|].
  apply firstn_le_length.
Qed.

Lemma matches_status (L : Libs) kw s r :
  s <> "" -> matches kw (Str s) r = true -> status r = s.
Proof.
  intros Hs. unfold matches. cbn [truthy].
  destruct (s =? "") eqn:E; [apply String.eqb_eq in E; contradiction|].
  cbn [negb]. rewrite andb_true_iff. intros [_ H].
  apply String.eqb_eq in H. exact H.
Qed.

(** X7.  The listing of the administrator.  A keyword that the database
    does not compile as a regular expression ends the request in an error,
    with the store as it was.  For a keyword it compiles and a page and a
    limit of at least 1, [getAllReports] answers 200 and leaves the store
    as it was; the reports it lists are stored reports that match the
    keyword and, when a status is given, have that status; they come newest
    first; [count] is their number, at most the limit, and [totalReports]
    is the number of stored reports that match. *)
Theorem admin_listing (L : Libs) (env : Env) (req : Request) (st : Store) :
  (regexValid (keywordOf req) = false ->
   AdminController.getAllReports env req st = (st, Failed None regexError))
  /\ (regexValid (keywordOf req) = true ->
      (0 < pageOf req)%N -> (0 < limitOf req)%N ->
      exists rs answer,
        AdminController.getAllReports env req st = (st, Sent 200 answer)
        /\ views (Sent 200 answer) = map (listed st) rs
        /\ Forall (fun r => In r (reports st)
                            /\ matches (keywordOf req) (q_status (query req)) r
                               = true) rs
        /\ (forall s, q_status (query req) = Str s -> s <> "" ->
            Forall (fun r => status r = s) rs)
        /\ newestFirst rs
        /\ List.length rs <= N.to_nat (limitOf req)
        /\ get "count" answer = Some (JNum (N.of_nat (List.length rs)))
        /\ get "totalReports" answer
           = Some (JNum (N.of_nat
                           (List.length
                              (filter (matches (keywordOf req)
                                         (q_status (query req)))
                                      (reports st)))))).
Proof.
  unfold AdminController.getAllReports. cbv zeta.
  fold (pageOf req) (limitOf req) (keywordOf req).
  split; [intros ->; reflexivity|].
  intros -> Hp Hl. cbn [negb].
  set (selected := filter (matches (keywordOf req) (q_status (query req)))
                          (reports st)).
  destruct (page (pageOf req) (limitOf req) selected) as [e|rs] eqn:Hpage.
  { rewrite page_positive in Hpage by assumption. discriminate. }
  exists rs. eexists. split; [reflexivity|].
  assert (Hall : Forall (fun r => In r (reports st)
                                  /\ matches (keywordOf req)
                                       (q_status (query req)) r = true) rs).
  { apply Forall_forall. intros r Hr.
    apply (page_In L _ _ _ _ _ Hpage) in Hr. apply filter_In in Hr. exact Hr. }
  split; [|split; [exact Hall|split; [|split; [|split; [|split]]]]].
  - erewrite views_array by reflexivity. rewrite map_map. reflexivity.
  - intros s Hs Hne. eapply Forall_impl; [|exact Hall].
    intros r [_ Hm]. rewrite Hs in Hm. apply (matches_status L _ _ _ Hne Hm).
  - apply (page_newestFirst _ _ _ _ Hpage).
  - apply (page_length _ _ _ _ Hl Hpage).
  - rewrite get_obj. lit_walk. rewrite !length_map. reflexivity.
  - rewrite get_obj. lit_walk. reflexivity.
Qed.

Lemma admin_listing_witness :
  exists rs answer,
    AdminController.getAllReports (L := Samples.plainLibs)
      (Samples.env 2000 x00 x00 x00)
      (Samples.requestOf PUndefined Samples.emptyBody
         (Some {| u_id := 9%N; u_role := "admin" |}))
      (run (L := Samples.plainLibs)
         [Seed; Samples.createStreetlight; Samples.createSecond] emptyStore)
    = (run (L := Samples.plainLibs)
         [Seed; Samples.createStreetlight; Samples.createSecond] emptyStore,
       Sent 200 answer)
    /\ newestFirst rs
    /\ get "count" answer = Some (JNum (N.of_nat (List.length rs)))
    /\ get "totalReports" answer = Some (JNum 2).
Proof.
  destruct (proj2 (admin_listing Samples.plainLibs
                     (Samples.env 2000 x00 x00 x00)
                     (Samples.requestOf PUndefined Samples.emptyBody
                        (Some {| u_id := 9%N; u_role := "admin" |}))
                     (run (L := Samples.plainLibs)
                        [Seed; Samples.createStreetlight; Samples.createSecond]
                        emptyStore)))
    as (rs & answer & H1 & _ & _ & _ & H5 & _ & H7 & H8);
    [reflexivity | reflexivity | reflexivity |].
  exists rs, answer. repeat split; auto.
Defined.

(** ** The agency controller *)

Lemma assigned_to a r :
  match agencyAssigned r with
  | Some x => (x =? Agency._id a)%N
  | None => false
  end = true ->
  agencyAssigned r = Some (Agency._id a).
Proof.
  destruct (agencyAssigned r) as [x|]; [|discriminate].
  intros H. apply N.eqb_eq in H. congruence.
Qed.

(** What the listing of the agency controller returns, and to whom. *)
Lemma getAgencyReports_views (L : Libs) env req st u v :
  user req = Some u ->
  In v (views (snd (AgencyController.getAgencyReports env req st))) ->
  exists a r,
    AgencyController.agencyOfUser (u_id u) st = Some a
    /\ In r (reports st)
    /\ agencyAssigned r = Some (Agency._id a)
    /\ exists d, fields d = r /\ v = toJSON d.
Proof.
  intros Hu Hv.
  unfold AgencyController.getAgencyReports in Hv. rewrite Hu in Hv.
  cbv zeta in Hv.
  destruct (negb (u_role u =? "agency")); [destruct Hv|].
  destruct (AgencyController.agencyOfUser (u_id u) st) as [a|];
    [|destruct Hv].
  destruct (negb (regexValid _)); [destruct Hv|].
  match type of Hv with
  | context [page ?p ?l ?sel] =>
      destruct (page p l sel) as [e|rs] eqn:Hp; [destruct Hv|]
  end.
  cbn [snd] in Hv. erewrite views_array in Hv by reflexivity.
  rewrite map_map in Hv. apply in_map_iff in Hv as [r [<- Hr]].
  apply (page_In L _ _ _ _ _ Hp) in Hr.
  apply filter_In in Hr as [Hin Hm].
  apply andb_true_iff in Hm as [Ha _].
  exists a, r. repeat split; auto using assigned_to.
  eexists. split; [|reflexivity]. reflexivity.
Qed.

(** What the single read of the agency controller returns, and to whom. *)
Lemma getAgencyReportById_views (L : Libs) env req st u v :
  user req = Some u ->
  In v (views (snd (AgencyController.getAgencyReportById env req st))) ->
  exists a r,
    AgencyController.agencyOfUser (u_id u) st = Some a
    /\ In r (reports st)
    /\ agencyAssigned r = Some (Agency._id a)
    /\ exists d, fields d = r /\ v = toJSON d.
Proof.
  intros Hu Hv.
  unfold AgencyController.getAgencyReportById in Hv. rewrite Hu in Hv.
  cbv zeta in Hv.
  destruct (AgencyController.agencyOfUser (u_id u) st) as [a|];
    [|destruct Hv].
  destruct (params_id req) as [|s|id]; [|destruct Hv|];
    (destruct (find _ (reports st)) as [r|] eqn:Hf; [|destruct Hv]);
    apply find_some in Hf as [Hin Hm];
    apply andb_true_iff in Hm as [_ Ha];
    cbn [snd] in Hv;
    erewrite views_single in Hv
      by (first [reflexivity | apply toJSON_is_object]);
    destruct Hv as [<-|[]];
    exists a, r; repeat split; auto using assigned_to;
    (eexists; split; [|reflexivity]; reflexivity).
Qed.

(** X8.  An agency user reads the reports of the user's agency only.
    Whatever [getAgencyReports] and [getAgencyReportById] return to a user
    is a stored report whose [agencyAssigned] is the agency that lists the
    user among its [users]; a user that no agency lists gets no report.
    Both leave the store as it was. *)
Theorem agency_reads_are_isolated (L : Libs) (env : Env) (req : Request)
    (st : Store) (u : User) :
  user req = Some u ->
  (forall v,
      In v (views (snd (AgencyController.getAgencyReports env req st)))
      \/ In v (views (snd (AgencyController.getAgencyReportById env req st)))
      ->
      exists a r,
        AgencyController.agencyOfUser (u_id u) st = Some a
        /\ In r (reports st)
        /\ agencyAssigned r = Some (Agency._id a)
        /\ exists d, fields d = r /\ v = toJSON d)
  /\ fst (AgencyController.getAgencyReports env req st) = st
  /\ fst (AgencyController.getAgencyReportById env req st) = st.
Proof.
  intros Hu. split; [|split].
  - intros v [Hv|Hv].
    + apply (getAgencyReports_views L env req st u v Hu Hv).
    + apply (getAgencyReportById_views L env req st u v Hu Hv).
  - unfold AgencyController.getAgencyReports. cbv zeta.
    repeat match goal with
           | |- context [fst (if ?c then _ else _)] => destruct c
           | |- context [fst (match ?x with _ => _ end)] => destruct x
           end; reflexivity.
  - unfold AgencyController.getAgencyReportById. cbv zeta.
    repeat match goal with
           | |- context [fst (if ?c then _ else _)] => destruct c
           | |- context [fst (match ?x with _ => _ end)] => destruct x
           end; reflexivity.
Qed.

Lemma agency_reads_are_isolated_witness :
  exists a r,
    AgencyController.agencyOfUser 7%N
      (run (L := Samples.plainLibs)
         [Seed; Samples.createStreetlight; LinkUser 1%N 7%N] emptyStore)
    = Some a
    /\ In r (reports (run (L := Samples.plainLibs)
                        [Seed; Samples.createStreetlight; LinkUser 1%N 7%N]
                        emptyStore))
    /\ agencyAssigned r = Some (Agency._id a)
    /\ exists d,
         fields d = r
         /\ hd JNull
              (views (snd (AgencyController.getAgencyReports
                             (L := Samples.plainLibs)
                             (Samples.env 2000 x00 x00 x00)
                             (Samples.requestOf PUndefined Samples.emptyBody
                                (Some {| u_id := 7%N; u_role := "agency" |}))
                             (run (L := Samples.plainLibs)
                                [Seed; Samples.createStreetlight;
                                 LinkUser 1%N 7%N] emptyStore))))
            = toJSON d.
Proof.
  apply (proj1 (agency_reads_are_isolated Samples.plainLibs
                  (Samples.env 2000 x00 x00 x00)
                  (Samples.requestOf PUndefined Samples.emptyBody
                     (Some {| u_id := 7%N; u_role := "agency" |}))
                  (run (L := Samples.plainLibs)
                     [Seed; Samples.createStreetlight; LinkUser 1%N 7%N]
                     emptyStore)
                  {| u_id := 7%N; u_role := "agency" |} eq_refl)).
  left. vm_compute. left. reflexivity.
Defined.

(** What a successful [save] of a loaded document does to the lookups by
    identifier. *)
Lemma save_findById (L : Libs) env d st st' d' :
  isNew d = false -> save env d st = (st', inr d') ->
  findById (_id (fields d)) st' = Some (fields d')
  /\ (forall id', id' <> _id (fields d) -> findById id' st' = findById id' st)
  /\ categories st' = categories st /\ agencies st' = agencies st.
Proof.
  intros Hn Hs.
  pose proof (save_old_in L _ _ _ _ _ Hn Hs) as Hin.
  pose proof (save_frame L _ _ _ _ _ Hs) as (Hcat & Hag & _).
  apply save_loaded_fields in Hs; [|exact Hn].
  destruct Hs as (Hst & _ & _ & Hid & _).
  subst st'. cbn [reports setReports] in *.
  rewrite replaceById_ids in Hin.
  assert (Hex : existsb (fun x => (_id x =? _id (fields d'))%N) (reports st)
                = true).
  { apply in_map_iff in Hin as [x [Hx Hin]]. apply existsb_exists.
    exists x. split; auto. apply N.eqb_eq. exact Hx. }
  split; [|split; [|split; assumption]].
  - unfold findById. cbn [reports setReports]. rewrite <- Hid.
    apply findById_replaced. exact Hex.
  - intros id' Hne. unfold findById. cbn [reports setReports].
    apply findById_other. congruence.
Qed.

Lemma lookupAgency_id st o a :
  lookupAgency st o = Some a -> o = Some (Agency._id a).
Proof.
  unfold lookupAgency. destruct o as [id|]; [|discriminate].
  intros H. apply find_some in H as [_ H]. apply N.eqb_eq in H. congruence.
Qed.

(** X9.  An agency user writes to the reports of the user's agency only.
    When [addAgencyMessage] answers 2xx, the report named by the request is
    assigned to the agency that lists the user, it has gained exactly one
    comment, with role "agency", the message of the request and the time of
    the request, and every other report is as it was; when it does not
    answer 2xx the store is unchanged. *)
Theorem agency_message_is_isolated (L : Libs) (env : Env) (req : Request)
    (st : Store) :
  (succeeded (snd (AgencyController.addAgencyMessage env req st)) = true ->
   exists u a r r',
     user req = Some u
     /\ AgencyController.agencyOfUser (u_id u) st = Some a
     /\ params_reportId req = POid (_id r)
     /\ findById (_id r) st = Some r
     /\ agencyAssigned r = Some (Agency._id a)
     /\ findById (_id r) (fst (AgencyController.addAgencyMessage env req st))
        = Some r'
     /\ comments r'
        = (comments r
           ++ [{| c_user := None; role := "agency";
                  message := ReporterController.strOf (b_message (body req));
                  c_createdAt := now env |}])%list
     /\ forall id',
          id' <> _id r ->
          findById id' (fst (AgencyController.addAgencyMessage env req st))
          = findById id' st)
  /\ (succeeded (snd (AgencyController.addAgencyMessage env req st)) = false ->
      fst (AgencyController.addAgencyMessage env req st) = st).
Proof.
  destruct (AgencyController.addAgencyMessage env req st) as [st' resp] eqn:H.
  cbn [fst snd].
  unfold AgencyController.addAgencyMessage in H. cbv zeta in H.
  explore H; cbn [succeeded];
    (split; [intros Hok; try discriminate Hok | intros Hno; try reflexivity]);
    try discriminate Hno;
    try match goal with
        | Hs : save _ _ _ = (_, inl _) |- _ =>
            apply save_failed_loaded in Hs; [exact Hs | reflexivity]
        end.
  match goal with
  | Hs : save _ _ _ = (_, inr ?d'),
    Hr : reportById _ _ = inr (Some ?r),
    Ha : AgencyController.agencyOfUser (u_id ?u) _ = Some ?a |- _ =>
      let Hs2 := fresh "Hs" in
      pose proof Hs as Hs2;
      apply save_findById in Hs2; [|reflexivity];
      destruct Hs2 as (Hf & Hoth & _);
      apply save_loaded_fields in Hs; [|reflexivity];
      destruct Hs as (_ & _ & _ & _ & _ & _ & Hcom & _);
      pose proof (reportById_id _ _ _ Hr) as Hid;
      rewrite Hid in Hr; unfold reportById, byId in Hr;
      injection Hr as Hr;
      exists u, a, r, (fields d')
  end.
  cbn [fields withFields populateAgency loaded pushComment comments _id] in *.
  repeat split; auto.
  match goal with
  | Hm : match lookupAgency ?st ?o with _ => _ end = false |- _ =>
      destruct (lookupAgency st o) as [a0|] eqn:Hl; [|discriminate Hm];
      apply negb_false_iff, N.eqb_eq in Hm;
      apply lookupAgency_id in Hl; congruence
  end.
Qed.

Lemma agency_message_is_isolated_witness :
  exists u a r r',
    user (Samples.requestOf (POid 2%N)
            (Samples.withPasswordAndMessage Undefined (Str "on it"))
            (Some {| u_id := 7%N; u_role := "agency" |})) = Some u
    /\ AgencyController.agencyOfUser (u_id u)
         (run (L := Samples.plainLibs)
            [Seed; Samples.createStreetlight; LinkUser 1%N 7%N] emptyStore)
       = Some a
    /\ agencyAssigned r = Some (Agency._id a)
    /\ findById (_id r)
         (fst (AgencyController.addAgencyMessage (L := Samples.plainLibs)
                 (Samples.env 2000 x00 x00 x00)
                 (Samples.requestOf (POid 2%N)
                    (Samples.withPasswordAndMessage Undefined (Str "on it"))
                    (Some {| u_id := 7%N; u_role := "agency" |}))
                 (run (L := Samples.plainLibs)
                    [Seed; Samples.createStreetlight; LinkUser 1%N 7%N]
                    emptyStore)))
       = Some r'
    /\ comments r'
       = (comments r
          ++ [{| c_user := None; role := "agency"; message := "on it";
                 c_createdAt := 2000%N |}])%list.
Proof.
  destruct (proj1 (agency_message_is_isolated Samples.plainLibs
                     (Samples.env 2000 x00 x00 x00)
                     (Samples.requestOf (POid 2%N)
                        (Samples.withPasswordAndMessage Undefined
                           (Str "on it"))
                        (Some {| u_id := 7%N; u_role := "agency" |}))
                     (run (L := Samples.plainLibs)
                        [Seed; Samples.createStreetlight; LinkUser 1%N 7%N]
                        emptyStore)) eq_refl)
    as (u & a & r & r' & H1 & H2 & _ & _ & H5 & H6 & H7 & _).
  exists u, a, r, r'. repeat split; assumption.
Defined.

(** ** Routes *)

(** X10.  The status route of the agency never updates a report.  The
    route PATCH /api/agency/:reportId/status binds the path parameter as
    [reportId], the controller reads [req.params.id]: the lookup finds no
    report, so whatever the request, the answer is an error handed to the
    error middleware and the store is as it was. *)
Theorem agency_status_route_never_updates (L : Libs) (env : Env)
    (hr : HttpRequest) (st : Store) :
  fst (serve PatchAgencyStatus env hr st) = st
  /\ exists code e, snd (serve PatchAgencyStatus env hr st) = Failed code e.
Proof.
  assert (Hfail : forall c e,
             fst (st, Failed c e) = st
             /\ exists code e', snd (st, Failed c e) = Failed code e')
    by (intros c e; split; [reflexivity | do 2 eexists; reflexivity]).
  cbn [serve]. unfold guarded.
  destruct (protectResult hr) as [e|u]; [apply Hfail|].
  destruct (negb (includes ["agency"] (u_role u))); [apply Hfail|].
  cbn [invoke]. unfold AgencyController.updateAgencyReportStatus.
  cbn [request params_id body].
  destruct (negb (truthy (b_status (h_body hr)))); [apply Hfail|].
  cbn [reportById byId]. apply Hfail.
Qed.

Lemma commentJson_reporterType c : get "reporterType" (commentJson c) = None.
Proof. unfold commentJson. rewrite get_obj. lit_walk. Qed.

Lemma toJSON_id d : get "_id" (toJSON d) = Some (JOid (_id (fields d))).
Proof.
  rewrite toJSON_get.
  destruct (reporterType (fields d) =? "anonymous");
    cbv [String.eqb Ascii.eqb Bool.eqb orb andb]; apply toObject_id.
Qed.

Lemma getPublicData_id d :
  get "_id" (getPublicData d) = Some (JOid (_id (fields d))).
Proof.
  rewrite getPublicData_get, toObject_id.
  cbv [String.eqb Ascii.eqb Bool.eqb orb andb]. reflexivity.
Qed.

Lemma includes_single a s : includes [a] s = true -> s = a.
Proof.
  unfold includes. cbn [existsb]. rewrite orb_false_r. apply String.eqb_eq.
Qed.

(** A route behind [protect] and [authorize] shows data to a user with the
    role of the route only. *)
Lemma guarded_views (L : Libs) role b h env hr st v :
  In v (views (snd (guarded role b h env hr st))) ->
  exists u,
    protectResult hr = inr u /\ u_role u = role
    /\ In v (views (snd (invoke h env (request b (Some u) hr) st))).
Proof.
  unfold guarded. destruct (protectResult hr) as [e|u]; [intros []|].
  destruct (negb (includes [role] (u_role u))) eqn:E; [intros []|].
  intros Hv. exists u. apply negb_false_iff, includes_single in E. auto.
Qed.

Lemma addAgencyMessage_views (L : Libs) env req st v :
  In v (views (snd (AgencyController.addAgencyMessage env req st))) ->
  get "reporterType" v = None.
Proof.
  destruct (AgencyController.addAgencyMessage env req st) as [st' resp] eqn:H.
  cbn [snd]. unfold AgencyController.addAgencyMessage in H. cbv zeta in H.
  explore H; try solve [intros []].
  erewrite views_array by reflexivity. intros Hv.
  apply in_map_iff in Hv as [c [<- _]]. apply commentJson_reporterType.
Qed.

Lemma addWhistleblowerMessage_views (L : Libs) env req st v :
  In v (views (snd (fst (ReporterController.addWhistleblowerMessage
                           env req st)))) ->
  get "reporterType" v = None.
Proof.
  unfold ReporterController.addWhistleblowerMessage, bind, tell, ret.
  destruct (negb (truthy (b_password (body req)))
            || negb (truthy (b_message (body req)))); [intros []|].
  destruct (ReporterController.firstMatch _ (reports st))
    as [[e|[r|]] log]; try solve [intros []].
  destruct (files req) as [|f fs];
    match goal with
    | |- context [save ?env ?d ?st] =>
        destruct (save env d st) as [st' [e|d']]
    end; try solve [intros []];
    cbn [fst snd]; erewrite views_object by reflexivity;
    intros [<-|[]]; reflexivity.
Qed.

Lemma getReportByPassword_views (L : Libs) env req st v :
  In v (views (snd (fst (ReporterController.getReportByPassword
                           env req st)))) ->
  exists r h d,
    In r (reports st) /\ fields d = r /\ v = getPublicData d
    /\ passwordKey r
       = Some (sha256hex (ReporterController.strOf (b_password (body req))))
    /\ password r = Some h
    /\ bcrypt_compare (ReporterController.strOf (b_password (body req))) h
       = true.
Proof.
  unfold ReporterController.getReportByPassword,
    ReporterController.matchPassword, bind, tell, ret.
  destruct (negb (truthy (b_password (body req)))); [intros []|].
  destruct (findOneByPasswordKey _ st) as [r|] eqn:Hf; [|intros []].
  apply findOneByPasswordKey_found in Hf as [Hin Hk].
  cbn [populateAgency populateCategory loaded withPassword fields].
  destruct (password r) as [h|] eqn:Hp; [|intros []].
  destruct (bcrypt_compare _ h) eqn:Hb; [|intros []].
  cbn [fst snd].
  erewrite views_single
    by (first [reflexivity | apply getPublicData_is_object]).
  intros [<-|[]]. exists r, h. eexists. repeat split; eauto.
Qed.

Lemma createReport_views (L : Libs) env req st v :
  In v (views (snd (ReporterController.createReport env req st))) ->
  get "_id" v = Some (JOid (nextId st)).
Proof.
  destruct (createReport_cases L env req st) as [[b Hb]|[[m Hm]|[e He]]].
  - destruct (ReporterController.createReport env req st)
      as [st' resp] eqn:Hcr.
    cbn [snd] in *. subst resp.
    apply createReport_created in Hcr
      as (r & _ & Hm & _ & _ & (d & Hd & _ & Hdata) & _).
    unfold views. rewrite Hdata.
    destruct (getPublicData_is_object d) as [kv Hkv]. rewrite Hkv.
    intros [<-|[]]. rewrite <- Hkv, getPublicData_id, Hd, (mi_id _ _ _ Hm).
    reflexivity.
  - rewrite Hm. intros [].
  - rewrite He. intros [].
Qed.

(** X11.  Who is shown a report.  Whatever route answers with a
    representation of a report, it answers to the reporter who has just
    filed that report, to the holder of a password whose digest selects the
    report and that bcrypt accepts against its hash, to a user that
    [protect] lets through with role admin on a route of the
    administrator, or to a user with role agency whose agency the report is
    assigned to. *)
Theorem reports_are_shown_to_their_readers (L : Libs) (rt : Route)
    (env : Env) (hr : HttpRequest) (st : Store) (id : ObjectId) (v : json) :
  In v (views (snd (serve rt env hr st))) ->
  showsReport id v ->
  mayRead rt hr st id.
Proof.
  intros Hv [Hid Hty].
  destruct rt; cbn [serve mayRead adminRoute] in *;
    try (apply guarded_views in Hv as (u & Hp & Hr & Hv);
         exists u; split; [exact Hp|]; try exact Hr).
  - unfold uploading in Hv. destruct (upload (uploads hr)); [destruct Hv|].
    apply createReport_views in Hv. congruence.
  - cbn [invoke] in Hv.
    apply getReportByPassword_views in Hv
      as (r & h & d & Hin & Hd & -> & Hk & Hpw & Hb).
    rewrite getPublicData_id, Hd in Hid. exists r, h.
    cbn [request body] in *. repeat split; auto. congruence.
  - unfold uploading in Hv. destruct (upload (uploads hr)); [destruct Hv|].
    cbn [invoke] in Hv. apply addWhistleblowerMessage_views in Hv.
    contradiction.
  - split; [exact Hr|]. cbn [invoke] in Hv.
    apply (getAgencyReports_views L _ _ _ u) in Hv; [|reflexivity].
    destruct Hv as (a & r & Ha & Hin & Has & d & Hd & ->).
    rewrite toJSON_id, Hd in Hid. exists a, r. repeat split; auto. congruence.
  - split; [exact Hr|]. cbn [invoke] in Hv.
    apply (getAgencyReportById_views L _ _ _ u) in Hv; [|reflexivity].
    destruct Hv as (a & r & Ha & Hin & Has & d & Hd & ->).
    rewrite toJSON_id, Hd in Hid. exists a, r. repeat split; auto. congruence.
  - cbn [invoke] in Hv. apply addAgencyMessage_views in Hv. contradiction.
  - exfalso. cbn [invoke] in Hv.
    unfold AgencyController.updateAgencyReportStatus in Hv.
    cbn [request params_id body reportById byId] in Hv.
    destruct (negb (truthy (b_status (h_body hr)))); destruct Hv.
Qed.

Lemma reports_are_shown_to_their_readers_witness :
  mayRead (L := Samples.plainLibs) PostFollowUp
    {| pathParam := PUndefined;
       h_body := Samples.withPasswordAndMessage (Str "A9F4C2") Undefined;
       h_query := Samples.noQuery; uploads := [];
       protectResult := inl Samples.tokenMissing; h_ip := Str "::1" |}
    (run (L := Samples.plainLibs) [Seed; Samples.createStreetlight]
       emptyStore) 2%N.
Proof.
  apply (reports_are_shown_to_their_readers Samples.plainLibs PostFollowUp
           (Samples.env 2000 x00 x00 x00) _ _ 2%N
           (hd JNull
              (views (snd (serve (L := Samples.plainLibs) PostFollowUp
                             (Samples.env 2000 x00 x00 x00)
                             {| pathParam := PUndefined;
                                h_body :=
                                  Samples.withPasswordAndMessage
                                    (Str "A9F4C2") Undefined;
                                h_query := Samples.noQuery; uploads := [];
                                protectResult := inl Samples.tokenMissing;
                                h_ip := Str "::1" |}
                             (run (L := Samples.plainLibs)
                                [Seed; Samples.createStreetlight]
                                emptyStore)))))).
  - vm_compute. left. reflexivity.
  - split; [reflexivity | vm_compute; discriminate].
Defined.

(** ** Seeding *)

Lemma find_existsb {A} (f : A -> bool) l :
  existsb f l = match find f l with Some _ => true | None => false end.
Proof.
  induction l as [|x l IH]; cbn [existsb find]; [reflexivity|].
  destruct (f x); auto.
Qed.

Lemma seedDefaults_fixed st :
  find (fun c => Category.name c =? "uncategorised") (categories st) <> None ->
  find (fun a => Agency.name a =? "unassigned") (agencies st) <> None ->
  Catalogue.seedDefaults st = st.
Proof.
  intros Hc Ha. unfold Catalogue.seedDefaults. cbv zeta.
  destruct (find _ (categories st)); [|contradiction].
  destruct (find _ (agencies st)); [|contradiction].
  reflexivity.
Qed.

(** X12.  Seeding the defaults is idempotent.  After [seedDefaults] the
    category "uncategorised" and the agency "unassigned" exist; seeding
    again, as every start of the server does, changes nothing; and seeding
    keeps every report, every audit entry and every category and agency
    that was there, adding at most one of each of the last two. *)
Theorem seeding_is_idempotent (st : Store) :
  Catalogue.seedDefaults (Catalogue.seedDefaults st)
  = Catalogue.seedDefaults st
  /\ (exists c,
         find (fun c => Category.name c =? "uncategorised")
              (categories (Catalogue.seedDefaults st)) = Some c)
  /\ (exists a,
         find (fun a => Agency.name a =? "unassigned")
              (agencies (Catalogue.seedDefaults st)) = Some a)
  /\ reports (Catalogue.seedDefaults st) = reports st
  /\ auditLogs (Catalogue.seedDefaults st) = auditLogs st
  /\ exists cs ags,
       categories (Catalogue.seedDefaults st) = (categories st ++ cs)%list
       /\ agencies (Catalogue.seedDefaults st) = (agencies st ++ ags)%list
       /\ List.length cs <= 1 /\ List.length ags <= 1.
Proof.
  destruct (seedDefaults_present st) as [Hc Ha].
  split; [apply seedDefaults_fixed; assumption|].
  split; [destruct (find _ (categories (Catalogue.seedDefaults st)));
          [eauto | contradiction]|].
  split; [destruct (find _ (agencies (Catalogue.seedDefaults st)));
          [eauto | contradiction]|].
  clear Hc Ha.
  unfold Catalogue.seedDefaults, Catalogue.createCategoryDoc,
    Catalogue.createAgencyDoc, freshId. cbv zeta.
  destruct (find _ (categories st)) eqn:Hc; cbn [fst snd];
    match goal with
    | |- context [find ?f (agencies ?s)] =>
        destruct (find f (agencies s)) eqn:Ha
    end; cbn [fst snd categories agencies setCategories] in Ha |- *;
    try (rewrite find_existsb, Ha);
    cbn [fst reports auditLogs categories agencies setCategories
         setAgencies];
    (split; [reflexivity|]); (split; [reflexivity|]).
  - exists [], []. rewrite !app_nil_r. cbn. auto.
  - eexists [], [_]. rewrite !app_nil_r. cbn. auto.
  - eexists [_], []. rewrite !app_nil_r. cbn. auto.
  - eexists [_], [_]. cbn. auto.
Qed.

(** ** The public scorecard *)

Import Scorecard.

Lemma countWhere_snoc f rs r :
  countWhere f (rs ++ [r]) = (countWhere f rs + oneIf (f r))%N.
Proof.
  unfold countWhere, oneIf. rewrite filter_app, length_app. cbn [filter].
  destruct (f r); cbn [List.length]; lia.
Qed.

Lemma rowOf_tally a s m x :
  rowOf x (tally a s m)
  = if (Agency._id a =? x)%N
    then Some (count s match rowOf x m with
                       | Some row => row
                       | None => newRow a
                       end)
    else rowOf x m.
Proof.
  unfold rowOf. induction m as [|row m IH]; cbn [tally find].
  - cbn [count agencyId newRow]. destruct (Agency._id a =? x)%N; reflexivity.
  - destruct (agencyId row =? Agency._id a)%N eqn:E; cbn [find count agencyId].
    + apply N.eqb_eq in E. rewrite E.
      destruct (Agency._id a =? x)%N; reflexivity.
    + destruct (agencyId row =? x)%N eqn:E';
        [|exact IH].
      apply N.eqb_eq in E'. subst x. rewrite N.eqb_sym, E. reflexivity.
Qed.

Lemma tally_In a s m y :
  In y (map agencyId (tally a s m)) ->
  y = Agency._id a \/ In y (map agencyId m).
Proof.
  induction m as [|row m IH]; cbn [tally map]; intros Hy.
  - destruct Hy as [<-|[]]. left. reflexivity.
  - destruct (agencyId row =? Agency._id a)%N; cbn [map count agencyId] in *.
    + right. exact Hy.
    + destruct Hy as [<-|Hy]; [right; left; reflexivity|].
      destruct (IH Hy); auto. right. right. assumption.
Qed.

Lemma tally_ids a s m :
  NoDup (map agencyId m) -> NoDup (map agencyId (tally a s m)).
Proof.
  induction m as [|row m IH]; cbn [tally map]; intros Hnd.
  - repeat constructor. intros [].
  - inversion Hnd as [|? ? Hni Hnd']; subst.
    destruct (agencyId row =? Agency._id a)%N eqn:E; cbn [map count agencyId].
    + constructor; assumption.
    + constructor; [|apply IH, Hnd'].
      intros Hin. apply tally_In in Hin as [Hin|Hin]; [|contradiction].
      apply N.eqb_neq in E. contradiction.
Qed.

Lemma countWhere_none f g rs :
  countWhere f rs = 0%N -> countWhere (fun r => f r && g r) rs = 0%N.
Proof.
  unfold countWhere. induction rs as [|r rs IH]; cbn [filter]; auto.
  destruct (f r); cbn [andb List.length]; [intros H; lia | exact IH].
Qed.

Lemma lookupAgency_self st o a :
  lookupAgency st o = Some a -> lookupAgency st (Some (Agency._id a)) = Some a.
Proof.
  intros H. pose proof (lookupAgency_id _ _ _ H) as ->. exact H.
Qed.

(** The invariant of the [forEach] of the scorecard. *)
Lemma agencyMap_tallies st rs : forall m done,
  NoDup (map agencyId m) ->
  (forall x, match rowOf x m with
             | Some row => tallies st x done row
             | None => countWhere (populatedAs st x) done = 0%N
             end) ->
  let m' := fold_left (fun m r =>
                         match lookupAgency st (agencyAssigned r) with
                         | Some a => tally a (status r) m
                         | None => m
                         end) rs m in
  NoDup (map agencyId m')
  /\ forall x, match rowOf x m' with
               | Some row => tallies st x (done ++ rs) row
               | None => countWhere (populatedAs st x) (done ++ rs) = 0%N
               end.
Proof.
  induction rs as [|r rs IH]; intros m done Hnd Hrows; cbn [fold_left].
  - rewrite app_nil_r. auto.
  - replace (done ++ r :: rs)%list with ((done ++ [r]) ++ rs)%list
      by (rewrite <- app_assoc; reflexivity).
    apply IH.
    + destruct (lookupAgency st (agencyAssigned r)); auto using tally_ids.
    + intros x. specialize (Hrows x).
      destruct (lookupAgency st (agencyAssigned r)) as [a|] eqn:Hl.
      * rewrite rowOf_tally.
        assert (Hp : populatedAs st x r = (Agency._id a =? x)%N)
          by (unfold populatedAs; rewrite Hl; reflexivity).
        destruct (Agency._id a =? x)%N eqn:E.
        -- apply N.eqb_eq in E. subst x.
           assert (Hself := lookupAgency_self _ _ _ Hl).
           unfold tallies in *. rewrite !countWhere_snoc, Hp.
           cbn [andb oneIf].
           destruct (rowOf (Agency._id a) m) as [row|];
             cbn [count newRow agencyId agencyName total pending underReview
                  resolved closed].
           ++ destruct Hrows as (H1 & H2 & H3 & H4 & H5 & H6 & H7).
              rewrite H3, H4, H5, H6, H7. repeat split; auto.
           ++ rewrite !(countWhere_none _ _ _ Hrows), Hrows.
              repeat split; eauto.
        -- destruct (rowOf x m) as [row|]; unfold tallies in *;
             rewrite !countWhere_snoc, Hp; cbn [andb oneIf];
             rewrite ?N.add_0_r; exact Hrows.
      * assert (Hp : populatedAs st x r = false)
          by (unfold populatedAs; rewrite Hl; reflexivity).
        destruct (rowOf x m) as [row|]; unfold tallies in *;
          rewrite !countWhere_snoc, Hp; cbn [andb oneIf];
          rewrite ?N.add_0_r; exact Hrows.
Qed.

Lemma tally_positive a s m :
  Forall (fun row => (0 < total row)%N) m ->
  Forall (fun row => (0 < total row)%N) (tally a s m).
Proof.
  induction m as [|row m IH]; cbn [tally]; intros Hm.
  - constructor; [|constructor]. cbn [count total newRow]. lia.
  - inversion Hm; subst.
    destruct (agencyId row =? Agency._id a)%N; constructor; auto.
    cbn [count total]. lia.
Qed.

Lemma agencyMap_positive st rs :
  Forall (fun row => (0 < total row)%N) (agencyMap st rs).
Proof.
  unfold agencyMap.
  generalize (@nil Row) (Forall_nil (fun row : Row => (0 < total row)%N)).
  induction rs as [|r rs IH]; intros m Hm; cbn [fold_left]; [exact Hm|].
  apply IH. destruct (lookupAgency st (agencyAssigned r)); [|exact Hm].
  apply tally_positive. exact Hm.
Qed.

(** X13.  The public scorecard counts by agency.  The handler leaves the
    store as it is and answers 200; the entries of [agencies] have distinct
    agency ids, and an agency has an entry exactly when some report
    populates to it: an entry counts at least one report, and an agency
    without entry has none.  The entry carries the name of the agency and
    counts the reports that populate to it, in all and for each of the
    four statuses.  Reports without an agency, or assigned to an agency
    that no longer exists, are in no entry. *)
Theorem scorecard_counts_by_agency (env : Env) (req : Request) (st : Store) :
  fst (getPublicScorecard env req st) = st
  /\ exists body m,
       snd (getPublicScorecard env req st) = Sent 200 body
       /\ get "agencies" body = Some (JArr (map rowJson m))
       /\ NoDup (map agencyId m)
       /\ Forall (fun row => (0 < total row)%N) m
       /\ forall x,
            match rowOf x m with
            | Some row => tallies st x (reports st) row
            | None => countWhere (populatedAs st x) (reports st) = 0%N
            end.
Proof.
  pose proof (agencyMap_tallies st (reports st) [] [] (NoDup_nil _)
                (fun x => eq_refl)) as [Hnd Hrows].
  pose proof (agencyMap_positive st (reports st)) as Hpos.
  cbn [app] in Hrows. fold (agencyMap st (reports st)) in Hnd, Hrows.
  unfold getPublicScorecard.
  destruct (reports st) as [|r rs] eqn:E.
  - split; [reflexivity|]. eexists. exists []. cbn [fst snd map].
    split; [reflexivity|]. split; [reflexivity|].
    split; [constructor|]. split; [constructor | intros x; reflexivity].
  - split; [reflexivity|]. eexists. exists (agencyMap st (r :: rs)).
    cbn [fst snd]. split; [reflexivity|]. split; [reflexivity|].
    split; [assumption|]. split; assumption.
Qed.

Lemma count_adds_up s row :
  In s statuses ->
  total row = (pending row + underReview row + resolved row + closed row)%N ->
  total (count s row)
  = (pending (count s row) + underReview (count s row)
     + resolved (count s row) + closed (count s row))%N.
Proof.
  intros Hs Hrow. cbn [count total pending underReview resolved closed].
  rewrite Hrow.
  destruct Hs as [<-|[<-|[<-|[<-|[]]]]]; cbn [String.eqb Ascii.eqb Bool.eqb oneIf];
    lia.
Qed.

Lemma tally_adds_up a s m :
  In s statuses ->
  Forall (fun row => total row
                     = (pending row + underReview row + resolved row
                        + closed row)%N) m ->
  Forall (fun row => total row
                     = (pending row + underReview row + resolved row
                        + closed row)%N) (tally a s m).
Proof.
  intros Hs. induction m as [|row m IH]; cbn [tally]; intros Hm.
  - constructor; [|constructor]. apply count_adds_up; auto.
  - inversion Hm; subst.
    destruct (agencyId row =? Agency._id a)%N; constructor; auto.
    apply count_adds_up; auto.
Qed.

Lemma countStatus_adds_up rs :
  Forall (fun r => In (status r) statuses) rs ->
  (countStatus "pending" rs + countStatus "under review" rs
   + countStatus "resolved" rs + countStatus "closed" rs)%N
  = N.of_nat (List.length rs).
Proof.
  unfold countStatus. induction 1 as [|r rs Hr Hrs IH]; [reflexivity|].
  cbn [filter List.length].
  destruct Hr as [<-|[<-|[<-|[<-|[]]]]];
    cbn [String.eqb Ascii.eqb Bool.eqb List.length]; lia.
Qed.

(** X14.  The counts of the scorecard add up.  Along every run of the
    system the four status counts of the summary sum to [totalReports], and
    in every entry of [agencies] the four status counts sum to [total]: the
    validation of [save] keeps every stored status within the four of the
    enum, so that each report is counted under exactly one of them. *)
Theorem scorecard_counts_add_up (L : Libs) (es : list Event) (env : Env)
    (req : Request) :
  let st := run es emptyStore in
  exists body summary m,
    snd (getPublicScorecard env req st) = Sent 200 body
    /\ (reports st <> [] ->
        get "summary" body = Some summary
        /\ get "agencies" body = Some (JArr (map rowJson m))
        /\ exists t p u r c,
             get "totalReports" summary = Some (JNum t)
             /\ get "pending" summary = Some (JNum p)
             /\ get "underReview" summary = Some (JNum u)
             /\ get "resolved" summary = Some (JNum r)
             /\ get "closed" summary = Some (JNum c)
             /\ t = (p + u + r + c)%N)
    /\ Forall (fun row => total row
                          = (pending row + underReview row + resolved row
                             + closed row)%N) m.
Proof.
  intros st.
  assert (Hv : Forall (fun r => In (status r) statuses) (reports st)).
  { pose proof (reachable_consistent es) as Hc.
    eapply Forall_impl; [|exact (co_valid _ _ Hc)].
    intros r Hr. apply validate_wellFormed in Hr. apply Hr. }
  assert (Hm : Forall (fun row => total row
                                  = (pending row + underReview row
                                     + resolved row + closed row)%N)
                 (agencyMap st (reports st))).
  { unfold agencyMap. generalize (@nil Row) (Forall_nil (fun row : Row =>
      total row = (pending row + underReview row + resolved row
                   + closed row)%N)).
    induction Hv as [|r rs Hr Hrs IH]; intros m Hm; cbn [fold_left]; auto.
    apply IH. destruct (lookupAgency st (agencyAssigned r)); auto.
    apply tally_adds_up; auto. }
  unfold getPublicScorecard.
  destruct (reports st) as [|r rs] eqn:E.
  - eexists. exists (JObj []), []. cbn [snd]. split; [reflexivity|].
    split; [intros H; contradiction|constructor].
  - eexists. exists (summaryJson (r :: rs)), (agencyMap st (r :: rs)).
    cbn [snd]. split; [reflexivity|]. split; [|exact Hm].
    intros _. split; [reflexivity|]. split; [reflexivity|].
    do 5 eexists. repeat split.
    symmetry. apply (countStatus_adds_up (r :: rs) Hv).
Qed.

Lemma scorecard_counts_add_up_witness :
  reports (run (L := Samples.plainLibs) [Seed; Samples.createStreetlight]
             emptyStore) <> []
  /\ exists body summary t p u r c,
       snd (getPublicScorecard (Samples.env 2000 x00 x00 x00)
              (Samples.requestOf PUndefined Samples.emptyBody None)
              (run (L := Samples.plainLibs) [Seed; Samples.createStreetlight]
                 emptyStore)) = Sent 200 body
       /\ get "summary" body = Some summary
       /\ get "totalReports" summary = Some (JNum t)
       /\ get "pending" summary = Some (JNum p)
       /\ get "underReview" summary = Some (JNum u)
       /\ get "resolved" summary = Some (JNum r)
       /\ get "closed" summary = Some (JNum c)
       /\ t = (p + u + r + c)%N.
Proof.
  assert (Hne : reports (run (L := Samples.plainLibs)
                           [Seed; Samples.createStreetlight] emptyStore)
                <> []) by (vm_compute; discriminate).
  split; [exact Hne|].
  destruct (scorecard_counts_add_up Samples.plainLibs
              [Seed; Samples.createStreetlight]
              (Samples.env 2000 x00 x00 x00)
              (Samples.requestOf PUndefined Samples.emptyBody None))
    as (body & summary & m & Hs & Hsum & _).
  destruct (Hsum Hne) as (H1 & _ & t & p & u & r & c & H).
  exists body, summary, t, p, u, r, c. split; [exact Hs|].
  split; [exact H1 | exact H].
Defined.

(** ** What is written stays written *)

(** A stored report after some more requests: the same report, with more
    comments, evidence files and history entries at the end. *)
Lemma grows_refl r :
  (exists cs, comments r = (comments r ++ cs)%list)
  /\ (exists fs, evidenceFiles r = (evidenceFiles r ++ fs)%list)
  /\ (exists hs, history r = (history r ++ hs)%list).
Proof. repeat split; exists []; rewrite app_nil_r; reflexivity. Qed.

Lemma step_grows (L : Libs) e st iss r :
  consistent st iss -> In r (reports st) ->
  exists r',
    In r' (reports (step e st)) /\ _id r' = _id r
    /\ (exists cs, comments r' = (comments r ++ cs)%list)
    /\ (exists fs, evidenceFiles r' = (evidenceFiles r ++ fs)%list)
    /\ (exists hs, history r' = (history r ++ hs)%list).
Proof.
  intros Hc Hin. destruct (step_effect e st) as [env [_ He]].
  inversion He as [Hr Hn | r0 r0' Hin0 Hev Hr Hn | r0 Hm Hr Hn]; rewrite Hr.
  - exists r. repeat split; auto; apply grows_refl.
  - destruct (_id r =? _id r0')%N eqn:E.
    + assert (r = r0)
        by (apply (replaceById_same (reports st) r0 r0' r); auto;
            [apply (co_ids _ _ Hc) | apply (ev_id _ _ _ Hev)]).
      subst r0. exists r0'. destruct Hev.
      split; [|repeat split; eauto].
      unfold replaceById. apply in_map_iff. exists r. rewrite E. auto.
    + exists r. split; [|split; [reflexivity | apply grows_refl]].
      unfold replaceById. apply in_map_iff. exists r. rewrite E. auto.
  - exists r. split; [apply in_or_app; left; exact Hin|].
    split; [reflexivity | apply grows_refl].
Qed.

Lemma run_grows (L : Libs) es : forall st iss r,
  consistent st iss -> In r (reports st) ->
  exists r',
    In r' (reports (run es st)) /\ _id r' = _id r
    /\ (exists cs, comments r' = (comments r ++ cs)%list)
    /\ (exists fs, evidenceFiles r' = (evidenceFiles r ++ fs)%list)
    /\ (exists hs, history r' = (history r ++ hs)%list).
Proof.
  induction es as [|e es IH]; intros st iss r Hc Hin.
  - exists r. repeat split; auto; apply grows_refl.
  - rewrite run_cons.
    destruct (step_grows L e st iss r Hc Hin)
      as (r1 & Hin1 & Hid1 & [cs1 Hc1] & [fs1 Hf1] & [hs1 Hh1]).
    destruct (step_effect e st) as [env [_ He]].
    destruct (IH _ _ r1 (effect_consistent _ _ _ _ _ He Hc) Hin1)
      as (r2 & Hin2 & Hid2 & [cs2 Hc2] & [fs2 Hf2] & [hs2 Hh2]).
    exists r2. split; [exact Hin2|]. split; [congruence|].
    rewrite Hc2, Hf2, Hh2, Hc1, Hf1, Hh1, <- !app_assoc.
    repeat split; eexists; reflexivity.
Qed.

(** X15.  What is written stays written.  A report stored at some point of
    a run is still found under its [_id] after any further events, and its
    comments, its evidence files and its status history are then the ones
    it had, in the same order, followed by what has been added since: no
    handler removes, rewrites or reorders an entry. *)
Theorem conversations_only_grow (L : Libs) (es1 es2 : list Event)
    (r : Report.t) :
  In r (reports (run es1 emptyStore)) ->
  exists r',
    findById (_id r) (run (es1 ++ es2) emptyStore) = Some r'
    /\ (exists cs, comments r' = (comments r ++ cs)%list)
    /\ (exists fs, evidenceFiles r' = (evidenceFiles r ++ fs)%list)
    /\ (exists hs, history r' = (history r ++ hs)%list).
Proof.
  intros Hin. rewrite run_app.
  pose proof (reachable_consistent es1) as Hc.
  destruct (run_grows L es2 _ _ r Hc Hin) as (r' & Hin' & Hid & Hrest).
  exists r'. split; [|exact Hrest].
  rewrite <- Hid. apply findById_unique; auto.
  apply (co_ids _ _ (run_consistent es2 _ _ Hc)).
Qed.

Lemma conversations_only_grow_witness :
  exists r r',
    In r (reports (run (L := Samples.plainLibs)
                     [Seed; Samples.createStreetlight] emptyStore))
    /\ findById (_id r)
         (run (L := Samples.plainLibs)
            ([Seed; Samples.createStreetlight]
             ++ [Samples.adminWrites 3000; Samples.adminSetsStatus 4000 "closed"])
            emptyStore) = Some r'
    /\ (exists cs, comments r' = (comments r ++ cs)%list)
    /\ (exists hs, history r' = (history r ++ hs)%list).
Proof.
  assert (Hin : exists r,
             In r (reports (run (L := Samples.plainLibs)
                              [Seed; Samples.createStreetlight] emptyStore)))
    by (eexists; left; reflexivity).
  destruct Hin as [r Hin]. exists r.
  destruct (conversations_only_grow Samples.plainLibs
              [Seed; Samples.createStreetlight]
              [Samples.adminWrites 3000; Samples.adminSetsStatus 4000 "closed"]
              r Hin) as (r' & Hf & Hcs & _ & Hhs).
  exists r'. auto.
Defined.

(** ** The conversation *)

Lemma toObject_comments d :
  get "comments" (toObject d)
  = Some (JArr (map commentJson (comments (fields d)))).
Proof. unfold toObject; rewrite get_obj; lit_walk; auto. Qed.

Lemma truthy_strOf v : truthy v = true -> ReporterController.strOf v <> "".
Proof.
  destruct v as [| |s]; cbn; try discriminate.
  intros H. apply negb_true_iff in H. apply String.eqb_neq in H. exact H.
Qed.

Lemma In_existsb_id r rs :
  In r rs -> existsb (fun r' => (_id r' =? _id r)%N) rs = true.
Proof.
  intros Hin. apply existsb_exists. exists r. split; auto. apply N.eqb_refl.
Qed.

Lemma findById_logAudit id l st :
  findById id (logAudit l st) = findById id st.
Proof. reflexivity. Qed.

(** The store after a successful [addAdminMessage]. *)
Lemma addAdminMessage_ok (L : Libs) env req st id r :
  params_reportId req = POid id -> findById id st = Some r ->
  validate r = true -> truthy (b_message (body req)) = true ->
  exists out r',
    AdminController.addAdminMessage env req st
    = (fst (AdminController.addAdminMessage env req st), Sent 201 out)
    /\ findById id (fst (AdminController.addAdminMessage env req st))
       = Some r'
    /\ comments r'
       = (comments r
          ++ [{| c_user := None; role := "admin";
                 message := ReporterController.strOf (b_message (body req));
                 c_createdAt := now env |}])%list.
Proof.
  intros Hp Hf Hv Hm.
  assert (Hid : _id r = id).
  { unfold findById in Hf. apply find_some in Hf as [_ Hf].
    apply N.eqb_eq in Hf. exact Hf. }
  assert (Hin : In r (reports st))
    by (unfold findById in Hf; apply find_some in Hf; apply Hf).
  unfold AdminController.addAdminMessage.
  rewrite Hp. cbn [reportById byId]. rewrite Hf, Hm. cbn [negb].
  match goal with
  | |- context [save env ?d st] => set (doc := d)
  end.
  assert (Hnew : isNew doc = false) by reflexivity.
  assert (Hdv : validate (fields doc) = true).
  { unfold doc. cbn [withFields fields loaded].
    apply validate_pushComment; auto. cbn [message].
    apply truthy_strOf. exact Hm. }
  assert (Hex : existsb (fun r' => (_id r' =? _id (fields doc))%N)
                        (reports st) = true)
    by (apply (In_existsb_id r); exact Hin).
  destruct (save_loaded_ok L env doc st Hnew Hdv Hex) as [d' Hsave].
  rewrite Hsave. cbn [fst].
  pose proof Hsave as Hs2. apply save_findById in Hs2; [|exact Hnew].
  destruct Hs2 as (Hf' & _).
  apply save_loaded_fields in Hsave; [|exact Hnew].
  destruct Hsave as (_ & _ & _ & _ & _ & _ & Hc' & _).
  eexists. exists (fields d'). split; [reflexivity|]. split.
  - unfold findById in *. cbn [reports logAudit]. rewrite <- Hid. exact Hf'.
  - rewrite Hc'. reflexivity.
Qed.

(** X16.  A message reaches the other side.  On a store the system can
    reach, [addAdminMessage] on a stored report with a message answers 201,
    and a follow-up with the secret of that report then answers 200 with the
    report, its comments being the ones it had followed by the message of
    the administrator with role "admin" and the time of the request.  In
    the other direction, when [addWhistleblowerMessage] answers 201 there is
    a stored report that [getReportById] then shows to the administrator
    with the message of the reporter as its last comment.  bcrypt is
    assumed to accept the password a hash was made from. *)
Theorem messages_reach_the_other_side (L : Libs)
    (complete : forall p s, bcrypt_compare p (bcrypt_hash p s) = true)
    (es : list Event) (env env' : Env) (req req' : Request) :
  (forall id p,
      In (id, p) (issued es emptyStore) ->
      params_reportId req = POid id ->
      truthy (b_message (body req)) = true ->
      ReporterController.strOf (b_password (body req')) = p ->
      exists r out answer data,
        findById id (run es emptyStore) = Some r
        /\ snd (AdminController.addAdminMessage env req (run es emptyStore))
           = Sent 201 out
        /\ snd (fst (ReporterController.getReportByPassword env' req'
                       (fst (AdminController.addAdminMessage env req
                               (run es emptyStore)))))
           = Sent 200 answer
        /\ get "data" answer = Some data
        /\ get "_id" data = Some (JOid id)
        /\ get "comments" data
           = Some (JArr (map commentJson
                (comments r
                 ++ [{| c_user := None; role := "admin";
                        message :=
                          ReporterController.strOf (b_message (body req));
                        c_createdAt := now env |}])%list)))
  /\ (forall st' out,
         fst (ReporterController.addWhistleblowerMessage env req
                (run es emptyStore)) = (st', Sent 201 out) ->
         exists r,
           In r (reports (run es emptyStore))
           /\ (params_id req' = POid (_id r) ->
               exists answer data,
                 AdminController.getReportById env' req' st'
                 = (st', Sent 200 answer)
                 /\ get "data" answer = Some data
                 /\ get "_id" data = Some (JOid (_id r))
                 /\ get "comments" data
                    = Some (JArr (map commentJson
                         (comments r
                          ++ [{| c_user := None; role := "reporter";
                                 message :=
                                   ReporterController.strOf
                                     (b_message (body req));
                                 c_createdAt := now env |}])%list)))).
Proof.
  split.
  - intros id p Hin Hp Hm Hpw.
    pose proof (reachable_consistent es) as Hc.
    set (st := run es emptyStore) in *.
    destruct (Forall2_In_r _ _ _ _ (co_secrets _ _ Hc) Hin)
      as [r [Hr (Hid & _)]]. cbn [fst] in Hid.
    assert (Hf : findById id st = Some r)
      by (rewrite <- Hid; apply findById_unique; [apply (co_ids _ _ Hc)|auto]).
    assert (Hv : validate r = true).
    { pose proof (co_valid _ _ Hc) as Hall. rewrite Forall_forall in Hall.
      auto. }
    destruct (addAdminMessage_ok L env req st id r Hp Hf Hv Hm)
      as (out & r' & Hres & Hf' & Hc').
    set (st' := fst (AdminController.addAdminMessage env req st)) in *.
    assert (Hc2 : consistent st'
                    (issued es emptyStore
                     ++ optList (issuedBy
                          (snd (invoke AddAdminMessage env req st))))).
    { apply (effect_consistent env st); [|exact Hc].
      apply (invoke_effect AddAdminMessage). }
    destruct (follow_up_accepts st' _ id p env' req' complete Hc2
                (in_or_app _ _ _ (or_introl Hin)) Hpw)
      as (r2 & h & Hf2 & _ & _ & _ & Hres2).
    assert (r2 = r') by congruence. subst r2.
    exists r, out. do 2 eexists.
    split; [exact Hf|]. split; [rewrite Hres; reflexivity|].
    rewrite Hres2. cbn [snd]. unfold retrieved.
    split; [reflexivity|]. split; [rewrite get_obj; lit_walk; reflexivity|].
    rewrite !getPublicData_get. cbn [String.eqb Ascii.eqb Bool.eqb orb].
    rewrite toObject_id, toObject_comments.
    cbn [fields populateAgency populateCategory loaded].
    apply find_some in Hf' as [_ Hid']. apply N.eqb_eq in Hid'.
    rewrite Hid', Hc'. split; reflexivity.
  - intros st' out Hres.
    pose proof (reachable_consistent es) as Hc.
    set (st := run es emptyStore) in *.
    unfold ReporterController.addWhistleblowerMessage, bind, tell, ret in Hres.
    destruct (negb (truthy (b_password (body req)))
              || negb (truthy (b_message (body req)))); [discriminate|].
    destruct (ReporterController.firstMatch _ (reports st))
      as [[e|[r|]] log] eqn:Hfm; try discriminate.
    apply firstMatch_In in Hfm.
    exists r. split; [exact Hfm|]. intros Hp.
    cbn [fst snd] in Hres.
    match type of Hres with
    | context [save env ?d st] => set (doc := d) in *
    end.
    destruct (save env doc st) as [st1 [e|d']] eqn:Hsave; [discriminate|].
    assert (Hnew : isNew doc = false)
      by (unfold doc; destruct (files req); reflexivity).
    assert (Hdid : _id (fields doc) = _id r)
      by (unfold doc; destruct (files req); reflexivity).
    assert (Hdc : comments (fields doc)
                  = (comments r
                     ++ [{| c_user := None; role := "reporter";
                            message := ReporterController.strOf
                                         (b_message (body req));
                            c_createdAt := now env |}])%list)
      by (unfold doc; destruct (files req); reflexivity).
    pose proof Hsave as Hs2. apply save_findById in Hs2; [|exact Hnew].
    destruct Hs2 as (Hf' & _).
    apply save_loaded_fields in Hsave; [|exact Hnew].
    destruct Hsave as (_ & _ & _ & Hid' & _ & _ & Hc' & _).
    injection Hres as <- _.
    unfold AdminController.getReportById. rewrite Hp.
    cbn [wellFormed negb reportById byId].
    rewrite findById_logAudit, <- Hdid, Hf'. do 2 eexists. split; [reflexivity|].
    split; [rewrite get_obj; lit_walk; reflexivity|].
    rewrite !toJSON_get. cbn [String.eqb Ascii.eqb Bool.eqb orb andb].
    rewrite !andb_false_r.
    rewrite toObject_id, toObject_comments.
    cbn [fields populateAgency populateCategory loaded].
    rewrite Hid', Hdid, Hc', Hdc. split; reflexivity.
Qed.

Lemma messages_reach_the_other_side_witness :
  exists r out answer data,
    findById 2%N (run (L := Samples.plainLibs)
                    [Seed; Samples.createStreetlight] emptyStore) = Some r
    /\ snd (AdminController.addAdminMessage (L := Samples.plainLibs)
              (Samples.env 3000 x00 x00 x00)
              (Samples.requestOf (POid 2%N)
                 (Samples.withPasswordAndMessage Undefined (Str "noted"))
                 (Some {| u_id := 9%N; u_role := "admin" |}))
              (run (L := Samples.plainLibs)
                 [Seed; Samples.createStreetlight] emptyStore))
       = Sent 201 out
    /\ snd (fst (ReporterController.getReportByPassword
                   (L := Samples.plainLibs)
                   (Samples.env 4000 x00 x00 x00)
                   (Samples.requestOf PUndefined
                      (Samples.withPasswordAndMessage (Str "A9F4C2") Undefined)
                      None)
                   (fst (AdminController.addAdminMessage
                           (L := Samples.plainLibs)
                           (Samples.env 3000 x00 x00 x00)
                           (Samples.requestOf (POid 2%N)
                              (Samples.withPasswordAndMessage Undefined
                                 (Str "noted"))
                              (Some {| u_id := 9%N; u_role := "admin" |}))
                           (run (L := Samples.plainLibs)
                              [Seed; Samples.createStreetlight] emptyStore)))))
       = Sent 200 answer
    /\ get "data" answer = Some data
    /\ get "_id" data = Some (JOid 2%N)
    /\ get "comments" data
       = Some (JArr (map commentJson
            (comments r
             ++ [{| c_user := None; role := "admin"; message := "noted";
                    c_createdAt := 3000%N |}])%list)).
Proof.
  assert (complete : forall p s : string,
             bcrypt_compare (Libs := Samples.plainLibs) p
               (bcrypt_hash (Libs := Samples.plainLibs) p s) = true).
  { intros p s. simpl. apply String.eqb_refl. }
  apply (proj1 (messages_reach_the_other_side Samples.plainLibs complete
                  [Seed; Samples.createStreetlight]
                  (Samples.env 3000 x00 x00 x00)
                  (Samples.env 4000 x00 x00 x00)
                  (Samples.requestOf (POid 2%N)
                     (Samples.withPasswordAndMessage Undefined (Str "noted"))
                     (Some {| u_id := 9%N; u_role := "admin" |}))
                  (Samples.requestOf PUndefined
                     (Samples.withPasswordAndMessage (Str "A9F4C2") Undefined)
                     None))
               2%N "A9F4C2").
  - vm_compute. left. reflexivity.
  - reflexivity.
  - reflexivity.
  - reflexivity.
Defined.

(** ** Deleting a category or an agency *)

Lemma find_filter_out {A} (key : A -> N) x l :
  find (fun a => (key a =? x)%N)
       (filter (fun a => negb (key a =? x)%N) l) = None.
Proof.
  induction l as [|a l IH]; [reflexivity|]. cbn [filter].
  destruct (key a =? x)%N eqn:E; cbn [negb]; [exact IH|].
  cbn [find]. rewrite E. exact IH.
Qed.

Lemma find_filter_other {A} (key : A -> N) x y l :
  y <> x ->
  find (fun a => (key a =? y)%N)
       (filter (fun a => negb (key a =? x)%N) l)
  = find (fun a => (key a =? y)%N) l.
Proof.
  intros Hne. induction l as [|a l IH]; [reflexivity|]. cbn [filter find].
  destruct (key a =? x)%N eqn:E; cbn [negb find].
  - apply N.eqb_eq in E.
    assert (E' : (key a =? y)%N = false)
      by (apply N.eqb_neq; congruence).
    rewrite E'. exact IH.
  - destruct (key a =? y)%N; [reflexivity | exact IH].
Qed.

Lemma listed_agencyAssigned st r :
  get "agencyAssigned" (listed st r)
  = Some match lookupAgency st (agencyAssigned r) with
         | Some a => project (Some ["name"]) (Agency.toJson a)
         | None => JNull
         end.
Proof.
  unfold listed. rewrite toJSON_get.
  cbn [String.eqb Ascii.eqb Bool.eqb orb andb]. rewrite !andb_false_r.
  unfold toObject. rewrite get_obj. lit_walk.
  cbn [popAgency populateAgency populateCategory loaded fields refJson].
  destruct (lookupAgency st (agencyAssigned r)); reflexivity.
Qed.

Lemma listed_category st r :
  get "category" (listed st r)
  = Some match lookupCategory st (category r) with
         | Some c => project (Some ["name"]) (Category.toJson c)
         | None => JNull
         end.
Proof.
  unfold listed. rewrite toJSON_get.
  cbn [String.eqb Ascii.eqb Bool.eqb orb andb]. rewrite !andb_false_r.
  unfold toObject. rewrite get_obj. lit_walk.
  cbn [popCategory populateAgency populateCategory loaded fields refJson].
  destruct (lookupCategory st (category r)); reflexivity.
Qed.

(** X17.  Deleting does not cascade.  When [deleteAgency] answers 2xx the
    agency named by the request is gone and every other agency is kept, but
    the reports are as they were: a report assigned to the deleted agency
    keeps the dangling reference, the listings show its [agencyAssigned] as
    null, and the scorecard has no entry for the agency.  Likewise
    [deleteCategory] removes the category and leaves the reports, whose
    [category] the listings then show as null. *)
Theorem deleting_does_not_cascade (L : Libs) (env : Env) (req : Request)
    (st : Store) :
  (succeeded (snd (Catalogue.deleteAgency env req st)) = true ->
   exists x,
     params_id req = POid x
     /\ reports (fst (Catalogue.deleteAgency env req st)) = reports st
     /\ lookupAgency (fst (Catalogue.deleteAgency env req st)) (Some x) = None
     /\ (forall y, y <> x ->
         lookupAgency (fst (Catalogue.deleteAgency env req st)) (Some y)
         = lookupAgency st (Some y))
     /\ (forall r, agencyAssigned r = Some x ->
         get "agencyAssigned"
             (listed (fst (Catalogue.deleteAgency env req st)) r)
         = Some JNull)
     /\ rowOf x (agencyMap (fst (Catalogue.deleteAgency env req st))
                   (reports st)) = None)
  /\ (succeeded (snd (Catalogue.deleteCategory env req st)) = true ->
      exists x,
        params_id req = POid x
        /\ reports (fst (Catalogue.deleteCategory env req st)) = reports st
        /\ lookupCategory (fst (Catalogue.deleteCategory env req st)) (Some x)
           = None
        /\ (forall y, y <> x ->
            lookupCategory (fst (Catalogue.deleteCategory env req st))
              (Some y)
            = lookupCategory st (Some y))
        /\ (forall r, category r = Some x ->
            get "category"
                (listed (fst (Catalogue.deleteCategory env req st)) r)
            = Some JNull)).
Proof.
  split.
  - unfold Catalogue.deleteAgency.
    destruct (params_id req) as [|s|x]; cbn [wellFormed negb snd succeeded];
      try discriminate.
    cbn [agencyById byId].
    destruct (lookupAgency st (Some x)) as [a|] eqn:Ha;
      cbn [snd succeeded fst]; try discriminate.
    intros _. exists x. split; [reflexivity|].
    pose proof (lookupAgency_id _ _ _ Ha) as Hx. injection Hx as Hx.
    rewrite <- Hx.
    set (st' := setAgencies st _).
    assert (Hgone : lookupAgency st' (Some x) = None)
      by (cbn [lookupAgency st' agencies setAgencies];
          apply (find_filter_out Agency._id)).
    split; [reflexivity|]. split; [exact Hgone|]. split; [|split].
    + intros y Hy. cbn [lookupAgency st' agencies setAgencies].
      apply (find_filter_other Agency._id); exact Hy.
    + intros r Hr. rewrite listed_agencyAssigned, Hr, Hgone. reflexivity.
    + pose proof (agencyMap_tallies st' (reports st) [] [] (NoDup_nil _)
                    (fun x => eq_refl)) as [_ Hrows].
      specialize (Hrows x). cbn [app] in Hrows.
      fold (agencyMap st' (reports st)) in Hrows.
      destruct (rowOf x (agencyMap st' (reports st))) as [row|];
        [|reflexivity].
      destruct Hrows as (_ & (a' & Ha' & _) & _). congruence.
  - unfold Catalogue.deleteCategory.
    destruct (params_id req) as [|s|x]; cbn [wellFormed negb snd succeeded];
      try discriminate.
    cbn [categoryById byId].
    destruct (lookupCategory st (Some x)) as [c|] eqn:Hc;
      cbn [snd succeeded fst]; try discriminate.
    intros _. exists x. split; [reflexivity|].
    assert (Hx : Category._id c = x).
    { cbn [lookupCategory] in Hc. apply find_some in Hc as [_ Hc].
      apply N.eqb_eq in Hc. exact Hc. }
    rewrite Hx.
    set (st' := setCategories st _).
    assert (Hgone : lookupCategory st' (Some x) = None)
      by (cbn [lookupCategory st' categories setCategories];
          apply (find_filter_out Category._id)).
    split; [reflexivity|]. split; [exact Hgone|]. split.
    + intros y Hy. cbn [lookupCategory st' categories setCategories].
      apply (find_filter_other Category._id); exact Hy.
    + intros r Hr. rewrite listed_category, Hr, Hgone. reflexivity.
Qed.

Lemma deleting_does_not_cascade_witness :
  exists x,
    params_id (Samples.requestOf (POid 1%N) Samples.emptyBody
                 (Some {| u_id := 9%N; u_role := "admin" |})) = POid x
    /\ reports (fst (Catalogue.deleteAgency
                       (Samples.env 2000 x00 x00 x00)
                       (Samples.requestOf (POid 1%N) Samples.emptyBody
                          (Some {| u_id := 9%N; u_role := "admin" |}))
                       (run (L := Samples.plainLibs)
                          [Seed; Samples.createStreetlight] emptyStore)))
       = reports (run (L := Samples.plainLibs)
                    [Seed; Samples.createStreetlight] emptyStore)
    /\ lookupAgency
         (fst (Catalogue.deleteAgency
                 (Samples.env 2000 x00 x00 x00)
                 (Samples.requestOf (POid 1%N) Samples.emptyBody
                    (Some {| u_id := 9%N; u_role := "admin" |}))
                 (run (L := Samples.plainLibs)
                    [Seed; Samples.createStreetlight] emptyStore)))
         (Some x) = None.
Proof.
  destruct (proj1 (deleting_does_not_cascade Samples.plainLibs
                     (Samples.env 2000 x00 x00 x00)
                     (Samples.requestOf (POid 1%N) Samples.emptyBody
                        (Some {| u_id := 9%N; u_role := "admin" |}))
                     (run (L := Samples.plainLibs)
                        [Seed; Samples.createStreetlight] emptyStore))
              eq_refl) as (x & Hx & Hr & Hgone & _).
  exists x. auto.
Defined.

(** ** The queue of unassigned reports *)

Lemma queued_iff env req st id :
  queued env req st id
  <-> exists a r,
        defaultAgency st = Some a /\ In r (reports st) /\ _id r = id
        /\ agencyAssigned r = Some (Agency._id a).
Proof.
  unfold queued, defaultAgency, AdminController.getUnassignedReports.
  destruct (find _ (agencies st)) as [a|].
  - cbn [snd]. erewrite views_array by reflexivity. rewrite map_map. split.
    + intros (v & Hv & Hid). apply in_map_iff in Hv as (r & <- & Hr).
      apply sortByCreatedAtDesc_In in Hr. apply filter_In in Hr as [Hr Ha].
      apply assigned_to in Ha. rewrite toJSON_id in Hid.
      cbn [fields populateAgency populateCategory loaded] in Hid.
      exists a, r. repeat split; auto. congruence.
    + intros (a' & r & Ha' & Hr & Hid & Hag). injection Ha' as <-.
      eexists. split.
      * apply in_map_iff. exists r. split; [reflexivity|].
        apply (Permutation_in _ (Permutation_sym
                                   (sortByCreatedAtDesc_perm _))).
        apply filter_In. split; [exact Hr|]. rewrite Hag.
        apply N.eqb_refl.
      * rewrite toJSON_id. cbn [fields populateAgency populateCategory loaded].
        congruence.
  - cbn [snd]. rewrite views_failure. split.
    + intros (v & [] & _).
    + intros (a & r & Ha & _). discriminate.
Qed.

(** The store after a successful [assignReportToAgency]. *)
Lemma assignReportToAgency_store (L : Libs) env req st st' out :
  AdminController.assignReportToAgency env req st = (st', Sent 200 out) ->
  exists r r' x,
    params_id req = POid (_id r) /\ b_agencyId (body req) = POid x
    /\ In r (reports st)
    /\ reports st' = replaceById r' (reports st)
    /\ _id r' = _id r /\ agencyAssigned r' = Some x
    /\ agencies st' = agencies st.
Proof.
  intros H. unfold AdminController.assignReportToAgency in H.
  destruct (reportById (params_id req) st) as [e|[r|]] eqn:Hr;
    try discriminate.
  destruct (agencyById (b_agencyId (body req)) st) as [e|[a|]] eqn:Ha;
    try discriminate.
  match type of H with
  | context [save env ?d st] =>
      destruct (save env d st) as [st1 [e|d']] eqn:Hsv
  end; try discriminate.
  injection H as <- _.
  pose proof (save_frame L _ _ _ _ _ Hsv) as (_ & Hag & _).
  apply save_loaded_fields in Hsv; [|reflexivity].
  destruct Hsv as (Hst & _ & _ & Hid & _ & _ & _ & _ & Hass & _).
  cbn [fields withFields loaded withAgencyAssigned agencyAssigned _id] in *.
  exists r, (fields d'), (Agency._id a).
  split; [apply reportById_id in Hr; exact Hr|].
  split.
  { unfold agencyById, byId in Ha.
    destruct (b_agencyId (body req)) as [|s|x]; try discriminate.
    injection Ha as Ha. apply find_some in Ha as [_ Ha].
    apply N.eqb_eq in Ha. congruence. }
  split; [apply reportById_In in Hr; exact Hr|].
  cbn [reports agencies logAudit]. subst st1. cbn [reports setReports].
  repeat split; auto.
Qed.

Lemma createReport_agencies (L : Libs) env req st :
  agencies (fst (ReporterController.createReport env req st)) = agencies st.
Proof.
  unfold ReporterController.createReport. cbv zeta.
  repeat match goal with
         | |- context [if ?c then (st, Sent 400 _) else _] =>
             destruct c; [reflexivity|]
         end.
  match goal with
  | |- context [create env ?o st] =>
      destruct (create env o st) as [st1 [e|d]] eqn:Hc
  end; apply create_frame in Hc; cbn [fst agencies logAudit]; apply Hc.
Qed.

(** X18.  The queue of unassigned reports.  On a store the system can
    reach, [getUnassignedReports] lists exactly the reports assigned to the
    agency named "unassigned".  A report filed while that agency exists is
    in the queue right after its creation; a report that
    [assignReportToAgency] has assigned to another agency is no longer in
    it, and the assignment moves no other report in or out. *)
Theorem unassigned_queue (L : Libs) (es : list Event) (env : Env)
    (req : Request) :
  (forall id,
      queued env req (run es emptyStore) id
      <-> exists a r,
            defaultAgency (run es emptyStore) = Some a
            /\ findById id (run es emptyStore) = Some r
            /\ agencyAssigned r = Some (Agency._id a))
  /\ (forall env0 req0 st' out,
         ReporterController.createReport env0 req0 (run es emptyStore)
         = (st', Sent 201 out) ->
         defaultAgency (run es emptyStore) <> None ->
         queued env req st' (nextId (run es emptyStore)))
  /\ (forall env0 req0 st' out id x,
         AdminController.assignReportToAgency env0 req0 (run es emptyStore)
         = (st', Sent 200 out) ->
         params_id req0 = POid id -> b_agencyId (body req0) = POid x ->
         (forall a, defaultAgency (run es emptyStore) = Some a ->
                    Agency._id a <> x) ->
         ~ queued env req st' id
         /\ forall id', id' <> id ->
              (queued env req st' id'
               <-> queued env req (run es emptyStore) id')).
Proof.
  pose proof (reachable_consistent es) as Hc.
  set (st := run es emptyStore) in *.
  pose proof (co_ids _ _ Hc) as Hnd.
  split; [|split].
  - intros id. rewrite queued_iff. split.
    + intros (a & r & Ha & Hr & Hid & Hag). exists a, r.
      repeat split; auto. rewrite <- Hid. apply findById_unique; auto.
    + intros (a & r & Ha & Hr & Hag). exists a, r.
      unfold findById in Hr. apply find_some in Hr as [Hr Hid].
      apply N.eqb_eq in Hid. auto.
  - intros env0 req0 st' out Hcr Hdef.
    pose proof (createReport_agencies L env0 req0 st) as Hag.
    rewrite Hcr in Hag. cbn [fst] in Hag.
    apply createReport_created in Hcr
      as (r & Hr & Hm & _ & _ & _ & _ & Hass).
    apply queued_iff. unfold defaultAgency in *. rewrite Hag.
    destruct (find _ (agencies st)) as [a|]; [|contradiction].
    exists a, r. split; [reflexivity|]. rewrite Hr.
    split; [apply in_or_app; right; left; reflexivity|].
    split; [apply (mi_id _ _ _ Hm) | exact Hass].
  - intros env0 req0 st' out id x Has Hp Hx Hne.
    apply assignReportToAgency_store in Has
      as (r & r' & x' & Hp' & Hx' & Hr & Hrs & Hid & Hass & Hag).
    assert (id = _id r) by congruence. assert (x' = x) by congruence.
    subst id x'. clear Hp Hx.
    assert (Hin : forall y, In y (reports st') <->
                  (y = r' \/ (In y (reports st) /\ _id y <> _id r))).
    { intros y. rewrite Hrs. unfold replaceById. rewrite in_map_iff. split.
      - intros (z & Hz & Hin). destruct (_id z =? _id r')%N eqn:E.
        + left. auto.
        + right. subst z. split; auto. apply N.eqb_neq in E. congruence.
      - intros [->|[Hy Hny]].
        + exists r. rewrite Hid, N.eqb_refl. auto.
        + exists y. rewrite Hid. apply N.eqb_neq in Hny. rewrite Hny. auto. }
    split.
    + rewrite queued_iff. intros (a & y & Ha & Hy & Hyid & Hyag).
      unfold defaultAgency in *. rewrite Hag in Ha.
      apply Hin in Hy as [->|[_ Hy]]; [|contradiction].
      apply (Hne a Ha). congruence.
    + intros id' Hid'. rewrite !queued_iff. unfold defaultAgency. rewrite Hag.
      split; intros (a & y & Ha & Hy & Hyid & Hyag); exists a, y;
        repeat split; auto.
      * apply Hin in Hy as [->|[Hy _]]; [congruence | exact Hy].
      * apply Hin. right. split; [exact Hy | congruence].
Qed.

Lemma unassigned_queue_witness :
  queued (Samples.env 2000 x00 x00 x00)
    (Samples.requestOf PUndefined Samples.emptyBody
       (Some {| u_id := 9%N; u_role := "admin" |}))
    (fst (ReporterController.createReport (L := Samples.plainLibs)
            (Samples.env 1000 xa9 xf4 xc2)
            (Samples.requestOf PUndefined (Samples.streetlight Undefined) None)
            (run (L := Samples.plainLibs) [Seed] emptyStore)))
    2%N.
Proof.
  eapply (proj1 (proj2 (unassigned_queue Samples.plainLibs [Seed]
                          (Samples.env 2000 x00 x00 x00)
                          (Samples.requestOf PUndefined Samples.emptyBody
                             (Some {| u_id := 9%N; u_role := "admin" |}))))
            (Samples.env 1000 xa9 xf4 xc2)
            (Samples.requestOf PUndefined (Samples.streetlight Undefined)
               None)).
  - vm_compute. reflexivity.
  - vm_compute. discriminate.
Defined.

(** ** The names of the agencies *)

Lemma NoDup_map_filter {A B} (f : A -> B) (p : A -> bool) l :
  NoDup (map f l) -> NoDup (map f (filter p l)).
Proof.
  induction l as [|a l IH]; cbn [map filter]; intros Hnd; [constructor|].
  inversion Hnd as [|? ? Hni Hnd']; subst.
  destruct (p a); cbn [map]; [|apply IH, Hnd'].
  constructor; [|apply IH, Hnd'].
  intros Hin. apply Hni. apply in_map_iff in Hin as (x & Hx & Hin).
  apply filter_In in Hin as [Hin _]. apply in_map_iff. exists x. auto.
Qed.

Ltac names_leaf Hnd :=
  repeat match goal with
         | Hs : save _ _ _ = _ |- _ =>
             apply save_frame in Hs; destruct Hs as (_ & Hs & _)
         | Hs : create _ _ _ = _ |- _ =>
             apply create_frame in Hs; destruct Hs as (_ & Hs & _)
         | Hs : Catalogue.createCategoryDoc _ _ _ = _ |- _ =>
             apply createCategoryDoc_frame in Hs;
             destruct Hs as (_ & Hs & _)
         | Hs : Catalogue.createAgencyDoc _ _ _ = (_, inl _) |- _ =>
             apply createAgencyDoc_frame in Hs;
             destruct Hs as (_ & _ & _ & _ & Hs)
         | Hs : Catalogue.createAgencyDoc _ _ _ = (_, inr _) |- _ =>
             let Hname := fresh "Hname" in
             let Hfresh := fresh "Hfresh" in
             apply createAgencyDoc_frame in Hs;
             destruct Hs as (_ & _ & _ & _ & Hs & _ & Hname & _ & Hfresh);
             rewrite <- Hname in Hfresh
         end;
  cbn [agencies logAudit setCategories setAgencies setReports fst];
  repeat match goal with
         | Hf : agencies _ = _ |- _ => rewrite Hf; clear Hf
         end;
  first [ exact Hnd
        | apply NoDup_map_filter; exact Hnd
        | rewrite map_app; cbn [map]; apply NoDup_snoc; assumption ].

(** No handler gives two agencies the same name. *)
Lemma invoke_agency_names (L : Libs) h env req st :
  NoDup (map Agency.name (agencies st)) ->
  NoDup (map Agency.name (agencies (fst (invoke h env req st)))).
Proof.
  intros Hnd. destruct h.
  - cbn [invoke]. rewrite createReport_agencies. exact Hnd.
  - cbn [invoke]. rewrite getReportByPassword_store. exact Hnd.
  - cbn [invoke].
    unfold ReporterController.addWhistleblowerMessage, bind, tell, ret.
    destruct (negb (truthy (b_password (body req)))
              || negb (truthy (b_message (body req)))); [exact Hnd|].
    destruct (ReporterController.firstMatch _ (reports st))
      as [[e|[r|]] log] eqn:Hf; try exact Hnd.
    match goal with
    | |- context [save ?env ?d ?st] =>
        destruct (save env d st) as [st' [e|d']] eqn:Hs
    end; cbn [fst snd]; names_leaf Hnd.
  - destruct (invoke GetUnassignedReports env req st) as [st' resp] eqn:H; unfold_handlers H; explore H; names_leaf Hnd.
  - destruct (invoke GetAllReports env req st) as [st' resp] eqn:H; unfold_handlers H; explore H; names_leaf Hnd.
  - destruct (invoke GetReportById env req st) as [st' resp] eqn:H; unfold_handlers H; explore H; names_leaf Hnd.
  - destruct (invoke UpdateReportCategory env req st) as [st' resp] eqn:H; unfold_handlers H; explore H; names_leaf Hnd.
  - destruct (invoke AssignReportToAgency env req st) as [st' resp] eqn:H; unfold_handlers H; explore H; names_leaf Hnd.
  - destruct (invoke UpdateReportStatus env req st) as [st' resp] eqn:H; unfold_handlers H; explore H; names_leaf Hnd.
  - destruct (invoke AddAdminMessage env req st) as [st' resp] eqn:H; unfold_handlers H; explore H; names_leaf Hnd.
  - destruct (invoke CreateCategory env req st) as [st' resp] eqn:H; unfold_handlers H; explore H; names_leaf Hnd.
  - destruct (invoke CreateAgency env req st) as [st' resp] eqn:H; unfold_handlers H; explore H; names_leaf Hnd.
  - destruct (invoke DeleteCategory env req st) as [st' resp] eqn:H; unfold_handlers H; explore H; names_leaf Hnd.
  - destruct (invoke DeleteAgency env req st) as [st' resp] eqn:H; unfold_handlers H; explore H; names_leaf Hnd.
  - destruct (invoke GetAgencyReports env req st) as [st' resp] eqn:H; unfold_handlers H; explore H; names_leaf Hnd.
  - destruct (invoke GetAgencyReportById env req st) as [st' resp] eqn:H; unfold_handlers H; explore H; names_leaf Hnd.
  - destruct (invoke AddAgencyMessage env req st) as [st' resp] eqn:H; unfold_handlers H; explore H; names_leaf Hnd.
  - destruct (invoke UpdateAgencyReportStatus env req st) as [st' resp] eqn:H; unfold_handlers H; explore H; names_leaf Hnd.
Qed.

Lemma seedDefaults_agency_names st :
  NoDup (map Agency.name (agencies st)) ->
  NoDup (map Agency.name (agencies (Catalogue.seedDefaults st))).
Proof.
  intros Hnd. unfold Catalogue.seedDefaults.
  set (st1 := match find _ (categories st) with
              | Some _ => st
              | None => _
              end).
  assert (E : agencies st1 = agencies st).
  { unfold st1. destruct (find _ (categories st)); reflexivity. }
  destruct (find _ (agencies st1)); [rewrite E; exact Hnd|].
  destruct (Catalogue.createAgencyDoc "unassigned" (Str "Unassigned reports")
              st1) as [s res] eqn:Hs.
  cbn [fst]. apply createAgencyDoc_frame in Hs.
  destruct Hs as (_ & _ & _ & _ & Hs). rewrite E in Hs.
  destruct res as [e|a].
  - rewrite Hs. exact Hnd.
  - destruct Hs as (Hs & _ & Hname & _ & Hfresh). rewrite Hs, map_app.
    cbn [map]. apply NoDup_snoc; [exact Hnd|]. rewrite Hname. exact Hfresh.
Qed.

Lemma linkUser_names a u st :
  map Agency.name (agencies (linkUser a u st)) = map Agency.name (agencies st).
Proof.
  unfold linkUser. cbn [agencies setAgencies]. rewrite map_map.
  apply map_ext. intros x. destruct (Agency._id x =? a)%N; reflexivity.
Qed.

Lemma run_agency_names (L : Libs) es : forall st,
  NoDup (map Agency.name (agencies st)) ->
  NoDup (map Agency.name (agencies (run es st))).
Proof.
  induction es as [|e es IH]; intros st Hnd; [exact Hnd|].
  rewrite run_cons. apply IH. destruct e as [h env req| |a u]; cbn [step].
  - apply invoke_agency_names. exact Hnd.
  - apply seedDefaults_agency_names. exact Hnd.
  - rewrite linkUser_names. exact Hnd.
Qed.

Lemma find_by_name (l : list Agency.t) a :
  NoDup (map Agency.name l) -> In a l ->
  find (fun b => Agency.name b =? Agency.name a) l = Some a.
Proof.
  induction l as [|x l IH]; intros Hnd Hin; [contradiction|].
  cbn [map] in Hnd. inversion Hnd as [|? ? Hni Hnd']; subst. cbn [find].
  destruct Hin as [->|Hin]; [rewrite String.eqb_refl; reflexivity|].
  destruct (Agency.name x =? Agency.name a) eqn:E; [|apply IH; assumption].
  exfalso. apply Hni. apply String.eqb_eq in E. rewrite E.
  apply in_map. exact Hin.
Qed.

(** X19.  The names of the agencies stay unique.  Along every run of the
    system no two agencies have the same name, so that the agency found by
    the name "unassigned" is the only agency of that name; and
    [createAgency] with the name of an agency that exists adds no agency
    and does not answer 2xx, whatever the duplicate check by regular
    expression makes of the name. *)
Theorem agency_names_are_unique (L : Libs) (es : list Event) (env : Env)
    (req : Request) :
  NoDup (map Agency.name (agencies (run es emptyStore)))
  /\ (forall a,
         In a (agencies (run es emptyStore)) ->
         Agency.name a = "unassigned" ->
         defaultAgency (run es emptyStore) = Some a)
  /\ (forall s,
         b_name (body req) = Str s ->
         In s (map Agency.name (agencies (run es emptyStore))) ->
         agencies (fst (Catalogue.createAgency env req (run es emptyStore)))
         = agencies (run es emptyStore)
         /\ succeeded (snd (Catalogue.createAgency env req
                              (run es emptyStore))) = false).
Proof.
  assert (Hnd : NoDup (map Agency.name (agencies (run es emptyStore))))
    by (apply run_agency_names; constructor).
  set (st := run es emptyStore) in *.
  split; [exact Hnd|]. split.
  - intros a Hin Hname. unfold defaultAgency. rewrite <- Hname.
    apply find_by_name; assumption.
  - intros s Hs Hin.
    destruct (Catalogue.createAgency env req st) as [st' resp] eqn:H.
    unfold Catalogue.createAgency in H. rewrite Hs in H.
    cbn [ReporterController.strOf] in H.
    explore H; cbn [fst snd succeeded]; try (split; reflexivity);
    match goal with
    | Hc : Catalogue.createAgencyDoc _ _ _ = (_, inr _) |- _ =>
        apply createAgencyDoc_frame in Hc;
        destruct Hc as (_ & _ & _ & _ & _ & _ & _ & _ & Hfresh);
        contradiction
    | Hc : Catalogue.createAgencyDoc _ _ _ = (_, inl _) |- _ =>
        apply createAgencyDoc_frame in Hc;
        destruct Hc as (_ & _ & _ & _ & Hc);
        cbn [agencies logAudit]; split; [exact Hc | reflexivity]
    end.
Qed.

Lemma agency_names_are_unique_witness :
  exists a,
    In a (agencies (run (L := Samples.plainLibs)
                      [Seed; Seed; Samples.createStreetlight] emptyStore))
    /\ defaultAgency (run (L := Samples.plainLibs)
                        [Seed; Seed; Samples.createStreetlight] emptyStore)
       = Some a.
Proof.
  assert (Hin : exists a,
             In a (agencies (run (L := Samples.plainLibs)
                               [Seed; Seed; Samples.createStreetlight]
                               emptyStore))
             /\ Agency.name a = "unassigned")
    by (eexists; split; [left; reflexivity | reflexivity]).
  destruct Hin as (a & Hin & Hname). exists a. split; [exact Hin|].
  apply (proj1 (proj2 (agency_names_are_unique Samples.plainLibs
                         [Seed; Seed; Samples.createStreetlight]
                         (Samples.env 2000 x00 x00 x00)
                         (Samples.requestOf PUndefined Samples.emptyBody None)))
           a Hin Hname).
Defined.

(** ** Uploaded evidence *)

Lemma uploadFiles_passes fs : forall left,
  uploadFiles left fs = None ->
  Forall (fun f => In (mimetype f) allowedTypes) fs /\ List.length fs <= left.
Proof.
  induction fs as [|f fs IH]; intros left H; cbn [uploadFiles] in H.
  - split; [constructor | cbn; lia].
  - destruct left as [|left]; [discriminate|].
    destruct (includes allowedTypes (mimetype f)) eqn:E; [|discriminate].
    destruct (IH _ H) as [Hall Hlen]. split.
    + constructor; [apply includes_In; exact E | exact Hall].
    + cbn [List.length]. lia.
Qed.

Lemma upload_passes fs :
  upload fs = None ->
  Forall (fun f => In (mimetype f) allowedTypes) fs /\ List.length fs <= 5.
Proof. apply uploadFiles_passes. Qed.

Lemma beforeSlash_allowed s :
  In s allowedTypes -> In (beforeSlash s) ["image"; "application"; "video"].
Proof.
  unfold allowedTypes. intros H.
  repeat (destruct H as [<-|H];
          [cbn; first [ left; reflexivity
                      | right; left; reflexivity
                      | right; right; left; reflexivity ]|]).
  destruct H.
Qed.

Lemma createReport_evidence (L : Libs) env req st st' out :
  ReporterController.createReport env req st = (st', Sent 201 out) ->
  exists r,
    reports st' = (reports st ++ [r])%list
    /\ evidenceFiles r
       = map (fun file => {| filePath := f_location file;
                             fileType := mimetype file;
                             fileName := originalname file;
                             uploadedAt := now env |}) (files req).
Proof.
  intros H. unfold ReporterController.createReport in H. cbv zeta in H.
  explore H.
  match goal with
  | Hc : create _ _ _ = (_, inr _) |- _ =>
      apply create_reports in Hc; destruct Hc as (Hr & rest & Hd)
  end.
  eexists. cbn [reports logAudit]. split; [exact Hr|].
  rewrite Hd. reflexivity.
Qed.

Lemma addWhistleblowerMessage_evidence (L : Libs) env req st st' out :
  fst (ReporterController.addWhistleblowerMessage env req st)
  = (st', Sent 201 out) ->
  exists r r',
    In r (reports st) /\ In r' (reports st') /\ _id r' = _id r
    /\ evidenceFiles r'
       = (evidenceFiles r
          ++ map (fun file => {| filePath := f_location file;
                                 fileType := beforeSlash (mimetype file);
                                 fileName := originalname file;
                                 uploadedAt := now env |}) (files req))%list.
Proof.
  intros Hres.
  unfold ReporterController.addWhistleblowerMessage, bind, tell, ret in Hres.
  destruct (negb (truthy (b_password (body req)))
            || negb (truthy (b_message (body req)))); [discriminate|].
  destruct (ReporterController.firstMatch _ (reports st))
    as [[e|[r|]] log] eqn:Hfm; try discriminate.
  apply firstMatch_In in Hfm. cbn [fst snd] in Hres.
  match type of Hres with
  | context [save env ?d st] => set (doc := d) in *
  end.
  destruct (save env doc st) as [st1 [e|d']] eqn:Hsave; [discriminate|].
  assert (Hnew : isNew doc = false)
    by (unfold doc; destruct (files req); reflexivity).
  assert (Hdid : _id (fields doc) = _id r)
    by (unfold doc; destruct (files req); reflexivity).
  assert (Hde : evidenceFiles (fields doc)
                = (evidenceFiles r
                   ++ map (fun file =>
                             {| filePath := f_location file;
                                fileType := beforeSlash (mimetype file);
                                fileName := originalname file;
                                uploadedAt := now env |}) (files req))%list).
  { unfold doc. destruct (files req); [|reflexivity].
    cbn [map]. rewrite app_nil_r. reflexivity. }
  apply save_loaded_fields in Hsave; [|exact Hnew].
  destruct Hsave as (_ & Hin & _ & Hid' & _ & _ & _ & He' & _).
  injection Hres as <- _.
  exists r, (fields d'). cbn [reports logAudit].
  split; [exact Hfm|]. split; [exact Hin|]. split; congruence.
Qed.

(** X20.  What is uploaded as evidence.  The two routes that take files
    run the handler only when every file has one of the fifteen allowed
    media types and there are at most five files; otherwise the request
    ends in an error and the store is as it was.  A report created through
    POST /api/reports stores its files with the media type in full
    (image/png); a message through POST /api/reports/message appends its
    files to the evidence of the report with only the part of the media
    type before the slash (image, application or video). *)
Theorem uploads_are_filtered (L : Libs) (env : Env) (hr : HttpRequest)
    (st : Store) :
  (upload (uploads hr) <> None ->
   fst (serve PostReports env hr st) = st
   /\ fst (serve PostMessage env hr st) = st
   /\ succeeded (snd (serve PostReports env hr st)) = false
   /\ succeeded (snd (serve PostMessage env hr st)) = false)
  /\ (succeeded (snd (serve PostReports env hr st)) = true ->
      List.length (uploads hr) <= 5
      /\ exists r,
           reports (fst (serve PostReports env hr st))
           = (reports st ++ [r])%list
           /\ map filePath (evidenceFiles r) = map f_location (uploads hr)
           /\ map fileType (evidenceFiles r) = map mimetype (uploads hr)
           /\ Forall (fun e => In (fileType e) allowedTypes)
                     (evidenceFiles r))
  /\ (succeeded (snd (serve PostMessage env hr st)) = true ->
      List.length (uploads hr) <= 5
      /\ exists r r' added,
           In r (reports st)
           /\ In r' (reports (fst (serve PostMessage env hr st)))
           /\ _id r' = _id r
           /\ evidenceFiles r' = (evidenceFiles r ++ added)%list
           /\ map filePath added = map f_location (uploads hr)
           /\ map fileType added
              = map (fun f => beforeSlash (mimetype f)) (uploads hr)
           /\ Forall (fun e => In (fileType e)
                                  ["image"; "application"; "video"]) added).
Proof.
  unfold serve, uploading. split; [|split].
  - destruct (upload (uploads hr)); [|intros H; contradiction].
    intros _. repeat split.
  - destruct (upload (uploads hr)) eqn:Hu; [discriminate|].
    apply upload_passes in Hu as [Hty Hlen]. cbn [invoke].
    destruct (ReporterController.createReport env
                (request NoParam None hr) st) as [st' resp] eqn:Hcr.
    cbn [fst snd]. intros Hok.
    assert (Hresp : exists out, resp = Sent 201 out).
    { destruct (createReport_cases L env (request NoParam None hr) st)
        as [[b Hb]|[[m Hm]|[e He]]]; rewrite Hcr in *; cbn [snd] in *.
      - eauto.
      - injection Hm as _ ->. discriminate Hok.
      - subst resp. discriminate Hok. }
    destruct Hresp as [out ->].
    apply createReport_evidence in Hcr as (r & Hr & He).
    split; [exact Hlen|]. exists r. split; [exact Hr|].
    rewrite He. cbn [files request]. rewrite !map_map. cbn [filePath fileType].
    split; [reflexivity|]. split; [reflexivity|].
    apply Forall_map. cbn [fileType]. exact Hty.
  - destruct (upload (uploads hr)) eqn:Hu; [discriminate|].
    apply upload_passes in Hu as [Hty Hlen]. cbn [invoke].
    destruct (fst (ReporterController.addWhistleblowerMessage env
                     (request NoParam None hr) st)) as [st' resp] eqn:Hm.
    cbn [fst snd]. intros Hok.
    assert (Hresp : exists out, resp = Sent 201 out).
    { unfold ReporterController.addWhistleblowerMessage, bind, tell, ret in Hm.
      destruct (negb _ || negb _);
        [injection Hm as _ <-; discriminate Hok|].
      destruct (ReporterController.firstMatch _ (reports st))
        as [[e|[r|]] log]; cbn [fst snd] in Hm;
        try (injection Hm as _ <-; discriminate Hok).
      match type of Hm with
      | context [save env ?d st] => destruct (save env d st) as [s [e|d']]
      end; injection Hm as _ <-; [discriminate Hok | eauto]. }
    destruct Hresp as [out ->].
    apply addWhistleblowerMessage_evidence in Hm
      as (r & r' & Hr & Hr' & Hid & He).
    split; [exact Hlen|]. exists r, r'. eexists.
    split; [exact Hr|]. split; [exact Hr'|]. split; [exact Hid|].
    split; [exact He|]. cbn [files request]. rewrite !map_map.
    cbn [filePath fileType]. split; [reflexivity|]. split; [reflexivity|].
    apply Forall_map. cbn [fileType].
    eapply Forall_impl; [|exact Hty]. intros f. apply beforeSlash_allowed.
Qed.

Lemma uploads_are_filtered_witness :
  fst (serve (L := Samples.plainLibs) PostReports
         (Samples.env 1000 xa9 xf4 xc2)
         {| pathParam := PUndefined;
            h_body := Samples.streetlight Undefined;
            h_query := Samples.noQuery;
            uploads := [{| f_location := "https://files/1_page.html";
                           mimetype := "text/html";
                           originalname := "page.html" |}];
            protectResult := inl Samples.tokenMissing;
            h_ip := Str "::1" |}
         Samples.seeded)
  = Samples.seeded.
Proof.
  apply (proj1 (uploads_are_filtered Samples.plainLibs
                  (Samples.env 1000 xa9 xf4 xc2)
                  {| pathParam := PUndefined;
                     h_body := Samples.streetlight Undefined;
                     h_query := Samples.noQuery;
                     uploads := [{| f_location := "https://files/1_page.html";
                                    mimetype := "text/html";
                                    originalname := "page.html" |}];
                     protectResult := inl Samples.tokenMissing;
                     h_ip := Str "::1" |}
                  Samples.seeded)).
  vm_compute. discriminate.
Defined.

(** ** Identifiers and credentials *)

Lemma optEqb_false a b : optEqb a b = false -> a <> b.
Proof.
  intros H E. subst b. destruct a as [s|]; cbn in H; [|discriminate].
  rewrite String.eqb_refl in H. discriminate.
Qed.

Lemma duplicateKey_distinct r rs :
  duplicateKey r rs = false ->
  ~ In (caseID r) (map caseID rs) /\ ~ In (password r) (map password rs).
Proof.
  unfold duplicateKey. intros H.
  assert (Hall : forall x, In x rs ->
            optEqb (caseID x) (caseID r) = false
            /\ optEqb (password x) (password r) = false).
  { intros x Hx.
    destruct (optEqb (caseID x) (caseID r)) eqn:E1;
      destruct (optEqb (password x) (password r)) eqn:E2; auto;
      exfalso;
      assert (Ht : existsb
         (fun r' => (_id r' =? _id r)%N || optEqb (caseID r') (caseID r)
                    || optEqb (password r') (password r)
                    || optEqb (passwordKey r') (passwordKey r)) rs = true)
        by (apply existsb_exists; exists x; split; auto;
            rewrite ?E1, ?E2; repeat rewrite ?orb_true_r, ?orb_true_l; auto);
      congruence. }
  split; intros Hin; apply in_map_iff in Hin as [x [Hx Hin]];
    destruct (Hall x Hin) as [H1 H2].
  - apply optEqb_false in H1. congruence.
  - apply optEqb_false in H2. congruence.
Qed.

Lemma replaceById_length r rs :
  List.length (replaceById r rs) = List.length rs.
Proof. unfold replaceById. apply length_map. Qed.

(** A step keeps the case identifiers and the hashes pairwise distinct. *)
Lemma step_distinct (L : Libs) e st iss :
  consistent st iss -> Forall regional (reports st) ->
  NoDup (map caseID (reports st)) -> NoDup (map password (reports st)) ->
  NoDup (map caseID (reports (step e st)))
  /\ NoDup (map password (reports (step e st))).
Proof.
  intros Hc Hreg Hcase Hpw.
  pose proof (co_ids _ _ Hc) as Hids.
  destruct (step_effect e st) as [env [_ He]].
  pose proof (step_reportsStep L e st Hreg) as Hrs.
  inversion He as [Hr Hn | r r' Hin Hev Hr Hn | r Hm Hr Hn].
  - rewrite Hr. auto.
  - split.
    + destruct Hrs as [E | r2 r2' Hin2 Hcore E | r2 _ E].
      * rewrite E. exact Hcase.
      * rewrite E. unfold core in Hcore.
        rewrite (replaceById_map caseID _ r2 r2'); auto; congruence.
      * exfalso. assert (Hlen : List.length (reports (step e st))
                                = List.length (reports st))
          by (rewrite Hr; apply replaceById_length).
        rewrite E, length_app in Hlen. cbn [List.length] in Hlen. lia.
    + rewrite Hr. destruct Hev.
      rewrite (replaceById_map password _ r r'); auto.
  - rewrite Hr, !map_app. cbn [map].
    destruct (duplicateKey_distinct _ _ (mi_unique _ _ _ Hm)).
    split; apply NoDup_snoc; auto.
Qed.

Lemma run_distinct (L : Libs) es : forall st iss,
  consistent st iss -> Forall regional (reports st) ->
  NoDup (map caseID (reports st)) -> NoDup (map password (reports st)) ->
  NoDup (map caseID (reports (run es st)))
  /\ NoDup (map password (reports (run es st))).
Proof.
  induction es as [|e es IH]; intros st iss Hc Hreg Hcase Hpw; [auto|].
  rewrite run_cons.
  destruct (step_distinct L e st iss Hc Hreg Hcase Hpw) as [H1 H2].
  destruct (step_effect e st) as [env [_ He]].
  apply (IH _ _ (effect_consistent _ _ _ _ _ He Hc)); auto.
  apply (reportsStep_regional st); auto.
  - apply (co_ids _ _ Hc).
  - apply step_reportsStep; auto.
Qed.

(** [Report.create] when the password it draws is the password of a
    stored report. *)
Lemma create_collision (L : Libs) env o st :
  In (Some (sha256hex (generatePlainPassword env)))
     (map passwordKey (reports st)) ->
  exists e, snd (create env o st) = inl e.
Proof.
  intros Hin. unfold create, freshId, save.
  destruct (negb (validate _)); [eexists; reflexivity|]. cbv zeta.
  unfold hookCaseID at 1 2 3 4.
  cbn [construct fields caseID strTruthy].
  unfold hookPassword, hookHistory.
  cbn [isNew withFields negb statusModified fields reports].
  match goal with
  | |- context [duplicateKey ?r ?rs] =>
      assert (Hd : duplicateKey r rs = true)
  end.
  { apply in_map_iff in Hin as (x & Hx & Hin).
    unfold duplicateKey. apply existsb_exists. exists x. split; [exact Hin|].
    cbn [passwordKey withSecret isNew construct negb withFields
         statusModified fields].
    rewrite Hx. cbn [optEqb].
    rewrite String.eqb_refl, !orb_true_r. reflexivity. }
  rewrite Hd. eexists. reflexivity.
Qed.

(** X21.  Identifiers and credentials are unique.  Along every run of
    the system no two stored reports share an [_id], a case identifier, a
    password hash or a lookup key.  The case password is drawn once: when
    the password drawn for a new report is already the password of a stored
    report, [createReport] does not draw again; the unique index refuses
    the report, the request does not answer 2xx and no report and no audit
    entry is added. *)
Theorem identifiers_are_unique (L : Libs) (es : list Event) (env : Env)
    (req : Request) :
  NoDup (map _id (reports (run es emptyStore)))
  /\ NoDup (map caseID (reports (run es emptyStore)))
  /\ NoDup (map password (reports (run es emptyStore)))
  /\ NoDup (map passwordKey (reports (run es emptyStore)))
  /\ (In (Some (sha256hex (generatePlainPassword env)))
         (map passwordKey (reports (run es emptyStore))) ->
      succeeded (snd (ReporterController.createReport env req
                        (run es emptyStore))) = false
      /\ reports (fst (ReporterController.createReport env req
                         (run es emptyStore)))
         = reports (run es emptyStore)
      /\ auditLogs (fst (ReporterController.createReport env req
                           (run es emptyStore)))
         = auditLogs (run es emptyStore)).
Proof.
  pose proof (reachable_consistent es) as Hc.
  destruct (run_distinct L es emptyStore [] empty_consistent
              (Forall_nil _) (NoDup_nil _) (NoDup_nil _)) as [Hcase Hpw].
  split; [apply (co_ids _ _ Hc)|]. split; [exact Hcase|].
  split; [exact Hpw|]. split; [apply (co_keys _ _ Hc)|].
  set (st := run es emptyStore) in *. intros Hin.
  unfold ReporterController.createReport. cbv zeta.
  repeat match goal with
         | |- context [if ?c then (st, Sent 400 _) else _] =>
             destruct c; [repeat split|]
         end.
  match goal with
  | |- context [create env ?o st] =>
      destruct (create_collision L env o st Hin) as [e He];
      destruct (create env o st) as [st1 res] eqn:Hcr
  end.
  cbn [snd] in He. subst res.
  pose proof (create_frame L _ _ _ _ _ Hcr) as (_ & _ & Hlog & _).
  apply create_reports in Hcr. cbn [fst snd succeeded].
  repeat split; assumption.
Qed.

Lemma identifiers_are_unique_witness :
  succeeded
    (snd (ReporterController.createReport (L := Samples.plainLibs)
            (Samples.env 1500 xa9 xf4 xc2)
            (Samples.requestOf PUndefined (Samples.streetlight Undefined) None)
            (run (L := Samples.plainLibs) [Seed; Samples.createStreetlight]
               emptyStore))) = false
  /\ reports
       (fst (ReporterController.createReport (L := Samples.plainLibs)
               (Samples.env 1500 xa9 xf4 xc2)
               (Samples.requestOf PUndefined (Samples.streetlight Undefined)
                  None)
               (run (L := Samples.plainLibs) [Seed; Samples.createStreetlight]
                  emptyStore)))
     = reports (run (L := Samples.plainLibs)
                  [Seed; Samples.createStreetlight] emptyStore).
Proof.
  destruct (proj2 (proj2 (proj2 (proj2
              (identifiers_are_unique Samples.plainLibs
                 [Seed; Samples.createStreetlight]
                 (Samples.env 1500 xa9 xf4 xc2)
                 (Samples.requestOf PUndefined (Samples.streetlight Undefined)
                    None))))))
    as (H1 & H2 & _).
  - vm_compute. left. reflexivity.
  - split; assumption.
Defined.

(** ** The identity of the reporter *)

(** A property of the paths written at creation that holds of every
    created report holds of every stored report. *)
Lemma run_core_invariant (L : Libs) (P : Report.t -> Prop) :
  (forall r r', core r' = core r -> P r -> P r') ->
  (forall r, created r -> P r) ->
  forall es st iss,
    consistent st iss -> Forall regional (reports st) ->
    Forall P (reports st) -> Forall P (reports (run es st)).
Proof.
  intros Hcore Hcreated.
  induction es as [|e es IH]; intros st iss Hc Hreg Hall; [exact Hall|].
  rewrite run_cons.
  destruct (step_effect e st) as [env [_ He]].
  pose proof (step_reportsStep L e st Hreg) as Hrs.
  apply (IH _ _ (effect_consistent _ _ _ _ _ He Hc)).
  - apply (reportsStep_regional st); auto. apply (co_ids _ _ Hc).
  - destruct Hrs as [E | r r' Hin Hco E | r Hcr E]; rewrite E; auto.
    + apply (replaceById_Forall _ _ r r' (co_ids _ _ Hc) Hin);
        [unfold core in Hco; congruence | apply Hcore; exact Hco | exact Hall].
    + apply Forall_app. split; auto.
Qed.

Lemma truthy_string v :
  truthy v = true -> exists s, v = Str s /\ s <> "".
Proof.
  destruct v as [| |s]; cbn; try discriminate. intros H.
  exists s. split; [reflexivity|].
  apply negb_true_iff in H. apply String.eqb_neq in H. exact H.
Qed.

(** X22.  Confidential reports carry the identity of the reporter.
    Along every run of the system a stored report is anonymous or
    confidential, and a confidential report has a name and an e-mail
    address that are not empty: the check of [createReport] holds of what
    is stored, and no handler changes the type, the name or the address
    afterwards. *)
Theorem confidential_reports_carry_an_identity (L : Libs)
    (es : list Event) :
  Forall (fun r =>
            reporterType r = "anonymous"
            \/ (reporterType r = "confidential"
                /\ exists name email,
                     reporterName r = Str name /\ name <> ""
                     /\ reporterEmail r = Str email /\ email <> ""))
         (reports (run es emptyStore)).
Proof.
  apply (run_core_invariant L _) with (iss := []);
    [ | | apply empty_consistent | constructor | constructor ].
  - intros r r' Hco. unfold core in Hco.
    injection Hco as _ _ Hty Hn He Hp _ _ _ _ _ _ _.
    rewrite Hty, Hn, He. auto.
  - intros r [_ Hty Han Hco _ _ _ _]. destruct Hty as [Hty|Hty].
    + left. exact Hty.
    + right. split; [exact Hty|].
      destruct (Hco Hty) as [Hn He].
      apply truthy_string in Hn as (n & Hn & Hnn).
      apply truthy_string in He as (e & He & Hee).
      exists n, e. auto.
Qed.

(** ** The number of pages *)

Lemma pages_arith (l p n q : nat) :
  0 < l -> 0 < p -> l * q <= n + l - 1 -> n + l - 1 < l * (q + 1) ->
  ((p - 1) * l < n <-> p <= q)
  /\ (p < q -> l <= n - (p - 1) * l)
  /\ n <= q * l
  /\ (0 < n -> (q - 1) * l < n).
Proof.
  intros Hl Hp H1 H2.
  destruct p as [|p]; [lia|]. replace (S p - 1) with p by lia.
  repeat split.
  - intros H. assert (S p * l < l * (q + 1)) by nia. nia.
  - intros H. destruct q as [|q]; [lia|]. assert (p * l <= q * l) by nia. nia.
  - intros H. assert (S p * l <= (q - 1) * l) by nia.
    destruct q as [|q]; [lia|]. nia.
  - nia.
  - intros H. destruct q as [|q]; [nia|]. nia.
Qed.

Lemma sortByCreatedAtDesc_length rs :
  List.length (sortByCreatedAtDesc rs) = List.length rs.
Proof. apply Permutation_length, sortByCreatedAtDesc_perm. Qed.

(** X23.  [totalPages] is the number of pages that hold a report.  For a
    keyword that the database compiles as a regular expression and a page
    and a limit of at least 1, [getAllReports] lists at least one report
    exactly when the page is at most [totalPages], and every page before
    the last is full; [totalPages] pages are enough for [totalReports]
    reports and one page fewer is not.  With limit 0 the division is by
    zero: [totalPages] is null, and every matching report is listed. *)
Theorem total_pages_counts_the_pages (L : Libs) (env : Env) (req : Request)
    (st : Store) :
  regexValid (keywordOf req) = true ->
  ((0 < pageOf req)%N -> (0 < limitOf req)%N ->
   exists answer tp c total,
     AdminController.getAllReports env req st = (st, Sent 200 answer)
     /\ get "totalPages" answer = Some (JNum tp)
     /\ get "count" answer = Some (JNum c)
     /\ get "totalReports" answer = Some (JNum total)
     /\ ((0 < c)%N <-> (pageOf req <= tp)%N)
     /\ ((pageOf req < tp)%N -> c = limitOf req)
     /\ (total <= tp * limitOf req)%N
     /\ ((0 < total)%N -> ((tp - 1) * limitOf req < total)%N))
  /\ (limitOf req = 0%N ->
      exists answer total,
        AdminController.getAllReports env req st = (st, Sent 200 answer)
        /\ get "totalPages" answer = Some JNull
        /\ get "count" answer = Some (JNum total)
        /\ get "totalReports" answer = Some (JNum total)).
Proof.
  intros Hk.
  unfold AdminController.getAllReports. cbv zeta.
  fold (pageOf req) (limitOf req) (keywordOf req).
  rewrite Hk. cbn [negb].
  set (selected := filter (matches (keywordOf req) (q_status (query req)))
                          (reports st)).
  split.
  - intros Hp Hl. rewrite page_positive by assumption.
    unfold totalPages.
    destruct (limitOf req =? 0)%N eqn:E; [apply N.eqb_eq in E; lia|].
    do 4 eexists. split; [reflexivity|].
    split; [rewrite get_obj; lit_walk; reflexivity|].
    split; [rewrite get_obj; lit_walk; reflexivity|].
    split; [rewrite get_obj; lit_walk; reflexivity|].
    rewrite !length_map, length_firstn, length_skipn,
      sortByCreatedAtDesc_length.
    set (n := List.length selected).
    set (q := ((N.of_nat n + limitOf req - 1) / limitOf req)%N).
    assert (H1 : (limitOf req * q <= N.of_nat n + limitOf req - 1)%N)
      by (apply N.Div0.mul_div_le).
    assert (H2 : (N.of_nat n + limitOf req - 1 < limitOf req * (q + 1))%N)
      by (rewrite N.add_1_r; apply N.mul_succ_div_gt; lia).
    destruct (pages_arith (N.to_nat (limitOf req)) (N.to_nat (pageOf req)) n
                (N.to_nat q)) as (A1 & A2 & A3 & A4); lia.
  - intros Hl. rewrite Hl. unfold page, totalPages.
    cbn [N.eqb negb andb]. rewrite andb_false_r, N.mul_0_r.
    cbn [N.to_nat skipn].
    do 2 eexists. split; [reflexivity|].
    split; [rewrite get_obj; lit_walk; reflexivity|].
    split; [rewrite get_obj; lit_walk|rewrite get_obj; lit_walk; reflexivity].
    rewrite !length_map, sortByCreatedAtDesc_length. reflexivity.
Qed.

Lemma total_pages_counts_the_pages_witness :
  exists answer,
    AdminController.getAllReports (L := Samples.plainLibs)
      (Samples.env 2000 x00 x00 x00)
      (Samples.requestOf PUndefined Samples.emptyBody
         (Some {| u_id := 9%N; u_role := "admin" |}))
      (run (L := Samples.plainLibs)
         [Seed; Samples.createStreetlight; Samples.createSecond] emptyStore)
    = (run (L := Samples.plainLibs)
         [Seed; Samples.createStreetlight; Samples.createSecond] emptyStore,
       Sent 200 answer)
    /\ exists tp, get "totalPages" answer = Some (JNum tp).
Proof.
  destruct (proj1 (total_pages_counts_the_pages Samples.plainLibs
                     (Samples.env 2000 x00 x00 x00)
                     (Samples.requestOf PUndefined Samples.emptyBody
                        (Some {| u_id := 9%N; u_role := "admin" |}))
                     (run (L := Samples.plainLibs)
                        [Seed; Samples.createStreetlight; Samples.createSecond]
                        emptyStore) eq_refl))
    as (answer & tp & c & total & H1 & H2 & _);
    [reflexivity | reflexivity |].
  exists answer. split; [exact H1|]. exists tp. exact H2.
Defined.

(** ** Assigning a category or an agency *)

(** X24.  An assignment changes one path.  On a store the system can
    reach, when [updateReportCategory] answers 200 the category named by
    the request exists and the report named by the request is stored again
    with that category and every other path as it was; likewise
    [assignReportToAgency] changes [agencyAssigned] only.  Status, flag,
    comments, evidence and history are untouched, no history entry is
    written, and no other report changes. *)
Theorem assignments_change_one_path (L : Libs) (es : list Event) (env : Env)
    (req : Request) :
  (forall st' out,
      AdminController.updateReportCategory env req (run es emptyStore)
      = (st', Sent 200 out) ->
      exists r c,
        params_id req = POid (_id r)
        /\ findById (_id r) (run es emptyStore) = Some r
        /\ b_categoryId (body req) = POid (Category._id c)
        /\ In c (categories (run es emptyStore))
        /\ findById (_id r) st'
           = Some (withCategory (Some (Category._id c)) r)
        /\ forall id', id' <> _id r ->
             findById id' st' = findById id' (run es emptyStore))
  /\ (forall st' out,
         AdminController.assignReportToAgency env req (run es emptyStore)
         = (st', Sent 200 out) ->
         exists r a,
           params_id req = POid (_id r)
           /\ findById (_id r) (run es emptyStore) = Some r
           /\ b_agencyId (body req) = POid (Agency._id a)
           /\ In a (agencies (run es emptyStore))
           /\ findById (_id r) st'
              = Some (withAgencyAssigned (Some (Agency._id a)) r)
           /\ forall id', id' <> _id r ->
                findById id' st' = findById id' (run es emptyStore)).
Proof.
  pose proof (reachable_regional L es) as Hreg.
  set (st := run es emptyStore) in *.
  assert (Hcase : forall r, In r (reports st) ->
                            strTruthy (caseID r) = true).
  { intros r Hr. rewrite Forall_forall in Hreg.
    apply regional_truthy, Hreg, Hr. }
  split.
  - intros st' out H. unfold AdminController.updateReportCategory in H.
    destruct (reportById (params_id req) st) as [e|[r|]] eqn:Hr;
      try discriminate.
    destruct (categoryById (b_categoryId (body req)) st) as [e|[c|]] eqn:Hcat;
      try discriminate.
    match type of H with
    | context [save env ?d st] =>
        destruct (save env d st) as [st1 [e|d']] eqn:Hsv
    end; try discriminate.
    injection H as <- _.
    pose proof (reportById_In _ _ _ Hr) as Hin.
    pose proof (reportById_id _ _ _ Hr) as Hp.
    pose proof Hsv as Hs2. apply save_findById in Hs2; [|reflexivity].
    destruct Hs2 as (Hf & Hother & _).
    apply save_old in Hsv; [|reflexivity|apply (Hcase r Hin)].
    destruct Hsv as (_ & Hd & _).
    cbn [hookHistory statusModified withFields loaded fields _id
         withCategory] in *.
    exists r, c. split; [exact Hp|].
    split; [rewrite Hp in Hr; cbn [reportById byId] in Hr; congruence|].
    unfold categoryById, byId in Hcat.
    destruct (b_categoryId (body req)) as [|s|x]; try discriminate.
    injection Hcat as Hcat. cbn [lookupCategory] in Hcat.
    apply find_some in Hcat as [Hc Hx]. apply N.eqb_eq in Hx.
    split; [congruence|]. split; [exact Hc|].
    rewrite !findById_logAudit. split; [rewrite Hf, Hd; reflexivity|].
    intros id' Hne. rewrite findById_logAudit. apply Hother. exact Hne.
  - intros st' out H. unfold AdminController.assignReportToAgency in H.
    destruct (reportById (params_id req) st) as [e|[r|]] eqn:Hr;
      try discriminate.
    destruct (agencyById (b_agencyId (body req)) st) as [e|[a|]] eqn:Hag;
      try discriminate.
    match type of H with
    | context [save env ?d st] =>
        destruct (save env d st) as [st1 [e|d']] eqn:Hsv
    end; try discriminate.
    injection H as <- _.
    pose proof (reportById_In _ _ _ Hr) as Hin.
    pose proof (reportById_id _ _ _ Hr) as Hp.
    pose proof Hsv as Hs2. apply save_findById in Hs2; [|reflexivity].
    destruct Hs2 as (Hf & Hother & _).
    apply save_old in Hsv; [|reflexivity|apply (Hcase r Hin)].
    destruct Hsv as (_ & Hd & _).
    cbn [hookHistory statusModified withFields loaded fields _id
         withAgencyAssigned] in *.
    exists r, a. split; [exact Hp|].
    split; [rewrite Hp in Hr; cbn [reportById byId] in Hr; congruence|].
    unfold agencyById, byId in Hag.
    destruct (b_agencyId (body req)) as [|s|x]; try discriminate.
    injection Hag as Hag. cbn [lookupAgency] in Hag.
    apply find_some in Hag as [Ha Hx]. apply N.eqb_eq in Hx.
    split; [congruence|]. split; [exact Ha|].
    rewrite !findById_logAudit. split; [rewrite Hf, Hd; reflexivity|].
    intros id' Hne. rewrite findById_logAudit. apply Hother. exact Hne.
Qed.

Lemma assignments_change_one_path_witness :
  exists r a,
    findById (_id r)
      (run (L := Samples.plainLibs) [Seed; Samples.createStreetlight]
         emptyStore) = Some r
    /\ findById (_id r)
         (fst (AdminController.assignReportToAgency (L := Samples.plainLibs)
                 (Samples.env 2000 x00 x00 x00)
                 (Samples.requestOf (POid 2%N)
                    (Samples.withAgencyBody (POid 1%N))
                    (Some {| u_id := 9%N; u_role := "admin" |}))
                 (run (L := Samples.plainLibs)
                    [Seed; Samples.createStreetlight] emptyStore)))
       = Some (withAgencyAssigned (Some (Agency._id a)) r).
Proof.
  edestruct (proj2 (assignments_change_one_path Samples.plainLibs
                      [Seed; Samples.createStreetlight]
                      (Samples.env 2000 x00 x00 x00)
                      (Samples.requestOf (POid 2%N)
                         (Samples.withAgencyBody (POid 1%N))
                         (Some {| u_id := 9%N; u_role := "admin" |}))))
    as (r & a & _ & H1 & _ & _ & H2 & _).
  - vm_compute. reflexivity.
  - exists r, a. split; [exact H1 | exact H2].
Defined.

(** ** The flag law over the routes *)

Lemma keeps_reports st st' :
  reports st' = reports st ->
  forall id r,
    findById id st = Some r ->
    exists r',
      findById id st' = Some r'
      /\ status r' = status r /\ isResolved r' = isResolved r.
Proof.
  intros E id r Hf. exists r. unfold findById in *. rewrite E. auto.
Qed.

Lemma keeps_after st s st' :
  reports st' = reports s ->
  (forall id r,
      findById id st = Some r ->
      exists r',
        findById id s = Some r'
        /\ status r' = status r /\ isResolved r' = isResolved r) ->
  forall id r,
    findById id st = Some r ->
    exists r',
      findById id st' = Some r'
      /\ status r' = status r /\ isResolved r' = isResolved r.
Proof.
  intros E H id r Hf. destruct (H id r Hf) as (r' & Hf' & Hk).
  exists r'. unfold findById in *. rewrite E. auto.
Qed.

(** Saving a loaded report whose status and flag were not written leaves
    the status and the flag of every report as they were. *)
Lemma save_keeps_flag (L : Libs) env d st st' d' r0 :
  NoDup (map _id (reports st)) -> isNew d = false -> In r0 (reports st) ->
  _id (fields d) = _id r0 -> status (fields d) = status r0 ->
  isResolved (fields d) = isResolved r0 ->
  save env d st = (st', inr d') ->
  forall id r,
    findById id st = Some r ->
    exists r',
      findById id st' = Some r'
      /\ status r' = status r /\ isResolved r' = isResolved r.
Proof.
  intros Hnd Hn Hin Hid Hst Hres Hs id r Hf.
  pose proof (save_findById L _ _ _ _ _ Hn Hs) as (Hf1 & Hother & _).
  apply save_loaded_fields in Hs; [|exact Hn].
  destruct Hs as (_ & _ & _ & _ & Hs1 & Hs2 & _).
  destruct (N.eq_dec id (_id (fields d))) as [->|Hne].
  - exists (fields d'). split; [exact Hf1|].
    rewrite Hid in Hf. rewrite (findById_unique _ _ Hnd Hin) in Hf.
    injection Hf as <-. split; congruence.
  - exists r. rewrite (Hother _ Hne). auto.
Qed.

Ltac flag_leaf Hnd :=
  first
    [ apply keeps_reports; reflexivity
    | match goal with
      | Hc : Catalogue.createCategoryDoc _ _ _ = _ |- _ =>
          apply createCategoryDoc_frame in Hc; apply keeps_reports; apply Hc
      | Hc : Catalogue.createAgencyDoc _ _ _ = _ |- _ =>
          apply createAgencyDoc_frame in Hc; apply keeps_reports; apply Hc
      end
    | match goal with
      | Hs : save _ _ ?st = (?s, inl _) |- _ =>
          apply save_failed_loaded in Hs;
          [ subst s; apply keeps_reports; reflexivity | reflexivity ]
      end
    | match goal with
      | Hs : save ?env ?d ?st = (?s, inr ?d') |- _ =>
          match d with
          | context [loaded _ ?r] =>
              let Hin := fresh "Hin" in
              assert (Hin : In r (reports st)) by in_reports;
              apply (keeps_after st s); [reflexivity|];
              apply (save_keeps_flag _ env d st s d' r Hnd eq_refl Hin
                       eq_refl eq_refl eq_refl Hs)
          end
      end ].

(** Apart from the status update of the admin controller, and that of the
    agency controller when it is given [req.params.id], no handler writes
    the status or the flag of a report. *)
Lemma invoke_keeps_flag (L : Libs) h env req st :
  NoDup (map _id (reports st)) ->
  h <> UpdateReportStatus ->
  (h = UpdateAgencyReportStatus -> params_id req = PUndefined) ->
  forall id r,
    findById id st = Some r ->
    exists r',
      findById id (fst (invoke h env req st)) = Some r'
      /\ status r' = status r /\ isResolved r' = isResolved r.
Proof.
  intros Hnd Hh Hp.
  destruct h.
  - cbn [invoke].
    destruct (createReport_reports L env req st) as [E | [r0 [_ E]]].
    + apply keeps_reports. exact E.
    + intros id r Hf. exists r. unfold findById in *.
      rewrite E, find_app, Hf. auto.
  - cbn [invoke]. rewrite getReportByPassword_store.
    apply keeps_reports; reflexivity.
  - cbn [invoke].
    unfold ReporterController.addWhistleblowerMessage, bind, tell, ret.
    destruct (negb (truthy (b_password (body req)))
              || negb (truthy (b_message (body req))));
      [apply keeps_reports; reflexivity|].
    destruct (ReporterController.firstMatch _ (reports st))
      as [[e|[r0|]] log] eqn:Hf; try (apply keeps_reports; reflexivity).
    destruct (files req) as [|f fs];
      match goal with
      | |- context [save ?env ?d ?st] =>
          destruct (save env d st) as [st' [e|d']] eqn:Hs
      end; cbn [fst snd]; flag_leaf Hnd.
  - destruct (invoke GetUnassignedReports env req st) as [st' resp] eqn:H; cbn [fst]; unfold_handlers H; explore H; flag_leaf Hnd.
  - destruct (invoke GetAllReports env req st) as [st' resp] eqn:H; cbn [fst]; unfold_handlers H; explore H; flag_leaf Hnd.
  - destruct (invoke GetReportById env req st) as [st' resp] eqn:H; cbn [fst]; unfold_handlers H; explore H; flag_leaf Hnd.
  - destruct (invoke UpdateReportCategory env req st) as [st' resp] eqn:H; cbn [fst]; unfold_handlers H; explore H; flag_leaf Hnd.
  - destruct (invoke AssignReportToAgency env req st) as [st' resp] eqn:H; cbn [fst]; unfold_handlers H; explore H; flag_leaf Hnd.
  - exfalso; apply Hh; reflexivity.
  - destruct (invoke AddAdminMessage env req st) as [st' resp] eqn:H; cbn [fst]; unfold_handlers H; explore H; flag_leaf Hnd.
  - destruct (invoke CreateCategory env req st) as [st' resp] eqn:H; cbn [fst]; unfold_handlers H; explore H; flag_leaf Hnd.
  - destruct (invoke CreateAgency env req st) as [st' resp] eqn:H; cbn [fst]; unfold_handlers H; explore H; flag_leaf Hnd.
  - destruct (invoke DeleteCategory env req st) as [st' resp] eqn:H; cbn [fst]; unfold_handlers H; explore H; flag_leaf Hnd.
  - destruct (invoke DeleteAgency env req st) as [st' resp] eqn:H; cbn [fst]; unfold_handlers H; explore H; flag_leaf Hnd.
  - destruct (invoke GetAgencyReports env req st) as [st' resp] eqn:H; cbn [fst]; unfold_handlers H; explore H; flag_leaf Hnd.
  - destruct (invoke GetAgencyReportById env req st) as [st' resp] eqn:H; cbn [fst]; unfold_handlers H; explore H; flag_leaf Hnd.
  - destruct (invoke AddAgencyMessage env req st) as [st' resp] eqn:H; cbn [fst]; unfold_handlers H; explore H; flag_leaf Hnd.
  - cbn [invoke]. unfold AgencyController.updateAgencyReportStatus.
    rewrite (Hp eq_refl). cbn [reportById byId].
    destruct (negb (truthy (b_status (body req))));
      apply keeps_reports; reflexivity.
Qed.

(** A status update of the admin controller leaves every report as it was
    or moves the report it names to the status of the request, with the
    flag the law gives it. *)
Lemma updateReportStatus_flag (L : Libs) env req st :
  NoDup (map _id (reports st)) ->
  forall id r,
    findById id st = Some r ->
    exists r',
      findById id (fst (AdminController.updateReportStatus env req st))
      = Some r'
      /\ ((status r' = status r /\ isResolved r' = isResolved r)
          \/ (params_id req = POid id
              /\ exists s,
                   b_status (body req) = Str s /\ In s statuses
                   /\ status r' = s
                   /\ isResolved r' = flagAfter s (isResolved r))).
Proof.
  intros Hnd id r Hf.
  assert (Hsame : exists r',
             findById id st = Some r'
             /\ ((status r' = status r /\ isResolved r' = isResolved r)
                 \/ (params_id req = POid id
                     /\ exists s,
                          b_status (body req) = Str s /\ In s statuses
                          /\ status r' = s
                          /\ isResolved r' = flagAfter s (isResolved r))))
    by (exists r; split; [exact Hf | left; split; reflexivity]).
  unfold AdminController.updateReportStatus.
  destruct (negb (wellFormed (params_id req))); [exact Hsame|].
  destruct (b_status (body req)) as [| |s] eqn:Hb; try exact Hsame.
  destruct (includes _ s) eqn:Hinc; cbn [negb]; [|exact Hsame].
  destruct (reportById (params_id req) st) as [e|[r0|]] eqn:Hr;
    try exact Hsame.
  cbn [ReporterController.isStr ReporterController.strOf].
  match goal with
  | |- context [save env ?d st] =>
      assert (Hd : isNew d = false /\ _id (fields d) = _id r0
                   /\ status (fields d) = s
                   /\ isResolved (fields d) = flagAfter s (isResolved r0))
        by (unfold flagAfter; destruct (s =? "resolved");
            [|destruct (s =? "closed")]; repeat split; reflexivity);
      destruct (save env d st) as [s1 [e|d']] eqn:Hs
  end; destruct Hd as (Hn & Hid & Hst & Hres).
  - apply save_failed_loaded in Hs; [subst s1; exact Hsame | exact Hn].
  - cbn [fst]. rewrite findById_logAudit.
    pose proof (reportById_id _ _ _ Hr) as Hp.
    pose proof (save_findById L _ _ _ _ _ Hn Hs) as (Hf1 & Hother & _).
    apply save_loaded_fields in Hs; [|exact Hn].
    destruct Hs as (_ & _ & _ & _ & Hs1 & Hs2 & _).
    rewrite Hid in Hf1, Hother.
    destruct (N.eq_dec id (_id r0)) as [->|Hne].
    + exists (fields d'). split; [exact Hf1|]. right.
      split; [exact Hp|]. exists s.
      rewrite Hp in Hr. cbn [reportById byId] in Hr.
      assert (r0 = r) by congruence. subst r0.
      split; [reflexivity|]. split; [apply includes_In; exact Hinc|].
      split; congruence.
    + exists r. rewrite (Hother _ Hne). auto.
Qed.

(** Every route but the status route of the administrator leaves the
    status and the flag of every report as they were. *)
Lemma serve_keeps_flag (L : Libs) rt env hr st :
  NoDup (map _id (reports st)) -> rt <> PatchAdminStatus ->
  forall id r,
    findById id st = Some r ->
    exists r',
      findById id (fst (serve rt env hr st)) = Some r'
      /\ status r' = status r /\ isResolved r' = isResolved r.
Proof.
  intros Hnd Hrt.
  assert (Hg : forall role b h,
             h <> UpdateReportStatus ->
             (h = UpdateAgencyReportStatus -> b <> AsId) ->
             forall id r,
               findById id st = Some r ->
               exists r',
                 findById id (fst (guarded role b h env hr st)) = Some r'
                 /\ status r' = status r /\ isResolved r' = isResolved r).
  { intros role b h Hh Hb. unfold guarded.
    destruct (protectResult hr) as [e|u]; [apply keeps_reports; reflexivity|].
    destruct (negb (includes [role] (u_role u)));
      [apply keeps_reports; reflexivity|].
    apply invoke_keeps_flag; auto.
    intros E. specialize (Hb E). destruct b; cbn [request params_id];
      try reflexivity. exfalso; apply Hb; reflexivity. }
  assert (Hu : forall h,
             h <> UpdateReportStatus -> h <> UpdateAgencyReportStatus ->
             forall id r,
               findById id st = Some r ->
               exists r',
                 findById id (fst (uploading h env hr st)) = Some r'
                 /\ status r' = status r /\ isResolved r' = isResolved r).
  { intros h Hh Ha. unfold uploading.
    destruct (upload (uploads hr)); [apply keeps_reports; reflexivity|].
    apply invoke_keeps_flag; auto. }
  destruct rt; cbn [serve];
    try (apply Hg; [discriminate | intros E; discriminate]);
    try (apply Hu; discriminate).
  - apply invoke_keeps_flag; auto; discriminate.
  - exfalso; apply Hrt; reflexivity.
Qed.

(** C6.  The flag law of [isResolved], over the routes of the API.  On
    every store the API can reach and for every stored report: the status
    route of the administrator, given the report and a status of the
    schema, answers 200 and stores that status with [isResolved] true for
    "resolved", unchanged for "closed" and false for "pending" and "under
    review"; and whatever route serves whatever request, each report keeps
    its status and its flag unless the request is such a status update of
    that report, in which case the status and the flag are those of the
    law.  The status route of the agency binds the path parameter to
    another name than its controller reads and performs no transition. *)
Theorem status_transitions_obey_the_flag_law (L : Libs) (es : list Event)
    (rt : Route) (env : Env) (hr : HttpRequest) (id : ObjectId)
    (r : Report.t) :
  findById id (run es emptyStore) = Some r ->
  (forall u s,
      protectResult hr = inr u -> u_role u = "admin" ->
      pathParam hr = POid id -> b_status (h_body hr) = Str s ->
      In s statuses ->
      exists st' out r',
        serve PatchAdminStatus env hr (run es emptyStore)
        = (st', Sent 200 out)
        /\ findById id st' = Some r'
        /\ status r' = s
        /\ isResolved r' = flagAfter s (isResolved r))
  /\ (exists r',
         findById id (fst (serve rt env hr (run es emptyStore))) = Some r'
         /\ ((status r' = status r /\ isResolved r' = isResolved r)
             \/ (rt = PatchAdminStatus /\ pathParam hr = POid id
                 /\ exists s,
                      b_status (h_body hr) = Str s /\ In s statuses
                      /\ status r' = s
                      /\ isResolved r' = flagAfter s (isResolved r))))
  /\ (rt = PatchAgencyStatus ->
      fst (serve rt env hr (run es emptyStore)) = run es emptyStore).
Proof.
  intros Hf.
  pose proof (reachable_consistent es) as Hc.
  pose proof (co_ids _ _ Hc) as Hnd.
  split; [|split].
  - intros u s Hu Hrole Hp Hs Hin.
    cbn [serve]. unfold guarded. rewrite Hu, Hrole.
    cbn [includes existsb String.eqb Ascii.eqb Bool.eqb orb andb negb invoke].
    apply (updateReportStatus_ok L env _ _ _ id r s Hc Hf); auto.
  - assert (Hcases : rt = PatchAdminStatus \/ rt <> PatchAdminStatus)
      by (destruct rt; (left; reflexivity) || (right; discriminate)).
    destruct Hcases as [->|Hrt].
    + cbn [serve]. unfold guarded.
      destruct (protectResult hr) as [e|u];
        [exists r; split; [exact Hf | left; split; reflexivity]|].
      destruct (negb (includes ["admin"] (u_role u)));
        [exists r; split; [exact Hf | left; split; reflexivity]|].
      cbn [invoke].
      destruct (updateReportStatus_flag L env (request AsId (Some u) hr)
                  _ Hnd id r Hf) as (r' & Hf' & [Hk | (Hp & Hlaw)]).
      * exists r'. split; [exact Hf' | left; exact Hk].
      * exists r'. split; [exact Hf'|]. right. split; [reflexivity|].
        split; [exact Hp | exact Hlaw].
    + destruct (serve_keeps_flag L rt env hr _ Hnd Hrt id r Hf)
        as (r' & Hf' & Hk).
      exists r'. split; [exact Hf' | left; exact Hk].
  - intros ->. cbn [serve]. unfold guarded.
    destruct (protectResult hr) as [e|u]; [reflexivity|].
    destruct (negb (includes ["agency"] (u_role u))); [reflexivity|].
    cbn [invoke]. unfold AgencyController.updateAgencyReportStatus.
    cbn [request params_id body].
    destruct (negb (truthy (b_status (h_body hr)))); [reflexivity|].
    reflexivity.
Qed.

Lemma status_transitions_obey_the_flag_law_witness :
  exists st' out r',
    serve (L := Samples.plainLibs) PatchAdminStatus
      (Samples.env 2000 x00 x00 x00)
      {| pathParam := POid 2%N;
         h_body := Samples.withStatusBody (Str "resolved");
         h_query := Samples.noQuery; uploads := [];
         protectResult := inr {| u_id := 9%N; u_role := "admin" |};
         h_ip := Str "::1" |}
      (run (L := Samples.plainLibs) [Seed; Samples.createStreetlight]
         emptyStore)
    = (st', Sent 200 out)
    /\ findById 2%N st' = Some r'
    /\ status r' = "resolved" /\ isResolved r' = true.
Proof.
  destruct (findById 2%N
              (run (L := Samples.plainLibs)
                   [Seed; Samples.createStreetlight] emptyStore))
    as [r|] eqn:Hr; [|vm_compute in Hr; discriminate].
  destruct (proj1 (status_transitions_obey_the_flag_law Samples.plainLibs
                     [Seed; Samples.createStreetlight] PatchAdminStatus
                     (Samples.env 2000 x00 x00 x00)
                     {| pathParam := POid 2%N;
                        h_body := Samples.withStatusBody (Str "resolved");
                        h_query := Samples.noQuery; uploads := [];
                        protectResult :=
                          inr {| u_id := 9%N; u_role := "admin" |};
                        h_ip := Str "::1" |}
                     2%N r Hr)
              {| u_id := 9%N; u_role := "admin" |} "resolved"
              eq_refl eq_refl eq_refl eq_refl
              (or_intror (or_intror (or_introl eq_refl))))
    as (st' & out & r' & H1 & H2 & H3 & H4).
  exists st', out, r'. repeat split; assumption.
Defined.
